(** * A pairs-trading bot: shallow embedding and verified properties

    The definitions follow the Python sources module by module:
    - [Utils]    : utils.py, the statistics library;
    - [Scanner]  : scanner.py, the greedy top-pair selection;
    - [Data]     : the records of config.py, portfolio_bot.py and
                   mt5_bridge.py, and the collaborators of the controller;
    - [Monad]    : state and exceptions;
    - [Risk]     : the [RiskManager] of mt5_bridge.py;
    - [Bot]      : portfolio_bot.py, the portfolio controller;
    - [Terminal] : the connector and the sizing of mt5_bridge.py and the
                   data feed of datafeed.py, over the calls of the
                   MetaTrader5 package;
    - [Samples]  : concrete histories, worlds and states.
    The properties come after them, one module of lemmas per source
    module, each followed by the statements settled with it.

    Conventions of the embedding.
    - A Python [float] is an exact real number (type [R]): no rounding, no
      infinities.  The only not-a-number the code can produce from finite
      inputs is the Pearson correlation of a series without variance, and
      that one is modelled ([Utils.corr] returns an [option]).  Prices
      are not negative.  The tests [sd == 0] of [Utils.zscore] and
      [varx == 0] of [Utils.ols_beta] are decided on the exact values: a
      constant series has no spread here, where rounding can leave it a
      tiny one in floating point; away from that branch the results of
      the code agree with the ones below up to rounding.
    - A pandas [Series] is the list of its rows (timestamp, value), in index
      order.  Timestamps are distinct and ascending, which is what the data
      feed delivers.
    - Code that can raise returns a [Res]; code that reads or changes the
      controller, the risk manager or the outside world (feed, broker,
      clock) runs in the state-and-exception monad [Monad.M], and every
      call that leaves the process is appended to a trace. *)

From Stdlib Require Import Reals Lra Lia String List ZArith Bool Arith FinFun.
Import ListNotations.

Local Open Scope R_scope.

(** ** Results of code that may raise *)

Inductive exn : Type :=
| ValueError (msg : string)
| RuntimeError (msg : string)
| OtherError (msg : string).

Inductive Res (A : Type) : Type :=
| Ok (a : A)
| Raise (e : exn).

Arguments Ok {A} a.
Arguments Raise {A} e.

(** Comparisons of floats, as booleans. *)

Definition Reqb (x y : R) : bool := if Req_dec_T x y then true else false.
Definition Rltb (x y : R) : bool := if Rlt_dec x y then true else false.
Definition Rleb (x y : R) : bool := if Rle_dec x y then true else false.

(** ** utils.py *)

Module Utils.

(** A pandas Series: rows (timestamp, value) in index order. *)
Definition Series : Type := list (Z * R).

Definition values (s : Series) : list R := map snd s.

(** [s.tail(n)]: the last [n] rows. *)
Definition tail {A : Type} (n : nat) (s : list A) : list A :=
  skipn (length s - n) s.

Fixpoint Rsum (l : list R) : R :=
  match l with
  | [] => 0
  | x :: t => x + Rsum t
  end.

Definition mean (l : list R) : R := Rsum l / INR (length l).

(** Sum of squared deviations from the mean. *)
Definition sum_dev2 (l : list R) : R :=
  let m := mean l in Rsum (map (fun v => (v - m) * (v - m)) l).

(** Sum of the products of the deviations of two arrays. *)
Definition sum_codev (ly lx : list R) : R :=
  let my := mean ly in
  let mx := mean lx in
  Rsum (map (fun p => (fst p - my) * (snd p - mx)) (combine ly lx)).

(** [np.var(xv)]: numpy's default is the population variance (ddof = 0). *)
Definition np_var (xv : list R) : R := sum_dev2 xv / INR (length xv).

(** [np.cov(yv, xv, ddof=1)[0, 1]]; numpy raises on arrays of different
    lengths. *)
Definition np_cov_ddof1 (yv xv : list R) : Res R :=
  if (length yv =? length xv)%nat
  then Ok (sum_codev yv xv / (INR (length yv) - 1))
  else Raise (ValueError "all the input array dimensions must match").

(** [series.std(ddof=1)] *)
Definition std_ddof1 (l : list R) : R :=
  sqrt (sum_dev2 l / (INR (length l) - 1)).

(** [log_prices]: zeros are replaced by NaN and dropped, then the natural
    logarithm is taken. *)
Definition log_prices (close : Series) : Series :=
  map (fun p => (fst p, ln (snd p)))
      (filter (fun p => negb (Reqb (snd p) 0)) close).

(** [logp.diff().dropna()]: each row but the first, minus its predecessor. *)
Fixpoint diff_from (prev : R) (s : Series) : Series :=
  match s with
  | [] => []
  | (t, v) :: r => (t, v - prev) :: diff_from v r
  end.

Definition log_returns (logp : Series) : Series :=
  match logp with
  | [] => []
  | (_, v0) :: r => diff_from v0 r
  end.

(** Index alignment of two Series, as pandas does before a binary
    operation; only the rows present in both survive the [dropna] that
    follows in every use. *)
Fixpoint lookup_ts (t : Z) (s : Series) : option R :=
  match s with
  | [] => None
  | (t', v) :: r => if (t =? t')%Z then Some v else lookup_ts t r
  end.

Fixpoint align (a b : Series) : list (Z * (R * R)) :=
  match a with
  | [] => []
  | (t, va) :: r =>
      match lookup_ts t b with
      | Some vb => (t, (va, vb)) :: align r b
      | None => align r b
      end
  end.

(** Pearson correlation; [None] is NaN (no variance, or nothing to
    correlate). *)
Definition pearson (xs ys : list R) : option R :=
  let d := sqrt (sum_dev2 xs) * sqrt (sum_dev2 ys) in
  if Reqb d 0 then None else Some (sum_codev xs ys / d).

Definition corr (a b : Series) : option R :=
  if ((length a <? 30) || (length b <? 30))%nat then Some 0
  else
    let j := align a b in
    pearson (map (fun p => fst (snd p)) j) (map (fun p => snd (snd p)) j).

Definition ols_beta (y x : Series) : Res R :=
  if ((length y <? 50) || (length x <? 50))%nat then Ok 1
  else
    let xv := values x in
    let yv := values y in
    let varx := np_var xv in
    if Reqb varx 0 then Ok 1
    else
      match np_cov_ddof1 yv xv with
      | Ok cov => Ok (cov / varx)
      | Raise e => Raise e
      end.

Definition zscore (series : Series) : R :=
  if (length series <? 50)%nat then 0
  else
    let v := values series in
    let mu := mean v in
    let sd := std_ddof1 v in
    if Reqb sd 0 then 0
    else (last v 0 - mu) / sd.

Definition realized_vol (lr : Series) : R :=
  if (length lr <? 50)%nat then 0
  else std_ddof1 (values lr).

(** The series [k * s + c]. *)
Definition rescale (k c : R) (s : Series) : Series :=
  map (fun p => (fst p, k * snd p + c)) s.

(** The slope of the least-squares line of [y] on [x]: the textbook
    estimator, covariance and variance taken with the same divisor. *)
Definition ols_slope (yv xv : list R) : R :=
  sum_codev yv xv / sum_dev2 xv.

(** Sample data: a series that stays at [0] for [m] rows and ends on
    [s]; the rows of a list of values, stamped 0, 1, 2, ... *)
Definition spike (m : nat) (s : R) : list R := repeat 0 m ++ [s].

Definition mk_series (vs : list R) : Series :=
  combine (map Z.of_nat (seq 0 (length vs))) vs.

(** The differences of consecutive values, as [log_returns] takes them. *)
Fixpoint diffs_from (prev : R) (vs : list R) : list R :=
  match vs with
  | [] => []
  | v :: r => (v - prev) :: diffs_from v r
  end.

Definition diffs (vs : list R) : list R :=
  match vs with
  | [] => []
  | v0 :: r => diffs_from v0 r
  end.

End Utils.

(** ** scanner.py *)

Module Scanner.

Record PairScore : Type := {
  a : string;
  b : string;
  score : R;
  corr_lr : R;
  spread_vol : R;
  beta : R
}.

(** [x in used], for the set of instruments already claimed. *)
Definition mem (x : string) (used : list string) : bool :=
  existsb (String.eqb x) used.

(** The loop of [pick_top_pairs]; [picked] and [used] are the two
    accumulators, the limit [k] is tested after each append. *)
Fixpoint pick_loop (scored : list PairScore) (k : Z)
         (picked : list (string * string)) (used : list string)
  : list (string * string) :=
  match scored with
  | [] => picked
  | p :: rest =>
      if mem (a p) used || mem (b p) used
      then pick_loop rest k picked used
      else
        let picked' := picked ++ [(a p, b p)] in
        let used' := b p :: a p :: used in
        if (Z.of_nat (length picked') >=? k)%Z
        then picked'
        else pick_loop rest k picked' used'
  end.

Definition pick_top_pairs (scored : list PairScore) (k : Z)
  : list (string * string) :=
  pick_loop scored k [] [].

(** The instruments of a selected pair. *)
Definition instruments (p : string * string) : list string :=
  [fst p; snd p].

(** Two selected pairs share an instrument. *)
Definition share_instrument (p q : string * string) : bool :=
  existsb (fun x => mem x (instruments q)) (instruments p).

Definition apart (p q : string * string) : Prop := share_instrument p q = false.

(** The pair of instruments of a ranked entry. *)
Definition pair_of (p : PairScore) : string * string := (a p, b p).

(** [subseq l1 l2]: [l1] is [l2] with some elements left out, the others
    in their order. *)
Inductive subseq {A : Type} : list A -> list A -> Prop :=
| subseq_nil : subseq [] []
| subseq_skip x l1 l2 : subseq l1 l2 -> subseq l1 (x :: l2)
| subseq_take x l1 l2 : subseq l1 l2 -> subseq (x :: l1) (x :: l2).

(** The invariant of the loop: what was picked uses only claimed
    instruments, and no two picks share one. *)
Definition pick_inv (picked : list (string * string)) (used : list string) : Prop :=
  Forall (fun p => In (fst p) used /\ In (snd p) used) picked /\
  ForallOrdPairs apart picked.

End Scanner.

(** ** Data of the controller and its collaborators *)

Module Data.

(** portfolio_bot.py, [Position]. *)
Record Position : Type := {
  a : string;
  b : string;
  side_a : string;
  side_b : string;
  vol_a : R;
  vol_b : R;
  entry_pa : R;
  entry_pb : R;
  entry_ts : R;
  ticket_a : Z;
  ticket_b : Z
}.

Definition Key : Type := (string * string)%type.

Definition key_eqb (k1 k2 : Key) : bool :=
  String.eqb (fst k1) (fst k2) && String.eqb (snd k1) (snd k2).

(** [self.positions]: a Python dict, which keeps its keys in insertion
    order; [step] iterates over them. *)
Definition Positions : Type := list (Key * Position).

Fixpoint pos_get (k : Key) (d : Positions) : option Position :=
  match d with
  | [] => None
  | (k', p) :: r => if key_eqb k k' then Some p else pos_get k r
  end.

Definition pos_mem (k : Key) (d : Positions) : bool :=
  match pos_get k d with Some _ => true | None => false end.

(** [d[k] = p]: a present key keeps its place, a new one goes last. *)
Fixpoint pos_set (k : Key) (p : Position) (d : Positions) : Positions :=
  match d with
  | [] => [(k, p)]
  | (k', p') :: r =>
      if key_eqb k k' then (k, p) :: r else (k', p') :: pos_set k p r
  end.

(** [del d[k]] *)
Fixpoint pos_del (k : Key) (d : Positions) : Positions :=
  match d with
  | [] => []
  | (k', p') :: r => if key_eqb k k' then r else (k', p') :: pos_del k r
  end.

Definition pos_keys (d : Positions) : list Key := map fst d.

(** config.py, [Config] (the fields the controller reads). *)
Record Config : Type := {
  timeframe : string;
  lookback : nat;
  beta_window : nat;
  z_entry : R;
  z_exit : R;
  max_hold_minutes : Z;
  top_pairs : Z;
  max_open_positions : Z;
  min_corr : R;
  max_vol_ratio : R
}.

Definition default_config : Config := {|
  timeframe := "1m";
  lookback := 720;
  beta_window := 720;
  z_entry := 23 / 10;
  z_exit := 1 / 2;
  max_hold_minutes := 240;
  top_pairs := 5;
  max_open_positions := 2;
  min_corr := 55 / 100;
  max_vol_ratio := 2
|}.

(** mt5_bridge.py, [RiskConfig]. *)
Record RiskConfig : Type := {
  risk_usd_per_leg : R;
  max_daily_loss_usd : R;
  max_total_drawdown_usd : R;
  enforce_kill_switch : bool
}.

(** What the gateway answers to an order: the dict's ["ok"] entry and,
    for an opened leg, [res["result"].order]. *)
Record OpenReply : Type := {
  open_ok : bool;
  order : Z
}.

(** The answer to a close: ["ok"] and the optional ["profit"] entry of
    its ["result"]. *)
Record CloseReply : Type := {
  close_ok : bool;
  profit : option R
}.

(** The calls that leave the process, in the order they are made. *)
Inductive Event : Type :=
| EvFetchClose (symbol : string)
| EvFetchLast (symbol : string)
| EvOpen (symbol side : string) (volume : R) (reply : Res OpenReply)
| EvClose (ticket : Z) (reply : Res CloseReply)
| EvAccountInfo
| EvHistoryDeals
| EvPositionsGet
| EvCalcVolume (symbol : string)
| EvTime
| EvSleep (seconds : R).

(** The diagnostic text that comes with a signal or a risk verdict. *)
Inductive Reason : Type :=
| not_enough_data
| regime_filter
| z_high
| z_low
| no_entry
| max_hold (held_min : R)
| mean_reversion
| in_position
| KILL_SWITCH (dd : R)
| DAILY_LIMIT (pnl_today : R)
| OK.

(** The fields of [PortfolioStatArbBot] that change. *)
Record Controller : Type := {
  positions : Positions;
  cooldown_until_ts : R;
  halted : bool;
  consecutive_errors : nat
}.

(** [PortfolioStatArbBot.__init__] *)
Definition init_controller : Controller := {|
  positions := [];
  cooldown_until_ts := 0;
  halted := false;
  consecutive_errors := 0
|}.

(** The controller [c] with the position table [d]. *)
Definition with_positions (c : Controller) (d : Positions) : Controller := {|
  positions := d;
  cooldown_until_ts := cooldown_until_ts c;
  halted := halted c;
  consecutive_errors := consecutive_errors c
|}.

Section World.

Variable W : Type.

(** The collaborators: the data feed, the broker gateway with the
    terminal behind it, and the clock.  Each call may change the world
    [W] and, where the Python can raise, may raise.
    - [open_position] is the call [self.mt5c.open_position(symbol, side,
      volume)] of [_live_enter]; the connector class of mt5_bridge.py
      does not define it, so it is taken as the gateway operation
      "open_position(instrument, side, size) -> ok, ticket or error".
    - [account_info_equity], [history_deals_get] and [positions_get] are
      what the risk manager reads from the terminal: the equity, the
      profits of the day's deals (if any list is returned) and the
      profits of the open positions.
    - [calc_volume_for_risk] only reads instrument metadata of the
      terminal to size a leg, and is taken as one call. *)
Record World : Type := {
  fetch_close : string -> string -> nat -> W -> Res Utils.Series * W;
  fetch_last : string -> W -> Res R * W;
  open_position : string -> string -> R -> W -> Res OpenReply * W;
  close_position_by_ticket : Z -> W -> Res CloseReply * W;
  account_info_equity : W -> Res R * W;
  history_deals_get : W -> option (list R) * W;
  positions_get : W -> list R * W;
  calc_volume_for_risk : string -> R -> R -> W -> Res R * W;
  time : W -> R * W;
  sleep : R -> W -> W
}.

(** The whole state: controller, risk manager ([start_equity]), world,
    and the trace of the calls made so far. *)
Record State : Type := {
  bot : Controller;
  start_equity : option R;
  world : W;
  trace : list Event
}.

End World.

Arguments fetch_close {W}.
Arguments fetch_last {W}.
Arguments open_position {W}.
Arguments close_position_by_ticket {W}.
Arguments account_info_equity {W}.
Arguments history_deals_get {W}.
Arguments positions_get {W}.
Arguments calc_volume_for_risk {W}.
Arguments time {W}.
Arguments sleep {W}.
Arguments bot {W}.
Arguments start_equity {W}.
Arguments world {W}.
Arguments trace {W}.
Arguments Build_State {W}.

End Data.

(** ** The state-and-exception monad *)

Module Monad.
Import Data.

Section M.

Context {W : Type}.

Definition M (A : Type) : Type := State W -> Res A * State W.

Definition ret {A : Type} (x : A) : M A := fun st => (Ok x, st).

Definition bind {A B : Type} (m : M A) (f : A -> M B) : M B :=
  fun st =>
    match m st with
    | (Ok x, st') => f x st'
    | (Raise e, st') => (Raise e, st')
    end.

Definition raise {A : Type} (e : exn) : M A := fun st => (Raise e, st).

(** [try: m except Exception as e: h e] *)
Definition try_except {A : Type} (m : M A) (h : exn -> M A) : M A :=
  fun st =>
    match m st with
    | (Ok x, st') => (Ok x, st')
    | (Raise e, st') => h e st'
    end.

Definition get_bot : M Controller := fun st => (Ok (bot st), st).

Definition put_bot (c : Controller) : M unit :=
  fun st => (Ok tt, Build_State c (start_equity st) (world st) (trace st)).

Definition get_start_equity : M (option R) :=
  fun st => (Ok (start_equity st), st).

Definition put_start_equity (e : option R) : M unit :=
  fun st => (Ok tt, Build_State (bot st) e (world st) (trace st)).

(** A call of a collaborator: the world moves on, the call is recorded. *)
Definition call {A : Type} (ev : Res A -> Event) (op : W -> Res A * W)
  : M A :=
  fun st =>
    let (r, w') := op (world st) in
    (r, Build_State (bot st) (start_equity st) w' (trace st ++ [ev r])).

(** The same for a call that cannot raise. *)
Definition call_total {A : Type} (ev : Event) (op : W -> A * W) : M A :=
  fun st =>
    let (x, w') := op (world st) in
    (Ok x, Build_State (bot st) (start_equity st) w' (trace st ++ [ev])).

Definition lift {A : Type} (r : Res A) : M A := fun st => (r, st).

(** A computation that does not write to the controller. *)
Definition keeps_bot {A : Type} (m : M A) : Prop :=
  forall st, bot (snd (m st)) = bot st.

(** A computation that leaves the start equity of the risk manager at
    [se], when it finds it there. *)
Definition keeps_equity {A : Type} (se : option R) (m : M A) : Prop :=
  forall st, start_equity st = se -> start_equity (snd (m st)) = se.

End M.

Arguments M : clear implicits.

Declare Scope monad_scope.
Delimit Scope monad_scope with monad.

Notation "x <- m ;; k" := (bind m (fun x => k))
  (at level 61, m at next level, right associativity) : monad_scope.
Notation "m1 ;;; m2" := (bind m1 (fun _ => m2))
  (at level 61, right associativity) : monad_scope.

End Monad.

(** ** mt5_bridge.py, [RiskManager] *)

Module Risk.
Import Data Monad.
Local Open Scope monad_scope.

Section RiskManager.

Context {W : Type} (env : World W) (cfg : RiskConfig).

Local Abbreviation M := (Monad.M W).

(** [self.mt5c.account_info().equity] *)
Definition account_info : M R :=
  call (fun _ => EvAccountInfo) (account_info_equity env).

Definition refresh_start_equity : M unit :=
  e <- account_info ;; put_start_equity (Some e).

Definition daily_pnl_realized : M R :=
  deals <- call_total EvHistoryDeals (history_deals_get env) ;;
  ret (match deals with
       | None => 0
       | Some ds => Utils.Rsum ds
       end).

Definition floating_pnl : M R :=
  ps <- call_total EvPositionsGet (positions_get env) ;;
  ret (Utils.Rsum ps).

(** The drawdown test of [is_trading_allowed]: [Some dd] when the kill
    switch trips. *)
Definition kill_switch_check (equity : R) : M (option R) :=
  if enforce_kill_switch cfg then
    se <- get_start_equity ;;
    (match se with
     | None => refresh_start_equity
     | Some _ => ret tt
     end) ;;;
    se' <- get_start_equity ;;
    match se' with
    | None => raise (OtherError "float() argument must be a number")
    | Some s0 =>
        let dd := equity - s0 in
        if Rleb dd (- Rabs (max_total_drawdown_usd cfg))
        then ret (Some dd)
        else ret None
    end
  else ret None.

Definition is_trading_allowed : M (bool * Reason) :=
  equity <- account_info ;;
  kill <- kill_switch_check equity ;;
  match kill with
  | Some dd => ret (false, KILL_SWITCH dd)
  | None =>
      realized <- daily_pnl_realized ;;
      floating <- floating_pnl ;;
      let total_today := realized + floating in
      if Rleb total_today (- Rabs (max_daily_loss_usd cfg))
      then ret (false, DAILY_LIMIT total_today)
      else ret (true, OK)
  end.

End RiskManager.

(** The verdict of [is_trading_allowed] from the drawdown [dd] and the
    day's total [total_today]. *)
Definition verdict_of (cfg : Data.RiskConfig) (dd total_today : R)
  : bool * Data.Reason :=
  if Data.enforce_kill_switch cfg
     && Rleb dd (- Rabs (Data.max_total_drawdown_usd cfg))
  then (false, Data.KILL_SWITCH dd)
  else if Rleb total_today (- Rabs (Data.max_daily_loss_usd cfg))
  then (false, Data.DAILY_LIMIT total_today)
  else (true, Data.OK).

(** The sum of the profits of the day's deals; no deal list counts 0. *)
Definition realized_of (deals : option (list R)) : R :=
  match deals with
  | None => 0
  | Some ds => Utils.Rsum ds
  end.

End Risk.

(** ** portfolio_bot.py, [PortfolioStatArbBot] *)

Module Bot.
Import Data Monad.
Local Open Scope monad_scope.

Section Controller.

Context {W : Type} (env : World W) (rcfg : RiskConfig) (cfg : Config).

Local Abbreviation M := (Monad.M W).

(** Updates of single fields of [self]. *)
Definition set_positions (d : Positions) : M unit :=
  c <- get_bot ;;
  put_bot {| positions := d;
             cooldown_until_ts := cooldown_until_ts c;
             halted := halted c;
             consecutive_errors := consecutive_errors c |}.

Definition set_cooldown_until_ts (t : R) : M unit :=
  c <- get_bot ;;
  put_bot {| positions := positions c;
             cooldown_until_ts := t;
             halted := halted c;
             consecutive_errors := consecutive_errors c |}.

Definition set_halted (h : bool) : M unit :=
  c <- get_bot ;;
  put_bot {| positions := positions c;
             cooldown_until_ts := cooldown_until_ts c;
             halted := h;
             consecutive_errors := consecutive_errors c |}.

Definition set_consecutive_errors (n : nat) : M unit :=
  c <- get_bot ;;
  put_bot {| positions := positions c;
             cooldown_until_ts := cooldown_until_ts c;
             halted := halted c;
             consecutive_errors := n |}.

(** The calls of the collaborators, recorded in the trace. *)
Definition time_time : M R := call_total EvTime (time env).

Definition time_sleep (s : R) : M unit :=
  call_total (EvSleep s) (fun w => (tt, sleep env s w)).

Definition feed_fetch_close (s : string) : M Utils.Series :=
  call (fun _ => EvFetchClose s) (fetch_close env s (timeframe cfg) (lookback cfg)).

Definition feed_fetch_last (s : string) : M R :=
  call (fun _ => EvFetchLast s) (fetch_last env s).

Definition mt5c_open_position (s side : string) (vol : R) : M OpenReply :=
  call (EvOpen s side vol) (open_position env s side vol).

Definition mt5c_close_position_by_ticket (ticket : Z) : M CloseReply :=
  call (EvClose ticket) (close_position_by_ticket env ticket).

Definition rm_calc_volume_for_risk (s : string) (entry sl : R) : M R :=
  call (fun _ => EvCalcVolume s) (calc_volume_for_risk env s entry sl).

Definition _can_trade (checking_entry : bool) : M bool :=
  c <- get_bot ;;
  if halted c then ret false
  else
    blocked <-
      (if checking_entry then
         now <- time_time ;;
         if Rltb now (cooldown_until_ts c) then
           _ <- time_time ;; ret true
         else ret false
       else ret false) ;;
    if (blocked : bool) then ret false
    else
      verdict <- Risk.is_trading_allowed env rcfg ;;
      if negb (fst verdict) then set_halted true ;;; ret false
      else ret true.

Definition _regime_ok (la lb : Utils.Series) : bool :=
  let ra := Utils.tail 400 (Utils.log_returns la) in
  let rb := Utils.tail 400 (Utils.log_returns lb) in
  if match Utils.corr ra rb with
     | Some c => Rltb c (min_corr cfg)
     | None => false
     end
  then false
  else
    let vola := Utils.realized_vol ra in
    let volb := Utils.realized_vol rb in
    let base := if negb (Reqb vola 0) && negb (Reqb volb 0)
                then (vola + volb) / 2
                else Rmax vola volb in
    if Reqb base 0 then true
    else
      let ratio :=
        Rmax vola volb /
        Rmax (1 / 10 ^ 9)
             (if Rltb 0 (Rmin vola volb) then Rmin vola volb else base) in
      Rleb ratio (max_vol_ratio cfg).

(** The second half of [_regime_ok], from the two volatilities. *)
Definition vol_gate (vola volb : R) : bool :=
  let base := if negb (Reqb vola 0) && negb (Reqb volb 0)
              then (vola + volb) / 2
              else Rmax vola volb in
  if Reqb base 0 then true
  else
    let ratio :=
      Rmax vola volb /
      Rmax (1 / 10 ^ 9)
           (if Rltb 0 (Rmin vola volb) then Rmin vola volb else base) in
    Rleb ratio (max_vol_ratio cfg).

(** [(la - beta * lb).dropna()] *)
Definition spread_of (la : Utils.Series) (beta : R) (lb : Utils.Series)
  : Utils.Series :=
  map (fun r => (fst r, fst (snd r) - beta * snd (snd r))) (Utils.align la lb).

Definition Signal : Type := (string * R * R * Reason)%type.

Definition _compute_signal (a b : string) : M Signal :=
  ca <- feed_fetch_close a ;;
  cb <- feed_fetch_close b ;;
  let la := Utils.tail (lookback cfg) (Utils.log_prices ca) in
  let lb := Utils.tail (lookback cfg) (Utils.log_prices cb) in
  if ((length la <? 120) || (length lb <? 120))%nat
  then ret ("SKIP"%string, 0, 1, not_enough_data)
  else
    c <- get_bot ;;
    if negb (_regime_ok la lb) && negb (pos_mem (a, b) (positions c))
    then ret ("SKIP"%string, 0, 1, regime_filter)
    else
      beta <- lift (Utils.ols_beta (Utils.tail (beta_window cfg) la)
                                   (Utils.tail (beta_window cfg) lb)) ;;
      let spread := spread_of la beta lb in
      let z := Utils.zscore (Utils.tail 400 spread) in
      match pos_get (a, b) (positions c) with
      | None =>
          if Rltb (z_entry cfg) z
          then ret ("ENTER_LONGB_SHORTA"%string, z, beta, z_high)
          else if Rltb z (- z_entry cfg)
          then ret ("ENTER_LONGA_SHORTB"%string, z, beta, z_low)
          else ret ("HOLD"%string, z, beta, no_entry)
      | Some pos =>
          now <- time_time ;;
          let held_min := (now - entry_ts pos) / 60 in
          if Rltb (IZR (max_hold_minutes cfg)) held_min
          then ret ("EXIT"%string, z, beta, max_hold held_min)
          else if Rltb (Rabs z) (z_exit cfg)
          then ret ("EXIT"%string, z, beta, mean_reversion)
          else ret ("HOLD"%string, z, beta, in_position)
      end.

(** The retry loop of [_live_enter], [n] attempts left; the result is
    the pair of tickets at the end of the loop. *)
Fixpoint enter_attempts (n : nat) (a b side_a side_b : string)
         (vol_a vol_b : R) (ticket_a ticket_b : Z) : M (Z * Z) :=
  match n with
  | O => ret (ticket_a, ticket_b)
  | S n' =>
      res_a <- mt5c_open_position a side_a vol_a ;;
      if open_ok res_a then
        let ticket_a := order res_a in
        res_b <- mt5c_open_position b side_b vol_b ;;
        if open_ok res_b then ret (ticket_a, order res_b)
        else
          _ <- mt5c_close_position_by_ticket ticket_a ;;
          time_sleep 1 ;;;
          enter_attempts n' a b side_a side_b vol_a vol_b 0%Z ticket_b
      else
        time_sleep 1 ;;;
        enter_attempts n' a b side_a side_b vol_a vol_b ticket_a ticket_b
  end.

Definition max_retries : nat := 3.

Definition _live_enter (a b action : string) (pa pb : R) : M unit :=
  let side_a := if String.eqb action "ENTER_A_LONG" then "BUY"%string
                else "SELL"%string in
  let side_b := if String.eqb action "ENTER_A_LONG" then "SELL"%string
                else "BUY"%string in
  vol_a <- rm_calc_volume_for_risk a pa (pa * (95 / 100)) ;;
  vol_b <- rm_calc_volume_for_risk b pb (pb * (95 / 100)) ;;
  tickets <- enter_attempts max_retries a b side_a side_b vol_a vol_b 0%Z 0%Z ;;
  let (ticket_a, ticket_b) := tickets : Z * Z in
  if negb (ticket_a =? 0)%Z && negb (ticket_b =? 0)%Z then
    now <- time_time ;;
    c <- get_bot ;;
    set_positions
      (pos_set (a, b)
         {| Data.a := a; Data.b := b; side_a := side_a; side_b := side_b;
            vol_a := vol_a; vol_b := vol_b; entry_pa := pa; entry_pb := pb;
            entry_ts := now; ticket_a := ticket_a; ticket_b := ticket_b |}
         (positions c))
  else ret tt.

(** The profit read from the answer to a close. *)
Definition pnl_of (res : CloseReply) : R :=
  if close_ok res
  then match profit res with Some p => p | None => 0 end
  else 0.

Definition _live_exit (key : Key) : M unit :=
  c <- get_bot ;;
  match pos_get key (positions c) with
  | None => raise (OtherError "KeyError")
  | Some pos =>
      res_a <- mt5c_close_position_by_ticket (ticket_a pos) ;;
      res_b <- mt5c_close_position_by_ticket (ticket_b pos) ;;
      let total_pnl := pnl_of res_a + pnl_of res_b in
      (if Rltb total_pnl 0 then
         now <- time_time ;; set_cooldown_until_ts (now + 30 * 60)
       else ret tt) ;;;
      c' <- get_bot ;;
      if pos_mem key (positions c')
      then set_positions (pos_del key (positions c'))
      else ret tt
  end.

(** The body of the [try] in the loop of [step]. *)
Definition step_body (key : Key) : M unit :=
  let (a, b) := key in
  sig <- _compute_signal a b ;;
  let action := fst (fst (fst (sig : Signal))) in
  pa <- feed_fetch_last a ;;
  pb <- feed_fetch_last b ;;
  c <- get_bot ;;
  (if String.eqb action "EXIT" && pos_mem key (positions c) then
     _live_exit key
   else if String.prefix "ENTER" action && negb (pos_mem key (positions c)) then
     ok <- _can_trade true ;;
     if (ok : bool) then _live_enter a b action pa pb else ret tt
   else ret tt) ;;;
  set_consecutive_errors 0.

(** The [except Exception] clause. *)
Definition step_handler (e : exn) : M unit :=
  c <- get_bot ;;
  set_consecutive_errors (consecutive_errors c + 1) ;;;
  (if (8 <=? consecutive_errors c + 1)%nat then set_halted true else ret tt) ;;;
  time_sleep 20.

(** One iteration of the loop of [step]. *)
Definition step_pair (key : Key) : M unit :=
  try_except (step_body key) step_handler.

Fixpoint for_pairs (l : list Key) : M unit :=
  match l with
  | [] => ret tt
  | key :: r => step_pair key ;;; for_pairs r
  end.

Definition step (pairs : list Key) : M unit :=
  ok <- _can_trade false ;;
  if negb ok then ret tt
  else
    c <- get_bot ;;
    let pairs_to_check :=
      if (Z.of_nat (length (positions c)) >=? max_open_positions cfg)%Z
      then pos_keys (positions c)
      else pairs in
    for_pairs pairs_to_check.

(** A stretch of per-pair iterations that all raise, possibly across
    cycles: between two iterations the gate of the next [step] may be
    passed. *)
Inductive failing_run : nat -> State W -> State W -> Prop :=
| failing_run_done st : failing_run 0 st st
| failing_run_gate n st st1 st2 :
    _can_trade false st = (Ok true, st1) ->
    failing_run n st1 st2 ->
    failing_run n st st2
| failing_run_iter n key st e st1 st2 :
    step_body key st = (Raise e, st1) ->
    failing_run n (snd (step_pair key st)) st2 ->
    failing_run (S n) st st2.

End Controller.

(** What one iteration of [step] for the pair [key] may do to the
    controller, its error counter apart: the positions change at [key]
    only, by an exit or by an entry with two nonzero tickets; the
    halted flag is never cleared. *)
Definition only_at (key : Key) (c c' : Controller) : Prop :=
  (halted c = true -> halted c' = true) /\
  (positions c' = positions c \/
   positions c' = pos_del key (positions c) \/
   exists p, ticket_a p <> 0%Z /\ ticket_b p <> 0%Z /\
             positions c' = pos_set key p (positions c)).

(** What an iteration may do to the table when nothing can be opened:
    leave it, or delete its key. *)
Definition shrinks (key : Key) (d d' : Positions) : Prop :=
  d' = d \/ d' = pos_del key d.

(** The controller [c], halted. *)
Definition halt (c : Controller) : Controller :=
  {| positions := positions c;
     cooldown_until_ts := cooldown_until_ts c;
     halted := true;
     consecutive_errors := consecutive_errors c |}.

(** The sides [_live_enter] gives to the legs for an action. *)
Definition side_a_of (action : string) : string :=
  if String.eqb action "ENTER_A_LONG" then "BUY" else "SELL".

Definition side_b_of (action : string) : string :=
  if String.eqb action "ENTER_A_LONG" then "SELL" else "BUY".

(** How the retry loop of [_live_enter] ends. *)
Inductive entry_result : Type :=
| Opened (ticket_a ticket_b : Z)
| GivenUp
| Aborted (e : exn).

Section Entry.

Variables (a b side_a side_b : string) (vol_a vol_b : R).

(** The calls of an attempt that is given up and retried: leg A is
    refused; or leg A is opened, leg B is refused and leg A is closed
    again by its ticket.  Either way a pause of one second follows. *)
Inductive failed_attempt : list Event -> Prop :=
| leg_a_refused ra :
    open_ok ra = false ->
    failed_attempt [EvOpen a side_a vol_a (Ok ra); EvSleep 1]
| leg_b_refused ra rb rc :
    open_ok ra = true ->
    open_ok rb = false ->
    failed_attempt [EvOpen a side_a vol_a (Ok ra);
                    EvOpen b side_b vol_b (Ok rb);
                    EvClose (order ra) (Ok rc);
                    EvSleep 1].

(** The calls of an attempt that the gateway ends with an exception. *)
Inductive aborted_attempt (e : exn) : list Event -> Prop :=
| leg_a_raised :
    aborted_attempt e [EvOpen a side_a vol_a (Raise e)]
| leg_b_raised ra :
    open_ok ra = true ->
    aborted_attempt e [EvOpen a side_a vol_a (Ok ra);
                       EvOpen b side_b vol_b (Raise e)]
| close_raised ra rb :
    open_ok ra = true ->
    open_ok rb = false ->
    aborted_attempt e [EvOpen a side_a vol_a (Ok ra);
                       EvOpen b side_b vol_b (Ok rb);
                       EvClose (order ra) (Raise e)].

(** [entry_run n evs out]: with [n] attempts left the loop makes the
    calls [evs] and ends with [out]. *)
Inductive entry_run : nat -> list Event -> entry_result -> Prop :=
| run_given_up : entry_run 0 [] GivenUp
| run_opened n ra rb :
    open_ok ra = true ->
    open_ok rb = true ->
    entry_run (S n)
              [EvOpen a side_a vol_a (Ok ra); EvOpen b side_b vol_b (Ok rb)]
              (Opened (order ra) (order rb))
| run_aborted n e evs :
    aborted_attempt e evs ->
    entry_run (S n) evs (Aborted e)
| run_retry n evs rest out :
    failed_attempt evs ->
    entry_run n rest out ->
    entry_run (S n) (evs ++ rest) out.

End Entry.

(** What [_live_enter] has done between the states [st] and [st']:
    - the sizing of a leg raised, nothing was sent and nothing recorded;
    - or the loop ended on an attempt that opened both legs under
      nonzero tickets, and the position was recorded with them;
    - or the loop ended otherwise, and the table is as it was. *)
Inductive entry_report {W : Type} (a b action : string) (pa pb : R)
          (st st' : State W) : Prop :=
| entry_not_sized evs :
    trace st' = trace st ++ evs ->
    Forall (fun ev => exists s, ev = EvCalcVolume s) evs ->
    bot st' = bot st ->
    entry_report a b action pa pb st st'
| entry_recorded vol_a vol_b evs ta tb now :
    entry_run a b (side_a_of action) (side_b_of action) vol_a vol_b
              max_retries evs (Opened ta tb) ->
    ta <> 0%Z ->
    tb <> 0%Z ->
    trace st' = trace st ++ [EvCalcVolume a; EvCalcVolume b] ++ evs ++ [EvTime] ->
    bot st' = with_positions (bot st)
                (pos_set (a, b)
                   {| Data.a := a; Data.b := b;
                      Data.side_a := side_a_of action;
                      Data.side_b := side_b_of action;
                      Data.vol_a := vol_a; Data.vol_b := vol_b;
                      entry_pa := pa; entry_pb := pb; entry_ts := now;
                      Data.ticket_a := ta; Data.ticket_b := tb |}
                   (positions (bot st))) ->
    entry_report a b action pa pb st st'
| entry_dropped vol_a vol_b evs out :
    entry_run a b (side_a_of action) (side_b_of action) vol_a vol_b
              max_retries evs out ->
    (forall ta tb, out = Opened ta tb -> ta = 0%Z \/ tb = 0%Z) ->
    trace st' = trace st ++ [EvCalcVolume a; EvCalcVolume b] ++ evs ->
    bot st' = bot st ->
    entry_report a b action pa pb st st'.

(** The retry loop of [_live_enter] against a gateway that answers its
    calls, call by call on the world.  How it ends: *)
Inductive loop_end : Type :=
| BothOpen (ticket_a ticket_b : Z)
| AllRefused.

Section EntryLoop.

Context {W : Type} (env : World W).

Variables (a b side_a side_b : string) (vol_a vol_b : R).

(** One attempt that is given up, from the world [w] to the world [w']:
    the gateway refuses leg A; or it opens leg A and refuses leg B, and
    then the close of leg A's ticket is requested.  The pause of one
    second follows either way. *)
Inductive refused_attempt : W -> list Event -> W -> Prop :=
| attempt_a_refused w ra w1 :
    open_position env a side_a vol_a w = (Ok ra, w1) ->
    open_ok ra = false ->
    refused_attempt w [EvOpen a side_a vol_a (Ok ra); EvSleep 1]
                    (sleep env 1 w1)
| attempt_b_refused w ra w1 rb w2 rc w3 :
    open_position env a side_a vol_a w = (Ok ra, w1) ->
    open_ok ra = true ->
    open_position env b side_b vol_b w1 = (Ok rb, w2) ->
    open_ok rb = false ->
    close_position_by_ticket env (order ra) w2 = (Ok rc, w3) ->
    refused_attempt w [EvOpen a side_a vol_a (Ok ra);
                       EvOpen b side_b vol_b (Ok rb);
                       EvClose (order ra) (Ok rc);
                       EvSleep 1]
                    (sleep env 1 w3).

(** [entry_loop n w evs out w']: with [n] attempts left and the world at
    [w], the loop makes the calls [evs], ends with [out] and leaves the
    world at [w']. *)
Inductive entry_loop : nat -> W -> list Event -> loop_end -> W -> Prop :=
| loop_exhausted w : entry_loop 0 w [] AllRefused w
| loop_both_open n w ra w1 rb w2 :
    open_position env a side_a vol_a w = (Ok ra, w1) ->
    open_ok ra = true ->
    open_position env b side_b vol_b w1 = (Ok rb, w2) ->
    open_ok rb = true ->
    entry_loop (S n) w
               [EvOpen a side_a vol_a (Ok ra); EvOpen b side_b vol_b (Ok rb)]
               (BothOpen (order ra) (order rb)) w2
| loop_retry n w evs w1 rest out w2 :
    refused_attempt w evs w1 ->
    entry_loop n w1 rest out w2 ->
    entry_loop (S n) w (evs ++ rest) out w2.

End EntryLoop.

(** The gateway answers every order and every close: it reports its
    failures and does not raise. *)
Definition gateway_answers {W : Type} (env : World W) : Prop :=
  (forall s side v w, exists r w', open_position env s side v w = (Ok r, w')) /\
  (forall t w, exists r w', close_position_by_ticket env t w = (Ok r, w')).

(** The loop ended on an attempt that opened both legs under nonzero
    tickets. *)
Definition both_live (out : loop_end) : bool :=
  match out with
  | BothOpen ta tb => negb (ta =? 0)%Z && negb (tb =? 0)%Z
  | AllRefused => false
  end.

(** The state after an entry that was sized with [va] and [vb] and whose
    loop made the calls [evs], ended with [out] and left the world at
    [w]: the position is recorded with the tickets of the loop and the
    reading of the clock, or nothing is written. *)
Definition entry_outcome {W : Type} (env : World W) (a b action : string)
           (pa pb va vb : R) (st : State W) (evs : list Event)
           (out : loop_end) (w : W) : State W :=
  match out with
  | BothOpen ta tb =>
      if both_live out then
        Build_State
          (with_positions (bot st)
             (pos_set (a, b)
                {| Data.a := a; Data.b := b;
                   Data.side_a := side_a_of action;
                   Data.side_b := side_b_of action;
                   Data.vol_a := va; Data.vol_b := vb;
                   entry_pa := pa; entry_pb := pb;
                   entry_ts := fst (time env w);
                   Data.ticket_a := ta; Data.ticket_b := tb |}
                (positions (bot st))))
          (start_equity st) (snd (time env w))
          (trace st ++ [EvCalcVolume a; EvCalcVolume b] ++ evs ++ [EvTime])
      else
        Build_State (bot st) (start_equity st) w
                    (trace st ++ [EvCalcVolume a; EvCalcVolume b] ++ evs)
  | AllRefused =>
      Build_State (bot st) (start_equity st) w
                  (trace st ++ [EvCalcVolume a; EvCalcVolume b] ++ evs)
  end.

(** The orders in a trace. *)
Definition is_open (ev : Event) : bool :=
  match ev with
  | EvOpen _ _ _ _ => true
  | _ => false
  end.

Definition opens (tr : list Event) : list Event := filter is_open tr.

(** A computation that sends no order. *)
Definition sends_no_order {W A : Type} (m : Monad.M W A) : Prop :=
  forall st, opens (trace (snd (m st))) = opens (trace st).

(** Every reading of the clock falls inside the cooldown window of 30
    minutes that ends at [c]. *)
Definition in_window {W : Type} (env : World W) (c : R) : Prop :=
  forall w, c - 30 * 60 <= fst (time env w) < c.

(** The state [s] is inside the window that ends at [c0] or at a later
    time, no order was sent since [st], and it holds no pair that [st]
    did not hold. *)
Definition calm {W : Type} (c0 : R) (st s : State W) : Prop :=
  c0 <= cooldown_until_ts (bot s) /\
  opens (trace s) = opens (trace st) /\
  forall k, pos_mem k (positions (bot s)) = true ->
            pos_mem k (positions (bot st)) = true.

(** The feed has fewer than 120 usable closes for the instrument [s],
    whenever it is asked (or it raises). *)
Definition thin_history {W : Type} (env : World W) (cfg : Config) (s : string)
  : Prop :=
  forall w,
    match fst (fetch_close env s (timeframe cfg) (lookback cfg) w) with
    | Ok close => (length (Utils.log_prices close) < 120)%nat
    | Raise _ => True
    end.

(** No recorded position has a zero ticket. *)
Definition tickets_live (d : Positions) : Prop :=
  Forall (fun kp => ticket_a (snd kp) <> 0%Z /\ ticket_b (snd kp) <> 0%Z) d.

End Bot.

(** ** mt5_bridge.py and datafeed.py over the terminal *)

Module Terminal.

(** What the code reads of the objects that the MetaTrader5 package
    returns: instrument metadata, a tick, a bar, an open position. *)
Record SymbolInfo : Type := {
  visible : bool;
  volume_min : R;
  volume_max : R;
  volume_step : R;
  trade_tick_size : R;
  tick_size : R;
  trade_tick_value : R;
  tick_value : R
}.

Record Tick : Type := {
  bid : R;
  ask : R
}.

Record Rate : Type := {
  rate_time : Z;
  rate_close : R
}.

Record TradePosition : Type := {
  pos_symbol : string;
  pos_type : Z;
  pos_volume : R;
  pos_profit : R
}.

(** The request dict of [order_send]; a key that a request does not
    have is [None]. *)
Record Request : Type := {
  req_action : Z;
  req_symbol : string;
  req_volume : R;
  req_type : Z;
  req_position : option Z;
  req_price : R;
  req_sl : option R;
  req_tp : option R;
  req_deviation : Z;
  req_magic : Z;
  req_comment : string;
  req_type_time : Z;
  req_type_filling : Z
}.

(** The result of [order_send], as the dict [res._asdict()]: the return
    code, and the entry ["profit"] if the dict has one. *)
Record SendResult : Type := {
  retcode : Z;
  result_profit : option R
}.

(** The dict that [place_market_order] and [close_position_by_ticket]
    return. *)
Record Reply : Type := {
  ok : bool;
  result : option SendResult;
  request : option Request
}.

(** The MetaTrader5 package: its constants, and its calls on the
    terminal [T]. *)
Record Mt5 (T : Type) : Type := {
  ORDER_TYPE_BUY : Z;
  ORDER_TYPE_SELL : Z;
  TRADE_ACTION_DEAL : Z;
  ORDER_TIME_GTC : Z;
  ORDER_FILLING_FOK : Z;
  TRADE_RETCODE_DONE : Z;
  TIMEFRAME_M1 : Z;
  TIMEFRAME_M5 : Z;
  TIMEFRAME_M15 : Z;
  TIMEFRAME_H1 : Z;
  TIMEFRAME_H4 : Z;
  TIMEFRAME_D1 : Z;
  symbol_info : string -> T -> option SymbolInfo * T;
  symbol_select : string -> bool -> T -> bool * T;
  copy_rates_from_pos : string -> Z -> nat -> nat -> T -> option (list Rate) * T;
  symbol_info_tick : string -> T -> option Tick * T;
  account_info_equity : T -> option R * T;
  positions_get : T -> option (list TradePosition) * T;
  positions_get_ticket : Z -> T -> option (list TradePosition) * T;
  history_deals_get : T -> option (list R) * T;
  order_send : Request -> T -> option SendResult * T
}.

Arguments ORDER_TYPE_BUY {T}.
Arguments ORDER_TYPE_SELL {T}.
Arguments TRADE_ACTION_DEAL {T}.
Arguments ORDER_TIME_GTC {T}.
Arguments ORDER_FILLING_FOK {T}.
Arguments TRADE_RETCODE_DONE {T}.
Arguments TIMEFRAME_M1 {T}.
Arguments TIMEFRAME_M5 {T}.
Arguments TIMEFRAME_M15 {T}.
Arguments TIMEFRAME_H1 {T}.
Arguments TIMEFRAME_H4 {T}.
Arguments TIMEFRAME_D1 {T}.
Arguments symbol_info {T}.
Arguments symbol_select {T}.
Arguments copy_rates_from_pos {T}.
Arguments symbol_info_tick {T}.
Arguments account_info_equity {T}.
Arguments positions_get {T}.
Arguments positions_get_ticket {T}.
Arguments history_deals_get {T}.
Arguments order_send {T}.

(** Calls on the terminal that may raise. *)
Definition C (T A : Type) : Type := T -> Res A * T.

Definition retC {T A : Type} (x : A) : C T A := fun w => (Ok x, w).

Definition bindC {T A B : Type} (m : C T A) (f : A -> C T B) : C T B :=
  fun w =>
    match m w with
    | (Ok x, w') => f x w'
    | (Raise e, w') => (Raise e, w')
    end.

Definition raiseC {T A : Type} (e : exn) : C T A := fun w => (Raise e, w).

Definition callC {T A : Type} (op : T -> A * T) : C T A :=
  fun w => let (x, w') := op w in (Ok x, w').

Declare Scope terminal_scope.
Delimit Scope terminal_scope with terminal.

Notation "x <- m ;; k" := (bindC m (fun x => k))
  (at level 61, m at next level, right associativity) : terminal_scope.
Notation "m1 ;;; m2" := (bindC m1 (fun _ => m2))
  (at level 61, right associativity) : terminal_scope.

Local Open Scope terminal_scope.

(** [s.replace("/", "")] *)
Fixpoint remove_slash (s : string) : string :=
  match s with
  | EmptyString => EmptyString
  | String c r =>
      if String.eqb (String c EmptyString) "/" then remove_slash r
      else String c (remove_slash r)
  end.

(** [math.floor] and [round(x, 4)]: the nearest multiple of 0.0001, a
    tie going to the even one. *)
Definition round_half_even (x : R) : Z :=
  let f := Zfloor x in
  let d := x - IZR f in
  if Rltb d (1 / 2) then f
  else if Rltb (1 / 2) d then (f + 1)%Z
  else if Z.even f then f else (f + 1)%Z.

Definition round4 (x : R) : R := IZR (round_half_even (x * 10 ^ 4)) / 10 ^ 4.

(** The quantities of [calc_volume_for_risk], from the metadata of the
    instrument: the tick size and value it uses, the loss of one lot at
    the stop, the volume the risk budget pays for, and that volume cut
    to the step and to the limits of the instrument. *)
Definition effective_tick_size (info : SymbolInfo) : R :=
  if negb (Reqb (trade_tick_size info) 0) then trade_tick_size info
  else tick_size info.

Definition effective_tick_value (info : SymbolInfo) : R :=
  if negb (Reqb (trade_tick_value info) 0) then trade_tick_value info
  else tick_value info.

Definition loss_per_lot (info : SymbolInfo) (entry_price sl_price : R) : R :=
  Rabs (entry_price - sl_price) / effective_tick_size info
  * effective_tick_value info.

Definition raw_volume (cfg : Data.RiskConfig) (info : SymbolInfo)
           (entry_price sl_price : R) : R :=
  Data.risk_usd_per_leg cfg
  / Rmax (1 / 10 ^ 9) (loss_per_lot info entry_price sl_price).

Definition stepped_volume (cfg : Data.RiskConfig) (info : SymbolInfo)
           (entry_price sl_price : R) : R :=
  Rmax (volume_min info)
       (Rmin (volume_max info)
             (IZR (Zfloor (raw_volume cfg info entry_price sl_price
                           / volume_step info))
              * volume_step info)).

Section Connector.

Context {T : Type} (mt5 : Mt5 T).

(** The fields [magic] and [default_deviation] of [MT5Connector]. *)
Variables (magic default_deviation : Z).

(** [MT5Connector.ensure_symbol] *)
Definition ensure_symbol (symbol : string) : C T unit :=
  info <- callC (symbol_info mt5 symbol) ;;
  match info with
  | None => raiseC (ValueError "Symbol not found")
  | Some i =>
      if negb (visible i) then
        selected <- callC (symbol_select mt5 symbol true) ;;
        if negb selected then raiseC (RuntimeError "symbol_select failed")
        else retC tt
      else retC tt
  end.

(** [MT5Connector.get_ohlcv] *)
Definition get_ohlcv (symbol : string) (timeframe : Z) (n : nat)
  : C T (list Rate) :=
  ensure_symbol symbol ;;;
  rates <- callC (copy_rates_from_pos mt5 symbol timeframe 0 n) ;;
  match rates with
  | None => raiseC (RuntimeError "copy_rates_from_pos failed")
  | Some rs => retC rs
  end.

(** [MT5Connector.get_tick] *)
Definition get_tick (symbol : string) : C T Tick :=
  ensure_symbol symbol ;;;
  t <- callC (symbol_info_tick mt5 symbol) ;;
  match t with
  | None => raiseC (RuntimeError "symbol_info_tick failed")
  | Some tick => retC tick
  end.

(** [MT5Connector.account_info], read at [.equity] *)
Definition account_info : C T R :=
  info <- callC (account_info_equity mt5) ;;
  match info with
  | None => raiseC (RuntimeError "account_info failed")
  | Some equity => retC equity
  end.

(** [MT5Connector.positions()]: [mt5.positions_get() or ()] *)
Definition positions (w : T) : list TradePosition * T :=
  let (ps, w') := positions_get mt5 w in
  (match ps with
   | None => []
   | Some l => l
   end, w').

(** [MT5Connector.place_market_order] *)
Definition place_market_order (symbol side : string) (volume : R)
           (sl tp : option R) (comment : string) : C T Reply :=
  ensure_symbol symbol ;;;
  tick <- get_tick symbol ;;
  let order_type := if String.eqb side "BUY" then ORDER_TYPE_BUY mt5
                    else ORDER_TYPE_SELL mt5 in
  let price := if String.eqb side "BUY" then ask tick else bid tick in
  let req := {|
    req_action := TRADE_ACTION_DEAL mt5;
    req_symbol := symbol;
    req_volume := volume;
    req_type := order_type;
    req_position := None;
    req_price := price;
    req_sl := Some (match sl with
                    | Some v => if Reqb v 0 then 0 else v
                    | None => 0
                    end);
    req_tp := Some (match tp with
                    | Some v => if Reqb v 0 then 0 else v
                    | None => 0
                    end);
    req_deviation := default_deviation;
    req_magic := magic;
    req_comment := String.substring 0 31 comment;
    req_type_time := ORDER_TIME_GTC mt5;
    req_type_filling := ORDER_FILLING_FOK mt5
  |} in
  res <- callC (order_send mt5 req) ;;
  match res with
  | None => retC {| ok := false; result := None; request := Some req |}
  | Some r =>
      retC {| ok := (retcode r =? TRADE_RETCODE_DONE mt5)%Z;
              result := Some r; request := Some req |}
  end.

(** [MT5Connector.close_position_by_ticket] *)
Definition close_position_by_ticket (ticket : Z) : C T Reply :=
  ps <- callC (positions_get_ticket mt5 ticket) ;;
  match ps with
  | None | Some [] => retC {| ok := false; result := None; request := None |}
  | Some (pos :: _) =>
      let symbol := pos_symbol pos in
      ensure_symbol symbol ;;;
      let order_type :=
        if (pos_type pos =? ORDER_TYPE_BUY mt5)%Z then ORDER_TYPE_SELL mt5
        else ORDER_TYPE_BUY mt5 in
      tick <- get_tick symbol ;;
      let price := if (order_type =? ORDER_TYPE_SELL mt5)%Z then bid tick
                   else ask tick in
      let req := {|
        req_action := TRADE_ACTION_DEAL mt5;
        req_symbol := symbol;
        req_volume := pos_volume pos;
        req_type := order_type;
        req_position := Some ticket;
        req_price := price;
        req_sl := None;
        req_tp := None;
        req_deviation := default_deviation;
        req_magic := magic;
        req_comment := "bot_close";
        req_type_time := ORDER_TIME_GTC mt5;
        req_type_filling := ORDER_FILLING_FOK mt5
      |} in
      res <- callC (order_send mt5 req) ;;
      match res with
      | None => retC {| ok := false; result := None; request := Some req |}
      | Some r =>
          retC {| ok := (retcode r =? TRADE_RETCODE_DONE mt5)%Z;
                  result := Some r; request := Some req |}
      end
  end.

(** datafeed.py, [_TIMEFRAME_MAP.get] *)
Definition timeframe_map (timeframe : string) : option Z :=
  if String.eqb timeframe "1m" then Some (TIMEFRAME_M1 mt5)
  else if String.eqb timeframe "5m" then Some (TIMEFRAME_M5 mt5)
  else if String.eqb timeframe "15m" then Some (TIMEFRAME_M15 mt5)
  else if String.eqb timeframe "1h" then Some (TIMEFRAME_H1 mt5)
  else if String.eqb timeframe "4h" then Some (TIMEFRAME_H4 mt5)
  else if String.eqb timeframe "1d" then Some (TIMEFRAME_D1 mt5)
  else None.

(** [DataFeed._resolve_symbol] *)
Definition _resolve_symbol (s : string) : C T string :=
  i1 <- callC (symbol_info mt5 s) ;;
  match i1 with
  | Some _ => retC s
  | None =>
      let s2 := remove_slash s in
      i2 <- callC (symbol_info mt5 s2) ;;
      match i2 with
      | Some _ => retC s2
      | None => retC s
      end
  end.

(** [DataFeed.fetch_close]: the closes of the bars, indexed by their
    times. *)
Definition fetch_close (symbol timeframe : string) (limit : nat)
  : C T Utils.Series :=
  match timeframe_map timeframe with
  | None => raiseC (ValueError "Unsupported timeframe")
  | Some tf =>
      sym <- _resolve_symbol symbol ;;
      ensure_symbol sym ;;;
      rates <- get_ohlcv sym tf limit ;;
      match rates with
      | [] => retC []
      | _ => retC (map (fun r => (rate_time r, rate_close r)) rates)
      end
  end.

(** [DataFeed.fetch_last] *)
Definition fetch_last (symbol : string) : C T R :=
  sym <- _resolve_symbol symbol ;;
  ensure_symbol sym ;;;
  tick <- get_tick sym ;;
  retC ((bid tick + ask tick) / 2).

(** [RiskManager.calc_volume_for_risk]; the division by a zero
    [volume_step] is Python's ZeroDivisionError. *)
Definition calc_volume_for_risk (cfg : Data.RiskConfig) (symbol : string)
           (entry_price sl_price : R) : C T R :=
  ensure_symbol symbol ;;;
  info <- callC (symbol_info mt5 symbol) ;;
  match info with
  | None => raiseC (ValueError "symbol_info is None")
  | Some info =>
      let dist := Rabs (entry_price - sl_price) in
      if Rleb dist 0 then raiseC (ValueError "SL distance is zero")
      else
        let vol_min := volume_min info in
        let vol_max := volume_max info in
        let vol_step := volume_step info in
        let tick_size := if negb (Reqb (trade_tick_size info) 0)
                         then trade_tick_size info else tick_size info in
        let tick_value := if negb (Reqb (trade_tick_value info) 0)
                          then trade_tick_value info else tick_value info in
        if Rleb tick_size 0 || Rleb tick_value 0
        then raiseC (RuntimeError "Bad tick params")
        else
          let ticks_to_sl := dist / tick_size in
          let loss_per_lot := ticks_to_sl * tick_value in
          let raw_vol := Data.risk_usd_per_leg cfg
                         / Rmax (1 / 10 ^ 9) loss_per_lot in
          if Reqb vol_step 0
          then raiseC (OtherError "ZeroDivisionError: float division by zero")
          else
            let vol := IZR (Zfloor (raw_vol / vol_step)) * vol_step in
            let vol := Rmax vol_min (Rmin vol_max vol) in
            retC (round4 vol)
  end.

(** The collaborators of the controller when they are the classes of
    mt5_bridge.py and datafeed.py on one terminal.  [open_position] is
    not among the methods of [MT5Connector] and stays a parameter, as do
    the clock and the pause. *)
Definition connector_world (rcfg : Data.RiskConfig)
           (open_position : string -> string -> R -> T -> Res Data.OpenReply * T)
           (time : T -> R * T) (sleep : R -> T -> T) : Data.World T := {|
  Data.fetch_close := fetch_close;
  Data.fetch_last := fetch_last;
  Data.open_position := open_position;
  Data.close_position_by_ticket := fun ticket w =>
    match close_position_by_ticket ticket w with
    | (Ok r, w') =>
        (Ok {| Data.close_ok := ok r;
               Data.profit := match result r with
                              | Some res => result_profit res
                              | None => None
                              end |}, w')
    | (Raise e, w') => (Raise e, w')
    end;
  Data.account_info_equity := account_info;
  Data.history_deals_get := history_deals_get mt5;
  Data.positions_get := fun w =>
    let (ps, w') := positions w in (map pos_profit ps, w');
  Data.calc_volume_for_risk := calc_volume_for_risk rcfg;
  Data.time := time;
  Data.sleep := sleep
|}.

End Connector.

(** The answer of the gateway for a ticket that the terminal does not
    hold. *)
Definition not_found : Data.CloseReply :=
  {| Data.close_ok := false; Data.profit := None |}.

End Terminal.

(** ** Sample inputs *)

Module Samples.
Import Utils.

(** Fifty rows: [x] is flat and ends on [1], [y] is twice [x]. *)
Definition ols_x : Series := mk_series (spike 49 1).
Definition ols_y : Series := mk_series (map (fun v => 2 * v) (spike 49 1)).

(** A ranked list of one pair. *)
Definition one_pair : list Scanner.PairScore :=
  [ {| Scanner.a := "BTC/USD"; Scanner.b := "ETH/USD"; Scanner.score := 1;
       Scanner.corr_lr := 9 / 10; Scanner.spread_vol := 1 / 100;
       Scanner.beta := 1 |} ].

(** Three ranked pairs, the second of which meets both others. *)
Definition ranked_eth_sol : Scanner.PairScore :=
  {| Scanner.a := "ETH/USD"; Scanner.b := "SOL/USD"; Scanner.score := 2;
     Scanner.corr_lr := 9 / 10; Scanner.spread_vol := 1 / 100;
     Scanner.beta := 1 |}.

Definition chain_pairs : list Scanner.PairScore :=
  [ {| Scanner.a := "BTC/USD"; Scanner.b := "ETH/USD"; Scanner.score := 3;
       Scanner.corr_lr := 9 / 10; Scanner.spread_vol := 1 / 100;
       Scanner.beta := 1 |};
    ranked_eth_sol;
    {| Scanner.a := "SOL/USD"; Scanner.b := "XRP/USD"; Scanner.score := 1;
       Scanner.corr_lr := 9 / 10; Scanner.spread_vol := 1 / 100;
       Scanner.beta := 1 |} ].

(** A world without state in which every call succeeds: the feed has the
    history [closes], the account shows [equity], the clock shows [now],
    the broker fills every order under the ticket [ticket], a close
    realises [pnl]. *)
Definition steady_world (closes : string -> Series) (equity now pnl : R)
           (ticket : Z) : Data.World unit := {|
  Data.fetch_close := fun s _ _ w => (Ok (closes s), w);
  Data.fetch_last := fun _ w => (Ok 100, w);
  Data.open_position := fun _ _ _ w =>
    (Ok {| Data.open_ok := true; Data.order := ticket |}, w);
  Data.close_position_by_ticket := fun _ w =>
    (Ok {| Data.close_ok := true; Data.profit := Some pnl |}, w);
  Data.account_info_equity := fun w => (Ok equity, w);
  Data.history_deals_get := fun w => (Some [], w);
  Data.positions_get := fun w => ([], w);
  Data.calc_volume_for_risk := fun _ _ _ w => (Ok (1 / 100), w);
  Data.time := fun w => (now, w);
  Data.sleep := fun _ w => w
|}.

Definition no_history : string -> Series := fun _ => [].

(** 120 one-minute closes of a price that stays at 1 and ends on [p];
    it jumps to 2, or it stays flat. *)
Definition closes_ending (p : R) : Series := mk_series (repeat 1 119 ++ [p]).
Definition jump_closes : Series := closes_ending 2.
Definition flat_closes : Series := closes_ending 1.

(** The log-prices of such a leg: 0, and [s] at the end. *)
Definition leg (s : R) : Series := mk_series (spike 119 s).

(** A feed with the same history for every instrument. *)
Definition twin_feed : string -> Series := fun _ => jump_closes.

(** A feed in which A falls to one half while every other instrument is
    flat. *)
Definition dip_flat_feed : string -> Series :=
  fun s => if String.eqb s "A" then closes_ending (1 / 2) else flat_closes.

(** A feed in which A, C and E jump while every other instrument is
    flat. *)
Definition jump_flat_feed : string -> Series :=
  fun s =>
    if (String.eqb s "A" || String.eqb s "C" || String.eqb s "E")%bool
    then jump_closes
    else flat_closes.

(** The same world with a feed that always raises. *)
Definition broken_feed_world : Data.World unit := {|
  Data.fetch_close := fun _ _ _ w => (Raise (RuntimeError "copy_rates_from_pos failed"), w);
  Data.fetch_last := fun _ w => (Ok 100, w);
  Data.open_position := fun _ _ _ w =>
    (Ok {| Data.open_ok := true; Data.order := 101%Z |}, w);
  Data.close_position_by_ticket := fun _ w =>
    (Ok {| Data.close_ok := true; Data.profit := Some 0 |}, w);
  Data.account_info_equity := fun w => (Ok 1000, w);
  Data.history_deals_get := fun w => (Some [], w);
  Data.positions_get := fun w => ([], w);
  Data.calc_volume_for_risk := fun _ _ _ w => (Ok (1 / 100), w);
  Data.time := fun w => (0, w);
  Data.sleep := fun _ w => w
|}.

(** A controller that holds one position, entered at time 0. *)
Definition sample_position : Data.Position := {|
  Data.a := "A"; Data.b := "B";
  Data.side_a := "SELL"; Data.side_b := "BUY";
  Data.vol_a := 1 / 100; Data.vol_b := 1 / 100;
  Data.entry_pa := 100; Data.entry_pb := 100; Data.entry_ts := 0;
  Data.ticket_a := 101; Data.ticket_b := 102
|}.

Definition open_state : Data.State unit :=
  Data.Build_State
    {| Data.positions := [(("A"%string, "B"%string), sample_position)];
       Data.cooldown_until_ts := 0;
       Data.halted := false; Data.consecutive_errors := 0 |}
    (Some 1000) tt [].

(** A fresh controller inside a cooldown window that ends at 2400. *)
Definition cooling_state : Data.State unit :=
  Data.Build_State
    {| Data.positions := []; Data.cooldown_until_ts := 2400;
       Data.halted := false; Data.consecutive_errors := 0 |}
    (Some 1000) tt [].

(** The controller with one position, inside a cooldown window that
    ends at 2000000. *)
Definition cooling_open_state : Data.State unit :=
  Data.Build_State
    {| Data.positions := [(("A"%string, "B"%string), sample_position)];
       Data.cooldown_until_ts := 2000000;
       Data.halted := false; Data.consecutive_errors := 0 |}
    (Some 1000) tt [].

(** A halted controller. *)
Definition halted_state : Data.State unit :=
  Data.Build_State
    {| Data.positions := []; Data.cooldown_until_ts := 0;
       Data.halted := true; Data.consecutive_errors := 8 |}
    (Some 1000) tt [].

(** The risk limits of main.py, with and without the kill switch. *)
Definition risk_cfg : Data.RiskConfig := {|
  Data.risk_usd_per_leg := 5;
  Data.max_daily_loss_usd := 250;
  Data.max_total_drawdown_usd := 500;
  Data.enforce_kill_switch := true
|}.

Definition risk_cfg_no_switch : Data.RiskConfig := {|
  Data.risk_usd_per_leg := 5;
  Data.max_daily_loss_usd := 250;
  Data.max_total_drawdown_usd := 500;
  Data.enforce_kill_switch := false
|}.

(** The state after start-up: a fresh controller, the start equity
    recorded as [equity0]. *)
Definition fresh_state (equity0 : R) : Data.State unit :=
  Data.Build_State Data.init_controller (Some equity0) tt [].

(** The steady world with a terminal that does not answer the account
    request. *)
Definition offline_world : Data.World unit := {|
  Data.fetch_close := fun _ _ _ w => (Ok [], w);
  Data.fetch_last := fun _ w => (Ok 100, w);
  Data.open_position := fun _ _ _ w =>
    (Ok {| Data.open_ok := true; Data.order := 101%Z |}, w);
  Data.close_position_by_ticket := fun _ w =>
    (Ok {| Data.close_ok := true; Data.profit := Some 0 |}, w);
  Data.account_info_equity := fun w =>
    (Raise (RuntimeError "account_info failed"), w);
  Data.history_deals_get := fun w => (Some [], w);
  Data.positions_get := fun w => ([], w);
  Data.calc_volume_for_risk := fun _ _ _ w => (Ok (1 / 100), w);
  Data.time := fun w => (0, w);
  Data.sleep := fun _ w => w
|}.

(** A broker that refuses every close, and reports a result of -50 with
    its refusal. *)
Definition refused_close : Data.CloseReply :=
  {| Data.close_ok := false; Data.profit := Some (-50) |}.

Definition refusing_world : Data.World unit := {|
  Data.fetch_close := fun _ _ _ w => (Ok [], w);
  Data.fetch_last := fun _ w => (Ok 100, w);
  Data.open_position := fun _ _ _ w =>
    (Ok {| Data.open_ok := true; Data.order := 101%Z |}, w);
  Data.close_position_by_ticket := fun _ w => (Ok refused_close, w);
  Data.account_info_equity := fun w => (Ok 1000, w);
  Data.history_deals_get := fun w => (Some [], w);
  Data.positions_get := fun w => ([], w);
  Data.calc_volume_for_risk := fun _ _ _ w => (Ok (1 / 100), w);
  Data.time := fun w => (0, w);
  Data.sleep := fun _ w => w
|}.

(** A feed in which B has one close more than every other instrument. *)
Definition longer_closes : Series := mk_series (repeat 1 120 ++ [2]).

Definition uneven_feed : string -> Series :=
  fun s => if String.eqb s "B" then longer_closes else jump_closes.

(** A terminal without state: it knows BTCUSD and ETHUSD, quotes 99 /
    101, has two bars of history, and holds one position, the ticket 7,
    a buy of 0.01 BTCUSD. *)
Definition demo_info : Terminal.SymbolInfo := {|
  Terminal.visible := true;
  Terminal.volume_min := 1 / 100;
  Terminal.volume_max := 100;
  Terminal.volume_step := 1 / 100;
  Terminal.trade_tick_size := 1 / 100;
  Terminal.tick_size := 0;
  Terminal.trade_tick_value := 1 / 100;
  Terminal.tick_value := 0
|}.

Definition demo_position : Terminal.TradePosition := {|
  Terminal.pos_symbol := "BTCUSD";
  Terminal.pos_type := 0;
  Terminal.pos_volume := 1 / 100;
  Terminal.pos_profit := 0
|}.

Definition demo_tick : Terminal.Tick :=
  {| Terminal.bid := 99; Terminal.ask := 101 |}.

Definition demo_rates : list Terminal.Rate :=
  [ {| Terminal.rate_time := 0; Terminal.rate_close := 100 |};
    {| Terminal.rate_time := 60; Terminal.rate_close := 101 |} ].

Definition demo_done : Terminal.SendResult :=
  {| Terminal.retcode := 10009; Terminal.result_profit := None |}.

Definition demo_terminal : Terminal.Mt5 unit := {|
  Terminal.ORDER_TYPE_BUY := 0;
  Terminal.ORDER_TYPE_SELL := 1;
  Terminal.TRADE_ACTION_DEAL := 1;
  Terminal.ORDER_TIME_GTC := 0;
  Terminal.ORDER_FILLING_FOK := 0;
  Terminal.TRADE_RETCODE_DONE := 10009;
  Terminal.TIMEFRAME_M1 := 1;
  Terminal.TIMEFRAME_M5 := 5;
  Terminal.TIMEFRAME_M15 := 15;
  Terminal.TIMEFRAME_H1 := 16385;
  Terminal.TIMEFRAME_H4 := 16388;
  Terminal.TIMEFRAME_D1 := 16408;
  Terminal.symbol_info := fun s w =>
    (if (String.eqb s "BTCUSD" || String.eqb s "ETHUSD")%bool
     then Some demo_info else None, w);
  Terminal.symbol_select := fun _ _ w => (true, w);
  Terminal.copy_rates_from_pos := fun _ _ _ _ w => (Some demo_rates, w);
  Terminal.symbol_info_tick := fun _ w => (Some demo_tick, w);
  Terminal.account_info_equity := fun w => (Some 1000, w);
  Terminal.positions_get := fun w => (Some [demo_position], w);
  Terminal.positions_get_ticket := fun t w =>
    (if (t =? 7)%Z then Some [demo_position] else Some [], w);
  Terminal.history_deals_get := fun w => (Some [], w);
  Terminal.order_send := fun _ w => (Some demo_done, w)
|}.

(** The collaborators on that terminal, as exchange.py sets the
    connector up (magic 777001, deviation 20), with a gateway operation
    that fills every order and a clock that stands still. *)
(** The same terminal when it has no account to report. *)
Definition silent_terminal : Terminal.Mt5 unit := {|
  Terminal.ORDER_TYPE_BUY := 0;
  Terminal.ORDER_TYPE_SELL := 1;
  Terminal.TRADE_ACTION_DEAL := 1;
  Terminal.ORDER_TIME_GTC := 0;
  Terminal.ORDER_FILLING_FOK := 0;
  Terminal.TRADE_RETCODE_DONE := 10009;
  Terminal.TIMEFRAME_M1 := 1;
  Terminal.TIMEFRAME_M5 := 5;
  Terminal.TIMEFRAME_M15 := 15;
  Terminal.TIMEFRAME_H1 := 16385;
  Terminal.TIMEFRAME_H4 := 16388;
  Terminal.TIMEFRAME_D1 := 16408;
  Terminal.symbol_info := Terminal.symbol_info demo_terminal;
  Terminal.symbol_select := Terminal.symbol_select demo_terminal;
  Terminal.copy_rates_from_pos := Terminal.copy_rates_from_pos demo_terminal;
  Terminal.symbol_info_tick := Terminal.symbol_info_tick demo_terminal;
  Terminal.account_info_equity := fun w => (None, w);
  Terminal.positions_get := Terminal.positions_get demo_terminal;
  Terminal.positions_get_ticket := Terminal.positions_get_ticket demo_terminal;
  Terminal.history_deals_get := Terminal.history_deals_get demo_terminal;
  Terminal.order_send := Terminal.order_send demo_terminal
|}.

Definition demo_open (s side : string) (v : R) (w : unit)
  : Res Data.OpenReply * unit :=
  (Ok {| Data.open_ok := true; Data.order := 101%Z |}, w).

Definition demo_clock (w : unit) : R * unit := (0, w).

Definition demo_pause (seconds : R) (w : unit) : unit := w.

Definition demo_world : Data.World unit :=
  Terminal.connector_world demo_terminal 777001 20 risk_cfg
    demo_open demo_clock demo_pause.

(** The configuration of config.py with a timeframe that the data feed
    does not know. *)
Definition odd_timeframe_config : Data.Config := {|
  Data.timeframe := "2m";
  Data.lookback := 720;
  Data.beta_window := 720;
  Data.z_entry := 23 / 10;
  Data.z_exit := 1 / 2;
  Data.max_hold_minutes := 240;
  Data.top_pairs := 5;
  Data.max_open_positions := 2;
  Data.min_corr := 55 / 100;
  Data.max_vol_ratio := 2
|}.

(** A gateway with a memory: it refuses the first [refusals] orders for
    the instrument B and fills the later ones under the ticket 202; it
    fills every order for another instrument under the ticket 201. *)
Definition flaky_world (refusals : nat) : Data.World nat := {|
  Data.fetch_close := fun _ _ _ w => (Ok [], w);
  Data.fetch_last := fun _ w => (Ok 100, w);
  Data.open_position := fun s _ _ w =>
    if String.eqb s "B" then
      (if (w <? refusals)%nat
       then Ok {| Data.open_ok := false; Data.order := 0%Z |}
       else Ok {| Data.open_ok := true; Data.order := 202%Z |}, S w)
    else (Ok {| Data.open_ok := true; Data.order := 201%Z |}, w);
  Data.close_position_by_ticket := fun _ w =>
    (Ok {| Data.close_ok := true; Data.profit := Some 0 |}, w);
  Data.account_info_equity := fun w => (Ok 1000, w);
  Data.history_deals_get := fun w => (Some [], w);
  Data.positions_get := fun w => ([], w);
  Data.calc_volume_for_risk := fun _ _ _ w => (Ok (1 / 100), w);
  Data.time := fun w => (0, w);
  Data.sleep := fun _ w => w
|}.

(** A gateway that fills the orders for every instrument but B, for
    which the call raises; the feed and the clock are those of
    [steady_world]. *)
Definition orphaning_world (closes : string -> Series) (now : R)
  : Data.World unit := {|
  Data.fetch_close := fun s _ _ w => (Ok (closes s), w);
  Data.fetch_last := fun _ w => (Ok 100, w);
  Data.open_position := fun s _ _ w =>
    if String.eqb s "B"
    then (Raise (RuntimeError "symbol_info_tick failed"), w)
    else (Ok {| Data.open_ok := true; Data.order := 201%Z |}, w);
  Data.close_position_by_ticket := fun _ w =>
    (Ok {| Data.close_ok := true; Data.profit := Some 0 |}, w);
  Data.account_info_equity := fun w => (Ok 1000, w);
  Data.history_deals_get := fun w => (Some [], w);
  Data.positions_get := fun w => ([], w);
  Data.calc_volume_for_risk := fun _ _ _ w => (Ok (1 / 100), w);
  Data.time := fun w => (now, w);
  Data.sleep := fun _ w => w
|}.

(** The world of [steady_world] with a feed that has no tick to give. *)
Definition tickless_world (closes : string -> Series) (now : R)
  : Data.World unit := {|
  Data.fetch_close := fun s _ _ w => (Ok (closes s), w);
  Data.fetch_last := fun _ w => (Raise (RuntimeError "symbol_info_tick failed"), w);
  Data.open_position := fun _ _ _ w =>
    (Ok {| Data.open_ok := true; Data.order := 101%Z |}, w);
  Data.close_position_by_ticket := fun _ w =>
    (Ok {| Data.close_ok := true; Data.profit := Some 0 |}, w);
  Data.account_info_equity := fun w => (Ok 1000, w);
  Data.history_deals_get := fun w => (Some [], w);
  Data.positions_get := fun w => ([], w);
  Data.calc_volume_for_risk := fun _ _ _ w => (Ok (1 / 100), w);
  Data.time := fun w => (now, w);
  Data.sleep := fun _ w => w
|}.

(** The world of [steady_world] with a gateway without the operation
    [open_position]. *)
Definition closed_gateway_world (closes : string -> Series) (now : R)
  : Data.World unit := {|
  Data.fetch_close := fun s _ _ w => (Ok (closes s), w);
  Data.fetch_last := fun _ w => (Ok 100, w);
  Data.open_position := fun _ _ _ w =>
    (Raise (OtherError "AttributeError: open_position"), w);
  Data.close_position_by_ticket := fun _ w =>
    (Ok {| Data.close_ok := true; Data.profit := Some 0 |}, w);
  Data.account_info_equity := fun w => (Ok 1000, w);
  Data.history_deals_get := fun w => (Some [], w);
  Data.positions_get := fun w => ([], w);
  Data.calc_volume_for_risk := fun _ _ _ w => (Ok (1 / 100), w);
  Data.time := fun w => (now, w);
  Data.sleep := fun _ w => w
|}.

(** A fresh controller on the flaky gateway. *)
Definition flaky_state : Data.State nat :=
  Data.Build_State Data.init_controller (Some 1000) 0%nat [].

(** The configuration of config.py with room for one position. *)
Definition single_slot_config : Data.Config := {|
  Data.timeframe := "1m";
  Data.lookback := 720;
  Data.beta_window := 720;
  Data.z_entry := 23 / 10;
  Data.z_exit := 1 / 2;
  Data.max_hold_minutes := 240;
  Data.top_pairs := 5;
  Data.max_open_positions := 1;
  Data.min_corr := 55 / 100;
  Data.max_vol_ratio := 2
|}.

End Samples.

(** * Properties *)

(** ** Boolean comparisons *)

Lemma Reqb_true (x y : R) : Reqb x y = true <-> x = y.
Proof. unfold Reqb; destruct (Req_dec_T x y); split; congruence. Qed.

Lemma Reqb_false (x y : R) : Reqb x y = false <-> x <> y.
Proof. unfold Reqb; destruct (Req_dec_T x y); split; congruence. Qed.

Lemma Rltb_true (x y : R) : Rltb x y = true <-> x < y.
Proof. unfold Rltb; destruct (Rlt_dec x y); split; (congruence || tauto). Qed.

Lemma Rltb_false (x y : R) : Rltb x y = false <-> ~ x < y.
Proof. unfold Rltb; destruct (Rlt_dec x y); split; (congruence || tauto). Qed.

Lemma Rleb_true (x y : R) : Rleb x y = true <-> x <= y.
Proof. unfold Rleb; destruct (Rle_dec x y); split; (congruence || tauto). Qed.

Lemma Rleb_false (x y : R) : Rleb x y = false <-> ~ x <= y.
Proof. unfold Rleb; destruct (Rle_dec x y); split; (congruence || tauto). Qed.

(** ** scanner.py: the selection of the top pairs *)

Module ScannerFacts.
Import Scanner.

Lemma mem_true_iff (x : string) (l : list string) : mem x l = true <-> In x l.
Proof.
  unfold mem. rewrite existsb_exists. split.
  - intros [y [Hy Heq]]. apply String.eqb_eq in Heq. now subst.
  - intros H. exists x. split; [assumption | apply String.eqb_refl].
Qed.

Lemma mem_false_iff (x : string) (l : list string) : mem x l = false <-> ~ In x l.
Proof.
  rewrite <- mem_true_iff. destruct (mem x l); split; congruence.
Qed.

(** A pair whose two instruments are unused is apart from every pair made
    of used instruments. *)
Lemma apart_of_unused (used : list string) (p q : string * string) :
  In (fst p) used -> In (snd p) used ->
  ~ In (fst q) used -> ~ In (snd q) used ->
  apart p q.
Proof.
  destruct p as [p1 p2], q as [q1 q2]. cbn [fst snd].
  intros Hp1 Hp2 Hq1 Hq2. unfold apart, share_instrument, instruments.
  cbn [existsb fst snd]. rewrite !orb_false_r.
  apply orb_false_iff; split; apply mem_false_iff; cbn [In];
    intros [E | [E | []]]; subst; tauto.
Qed.

Lemma ForallOrdPairs_snoc {A : Type} (R : A -> A -> Prop) (l : list A) (x : A) :
  ForallOrdPairs R l -> Forall (fun y => R y x) l -> ForallOrdPairs R (l ++ [x]).
Proof.
  induction 1 as [| y l Hy Hl IH]; intros Hx; cbn.
  - constructor; constructor.
  - inversion Hx; subst. constructor.
    + apply Forall_app; split; [assumption | now constructor].
    + now apply IH.
Qed.

Lemma pick_loop_disjoint (scored : list PairScore) (k : Z) :
  forall picked used,
    pick_inv picked used ->
    ForallOrdPairs apart (pick_loop scored k picked used).
Proof.
  induction scored as [| p rest IH]; intros picked used [Hused Hap]; cbn.
  - assumption.
  - destruct (mem (a p) used) eqn:Ha; cbn [orb].
    { apply IH; now split. }
    destruct (mem (b p) used) eqn:Hb; cbn [orb].
    { apply IH; now split. }
    apply mem_false_iff in Ha, Hb.
    assert (Hnew : ForallOrdPairs apart (picked ++ [(a p, b p)])).
    { apply ForallOrdPairs_snoc; [assumption |].
      eapply Forall_impl; [| exact Hused].
      intros q [Hq1 Hq2]. now apply (apart_of_unused used). }
    destruct (Z.of_nat (length (picked ++ [(a p, b p)])) >=? k)%Z.
    + assumption.
    + apply IH. split; [| assumption].
      apply Forall_app; split.
      * eapply Forall_impl; [| exact Hused].
        cbn. intros q [Hq1 Hq2]. tauto.
      * constructor; [cbn; tauto | constructor].
Qed.

(** No two of the selected pairs share an instrument, whatever the ranked
    list and the limit. *)
Lemma pick_top_pairs_disjoint (scored : list PairScore) (k : Z) :
  ForallOrdPairs apart (pick_top_pairs scored k).
Proof.
  apply pick_loop_disjoint. split; constructor.
Qed.

Lemma pick_loop_length (scored : list PairScore) (k : Z) :
  forall picked used,
    (Z.of_nat (length picked) < Z.max k 1)%Z ->
    (Z.of_nat (length (pick_loop scored k picked used)) <= Z.max k 1)%Z.
Proof.
  induction scored as [| p rest IH]; intros picked used Hlen; cbn.
  - lia.
  - destruct (mem (a p) used || mem (b p) used).
    + now apply IH.
    + destruct (Z.of_nat (length (picked ++ [(a p, b p)])) >=? k)%Z eqn:Hk.
      * rewrite length_app in *. cbn [length] in *. lia.
      * apply IH. rewrite Z.geb_leb in Hk. apply Z.leb_gt in Hk. lia.
Qed.

(** At most [k] pairs are selected when the limit is positive; one pair
    may be selected when it is not. *)
Lemma pick_top_pairs_length (scored : list PairScore) (k : Z) :
  (Z.of_nat (length (pick_top_pairs scored k)) <= Z.max k 1)%Z.
Proof.
  apply pick_loop_length. cbn. lia.
Qed.

End ScannerFacts.

(** ** utils.py: sums, means and deviations *)

Module UtilsFacts.
Import Utils.

Lemma Rsum_app (l1 l2 : list R) : Rsum (l1 ++ l2) = Rsum l1 + Rsum l2.
Proof. induction l1 as [| x l1 IH]; cbn; [| rewrite IH]; lra. Qed.

Lemma Rsum_map_repeat (f : R -> R) (x : R) (m : nat) :
  Rsum (map f (repeat x m)) = INR m * f x.
Proof.
  induction m as [| m IH].
  - cbn. lra.
  - rewrite S_INR. cbn [repeat map Rsum]. rewrite IH. lra.
Qed.

Lemma Rsum_repeat (x : R) (m : nat) : Rsum (repeat x m) = INR m * x.
Proof.
  rewrite <- (map_id (repeat x m)). apply (Rsum_map_repeat (fun v => v)).
Qed.

Lemma Rsum_map_scale (k : R) (f : R -> R) (l : list R) :
  Rsum (map (fun v => k * f v) l) = k * Rsum (map f l).
Proof. induction l as [| x l IH]; cbn; [| rewrite IH]; lra. Qed.

Lemma Rsum_nonneg (l : list R) : Forall (fun v => 0 <= v) l -> 0 <= Rsum l.
Proof. induction 1; cbn; lra. Qed.

Lemma sum_dev2_nonneg (l : list R) : 0 <= sum_dev2 l.
Proof.
  unfold sum_dev2. apply Rsum_nonneg. apply Forall_forall.
  intros v Hv. apply in_map_iff in Hv. destruct Hv as [x [<- _]].
  apply (Rle_0_sqr (x - mean l)).
Qed.

Lemma INR_S_neq_0 (m : nat) : INR (S m) <> 0.
Proof. apply not_0_INR. discriminate. Qed.

Lemma INR_S_pos (m : nat) : 0 < INR (S m).
Proof. apply lt_0_INR. lia. Qed.

(** *** The sample series *)

Lemma length_spike (m : nat) (s : R) : length (spike m s) = S m.
Proof. unfold spike. rewrite length_app, repeat_length. cbn. lia. Qed.

Lemma last_spike (m : nat) (s d : R) : last (spike m s) d = s.
Proof. unfold spike. apply last_last. Qed.

Lemma mean_spike (m : nat) (s : R) : mean (spike m s) = s / INR (S m).
Proof.
  unfold mean. rewrite length_spike. unfold spike.
  rewrite Rsum_app, Rsum_repeat. cbn. f_equal. lra.
Qed.

Lemma sum_dev2_spike (m : nat) (s : R) :
  sum_dev2 (spike m s) = s * s * INR m / INR (S m).
Proof.
  unfold sum_dev2. rewrite mean_spike. unfold spike.
  rewrite map_app, Rsum_app, Rsum_map_repeat. cbn [map Rsum].
  pose proof (INR_S_neq_0 m) as Hn. rewrite S_INR in *.
  field. assumption.
Qed.

Lemma sum_dev2_spike_pos (m : nat) (s : R) :
  (0 < m)%nat -> s <> 0 -> 0 < sum_dev2 (spike m s).
Proof.
  intros Hm Hs. rewrite sum_dev2_spike.
  assert (0 < INR m) by (apply lt_0_INR; assumption).
  pose proof (INR_S_pos m).
  apply Rdiv_lt_0_compat; [| assumption].
  apply Rmult_lt_0_compat; [nra | assumption].
Qed.

Lemma sum_dev2_zeros (m : nat) : sum_dev2 (repeat 0 m) = 0.
Proof.
  unfold sum_dev2, mean. rewrite Rsum_repeat, Rsum_map_repeat, repeat_length.
  unfold Rdiv. nra.
Qed.

(** *** Deviations of a series against itself and against a multiple *)

Lemma mean_scale (k : R) (l : list R) :
  mean (map (fun v => k * v) l) = k * mean l.
Proof.
  unfold mean. rewrite length_map, (Rsum_map_scale k (fun v => v)), map_id.
  unfold Rdiv. lra.
Qed.

Lemma Rsum_codev_scale (k my mx : R) (l : list R) :
  Rsum (map (fun p => (fst p - k * my) * (snd p - mx))
            (combine (map (fun v => k * v) l) l))
  = k * Rsum (map (fun p => (fst p - my) * (snd p - mx)) (combine l l)).
Proof. induction l as [| x l IH]; cbn; [| rewrite IH]; lra. Qed.

Lemma Rsum_codev_self (m : R) (l : list R) :
  Rsum (map (fun p => (fst p - m) * (snd p - m)) (combine l l))
  = Rsum (map (fun v => (v - m) * (v - m)) l).
Proof. induction l as [| x l IH]; cbn; [| rewrite IH]; lra. Qed.

Lemma sum_codev_self (l : list R) : sum_codev l l = sum_dev2 l.
Proof. unfold sum_codev, sum_dev2. apply Rsum_codev_self. Qed.

Lemma sum_codev_scale (k : R) (l : list R) :
  sum_codev (map (fun v => k * v) l) l = k * sum_dev2 l.
Proof.
  unfold sum_codev, sum_dev2. rewrite mean_scale, Rsum_codev_scale.
  now rewrite Rsum_codev_self.
Qed.

(** *** [ols_beta] *)

(** On its main path [ols_beta] divides a covariance taken with [n - 1]
    by a variance taken with [n]: it is the least-squares slope times
    [n / (n - 1)]. *)
Lemma ols_beta_biased (y x : Series) (n : nat) :
  length y = n -> length x = n -> (50 <= n)%nat ->
  np_var (values x) <> 0 ->
  ols_beta y x
  = Ok (INR n / (INR n - 1) * ols_slope (values y) (values x)).
Proof.
  intros Hy Hx Hn Hvar. unfold ols_beta.
  rewrite Hy, Hx.
  assert (Hlt : (n <? 50)%nat = false) by (apply Nat.ltb_ge; exact Hn).
  rewrite Hlt. cbn [orb].
  destruct (Reqb (np_var (values x)) 0) eqn:E.
  { apply Reqb_true in E. contradiction. }
  unfold np_cov_ddof1, values. rewrite !length_map, Hy, Hx, Nat.eqb_refl.
  f_equal. unfold ols_slope, np_var, values in *. rewrite length_map, Hx in *.
  assert (Hn0 : INR n <> 0) by (apply not_0_INR; lia).
  assert (Hn1 : INR n - 1 <> 0).
  { assert (1 < INR n) by (apply (lt_INR 1); lia). lra. }
  assert (Hd : sum_dev2 (map snd x) <> 0).
  { intros H0. apply Hvar. rewrite H0. unfold Rdiv. lra. }
  field. repeat split; assumption.
Qed.

Lemma ols_beta_short (y x : Series) :
  (length y < 50)%nat \/ (length x < 50)%nat -> ols_beta y x = Ok 1.
Proof.
  intros H. unfold ols_beta.
  assert (E : ((length y <? 50) || (length x <? 50))%nat = true).
  { apply orb_true_iff. destruct H as [H | H]; [left | right];
      now apply Nat.ltb_lt. }
  now rewrite E.
Qed.

Lemma ols_beta_no_variance (y x : Series) :
  np_var (values x) = 0 -> ols_beta y x = Ok 1.
Proof.
  intros H. unfold ols_beta.
  destruct ((length y <? 50) || (length x <? 50))%nat; [reflexivity |].
  cbv zeta. apply Reqb_true in H. now rewrite H.
Qed.

Lemma length_mk_series (vs : list R) : length (mk_series vs) = length vs.
Proof.
  unfold mk_series. rewrite length_combine, length_map, length_seq. lia.
Qed.

Lemma combine_map_snd {A B : Type} (l1 : list A) (l2 : list B) :
  length l1 = length l2 -> map snd (combine l1 l2) = l2.
Proof.
  revert l2. induction l1 as [| x l1 IH]; intros [| y l2] H; cbn in *;
    try discriminate; [reflexivity |]. f_equal. apply IH. lia.
Qed.

Lemma combine_map_fst {A B : Type} (l1 : list A) (l2 : list B) :
  length l1 = length l2 -> map fst (combine l1 l2) = l1.
Proof.
  revert l2. induction l1 as [| x l1 IH]; intros [| y l2] H; cbn in *;
    try discriminate; [reflexivity |]. f_equal. apply IH. lia.
Qed.

Lemma values_mk_series (vs : list R) : values (mk_series vs) = vs.
Proof.
  unfold values, mk_series. apply combine_map_snd.
  now rewrite length_map, length_seq.
Qed.

End UtilsFacts.

(** ** Claims on the statistics library and the scanner *)

(** C3, at a failing input.  For fifty rows with [y = 2 x] the
    least-squares slope of [y] on [x] is 2, but [ols_beta] returns
    100/49: the covariance is divided by [n - 1] and the variance by
    [n]. *)
Theorem C3_ols_beta_is_not_the_slope :
  Utils.ols_beta Samples.ols_y Samples.ols_x = Ok (100 / 49) /\
  Utils.ols_slope (Utils.values Samples.ols_y) (Utils.values Samples.ols_x) = 2.
Proof.
  assert (Hpos : 0 < Utils.sum_dev2 (Utils.spike 49 1)).
  { apply UtilsFacts.sum_dev2_spike_pos; [lia | lra]. }
  assert (Hslope :
    Utils.ols_slope (Utils.values Samples.ols_y) (Utils.values Samples.ols_x) = 2).
  { unfold Samples.ols_y, Samples.ols_x, Utils.ols_slope.
    rewrite !UtilsFacts.values_mk_series, UtilsFacts.sum_codev_scale.
    field. lra. }
  split; [| exact Hslope].
  rewrite (UtilsFacts.ols_beta_biased _ _ 50).
  - rewrite Hslope. f_equal. rewrite INR_IZR_INZ. simpl Z.of_nat. lra.
  - unfold Samples.ols_y.
    now rewrite UtilsFacts.length_mk_series, length_map, UtilsFacts.length_spike.
  - unfold Samples.ols_x.
    now rewrite UtilsFacts.length_mk_series, UtilsFacts.length_spike.
  - lia.
  - unfold Samples.ols_x, Utils.np_var.
    rewrite UtilsFacts.values_mk_series, UtilsFacts.length_spike.
    pose proof (UtilsFacts.INR_S_pos 49) as Hn.
    apply Rgt_not_eq. apply Rdiv_lt_0_compat; assumption.
Qed.

(** C5, at a failing input.  With the limit 0 and one ranked pair,
    [pick_top_pairs] returns that pair: the limit is only tested after a
    pair has been appended. *)
Theorem C5_limit_zero_returns_a_pair :
  Scanner.pick_top_pairs Samples.one_pair 0 = [("BTC/USD"%string, "ETH/USD"%string)] /\
  (Z.of_nat (length (Scanner.pick_top_pairs Samples.one_pair 0)) > 0)%Z.
Proof. split; [reflexivity | cbn; lia]. Qed.

(** ** The monad: what a computation leaves untouched *)

Module MonadFacts.
Import Data Monad.
Local Open Scope monad_scope.

Section Frame.

Context {W : Type}.

Lemma bind_ok {A B : Type} (m : M W A) (f : A -> M W B) st x st1 :
  m st = (Ok x, st1) -> bind m f st = f x st1.
Proof. intros H. unfold bind. now rewrite H. Qed.

Lemma bind_raise {A B : Type} (m : M W A) (f : A -> M W B) st e st1 :
  m st = (Raise e, st1) -> bind m f st = (Raise e, st1).
Proof. intros H. unfold bind. now rewrite H. Qed.

Lemma keeps_bot_ret {A : Type} (x : A) : keeps_bot (ret (W := W) x).
Proof. intros st. reflexivity. Qed.

Lemma keeps_bot_raise {A : Type} (e : exn) : keeps_bot (raise (W := W) (A := A) e).
Proof. intros st. reflexivity. Qed.

Lemma keeps_bot_lift {A : Type} (r : Res A) : keeps_bot (lift (W := W) r).
Proof. intros st. reflexivity. Qed.

Lemma keeps_bot_bind {A B : Type} (m : M W A) (f : A -> M W B) :
  keeps_bot m -> (forall x, keeps_bot (f x)) -> keeps_bot (bind m f).
Proof.
  intros Hm Hf st. unfold bind. specialize (Hm st).
  destruct (m st) as [[x | e] st1]; cbn in *.
  - now rewrite Hf.
  - assumption.
Qed.

Lemma keeps_bot_call {A : Type} (ev : Res A -> Event) (op : W -> Res A * W) :
  keeps_bot (call ev op).
Proof. intros st. unfold call. now destruct (op (world st)). Qed.

Lemma keeps_bot_call_total {A : Type} (ev : Event) (op : W -> A * W) :
  keeps_bot (call_total ev op).
Proof. intros st. unfold call_total. now destruct (op (world st)). Qed.

Lemma keeps_bot_get_bot : keeps_bot (get_bot (W := W)).
Proof. intros st. reflexivity. Qed.

Lemma keeps_bot_get_start_equity : keeps_bot (get_start_equity (W := W)).
Proof. intros st. reflexivity. Qed.

Lemma keeps_bot_put_start_equity (e : option R) :
  keeps_bot (put_start_equity (W := W) e).
Proof. intros st. reflexivity. Qed.

End Frame.

Create HintDb frame.

#[export] Hint Resolve keeps_bot_ret keeps_bot_raise keeps_bot_lift
  keeps_bot_call keeps_bot_call_total keeps_bot_get_bot
  keeps_bot_get_start_equity keeps_bot_put_start_equity : frame.

(** Splits a sequence of binds and branches into its calls. *)
Ltac frame :=
  repeat first
    [ progress auto with frame
    | apply keeps_bot_bind; [| intros ?]
    | match goal with
      | |- keeps_bot (if ?b then _ else _) => destruct b
      | |- keeps_bot (match ?x with _ => _ end) => destruct x
      end ].

End MonadFacts.

(** ** mt5_bridge.py: the risk manager *)

Module RiskFacts.
Import Data Monad MonadFacts.
Local Open Scope monad_scope.

Section RiskManager.

Context {W : Type} (env : World W) (cfg : RiskConfig).

Lemma keeps_bot_account_info : keeps_bot (Risk.account_info env).
Proof. unfold Risk.account_info. frame. Qed.

Lemma keeps_bot_is_trading_allowed : keeps_bot (Risk.is_trading_allowed env cfg).
Proof.
  unfold Risk.is_trading_allowed, Risk.kill_switch_check,
    Risk.refresh_start_equity, Risk.daily_pnl_realized, Risk.floating_pnl,
    Risk.account_info.
  frame.
Qed.

(** One run of [is_trading_allowed] with a recorded start equity and an
    answering terminal: the verdict, and the calls made. *)
Lemma is_trading_allowed_run (st : State W) (s0 equity : R) (w1 w2 w3 : W)
      (deals : option (list R)) (ps : list R) :
  start_equity st = Some s0 ->
  account_info_equity env (world st) = (Ok equity, w1) ->
  history_deals_get env w1 = (deals, w2) ->
  positions_get env w2 = (ps, w3) ->
  let dd := equity - s0 in
  let total_today := Risk.realized_of deals + Utils.Rsum ps in
  Risk.is_trading_allowed env cfg st =
  if enforce_kill_switch cfg && Rleb dd (- Rabs (max_total_drawdown_usd cfg))
  then (Ok (false, KILL_SWITCH dd),
        Build_State (bot st) (Some s0) w1 (trace st ++ [EvAccountInfo]))
  else (Ok (Risk.verdict_of cfg dd total_today),
        Build_State (bot st) (Some s0) w3
          (trace st ++ [EvAccountInfo; EvHistoryDeals; EvPositionsGet])).
Proof.
  intros Hs Ha Hd Hp dd total_today. subst dd total_today.
  unfold Risk.is_trading_allowed, Risk.kill_switch_check, Risk.account_info,
    Risk.daily_pnl_realized, Risk.floating_pnl, Risk.verdict_of,
    Risk.realized_of.
  unfold bind, call, call_total, get_start_equity, ret. cbn.
  rewrite Ha. cbn.
  destruct (enforce_kill_switch cfg); cbn.
  - rewrite Hs. cbn.
    destruct (Rleb (equity - s0) (- Rabs (max_total_drawdown_usd cfg))); cbn.
    + reflexivity.
    + rewrite Hd. cbn. rewrite Hp. cbn.
      rewrite <- !app_assoc. cbn.
      match goal with |- context [Rleb ?x ?y] => destruct (Rleb x y) end;
        reflexivity.
  - rewrite Hd. cbn. rewrite Hp. cbn.
    rewrite <- !app_assoc. cbn. rewrite Hs.
    match goal with |- context [Rleb ?x ?y] => destruct (Rleb x y) end;
      reflexivity.
Qed.

Lemma is_trading_allowed_ok (st : State W) (s0 equity : R) (w1 w2 w3 : W)
      (deals : option (list R)) (ps : list R) :
  start_equity st = Some s0 ->
  account_info_equity env (world st) = (Ok equity, w1) ->
  history_deals_get env w1 = (deals, w2) ->
  positions_get env w2 = (ps, w3) ->
  Risk.verdict_of cfg (equity - s0) (Risk.realized_of deals + Utils.Rsum ps)
  = (true, OK) ->
  Risk.is_trading_allowed env cfg st
  = (Ok (true, OK),
     Build_State (bot st) (Some s0) w3
       (trace st ++ [EvAccountInfo; EvHistoryDeals; EvPositionsGet])).
Proof.
  intros Hs Ha Hd Hp Hv.
  rewrite (is_trading_allowed_run st s0 equity w1 w2 w3 deals ps Hs Ha Hd Hp).
  rewrite Hv. unfold Risk.verdict_of in Hv.
  destruct (enforce_kill_switch cfg
            && Rleb (equity - s0) (- Rabs (max_total_drawdown_usd cfg)));
    [discriminate | reflexivity].
Qed.

End RiskManager.

End RiskFacts.

(** ** Claim on the risk manager *)

(** C9, as the code has it.  With a start equity recorded and the
    terminal answering, [is_trading_allowed] refuses with the kill-switch
    reason exactly when [enforce_kill_switch] is set and the drawdown
    (equity minus start equity) is at or below minus the drawdown limit;
    otherwise it refuses with the daily-limit reason exactly when the
    day's realized plus floating result is at or below minus the daily
    limit; otherwise it allows. *)
Theorem C9_is_trading_allowed_verdict
        (W : Type) (env : Data.World W) (cfg : Data.RiskConfig)
        (st : Data.State W) (s0 equity : R) (w1 w2 w3 : W)
        (deals : option (list R)) (ps : list R) :
  Data.start_equity st = Some s0 ->
  Data.account_info_equity env (Data.world st) = (Ok equity, w1) ->
  Data.history_deals_get env w1 = (deals, w2) ->
  Data.positions_get env w2 = (ps, w3) ->
  fst (Risk.is_trading_allowed env cfg st)
  = Ok (Risk.verdict_of cfg (equity - s0)
                        (Risk.realized_of deals + Utils.Rsum ps)).
Proof.
  intros Hs Ha Hd Hp.
  rewrite (RiskFacts.is_trading_allowed_run env cfg st s0 equity w1 w2 w3 deals ps)
    by assumption.
  unfold Risk.verdict_of.
  destruct (Data.enforce_kill_switch cfg
            && Rleb (equity - s0) (- Rabs (Data.max_total_drawdown_usd cfg)));
    reflexivity.
Qed.

Lemma C9_is_trading_allowed_verdict_witness :
  (Data.start_equity (Samples.fresh_state 1000) = Some 1000 /\
   Data.account_info_equity (Samples.steady_world Samples.no_history 400 0 0 101)
     (Data.world (Samples.fresh_state 1000)) = (Ok 400, tt)) /\
  fst (Risk.is_trading_allowed
         (Samples.steady_world Samples.no_history 400 0 0 101)
         Samples.risk_cfg (Samples.fresh_state 1000))
  = Ok (Risk.verdict_of Samples.risk_cfg (400 - 1000)
                        (Risk.realized_of (Some []) + Utils.Rsum [])).
Proof.
  split; [split; reflexivity |].
  apply (C9_is_trading_allowed_verdict unit
           (Samples.steady_world Samples.no_history 400 0 0 101)
           Samples.risk_cfg (Samples.fresh_state 1000)
           1000 400 tt tt tt (Some []) []); reflexivity.
Defined.

(** C9 as stated fails when the kill switch is not enforced: the equity
    has fallen by 600 against a drawdown limit of 500, and trading is
    allowed. *)
Lemma C9_kill_switch_off_counterexample :
  400 - 1000 <= - Rabs (Data.max_total_drawdown_usd Samples.risk_cfg_no_switch) /\
  fst (Risk.is_trading_allowed
         (Samples.steady_world Samples.no_history 400 0 0 101)
         Samples.risk_cfg_no_switch (Samples.fresh_state 1000))
  = Ok (true, Data.OK).
Proof.
  split.
  - cbn. rewrite Rabs_right by lra. lra.
  - rewrite (RiskFacts.is_trading_allowed_run _ _ _ 1000 400 tt tt tt (Some []) [])
      by reflexivity.
    unfold Risk.verdict_of. cbn.
    destruct (Rleb (0 + 0) (- Rabs 250)) eqn:E; [| reflexivity].
    apply Rleb_true in E. rewrite Rabs_right in E by lra. lra.
Qed.

(** ** portfolio_bot.py: the controller *)

Module BotFacts.
Import Data Monad MonadFacts Bot.
Local Open Scope monad_scope.

(** *** The position table *)

Lemma key_eqb_eq (k1 k2 : Key) : key_eqb k1 k2 = true <-> k1 = k2.
Proof.
  destruct k1 as [a1 b1], k2 as [a2 b2]. unfold key_eqb. cbn.
  rewrite andb_true_iff, !String.eqb_eq. split.
  - intros [-> ->]. reflexivity.
  - intros H. inversion H. auto.
Qed.

Lemma key_eqb_refl (k : Key) : key_eqb k k = true.
Proof. now apply key_eqb_eq. Qed.

Lemma key_eqb_neq (k1 k2 : Key) : key_eqb k1 k2 = false <-> k1 <> k2.
Proof.
  rewrite <- key_eqb_eq. destruct (key_eqb k1 k2); split; congruence.
Qed.

Lemma pos_get_set_other (k k' : Key) (p : Position) (d : Positions) :
  k <> k' -> pos_get k (pos_set k' p d) = pos_get k d.
Proof.
  intros Hne. induction d as [| [k0 p0] d IH]; cbn.
  - apply key_eqb_neq in Hne. now rewrite Hne.
  - destruct (key_eqb k' k0) eqn:E; cbn.
    + apply key_eqb_eq in E. subst k0.
      apply key_eqb_neq in Hne. now rewrite Hne.
    + now rewrite IH.
Qed.

Lemma pos_get_del_other (k k' : Key) (d : Positions) :
  k <> k' -> pos_get k (pos_del k' d) = pos_get k d.
Proof.
  intros Hne. induction d as [| [k0 p0] d IH]; cbn.
  - reflexivity.
  - destruct (key_eqb k' k0) eqn:E; cbn.
    + apply key_eqb_eq in E. subst k0.
      apply key_eqb_neq in Hne. now rewrite Hne.
    + now rewrite IH.
Qed.

Lemma tickets_live_set (k : Key) (p : Position) (d : Positions) :
  ticket_a p <> 0%Z -> ticket_b p <> 0%Z ->
  tickets_live d -> tickets_live (pos_set k p d).
Proof.
  intros Ha Hb. unfold tickets_live.
  induction 1 as [| [k0 p0] d H0 Hd IH]; cbn.
  - constructor; [cbn; auto | constructor].
  - destruct (key_eqb k k0); constructor; cbn; auto.
Qed.

Lemma tickets_live_del (k : Key) (d : Positions) :
  tickets_live d -> tickets_live (pos_del k d).
Proof.
  unfold tickets_live.
  induction 1 as [| [k0 p0] d H0 Hd IH]; cbn.
  - constructor.
  - destruct (key_eqb k k0); [assumption | constructor; auto].
Qed.

Lemma length_pos_set_new (k : Key) (p : Position) (d : Positions) :
  pos_mem k d = false -> length (pos_set k p d) = S (length d).
Proof.
  unfold pos_mem. induction d as [| [k0 p0] d IH]; cbn.
  - reflexivity.
  - destruct (key_eqb k k0); [discriminate |]. intros H. cbn. now rewrite IH.
Qed.

Lemma pos_mem_set_other (k k' : Key) (p : Position) (d : Positions) :
  k <> k' -> pos_mem k (pos_set k' p d) = pos_mem k d.
Proof. intros H. unfold pos_mem. now rewrite pos_get_set_other. Qed.

(** *** Relations on controllers *)

Lemma only_at_refl (key : Key) (c : Controller) : only_at key c c.
Proof. split; auto. Qed.

Section Controller.

Context {W : Type} (env : World W) (rcfg : RiskConfig) (cfg : Config).

(** *** The calls of the collaborators do not touch the controller *)

Lemma keeps_bot_time_time : keeps_bot (time_time env).
Proof. unfold time_time. frame. Qed.

Lemma keeps_bot_time_sleep (s : R) : keeps_bot (time_sleep env s).
Proof. unfold time_sleep. frame. Qed.

Lemma keeps_bot_fetch_close (s : string) : keeps_bot (feed_fetch_close env cfg s).
Proof. unfold feed_fetch_close. frame. Qed.

Lemma keeps_bot_fetch_last (s : string) : keeps_bot (feed_fetch_last env s).
Proof. unfold feed_fetch_last. frame. Qed.

Lemma keeps_bot_open (s side : string) (v : R) :
  keeps_bot (mt5c_open_position env s side v).
Proof. unfold mt5c_open_position. frame. Qed.

Lemma keeps_bot_close (t : Z) : keeps_bot (mt5c_close_position_by_ticket env t).
Proof. unfold mt5c_close_position_by_ticket. frame. Qed.

Lemma keeps_bot_calc_volume (s : string) (e sl : R) :
  keeps_bot (rm_calc_volume_for_risk env s e sl).
Proof. unfold rm_calc_volume_for_risk. frame. Qed.

Hint Resolve keeps_bot_time_time keeps_bot_time_sleep keeps_bot_fetch_close
  keeps_bot_fetch_last keeps_bot_open keeps_bot_close keeps_bot_calc_volume
  RiskFacts.keeps_bot_is_trading_allowed : frame.

Lemma keeps_bot_compute_signal (a b : string) :
  keeps_bot (_compute_signal env cfg a b).
Proof. unfold _compute_signal. frame. Qed.

Lemma keeps_bot_enter_attempts (n : nat) (a b sa sb : string) (va vb : R) :
  forall ta tb, keeps_bot (enter_attempts env n a b sa sb va vb ta tb).
Proof.
  induction n as [| n IH]; intros ta tb; cbn [enter_attempts]; frame.
Qed.

Hint Resolve keeps_bot_compute_signal keeps_bot_enter_attempts : frame.

(** *** [_can_trade] *)

Lemma can_trade_halted (b : bool) (st : State W) :
  halted (bot st) = true -> _can_trade env rcfg b st = (Ok false, st).
Proof.
  intros H. unfold _can_trade, bind, get_bot. now rewrite H.
Qed.

(** [_can_trade] leaves the controller alone or sets its halted flag;
    it answers yes only when it leaves it alone. *)
Lemma can_trade_run (b : bool) (st st' : State W) (r : Res bool) :
  _can_trade env rcfg b st = (r, st') ->
  bot st' = bot st \/
  (r <> Ok true /\
   bot st' = {| positions := positions (bot st);
                cooldown_until_ts := cooldown_until_ts (bot st);
                halted := true;
                consecutive_errors := consecutive_errors (bot st) |}).
Proof.
  destruct (halted (bot st)) eqn:Hh.
  { rewrite can_trade_halted by assumption. intros E. inversion E. auto. }
  unfold _can_trade. unfold bind at 1, get_bot. rewrite Hh.
  assert (Hrisk : forall st1 : State W, bot st1 = bot st ->
    bind (Risk.is_trading_allowed env rcfg)
         (fun verdict => if negb (fst verdict)
                         then bind (set_halted true) (fun _ => ret false)
                         else ret true) st1 = (r, st') ->
    bot st' = bot st \/
    (r <> Ok true /\
     bot st' = {| positions := positions (bot st);
                  cooldown_until_ts := cooldown_until_ts (bot st);
                  halted := true;
                  consecutive_errors := consecutive_errors (bot st) |})).
  { intros st1 H1. unfold bind at 1.
    pose proof (RiskFacts.keeps_bot_is_trading_allowed env rcfg st1) as K.
    destruct (Risk.is_trading_allowed env rcfg st1) as [[v | e] st2]; cbn in K.
    - destruct (negb (fst v)); cbn; intros E; inversion E; subst; cbn.
      + right. split; [discriminate |]. now rewrite K, H1.
      + left. congruence.
    - intros E. inversion E; subst. left. congruence. }
  destruct b.
  - unfold bind at 1. unfold bind at 1.
    unfold time_time at 1, call_total.
    destruct (time env (world st)) as [now w1]. cbn [fst snd].
    destruct (Rltb now (cooldown_until_ts (bot st))).
    + unfold bind at 1. unfold time_time, call_total. cbn.
      destruct (time env w1) as [now' w2]. cbn.
      intros E. inversion E. auto.
    + cbn [ret]. apply Hrisk. reflexivity.
  - unfold bind at 1. cbn [ret]. apply Hrisk. reflexivity.
Qed.

(** [_can_trade] writes nothing but the halted flag, and only sets it. *)
Lemma can_trade_effect (b : bool) (st : State W) :
  let c := bot st in
  let c' := bot (snd (_can_trade env rcfg b st)) in
  positions c' = positions c /\
  cooldown_until_ts c' = cooldown_until_ts c /\
  consecutive_errors c' = consecutive_errors c /\
  (halted c = true -> halted c' = true).
Proof.
  cbv zeta. destruct (_can_trade env rcfg b st) as [r st'] eqn:E.
  destruct (can_trade_run b st st' r E) as [H | [_ H]]; cbn [snd];
    rewrite H; cbn; auto.
Qed.

(** When [_can_trade] answers yes, the controller is as before and was
    not halted. *)
Lemma can_trade_true (b : bool) (st st' : State W) :
  _can_trade env rcfg b st = (Ok true, st') ->
  bot st' = bot st /\ halted (bot st) = false.
Proof.
  intros H. split.
  - destruct (can_trade_run b st st' _ H) as [E | [E _]]; congruence.
  - destruct (halted (bot st)) eqn:Hh; [| reflexivity].
    rewrite can_trade_halted in H by assumption. discriminate.
Qed.

(** Inside the cooldown window the entry check answers no, after two
    readings of the clock and without asking the risk manager. *)
Lemma can_trade_cooldown (st : State W) (now now' : R) (w1 w2 : W) :
  halted (bot st) = false ->
  time env (world st) = (now, w1) ->
  time env w1 = (now', w2) ->
  now < cooldown_until_ts (bot st) ->
  _can_trade env rcfg true st
  = (Ok false,
     Build_State (bot st) (start_equity st) w2 (trace st ++ [EvTime; EvTime])).
Proof.
  intros Hh H1 H2 Hlt.
  unfold _can_trade, bind, get_bot, time_time, call_total. rewrite Hh. cbn.
  rewrite H1. cbn. apply Rltb_true in Hlt. rewrite Hlt. cbn.
  rewrite H2. cbn. now rewrite <- app_assoc.
Qed.

(** *** The retry loop of [_live_enter] *)

Lemma enter_attempts_run (n : nat) (a b sa sb : string) (va vb : R) :
  forall (tb : Z) (st st' : State W) (r : Res (Z * Z)),
    enter_attempts env n a b sa sb va vb 0%Z tb st = (r, st') ->
    exists evs out,
      entry_run a b sa sb va vb n evs out /\
      trace st' = trace st ++ evs /\
      bot st' = bot st /\
      r = match out with
          | Opened ta tb' => Ok (ta, tb')
          | GivenUp => Ok (0%Z, tb)
          | Aborted e => Raise e
          end.
Proof.
  induction n as [| n IH]; intros tb st st' r H.
  - cbn in H. inversion H; subst.
    exists [], GivenUp. rewrite app_nil_r. repeat split. constructor.
  - cbn [enter_attempts] in H.
    unfold bind at 1, mt5c_open_position at 1, call in H.
    destruct (open_position env a sa va (world st)) as [[ra | e] w1].
    2:{ inversion H; subst. cbn.
        exists [EvOpen a sa va (Raise e)], (Aborted e).
        repeat split. constructor. constructor. }
    destruct (open_ok ra) eqn:Hra.
    + unfold bind at 1, mt5c_open_position at 1, call in H. cbn in H.
      destruct (open_position env b sb vb w1) as [[rb | e] w2].
      2:{ inversion H; subst. cbn.
          exists [EvOpen a sa va (Ok ra); EvOpen b sb vb (Raise e)], (Aborted e).
          rewrite <- app_assoc. repeat split.
          constructor. now constructor. }
      destruct (open_ok rb) eqn:Hrb.
      * inversion H; subst. cbn.
        exists [EvOpen a sa va (Ok ra); EvOpen b sb vb (Ok rb)],
               (Opened (order ra) (order rb)).
        rewrite <- app_assoc. repeat split. now constructor.
      * unfold bind at 1, mt5c_close_position_by_ticket at 1, call in H.
        cbn in H.
        destruct (close_position_by_ticket env (order ra) w2) as [[rc | e] w3].
        2:{ inversion H; subst. cbn.
            exists [EvOpen a sa va (Ok ra); EvOpen b sb vb (Ok rb);
                    EvClose (order ra) (Raise e)], (Aborted e).
            rewrite <- !app_assoc. repeat split.
            constructor. now constructor. }
        cbn in H. apply IH in H. destruct H as [evs [out [Hrun [Htr [Hbot Hr]]]]].
        cbn in Htr, Hbot.
        exists ([EvOpen a sa va (Ok ra); EvOpen b sb vb (Ok rb);
                 EvClose (order ra) (Ok rc); EvSleep 1] ++ evs), out.
        repeat split; try assumption.
        -- apply run_retry; [now constructor | assumption].
        -- rewrite Htr, <- !app_assoc. reflexivity.
    + cbn in H. apply IH in H. destruct H as [evs [out [Hrun [Htr [Hbot Hr]]]]].
      cbn in Htr, Hbot.
      exists ([EvOpen a sa va (Ok ra); EvSleep 1] ++ evs), out.
      repeat split; try assumption.
      * apply run_retry; [now constructor | assumption].
      * rewrite Htr, <- !app_assoc. reflexivity.
Qed.

(** *** [_live_enter] *)

Lemma live_enter_run (a b action : string) (pa pb : R)
      (st st' : State W) (r : Res unit) :
  _live_enter env a b action pa pb st = (r, st') ->
  entry_report a b action pa pb st st'.
Proof.
  unfold _live_enter. fold (side_a_of action). fold (side_b_of action).
  unfold bind at 1, rm_calc_volume_for_risk at 1, call.
  destruct (calc_volume_for_risk env a pa (pa * (95 / 100)) (world st))
    as [[va | e] w1].
  2:{ intros H. inversion H; subst.
      apply (entry_not_sized _ _ _ _ _ _ _ [EvCalcVolume a]); cbn; auto.
      constructor; [now exists a | constructor]. }
  unfold bind at 1, rm_calc_volume_for_risk at 1, call. cbn -[enter_attempts].
  destruct (calc_volume_for_risk env b pb (pb * (95 / 100)) w1)
    as [[vb | e] w2].
  2:{ intros H. inversion H; subst.
      apply (entry_not_sized _ _ _ _ _ _ _ [EvCalcVolume a; EvCalcVolume b]);
        cbn; auto.
      - now rewrite <- app_assoc.
      - constructor; [now exists a |]. constructor; [now exists b |].
        constructor. }
  unfold bind at 1.
  match goal with
  | |- context [enter_attempts env ?n ?a ?b ?sa ?sb ?va ?vb 0%Z 0%Z ?s] =>
      destruct (enter_attempts env n a b sa sb va vb 0%Z 0%Z s)
        as [rt st1] eqn:E
  end.
  apply enter_attempts_run in E.
  destruct E as [evs [out [Hrun [Htr [Hbot Hr]]]]]. cbn in Htr, Hbot.
  rewrite <- !app_assoc in Htr. cbn in Htr.
  destruct out as [ta tb | | e]; subst rt.
  - cbn [fst snd].
    destruct (negb (ta =? 0)%Z && negb (tb =? 0)%Z) eqn:Hz.
    + apply andb_true_iff in Hz. destruct Hz as [Hza Hzb].
      apply negb_true_iff in Hza, Hzb. apply Z.eqb_neq in Hza, Hzb.
      unfold bind at 1, time_time at 1, call_total.
      destruct (time env (world st1)) as [now w3]. cbn.
      intros H. inversion H; subst. cbn.
      eapply entry_recorded; try eassumption.
      * rewrite Htr. rewrite <- !app_assoc. reflexivity.
      * rewrite Hbot. reflexivity.
    + intros H. inversion H; subst.
      eapply entry_dropped; try eassumption.
      intros ta' tb' Ho. inversion Ho; subst.
      apply andb_false_iff in Hz.
      destruct Hz as [Hz | Hz]; apply negb_false_iff in Hz;
        apply Z.eqb_eq in Hz; auto.
  - cbn. intros H. inversion H; subst.
    eapply entry_dropped; try eassumption. discriminate.
  - intros H. inversion H; subst.
    eapply entry_dropped; try eassumption. discriminate.
Qed.

(** [_live_enter] changes the table at its own key only, and only by a
    position with two nonzero tickets; nothing else is written. *)
Lemma live_enter_effect (a b action : string) (pa pb : R)
      (st st' : State W) (r : Res unit) :
  _live_enter env a b action pa pb st = (r, st') ->
  bot st' = bot st \/
  exists p, ticket_a p <> 0%Z /\ ticket_b p <> 0%Z /\
            bot st' = with_positions (bot st) (pos_set (a, b) p (positions (bot st))).
Proof.
  intros H. apply live_enter_run in H.
  destruct H as [evs _ _ Hb | va vb evs ta tb now _ Hta Htb _ Hb | va vb evs out _ _ _ Hb].
  - now left.
  - right. eexists. split; [| split; [| exact Hb]]; cbn; assumption.
  - now left.
Qed.

(** *** [_live_exit] *)

Lemma pos_get_mem (k : Key) (d : Positions) (p : Position) :
  pos_get k d = Some p -> pos_mem k d = true.
Proof. unfold pos_mem. now intros ->. Qed.

(** One exit in which both closes are answered: the calls, the cooldown
    and the table afterwards. *)
Lemma live_exit_run (key : Key) (st : State W) (pos : Position)
      (ra rb : CloseReply) (w1 w2 : W) :
  pos_get key (positions (bot st)) = Some pos ->
  close_position_by_ticket env (ticket_a pos) (world st) = (Ok ra, w1) ->
  close_position_by_ticket env (ticket_b pos) w1 = (Ok rb, w2) ->
  _live_exit env key st =
  if Rltb (pnl_of ra + pnl_of rb) 0
  then
    (Ok tt,
     Build_State
       {| positions := pos_del key (positions (bot st));
          cooldown_until_ts := fst (time env w2) + 30 * 60;
          halted := halted (bot st);
          consecutive_errors := consecutive_errors (bot st) |}
       (start_equity st) (snd (time env w2))
       (trace st ++ [EvClose (ticket_a pos) (Ok ra);
                     EvClose (ticket_b pos) (Ok rb); EvTime]))
  else
    (Ok tt,
     Build_State
       (with_positions (bot st) (pos_del key (positions (bot st))))
       (start_equity st) w2
       (trace st ++ [EvClose (ticket_a pos) (Ok ra);
                     EvClose (ticket_b pos) (Ok rb)])).
Proof.
  intros Hg Ha Hb.
  unfold _live_exit, bind, get_bot, mt5c_close_position_by_ticket, call,
    time_time, call_total, set_cooldown_until_ts, set_positions, put_bot, ret.
  cbn. rewrite Hg, Ha. cbn. rewrite Hb. cbn.
  destruct (Rltb (pnl_of ra + pnl_of rb) 0); cbn.
  - destruct (time env w2) as [now w3]. cbn.
    rewrite (pos_get_mem _ _ _ Hg). cbn. rewrite <- !app_assoc. reflexivity.
  - rewrite (pos_get_mem _ _ _ Hg). cbn. rewrite <- !app_assoc. reflexivity.
Qed.

(** [_live_exit] either raises and writes nothing, or removes its key;
    the halted flag and the error counter are not written. *)
Lemma live_exit_effect (key : Key) (st st' : State W) (r : Res unit) :
  _live_exit env key st = (r, st') ->
  bot st' = bot st \/
  (positions (bot st') = pos_del key (positions (bot st)) /\
   halted (bot st') = halted (bot st) /\
   consecutive_errors (bot st') = consecutive_errors (bot st)).
Proof.
  destruct (pos_get key (positions (bot st))) as [pos |] eqn:Hg.
  2:{ unfold _live_exit, bind, get_bot. rewrite Hg. cbn.
      intros H. inversion H. now left. }
  destruct (close_position_by_ticket env (ticket_a pos) (world st))
    as [[ra | e] w1] eqn:Ha.
  2:{ unfold _live_exit, bind, get_bot, mt5c_close_position_by_ticket, call.
      rewrite Hg. cbn. rewrite Ha.
      intros H. inversion H. now left. }
  destruct (close_position_by_ticket env (ticket_b pos) w1)
    as [[rb | e] w2] eqn:Hb.
  2:{ unfold _live_exit, bind, get_bot, mt5c_close_position_by_ticket, call.
      rewrite Hg. cbn. rewrite Ha. cbn. rewrite Hb.
      intros H. inversion H. now left. }
  rewrite (live_exit_run key st pos ra rb w1 w2 Hg Ha Hb).
  destruct (Rltb (pnl_of ra + pnl_of rb) 0); intros H; inversion H; cbn;
    right; auto.
Qed.

(** *** One iteration of the loop of [step] *)

Lemma keeps_bot_eq {A : Type} (m : M W A) (st st' : State W) (r : Res A) :
  keeps_bot m -> m st = (r, st') -> bot st' = bot st.
Proof. intros K H. specialize (K st). now rewrite H in K. Qed.

(** The branch of [step] on the action: exit, guarded entry, or nothing. *)
Lemma dispatch_effect (a b action : string) (pa pb : R) (c : Controller)
      (st st' : State W) (r : Res unit) :
  (if String.eqb action "EXIT" && pos_mem (a, b) (positions c)
   then _live_exit env (a, b)
   else if String.prefix "ENTER" action && negb (pos_mem (a, b) (positions c))
   then bind (_can_trade env rcfg true)
             (fun ok : bool =>
                if ok then _live_enter env a b action pa pb else ret tt)
   else ret tt) st = (r, st') ->
  consecutive_errors (bot st') = consecutive_errors (bot st) /\
  only_at (a, b) (bot st) (bot st').
Proof.
  destruct (String.eqb action "EXIT" && pos_mem (a, b) (positions c)).
  { intros H. apply live_exit_effect in H.
    destruct H as [H | [Hp [Hh He]]].
    - rewrite H. split; [reflexivity | apply only_at_refl].
    - split; [assumption |]. split; [congruence | auto]. }
  destruct (String.prefix "ENTER" action && negb (pos_mem (a, b) (positions c))).
  2:{ intros H. inversion H. split; [reflexivity | apply only_at_refl]. }
  unfold bind at 1.
  destruct (_can_trade env rcfg true st) as [[ok | e] st1] eqn:Ec.
  2:{ intros H. inversion H; subst.
      apply can_trade_run in Ec. destruct Ec as [E | [_ E]]; rewrite E; cbn.
      - split; [reflexivity | apply only_at_refl].
      - split; [reflexivity |]. split; auto. }
  destruct ok.
  - apply can_trade_true in Ec. destruct Ec as [E1 _].
    intros H. apply live_enter_effect in H.
    destruct H as [H | [p [Hta [Htb H]]]]; rewrite H, E1; cbn.
    + split; [reflexivity | apply only_at_refl].
    + split; [reflexivity |]. split; [auto |]. right. right. now exists p.
  - intros H. inversion H; subst.
    apply can_trade_run in Ec. destruct Ec as [E | [_ E]]; rewrite E; cbn.
    + split; [reflexivity | apply only_at_refl].
    + split; [reflexivity |]. split; auto.
Qed.

(** The body of the [try]: it resets the error counter when it returns
    and leaves it alone when it raises. *)
Lemma step_body_run (key : Key) (st st' : State W) (r : Res unit) :
  step_body env rcfg cfg key st = (r, st') ->
  only_at key (bot st) (bot st') /\
  match r with
  | Ok _ => consecutive_errors (bot st') = 0%nat
  | Raise _ => consecutive_errors (bot st') = consecutive_errors (bot st)
  end.
Proof.
  destruct key as [a b]. unfold step_body.
  unfold bind at 1.
  destruct (_compute_signal env cfg a b st) as [[sig | e] st1] eqn:E1.
  2:{ intros H. inversion H; subst.
      apply (keeps_bot_eq _ _ _ _ (keeps_bot_compute_signal a b)) in E1.
      rewrite E1. split; [apply only_at_refl | reflexivity]. }
  apply (keeps_bot_eq _ _ _ _ (keeps_bot_compute_signal a b)) in E1.
  unfold bind at 1.
  destruct (feed_fetch_last env a st1) as [[pa | e] st2] eqn:E2.
  2:{ intros H. inversion H; subst.
      apply (keeps_bot_eq _ _ _ _ (keeps_bot_fetch_last a)) in E2.
      rewrite E2, E1. split; [apply only_at_refl | reflexivity]. }
  apply (keeps_bot_eq _ _ _ _ (keeps_bot_fetch_last a)) in E2.
  unfold bind at 1.
  destruct (feed_fetch_last env b st2) as [[pb | e] st3] eqn:E3.
  2:{ intros H. inversion H; subst.
      apply (keeps_bot_eq _ _ _ _ (keeps_bot_fetch_last b)) in E3.
      rewrite E3, E2, E1. split; [apply only_at_refl | reflexivity]. }
  apply (keeps_bot_eq _ _ _ _ (keeps_bot_fetch_last b)) in E3.
  unfold bind at 1, get_bot at 1. unfold bind at 1.
  match goal with
  | |- context [(if ?c1 then ?m1 else ?m2) st3] =>
      destruct ((if c1 then m1 else m2) st3) as [[u | e] st4] eqn:E4
  end.
  - apply dispatch_effect in E4. destruct E4 as [He Ho].
    unfold set_consecutive_errors, bind, get_bot, put_bot.
    intros H. inversion H; subst. cbn.
    rewrite E3, E2, E1 in Ho. destruct Ho as [Hh Hp]. split; [split |]; auto.
  - apply dispatch_effect in E4. destruct E4 as [He Ho].
    intros H. inversion H; subst.
    rewrite E3, E2, E1 in Ho, He. auto.
Qed.

(** The [except] clause: one more consecutive error, the halt at eight,
    the pause. *)
Lemma step_handler_run (e : exn) (st : State W) :
  step_handler env e st =
  (Ok tt,
   Build_State
     {| positions := positions (bot st);
        cooldown_until_ts := cooldown_until_ts (bot st);
        halted := if (8 <=? consecutive_errors (bot st) + 1)%nat
                  then true else halted (bot st);
        consecutive_errors := consecutive_errors (bot st) + 1 |}
     (start_equity st) (sleep env 20 (world st)) (trace st ++ [EvSleep 20])).
Proof.
  unfold step_handler, bind, get_bot, set_consecutive_errors, set_halted,
    put_bot, time_sleep, call_total, ret. cbn -[Nat.leb].
  destruct (8 <=? consecutive_errors (bot st) + 1)%nat; reflexivity.
Qed.

Lemma step_pair_ok (key : Key) (st st1 : State W) (u : unit) :
  step_body env rcfg cfg key st = (Ok u, st1) ->
  step_pair env rcfg cfg key st = (Ok u, st1).
Proof. intros H. unfold step_pair, try_except. now rewrite H. Qed.

Lemma step_pair_raise (key : Key) (st st1 : State W) (e : exn) :
  step_body env rcfg cfg key st = (Raise e, st1) ->
  step_pair env rcfg cfg key st = step_handler env e st1.
Proof. intros H. unfold step_pair, try_except. now rewrite H. Qed.

(** An iteration never raises, and touches the table at its key only. *)
Lemma step_pair_run (key : Key) (st st' : State W) (r : Res unit) :
  step_pair env rcfg cfg key st = (r, st') ->
  r = Ok tt /\ only_at key (bot st) (bot st').
Proof.
  destruct (step_body env rcfg cfg key st) as [[u | e] st1] eqn:E.
  - rewrite (step_pair_ok _ _ _ _ E). intros H. inversion H; subst.
    apply step_body_run in E. destruct u. tauto.
  - rewrite (step_pair_raise _ _ _ _ E), step_handler_run.
    intros H. injection H as <- <-. split; [reflexivity |].
    apply step_body_run in E. destruct E as [[Hh Hp] _].
    split; cbn -[Nat.leb].
    + intros Hc. rewrite (Hh Hc).
      match goal with |- (if ?c then _ else _) = _ => now destruct c end.
    + exact Hp.
Qed.

(** *** The loop and the cycle *)

(** What every iteration and the gate of [step] keep, [step] keeps. *)
Lemma for_pairs_preserves (P : State W -> Prop) :
  (forall key st, P st -> P (snd (step_pair env rcfg cfg key st))) ->
  forall l st, P st -> P (snd (for_pairs env rcfg cfg l st)).
Proof.
  intros Hp. induction l as [| key l IH]; intros st Hst; cbn.
  - assumption.
  - unfold bind. specialize (Hp key st Hst).
    destruct (step_pair env rcfg cfg key st) as [[u | e] st1]; cbn in *.
    + now apply IH.
    + assumption.
Qed.

Lemma step_preserves (P : State W -> Prop) :
  (forall st, P st -> P (snd (_can_trade env rcfg false st))) ->
  (forall key st, P st -> P (snd (step_pair env rcfg cfg key st))) ->
  forall pairs st, P st -> P (snd (step env rcfg cfg pairs st)).
Proof.
  intros Hg Hp pairs st Hst. unfold step. unfold bind at 1.
  specialize (Hg st Hst).
  destruct (_can_trade env rcfg false st) as [[ok | e] st1]; cbn in Hg.
  - destruct ok; cbn [negb].
    + unfold bind at 1, get_bot at 1. now apply for_pairs_preserves.
    + assumption.
  - assumption.
Qed.

Lemma step_halted (pairs : list Key) (st : State W) :
  halted (bot st) = true -> step env rcfg cfg pairs st = (Ok tt, st).
Proof.
  intros H. unfold step. unfold bind at 1.
  now rewrite can_trade_halted by assumption.
Qed.

(** Positions with nonzero tickets only: an invariant of [step]. *)
Lemma only_at_tickets_live (key : Key) (c c' : Controller) :
  only_at key c c' -> tickets_live (positions c) -> tickets_live (positions c').
Proof.
  intros [_ [H | [H | [p [Ha [Hb H]]]]]] Hl; rewrite H.
  - assumption.
  - now apply tickets_live_del.
  - now apply tickets_live_set.
Qed.

Lemma step_tickets_live (pairs : list Key) (st : State W) :
  tickets_live (positions (bot st)) ->
  tickets_live (positions (bot (snd (step env rcfg cfg pairs st)))).
Proof.
  apply (step_preserves (fun s => tickets_live (positions (bot s)))).
  - intros s Hs. destruct (can_trade_effect false s) as [Hp _].
    cbv zeta in Hp. now rewrite Hp.
  - intros key s Hs.
    destruct (step_pair env rcfg cfg key s) as [r s'] eqn:E.
    apply step_pair_run in E. destruct E as [_ Ho]. cbn.
    now apply (only_at_tickets_live key (bot s)).
Qed.

(** *** Consecutive errors *)

Lemma failing_run_counts (n : nat) (st st' : State W) :
  failing_run env rcfg cfg n st st' ->
  consecutive_errors (bot st') = (consecutive_errors (bot st) + n)%nat /\
  (halted (bot st) = true -> halted (bot st') = true) /\
  ((0 < n)%nat -> (8 <= consecutive_errors (bot st) + n)%nat ->
   halted (bot st') = true).
Proof.
  induction 1 as [st | n st st1 st2 Hgate Hrun IH | n key st e st1 st2 Hbody Hrun IH].
  - repeat split; auto; lia.
  - apply can_trade_true in Hgate. destruct Hgate as [Hb _].
    rewrite Hb in IH. exact IH.
  - rewrite (step_pair_raise _ _ _ _ Hbody), step_handler_run in IH.
    cbn -[Nat.leb] in IH.
    apply step_body_run in Hbody. destruct Hbody as [[Hh _] He].
    rewrite He in IH. destruct IH as [IH1 [IH2 IH3]].
    split; [lia |]. split.
    + intros Hc. apply IH2. rewrite (Hh Hc).
      now destruct (8 <=? consecutive_errors (bot st) + 1)%nat.
    + intros _ H8. destruct n as [| n].
      * apply IH2.
        assert (E : (8 <=? consecutive_errors (bot st) + 1)%nat = true)
          by (apply Nat.leb_le; lia).
        now rewrite E.
      * apply IH3; lia.
Qed.

(** *** Thin history *)

Lemma length_tail_le {A : Type} (n : nat) (l : list A) :
  (length (Utils.tail n l) <= length l)%nat.
Proof. unfold Utils.tail. rewrite length_skipn. lia. Qed.

Lemma compute_signal_thin (a b : string) (st st1 st2 : State W)
      (ca cb : Utils.Series) :
  thin_history env cfg a \/ thin_history env cfg b ->
  feed_fetch_close env cfg a st = (Ok ca, st1) ->
  feed_fetch_close env cfg b st1 = (Ok cb, st2) ->
  _compute_signal env cfg a b st = (Ok ("SKIP"%string, 0, 1, not_enough_data), st2).
Proof.
  intros Hthin Ha Hb. unfold _compute_signal.
  rewrite (bind_ok _ _ _ _ _ Ha). rewrite (bind_ok _ _ _ _ _ Hb).
  assert (Hshort :
    ((length (Utils.tail (lookback cfg) (Utils.log_prices ca)) <? 120)
     || (length (Utils.tail (lookback cfg) (Utils.log_prices cb)) <? 120))%nat
    = true).
  { apply orb_true_iff.
    destruct Hthin as [Ht | Ht]; [left | right]; apply Nat.ltb_lt.
    - specialize (Ht (world st)).
      unfold feed_fetch_close, call in Ha.
      destruct (fetch_close env a (timeframe cfg) (lookback cfg) (world st))
        as [ra wa]. cbn in Ht. inversion Ha; subst.
      pose proof (length_tail_le (lookback cfg) (Utils.log_prices ca)). lia.
    - specialize (Ht (world st1)).
      unfold feed_fetch_close, call in Hb.
      destruct (fetch_close env b (timeframe cfg) (lookback cfg) (world st1))
        as [rb wb]. cbn in Ht. inversion Hb; subst.
      pose proof (length_tail_le (lookback cfg) (Utils.log_prices cb)). lia. }
  cbv zeta. rewrite Hshort. reflexivity.
Qed.

(** With a thin leg the iteration for the pair leaves the table as it is. *)
Lemma step_pair_thin (a b : string) (st : State W) :
  thin_history env cfg a \/ thin_history env cfg b ->
  positions (bot (snd (step_pair env rcfg cfg (a, b) st))) = positions (bot st).
Proof.
  intros Hthin.
  assert (Hbody : forall r st1, step_body env rcfg cfg (a, b) st = (r, st1) ->
                                positions (bot st1) = positions (bot st)).
  { intros r st1. unfold step_body. unfold bind at 1.
    destruct (_compute_signal env cfg a b st) as [[sig | e] s1] eqn:E1.
    2:{ intros H. inversion H; subst.
        now rewrite (keeps_bot_eq _ _ _ _ (keeps_bot_compute_signal a b) E1). }
    assert (Hsig : sig = ("SKIP"%string, 0, 1, not_enough_data)).
    { destruct (feed_fetch_close env cfg a st) as [[ca | e] sa] eqn:Ea.
      2:{ unfold _compute_signal in E1. rewrite (bind_raise _ _ _ _ _ Ea) in E1.
          discriminate. }
      destruct (feed_fetch_close env cfg b sa) as [[cb | e] sb] eqn:Eb.
      2:{ unfold _compute_signal in E1. rewrite (bind_ok _ _ _ _ _ Ea) in E1.
          rewrite (bind_raise _ _ _ _ _ Eb) in E1. discriminate. }
      rewrite (compute_signal_thin a b st sa sb ca cb Hthin Ea Eb) in E1.
      congruence. }
    subst sig.
    pose proof (keeps_bot_eq _ _ _ _ (keeps_bot_compute_signal a b) E1) as K1.
    unfold bind at 1.
    destruct (feed_fetch_last env a s1) as [[pa | e] s2] eqn:E2;
      pose proof (keeps_bot_eq _ _ _ _ (keeps_bot_fetch_last a) E2) as K2.
    2:{ intros H. inversion H; subst. congruence. }
    unfold bind at 1.
    destruct (feed_fetch_last env b s2) as [[pb | e] s3] eqn:E3;
      pose proof (keeps_bot_eq _ _ _ _ (keeps_bot_fetch_last b) E3) as K3.
    2:{ intros H. inversion H; subst. congruence. }
    unfold bind, get_bot, set_consecutive_errors, put_bot. cbn.
    intros H. inversion H; subst. cbn. congruence. }
  destruct (step_body env rcfg cfg (a, b) st) as [[u | e] st1] eqn:E.
  - rewrite (step_pair_ok _ _ _ _ E). cbn. eapply Hbody. reflexivity.
  - rewrite (step_pair_raise _ _ _ _ E), step_handler_run. cbn.
    eapply Hbody. reflexivity.
Qed.

Lemma only_at_other (key k : Key) (c c' : Controller) :
  only_at key c c' -> k <> key ->
  pos_get k (positions c') = pos_get k (positions c).
Proof.
  intros [_ [H | [H | [p [_ [_ H]]]]]] Hne; rewrite H.
  - reflexivity.
  - now apply pos_get_del_other.
  - now apply pos_get_set_other.
Qed.

Lemma step_thin (a b : string) (pairs : list Key) (st : State W) :
  thin_history env cfg a \/ thin_history env cfg b ->
  pos_get (a, b) (positions (bot (snd (step env rcfg cfg pairs st))))
  = pos_get (a, b) (positions (bot st)).
Proof.
  intros Hthin.
  apply (step_preserves
           (fun s => pos_get (a, b) (positions (bot s))
                     = pos_get (a, b) (positions (bot st)))).
  - intros s Hs. destruct (can_trade_effect false s) as [Hp _].
    cbv zeta in Hp. now rewrite Hp.
  - intros key s Hs.
    destruct (key_eqb (a, b) key) eqn:Ek.
    + apply key_eqb_eq in Ek. subst key. now rewrite step_pair_thin.
    + apply key_eqb_neq in Ek.
      destruct (step_pair env rcfg cfg key s) as [r s'] eqn:E.
      apply step_pair_run in E. destruct E as [_ Ho]. cbn.
      now rewrite (only_at_other key (a, b) _ _ Ho Ek).
  - reflexivity.
Qed.

End Controller.

End BotFacts.

(** ** The entry against a gateway that answers *)

Module EntryFacts.
Import Data Monad MonadFacts Bot BotFacts.
Local Open Scope monad_scope.

Lemma pos_get_set_same (k : Key) (p : Position) (d : Positions) :
  pos_get k (pos_set k p d) = Some p.
Proof.
  induction d as [| [k0 p0] d IH]; cbn.
  - now rewrite key_eqb_refl.
  - destruct (key_eqb k k0) eqn:E; cbn.
    + now rewrite key_eqb_refl.
    + now rewrite E.
Qed.

Lemma both_live_true (out : loop_end) :
  both_live out = true <->
  exists ta tb, out = BothOpen ta tb /\ ta <> 0%Z /\ tb <> 0%Z.
Proof.
  destruct out as [ta tb |]; cbn.
  - rewrite andb_true_iff, !negb_true_iff, !Z.eqb_neq. split.
    + intros [Ha Hb]. now exists ta, tb.
    + intros [ta' [tb' [E [Ha Hb]]]]. inversion E; subst. auto.
  - split; [discriminate |]. intros [ta [tb [E _]]]. discriminate.
Qed.

Section Entry.

Context {W : Type} (env : World W).

Variables (a b sa sb : string) (va vb : R).

(** The calls of a refused attempt, made by the code. *)
Lemma enter_attempts_refused (n : nat) (w : W) (evs : list Event) (w' : W) :
  refused_attempt env a b sa sb va vb w evs w' ->
  forall (tb : Z) (st : State W),
    world st = w ->
    enter_attempts env (S n) a b sa sb va vb 0%Z tb st
    = enter_attempts env n a b sa sb va vb 0%Z tb
        (Build_State (bot st) (start_equity st) w' (trace st ++ evs)).
Proof.
  intros H tb st Hw. subst w.
  inversion H as [w0 ra w1 Ha Hra | w0 ra w1 rb w2 rc w3 Ha Hra Hb Hrb Hc];
    subst; cbn [enter_attempts].
  - unfold bind at 1, mt5c_open_position at 1, call. rewrite Ha, Hra.
    unfold bind at 1, time_sleep at 1, call_total. cbn.
    now rewrite <- app_assoc.
  - unfold bind at 1, mt5c_open_position at 1, call. rewrite Ha, Hra.
    unfold bind at 1, mt5c_open_position at 1, call. cbn.
    rewrite Hb, Hrb.
    unfold bind at 1, mt5c_close_position_by_ticket at 1, call. cbn.
    rewrite Hc. cbn.
    now rewrite <- !app_assoc.
Qed.

(** A run of the loop on the world is the run of the code. *)
Lemma enter_attempts_loop (n : nat) (w : W) (evs : list Event)
      (out : loop_end) (w' : W) :
  entry_loop env a b sa sb va vb n w evs out w' ->
  forall (tb : Z) (st : State W),
    world st = w ->
    enter_attempts env n a b sa sb va vb 0%Z tb st
    = (Ok match out with
          | BothOpen ta tb' => (ta, tb')
          | AllRefused => (0%Z, tb)
          end,
       Build_State (bot st) (start_equity st) w' (trace st ++ evs)).
Proof.
  induction 1 as [w | n w ra w1 rb w2 Ha Hra Hb Hrb
                  | n w evs w1 rest out w2 Hatt Hloop IH];
    intros tb st Hw.
  - subst w. cbn. rewrite app_nil_r. now destruct st.
  - subst w. cbn [enter_attempts].
    unfold bind at 1, mt5c_open_position at 1, call. rewrite Ha, Hra.
    unfold bind at 1, mt5c_open_position at 1, call. cbn.
    rewrite Hb, Hrb. cbn. now rewrite <- app_assoc.
  - rewrite (enter_attempts_refused n w evs w1 Hatt tb st Hw).
    rewrite IH by reflexivity. cbn. now rewrite <- app_assoc.
Qed.

(** A gateway that answers lets the loop run to its end. *)
Lemma entry_loop_total (n : nat) :
  gateway_answers env ->
  forall w, exists evs out w', entry_loop env a b sa sb va vb n w evs out w'.
Proof.
  intros [Hopen Hclose]. induction n as [| n IH]; intros w.
  - exists [], AllRefused, w. constructor.
  - destruct (Hopen a sa va w) as [ra [w1 Ha]].
    destruct (open_ok ra) eqn:Hra.
    + destruct (Hopen b sb vb w1) as [rb [w2 Hb]].
      destruct (open_ok rb) eqn:Hrb.
      * eexists _, _, _. eapply loop_both_open; eassumption.
      * destruct (Hclose (order ra) w2) as [rc [w3 Hc]].
        destruct (IH (sleep env 1 w3)) as [rest [out [w' Hrest]]].
        eexists _, _, _. eapply loop_retry; [| exact Hrest].
        eapply attempt_b_refused; eassumption.
    + destruct (IH (sleep env 1 w1)) as [rest [out [w' Hrest]]].
      eexists _, _, _. eapply loop_retry; [| exact Hrest].
      eapply attempt_a_refused; eassumption.
Qed.

(** Each attempt sends at most two orders. *)
Lemma entry_loop_orders (n : nat) (w : W) (evs : list Event)
      (out : loop_end) (w' : W) :
  entry_loop env a b sa sb va vb n w evs out w' ->
  (length (opens evs) <= 2 * n)%nat.
Proof.
  induction 1 as [w | n w ra w1 rb w2 Ha Hra Hb Hrb
                  | n w evs w1 rest out w2 Hatt Hloop IH].
  - cbn. lia.
  - cbn. lia.
  - unfold opens in *. rewrite filter_app, length_app.
    assert (length (filter is_open evs) <= 2)%nat.
    { inversion Hatt; subst; cbn; lia. }
    lia.
Qed.

(** An order for leg B that is refused is followed at once by the close
    of the ticket under which leg A was just opened, and by the pause. *)
Lemma entry_loop_compensates (n : nat) (w : W) (evs : list Event)
      (out : loop_end) (w' : W) :
  entry_loop env a b sa sb va vb n w evs out w' ->
  forall pre rb post,
    evs = pre ++ EvOpen b sb vb (Ok rb) :: post ->
    open_ok rb = false ->
    (exists ra, open_ok ra = false /\ b = a /\ sb = sa /\ vb = va /\ rb = ra) \/
    exists pre' ra rc post',
      pre = pre' ++ [EvOpen a sa va (Ok ra)] /\
      open_ok ra = true /\
      post = EvClose (order ra) (Ok rc) :: EvSleep 1 :: post'.
Proof.
  induction 1 as [w | n w ra w1 rb0 w2 Ha Hra Hb Hrb
                  | n w evs w1 rest out w2 Hatt Hloop IH];
    intros pre rb post E Hrb'.
  - destruct pre; discriminate.
  - destruct pre as [| e1 pre]; cbn in E.
    + inversion E; subst. congruence.
    + destruct pre as [| e2 pre]; cbn in E.
      * inversion E; subst. congruence.
      * destruct pre; discriminate.
  - inversion Hatt as [w0 ra w3 Ha Hra | w0 ra w3 rb0 w4 rc w5 Ha Hra Hb Hrb0 Hc];
      subst.
    + destruct pre as [| e1 pre]; cbn in E.
      * inversion E; subst. left. exists rb. auto.
      * destruct pre as [| e2 pre]; cbn in E; [discriminate |].
        inversion E as [[E1 E2 E3]].
        destruct (IH pre rb post E3 Hrb') as [Hl | [pre' [ra' [rc [post' [Hp [Ho Hq]]]]]]].
        -- now left.
        -- right. exists (EvOpen a sa va (Ok ra) :: EvSleep 1 :: pre'), ra', rc, post'.
           subst. repeat split; auto.
    + destruct pre as [| e1 pre]; cbn in E.
      * inversion E; subst. left. exists rb. auto.
      * destruct pre as [| e2 pre]; cbn in E.
        -- inversion E; subst. right.
           exists [], ra, rc, rest. repeat split; auto.
        -- destruct pre as [| e3 pre]; cbn in E; [discriminate |].
           destruct pre as [| e4 pre]; cbn in E; [discriminate |].
           inversion E as [[E1 E2 E3 E4 E5]].
           destruct (IH pre rb post E5 Hrb')
             as [Hl | [pre' [ra' [rc' [post' [Hp [Ho Hq]]]]]]].
           ++ now left.
           ++ right.
              exists (EvOpen a sa va (Ok ra) :: EvOpen b sb vb (Ok rb0)
                        :: EvClose (order ra) (Ok rc) :: EvSleep 1 :: pre'),
                     ra', rc', post'.
              subst. repeat split; auto.
Qed.

End Entry.

Section LiveEnter.

Context {W : Type} (env : World W).

(** [_live_enter] when both legs are sized and the gateway answers. *)
Lemma live_enter_loop (a b action : string) (pa pb va vb : R)
      (st : State W) (w1 w2 w3 : W) (evs : list Event) (out : loop_end) :
  calc_volume_for_risk env a pa (pa * (95 / 100)) (world st) = (Ok va, w1) ->
  calc_volume_for_risk env b pb (pb * (95 / 100)) w1 = (Ok vb, w2) ->
  entry_loop env a b (side_a_of action) (side_b_of action) va vb
             max_retries w2 evs out w3 ->
  _live_enter env a b action pa pb st
  = (Ok tt, entry_outcome env a b action pa pb va vb st evs out w3).
Proof.
  intros Hva Hvb Hloop.
  unfold _live_enter. fold (side_a_of action). fold (side_b_of action).
  unfold bind at 1, rm_calc_volume_for_risk at 1, call. rewrite Hva.
  unfold bind at 1, rm_calc_volume_for_risk at 1, call. cbn -[enter_attempts].
  rewrite Hvb.
  unfold bind at 1.
  rewrite (enter_attempts_loop env a b _ _ va vb _ _ _ _ _ Hloop 0%Z)
    by reflexivity.
  cbn [bot start_equity world trace].
  rewrite <- !app_assoc. cbn [app].
  destruct out as [ta tb |].
  - unfold entry_outcome. cbn [both_live].
    destruct (negb (ta =? 0)%Z && negb (tb =? 0)%Z) eqn:Hz.
    + unfold bind at 1, time_time at 1, call_total. cbn [world bot start_equity trace].
      destruct (time env w3) as [now w4]. cbn.
      rewrite <- !app_assoc. reflexivity.
    + reflexivity.
  - reflexivity.
Qed.

(** [_live_enter] when the sizing of a leg raises: nothing is sent to
    the gateway. *)
Lemma live_enter_unsized_a (a b action : string) (pa pb : R)
      (st : State W) (e : exn) (w1 : W) :
  calc_volume_for_risk env a pa (pa * (95 / 100)) (world st) = (Raise e, w1) ->
  _live_enter env a b action pa pb st
  = (Raise e, Build_State (bot st) (start_equity st) w1
                          (trace st ++ [EvCalcVolume a])).
Proof.
  intros Hva. unfold _live_enter.
  unfold bind at 1, rm_calc_volume_for_risk at 1, call. now rewrite Hva.
Qed.

Lemma live_enter_unsized_b (a b action : string) (pa pb va : R)
      (st : State W) (e : exn) (w1 w2 : W) :
  calc_volume_for_risk env a pa (pa * (95 / 100)) (world st) = (Ok va, w1) ->
  calc_volume_for_risk env b pb (pb * (95 / 100)) w1 = (Raise e, w2) ->
  _live_enter env a b action pa pb st
  = (Raise e, Build_State (bot st) (start_equity st) w2
                          (trace st ++ [EvCalcVolume a; EvCalcVolume b])).
Proof.
  intros Hva Hvb. unfold _live_enter.
  unfold bind at 1, rm_calc_volume_for_risk at 1, call. rewrite Hva.
  unfold bind at 1, rm_calc_volume_for_risk at 1, call. cbn -[enter_attempts].
  rewrite Hvb. now rewrite <- app_assoc.
Qed.

(** An entry that raises writes nothing. *)
Lemma live_enter_raise (a b action : string) (pa pb : R)
      (st st' : State W) (e : exn) :
  _live_enter env a b action pa pb st = (Raise e, st') ->
  bot st' = bot st.
Proof.
  unfold _live_enter.
  unfold bind at 1, rm_calc_volume_for_risk at 1, call.
  destruct (calc_volume_for_risk env a pa (pa * (95 / 100)) (world st))
    as [[va | e1] w1].
  2:{ intros H. inversion H; subst. reflexivity. }
  unfold bind at 1, rm_calc_volume_for_risk at 1, call. cbn -[enter_attempts].
  destruct (calc_volume_for_risk env b pb (pb * (95 / 100)) w1)
    as [[vb | e2] w2].
  2:{ intros H. inversion H; subst. reflexivity. }
  unfold bind at 1.
  match goal with
  | |- context [enter_attempts env ?n ?a ?b ?sa ?sb ?va ?vb 0%Z 0%Z ?s] =>
      destruct (enter_attempts env n a b sa sb va vb 0%Z 0%Z s)
        as [rt st1] eqn:E
  end.
  apply enter_attempts_run in E.
  destruct E as [evs [out [_ [_ [Hbot Hr]]]]]. cbn in Hbot.
  destruct rt as [[ta tb] | e3].
  2:{ intros H. inversion H; subst. exact Hbot. }
  destruct (negb (ta =? 0)%Z && negb (tb =? 0)%Z).
  - unfold bind at 1, time_time at 1, call_total.
    destruct (time env (world st1)) as [now w3]. cbn. discriminate.
  - discriminate.
Qed.

(** The table after an entry whose loop has run to its end. *)
Lemma entry_outcome_table (a b action : string) (pa pb va vb : R)
      (st : State W) (evs : list Event) (out : loop_end) (w : W) :
  let st' := entry_outcome env a b action pa pb va vb st evs out w in
  (both_live out = true ->
   exists p,
     pos_get (a, b) (positions (bot st')) = Some p /\
     BothOpen (ticket_a p) (ticket_b p) = out /\
     Data.side_a p = side_a_of action /\ Data.side_b p = side_b_of action /\
     Data.vol_a p = va /\ Data.vol_b p = vb) /\
  (both_live out = false -> bot st' = bot st).
Proof.
  cbv zeta. split.
  - intros H. destruct out as [ta tb |]; [| discriminate].
    unfold entry_outcome. rewrite H. cbn [bot positions with_positions].
    rewrite pos_get_set_same. eexists. split; [reflexivity |]. cbn. auto.
  - intros H. destruct out as [ta tb |]; unfold entry_outcome.
    + now rewrite H.
    + reflexivity.
Qed.

End LiveEnter.

End EntryFacts.

(** ** Claims on the controller *)

(** C6.  The two-leg entry is atomic for the position table, against a
    gateway that answers its calls.  With both legs sized, a run of the
    retry loop on the gateway's answers is the run of [_live_enter]:
    the calls it makes are those of the attempts, in their order, and
    the state it leaves is [entry_outcome].  Such a run exists whenever
    the gateway answers each order and each close.  The loop makes at
    most three attempts of at most two orders each; an order for leg B
    that is refused comes right after the order that opened leg A and
    is followed at once by the close of leg A's ticket and the pause,
    before any further attempt.  The position is recorded exactly when
    the loop ends on an attempt that opened both legs under nonzero
    tickets, with those tickets, and otherwise the controller is left
    as it was.  When the sizing of a leg raises, no order is sent; an
    entry that raises, for whatever reason, writes nothing.  Hence
    [step] keeps the table free of positions with a zero ticket. *)
Theorem C6_entry_is_atomic
        (W : Type) (env : Data.World W) (rcfg : Data.RiskConfig)
        (cfg : Data.Config) :
  (forall a b action pa pb st va w1 vb w2 evs out w3,
      Data.calc_volume_for_risk env a pa (pa * (95 / 100)) (Data.world st)
      = (Ok va, w1) ->
      Data.calc_volume_for_risk env b pb (pb * (95 / 100)) w1 = (Ok vb, w2) ->
      Bot.entry_loop env a b (Bot.side_a_of action) (Bot.side_b_of action)
                     va vb Bot.max_retries w2 evs out w3 ->
      Bot._live_enter env a b action pa pb st
      = (Ok tt, Bot.entry_outcome env a b action pa pb va vb st evs out w3)) /\
  (Bot.gateway_answers env ->
   forall a b side_a side_b va vb w,
   exists evs out w',
     Bot.entry_loop env a b side_a side_b va vb Bot.max_retries w evs out w') /\
  (forall a b side_a side_b va vb w evs out w',
      Bot.entry_loop env a b side_a side_b va vb Bot.max_retries w evs out w' ->
      (length (Bot.opens evs) <= 2 * 3)%nat /\
      forall pre rb post,
        a <> b ->
        evs = pre ++ Data.EvOpen b side_b vb (Ok rb) :: post ->
        Data.open_ok rb = false ->
        exists pre' ra rc post',
          pre = pre' ++ [Data.EvOpen a side_a va (Ok ra)] /\
          Data.open_ok ra = true /\
          post = Data.EvClose (Data.order ra) (Ok rc)
                   :: Data.EvSleep 1 :: post') /\
  (forall a b action pa pb va vb st evs out w,
      let st' := Bot.entry_outcome env a b action pa pb va vb st evs out w in
      Data.pos_mem (a, b) (Data.positions (Data.bot st)) = false ->
      (Data.pos_mem (a, b) (Data.positions (Data.bot st')) = true <->
       exists ta tb, out = Bot.BothOpen ta tb /\ ta <> 0%Z /\ tb <> 0%Z) /\
      (forall ta tb,
          out = Bot.BothOpen ta tb -> ta <> 0%Z -> tb <> 0%Z ->
          exists p,
            Data.pos_get (a, b) (Data.positions (Data.bot st')) = Some p /\
            Data.ticket_a p = ta /\ Data.ticket_b p = tb) /\
      (Data.pos_mem (a, b) (Data.positions (Data.bot st')) = false ->
       Data.bot st' = Data.bot st)) /\
  (forall a b action pa pb st e w1,
      Data.calc_volume_for_risk env a pa (pa * (95 / 100)) (Data.world st)
      = (Raise e, w1) ->
      Bot._live_enter env a b action pa pb st
      = (Raise e,
         Data.Build_State (Data.bot st) (Data.start_equity st) w1
                          (Data.trace st ++ [Data.EvCalcVolume a]))) /\
  (forall a b action pa pb st va w1 e w2,
      Data.calc_volume_for_risk env a pa (pa * (95 / 100)) (Data.world st)
      = (Ok va, w1) ->
      Data.calc_volume_for_risk env b pb (pb * (95 / 100)) w1 = (Raise e, w2) ->
      Bot._live_enter env a b action pa pb st
      = (Raise e,
         Data.Build_State (Data.bot st) (Data.start_equity st) w2
                          (Data.trace st
                           ++ [Data.EvCalcVolume a; Data.EvCalcVolume b]))) /\
  (forall a b action pa pb st e st',
      Bot._live_enter env a b action pa pb st = (Raise e, st') ->
      Data.bot st' = Data.bot st) /\
  (forall pairs st,
      Bot.tickets_live (Data.positions (Data.bot st)) ->
      Bot.tickets_live
        (Data.positions (Data.bot (snd (Bot.step env rcfg cfg pairs st))))).
Proof.
  split; [| split; [| split; [| split; [| split; [| split; [| split]]]]]].
  - intros a b action pa pb st va w1 vb w2 evs out w3.
    apply EntryFacts.live_enter_loop.
  - intros Hg a b sa sb va vb w.
    now apply EntryFacts.entry_loop_total.
  - intros a b sa sb va vb w evs out w' Hloop. split.
    + exact (EntryFacts.entry_loop_orders env a b sa sb va vb _ _ _ _ _ Hloop).
    + intros pre rb post Hab E Hrb.
      destruct (EntryFacts.entry_loop_compensates
                  env a b sa sb va vb _ _ _ _ _ Hloop pre rb post E Hrb)
        as [[ra [_ [Hba _]]] | H].
      * now contradiction Hab.
      * exact H.
  - intros a b action pa pb va vb st evs out w st' Hfree.
    destruct (EntryFacts.entry_outcome_table
                env a b action pa pb va vb st evs out w) as [Hrec Hdrop].
    fold st' in Hrec, Hdrop.
    destruct (Bot.both_live out) eqn:Hl.
    + destruct (Hrec eq_refl) as [p [Hp [Ho _]]].
      apply EntryFacts.both_live_true in Hl.
      assert (Hm : Data.pos_mem (a, b) (Data.positions (Data.bot st')) = true).
      { unfold Data.pos_mem. now rewrite Hp. }
      split; [| split].
      * split; [intros _; exact Hl | intros _; exact Hm].
      * intros ta tb E _ _. exists p. rewrite E in Ho. inversion Ho. auto.
      * rewrite Hm. discriminate.
    + rewrite (Hdrop eq_refl). split; [| split].
      * rewrite Hfree. split; [discriminate |].
        intros H. apply EntryFacts.both_live_true in H. congruence.
      * intros ta tb E Ha Hb.
        assert (H : Bot.both_live out = true).
        { apply EntryFacts.both_live_true. now exists ta, tb. }
        congruence.
      * reflexivity.
  - intros a b action pa pb st e w1. apply EntryFacts.live_enter_unsized_a.
  - intros a b action pa pb st va w1 e w2. apply EntryFacts.live_enter_unsized_b.
  - intros a b action pa pb st e st'. apply EntryFacts.live_enter_raise.
  - intros pairs st. apply BotFacts.step_tickets_live.
Qed.

(** One refusal of leg B: the second attempt is recorded.  Three
    refusals: leg A is closed after each, and nothing is recorded. *)
Lemma C6_entry_is_atomic_witness :
  Bot._live_enter (Samples.flaky_world 1) "A" "B" "ENTER_LONGA_SHORTB"
                  100 100 Samples.flaky_state
  = (Ok tt,
     Data.Build_State
       (Data.with_positions
          Data.init_controller
          [(("A"%string, "B"%string),
            {| Data.a := "A"; Data.b := "B";
               Data.side_a := "SELL"; Data.side_b := "BUY";
               Data.vol_a := 1 / 100; Data.vol_b := 1 / 100;
               Data.entry_pa := 100; Data.entry_pb := 100;
               Data.entry_ts := 0;
               Data.ticket_a := 201; Data.ticket_b := 202 |})])
       (Some 1000) 2%nat
       [Data.EvCalcVolume "A"; Data.EvCalcVolume "B";
        Data.EvOpen "A" "SELL" (1 / 100)
          (Ok {| Data.open_ok := true; Data.order := 201 |});
        Data.EvOpen "B" "BUY" (1 / 100)
          (Ok {| Data.open_ok := false; Data.order := 0 |});
        Data.EvClose 201
          (Ok {| Data.close_ok := true; Data.profit := Some 0 |});
        Data.EvSleep 1;
        Data.EvOpen "A" "SELL" (1 / 100)
          (Ok {| Data.open_ok := true; Data.order := 201 |});
        Data.EvOpen "B" "BUY" (1 / 100)
          (Ok {| Data.open_ok := true; Data.order := 202 |});
        Data.EvTime]) /\
  Bot._live_enter (Samples.flaky_world 3) "A" "B" "ENTER_LONGA_SHORTB"
                  100 100 Samples.flaky_state
  = (Ok tt,
     Data.Build_State
       Data.init_controller (Some 1000) 3%nat
       [Data.EvCalcVolume "A"; Data.EvCalcVolume "B";
        Data.EvOpen "A" "SELL" (1 / 100)
          (Ok {| Data.open_ok := true; Data.order := 201 |});
        Data.EvOpen "B" "BUY" (1 / 100)
          (Ok {| Data.open_ok := false; Data.order := 0 |});
        Data.EvClose 201
          (Ok {| Data.close_ok := true; Data.profit := Some 0 |});
        Data.EvSleep 1;
        Data.EvOpen "A" "SELL" (1 / 100)
          (Ok {| Data.open_ok := true; Data.order := 201 |});
        Data.EvOpen "B" "BUY" (1 / 100)
          (Ok {| Data.open_ok := false; Data.order := 0 |});
        Data.EvClose 201
          (Ok {| Data.close_ok := true; Data.profit := Some 0 |});
        Data.EvSleep 1;
        Data.EvOpen "A" "SELL" (1 / 100)
          (Ok {| Data.open_ok := true; Data.order := 201 |});
        Data.EvOpen "B" "BUY" (1 / 100)
          (Ok {| Data.open_ok := false; Data.order := 0 |});
        Data.EvClose 201
          (Ok {| Data.close_ok := true; Data.profit := Some 0 |});
        Data.EvSleep 1]) /\
  Bot.tickets_live
    (Data.positions
       (Data.bot
          (snd (Bot.step (Samples.steady_world Samples.no_history 1000 0 0 101)
                         Samples.risk_cfg Data.default_config
                         [("A"%string, "B"%string)] Samples.open_state)))).
Proof.
  pose (refused (n w : nat) :=
          Bot.attempt_b_refused (Samples.flaky_world n) "A" "B" "SELL" "BUY"
            (1 / 100) (1 / 100) w
            {| Data.open_ok := true; Data.order := 201 |} w
            {| Data.open_ok := false; Data.order := 0 |} (S w)
            {| Data.close_ok := true; Data.profit := Some 0 |} (S w)).
  split; [| split].
  - rewrite (proj1 (C6_entry_is_atomic nat (Samples.flaky_world 1)
                      Samples.risk_cfg Data.default_config)
               "A"%string "B"%string "ENTER_LONGA_SHORTB"%string 100 100
               Samples.flaky_state (1 / 100) 0%nat (1 / 100) 0%nat
               _ (Bot.BothOpen 201 202) 2%nat eq_refl eq_refl
               (Bot.loop_retry (Samples.flaky_world 1) "A" "B" "SELL" "BUY"
                  (1 / 100) (1 / 100) 2 0%nat _ 1%nat _ _ 2%nat
                  (refused 1%nat 0%nat eq_refl eq_refl eq_refl eq_refl eq_refl)
                  (Bot.loop_both_open (Samples.flaky_world 1) "A" "B"
                     "SELL" "BUY" (1 / 100) (1 / 100) 1 1%nat
                     {| Data.open_ok := true; Data.order := 201 |} 1%nat
                     {| Data.open_ok := true; Data.order := 202 |} 2%nat
                     eq_refl eq_refl eq_refl eq_refl))).
    reflexivity.
  - rewrite (proj1 (C6_entry_is_atomic nat (Samples.flaky_world 3)
                      Samples.risk_cfg Data.default_config)
               "A"%string "B"%string "ENTER_LONGA_SHORTB"%string 100 100
               Samples.flaky_state (1 / 100) 0%nat (1 / 100) 0%nat
               _ Bot.AllRefused 3%nat eq_refl eq_refl
               (Bot.loop_retry (Samples.flaky_world 3) "A" "B" "SELL" "BUY"
                  (1 / 100) (1 / 100) 2 0%nat _ 1%nat _ _ 3%nat
                  (refused 3%nat 0%nat eq_refl eq_refl eq_refl eq_refl eq_refl)
                  (Bot.loop_retry (Samples.flaky_world 3) "A" "B" "SELL" "BUY"
                     (1 / 100) (1 / 100) 1 1%nat _ 2%nat _ _ 3%nat
                     (refused 3%nat 1%nat eq_refl eq_refl eq_refl eq_refl eq_refl)
                     (Bot.loop_retry (Samples.flaky_world 3) "A" "B"
                        "SELL" "BUY" (1 / 100) (1 / 100) 0 2%nat _ 3%nat
                        _ _ 3%nat
                        (refused 3%nat 2%nat eq_refl eq_refl eq_refl eq_refl
                                 eq_refl)
                        (Bot.loop_exhausted (Samples.flaky_world 3) "A" "B"
                           "SELL" "BUY" (1 / 100) (1 / 100) 3%nat))))).
    reflexivity.
  - apply (proj2 (proj2 (proj2 (proj2 (proj2 (proj2 (proj2
             (C6_entry_is_atomic unit
                (Samples.steady_world Samples.no_history 1000 0 0 101)
                Samples.risk_cfg Data.default_config)))))))).
    constructor; [cbn; split; discriminate | constructor].
Defined.

(** C6, the case left out: an order for leg B that raises.  Leg A was
    opened under the ticket 201; the entry ends there, with no close of
    that ticket and no further attempt, and nothing is recorded. *)
Lemma C6_leg_a_left_open_counterexample :
  Bot._live_enter (Samples.orphaning_world Samples.no_history 0)
                  "A" "B" "ENTER_LONGA_SHORTB" 100 100
                  (Samples.fresh_state 1000)
  = (Raise (RuntimeError "symbol_info_tick failed"),
     Data.Build_State
       Data.init_controller (Some 1000) tt
       [Data.EvCalcVolume "A"; Data.EvCalcVolume "B";
        Data.EvOpen "A" "SELL" (1 / 100)
          (Ok {| Data.open_ok := true; Data.order := 201 |});
        Data.EvOpen "B" "BUY" (1 / 100)
          (Raise (RuntimeError "symbol_info_tick failed"))]).
Proof. reflexivity. Qed.

(** C8.  The halted state is terminal.  From a halted controller a cycle
    returns at once with the state untouched: no signal, no entry, no
    exit, and the flag stays.  No iteration clears the flag.  An
    iteration that returns resets the error counter to zero; one that
    raises adds one to it and halts the controller when it reaches
    eight; so eight consecutive raising iterations end halted. *)
Theorem C8_halted_is_terminal
        (W : Type) (env : Data.World W) (rcfg : Data.RiskConfig)
        (cfg : Data.Config) :
  (forall pairs st,
      Data.halted (Data.bot st) = true ->
      Bot.step env rcfg cfg pairs st = (Ok tt, st)) /\
  (forall key st,
      Data.halted (Data.bot st) = true ->
      Data.halted (Data.bot (snd (Bot.step_pair env rcfg cfg key st))) = true) /\
  (forall key st u st1,
      Bot.step_body env rcfg cfg key st = (Ok u, st1) ->
      Data.consecutive_errors
        (Data.bot (snd (Bot.step_pair env rcfg cfg key st))) = 0%nat) /\
  (forall key st e st1,
      Bot.step_body env rcfg cfg key st = (Raise e, st1) ->
      let c' := Data.bot (snd (Bot.step_pair env rcfg cfg key st)) in
      Data.consecutive_errors c'
      = (Data.consecutive_errors (Data.bot st) + 1)%nat /\
      ((8 <= Data.consecutive_errors (Data.bot st) + 1)%nat ->
       Data.halted c' = true)) /\
  (forall st st',
      Bot.failing_run env rcfg cfg 8 st st' ->
      Data.halted (Data.bot st') = true).
Proof.
  split; [| split; [| split; [| split]]].
  - intros pairs st H. now apply BotFacts.step_halted.
  - intros key st H.
    destruct (Bot.step_pair env rcfg cfg key st) as [r st'] eqn:E.
    apply BotFacts.step_pair_run in E. destruct E as [_ [Hh _]]. cbn. auto.
  - intros key st u st1 H.
    rewrite (BotFacts.step_pair_ok _ _ _ _ _ _ _ H). cbn.
    apply BotFacts.step_body_run in H. tauto.
  - intros key st e st1 H. cbv zeta.
    rewrite (BotFacts.step_pair_raise _ _ _ _ _ _ _ H),
      BotFacts.step_handler_run.
    apply BotFacts.step_body_run in H. destruct H as [_ He].
    cbn -[Nat.leb]. rewrite He. split; [reflexivity |].
    intros H8. apply Nat.leb_le in H8. now rewrite H8.
  - intros st st' H.
    apply BotFacts.failing_run_counts in H. destruct H as [_ [_ H]].
    apply H; lia.
Qed.

Lemma C8_halted_is_terminal_witness :
  (Data.halted (Data.bot Samples.halted_state) = true /\
   Bot.step (Samples.steady_world Samples.no_history 1000 0 0 101)
            Samples.risk_cfg Data.default_config
            [("A"%string, "B"%string)] Samples.halted_state
   = (Ok tt, Samples.halted_state)) /\
  exists st',
    Bot.failing_run Samples.broken_feed_world Samples.risk_cfg
                    Data.default_config 8 (Samples.fresh_state 1000) st' /\
    Data.halted (Data.bot st') = true.
Proof.
  split.
  - split; [reflexivity |].
    exact (proj1 (C8_halted_is_terminal unit
                    (Samples.steady_world Samples.no_history 1000 0 0 101)
                    Samples.risk_cfg Data.default_config)
                 [("A"%string, "B"%string)] Samples.halted_state eq_refl).
  - assert (R : { st' | Bot.failing_run Samples.broken_feed_world
                          Samples.risk_cfg Data.default_config 8
                          (Samples.fresh_state 1000) st' }).
    { eexists.
      do 8 (eapply Bot.failing_run_iter with (key := ("A"%string, "B"%string));
            [reflexivity |]).
      apply Bot.failing_run_done. }
    destruct R as [st' R]. exists st'. split; [exact R |].
    exact (proj2 (proj2 (proj2 (proj2
             (C8_halted_is_terminal unit Samples.broken_feed_world
                Samples.risk_cfg Data.default_config)))) _ _ R).
Defined.

(** C10.  When the feed has fewer than 120 usable closes for either leg
    of a pair, the signal for the pair is SKIP ("not enough data") as
    soon as both histories are delivered, whatever the age of an open
    position; and a whole cycle leaves the pair's entry in the position
    table as it was: no exit, no time stop. *)
Theorem C10_thin_history_keeps_the_position
        (W : Type) (env : Data.World W) (rcfg : Data.RiskConfig)
        (cfg : Data.Config) (a b : string) :
  Bot.thin_history env cfg a \/ Bot.thin_history env cfg b ->
  (forall st st1 st2 ca cb,
      Bot.feed_fetch_close env cfg a st = (Ok ca, st1) ->
      Bot.feed_fetch_close env cfg b st1 = (Ok cb, st2) ->
      Bot._compute_signal env cfg a b st
      = (Ok ("SKIP"%string, 0, 1, Data.not_enough_data), st2)) /\
  (forall pairs st,
      Data.pos_get (a, b)
        (Data.positions (Data.bot (snd (Bot.step env rcfg cfg pairs st))))
      = Data.pos_get (a, b) (Data.positions (Data.bot st))).
Proof.
  intros Hthin. split.
  - intros st st1 st2 ca cb. now apply BotFacts.compute_signal_thin.
  - intros pairs st. now apply BotFacts.step_thin.
Qed.

Lemma C10_thin_history_keeps_the_position_witness :
  (Bot.thin_history (Samples.steady_world Samples.no_history 1000 1000000 0 101)
                    Data.default_config "A" \/
   Bot.thin_history (Samples.steady_world Samples.no_history 1000 1000000 0 101)
                    Data.default_config "B") /\
  Data.pos_get ("A"%string, "B"%string)
    (Data.positions
       (Data.bot
          (snd (Bot.step (Samples.steady_world Samples.no_history 1000 1000000 0 101)
                         Samples.risk_cfg Data.default_config
                         [("A"%string, "B"%string)] Samples.open_state))))
  = Some Samples.sample_position.
Proof.
  assert (H : Bot.thin_history
                (Samples.steady_world Samples.no_history 1000 1000000 0 101)
                Data.default_config "A").
  { intros w. cbn. lia. }
  split; [left; exact H |].
  rewrite (proj2 (C10_thin_history_keeps_the_position unit
                    (Samples.steady_world Samples.no_history 1000 1000000 0 101)
                    Samples.risk_cfg Data.default_config "A" "B" (or_introl H))
                 [("A"%string, "B"%string)] Samples.open_state).
  reflexivity.
Defined.

(** ** utils.py on the sample series *)

Module SeriesFacts.
Import Utils UtilsFacts.

Lemma series_combine (s : Series) : s = combine (map fst s) (map snd s).
Proof.
  induction s as [| [t v] s IH]; cbn; [reflexivity | now rewrite <- IH].
Qed.

Lemma index_mk_series (vs : list R) :
  map fst (mk_series vs) = map Z.of_nat (seq 0 (length vs)).
Proof.
  unfold mk_series. apply combine_map_fst. now rewrite length_map, length_seq.
Qed.

Lemma NoDup_index_mk_series (vs : list R) : NoDup (map fst (mk_series vs)).
Proof.
  rewrite index_mk_series. apply Injective_map_NoDup.
  - intros x y H. now apply Nat2Z.inj.
  - apply seq_NoDup.
Qed.

Lemma tail_all {A : Type} (n : nat) (l : list A) :
  (length l <= n)%nat -> tail n l = l.
Proof.
  intros H. unfold tail. replace (length l - n)%nat with 0%nat by lia.
  reflexivity.
Qed.

(** *** [log_prices] *)

Lemma log_prices_combine (idx : list Z) (vs : list R) :
  Forall (fun v => v <> 0) vs ->
  log_prices (combine idx vs) = combine idx (map ln vs).
Proof.
  intros H. revert idx. induction H as [| v vs Hv Hvs IH]; intros [| t idx];
    try reflexivity.
  unfold log_prices in *. cbn.
  apply Reqb_false in Hv. rewrite Hv. cbn. now rewrite IH.
Qed.

Lemma log_prices_mk_series (vs : list R) :
  Forall (fun v => v <> 0) vs ->
  log_prices (mk_series vs) = mk_series (map ln vs).
Proof.
  intros H. unfold mk_series. rewrite length_map.
  now apply log_prices_combine.
Qed.

(** *** [log_returns] *)

Lemma index_diff_from (prev : R) (s : Series) :
  map fst (diff_from prev s) = map fst s.
Proof.
  revert prev. induction s as [| [t v] s IH]; intros prev; cbn;
    [reflexivity | now rewrite IH].
Qed.

Lemma values_diff_from (prev : R) (s : Series) :
  values (diff_from prev s) = diffs_from prev (values s).
Proof.
  revert prev. induction s as [| [t v] s IH]; intros prev; cbn;
    [reflexivity | f_equal; apply IH].
Qed.

Lemma index_log_returns (s : Series) :
  map fst (log_returns s) = List.tl (map fst s).
Proof. destruct s as [| [t v] s]; cbn; [reflexivity | apply index_diff_from]. Qed.

Lemma values_log_returns (s : Series) :
  values (log_returns s) = diffs (values s).
Proof. destruct s as [| [t v] s]; cbn; [reflexivity | apply values_diff_from]. Qed.

Lemma length_values (s : Series) : length (values s) = length s.
Proof. unfold values. apply length_map. Qed.

Lemma length_diffs_from (prev : R) (vs : list R) :
  length (diffs_from prev vs) = length vs.
Proof.
  revert prev. induction vs as [| v vs IH]; intros prev; cbn;
    [reflexivity | now rewrite IH].
Qed.

Lemma diffs_from_zeros (m : nat) : diffs_from 0 (repeat 0 m) = repeat 0 m.
Proof.
  induction m as [| m IH]; cbn; [reflexivity |].
  rewrite IH. f_equal. lra.
Qed.

Lemma diffs_from_spike (m : nat) (c : R) :
  diffs_from 0 (spike m c) = spike m c.
Proof.
  unfold spike. induction m as [| m IH]; cbn.
  - f_equal. lra.
  - rewrite IH. f_equal. lra.
Qed.

Lemma diffs_zeros (m : nat) : diffs (repeat 0 (S m)) = repeat 0 m.
Proof. cbn. apply diffs_from_zeros. Qed.

Lemma diffs_spike (m : nat) (c : R) : diffs (spike (S m) c) = spike m c.
Proof. unfold spike at 1. cbn. apply diffs_from_spike. Qed.

Lemma NoDup_tl {A : Type} (l : list A) : NoDup l -> NoDup (List.tl l).
Proof. destruct 1; cbn; [constructor | assumption]. Qed.

(** *** Alignment of series with the same index *)

Lemma lookup_ts_in (t : Z) (v : R) (s : Series) :
  NoDup (map fst s) -> In (t, v) s -> lookup_ts t s = Some v.
Proof.
  induction s as [| [t' v'] s IH]; cbn; intros Hnd Hin; [contradiction |].
  inversion Hnd as [| ? ? Hnotin Hnd']; subst.
  destruct Hin as [E | Hin].
  - inversion E; subst. now rewrite Z.eqb_refl.
  - destruct (t =? t')%Z eqn:Et.
    + apply Z.eqb_eq in Et. subst t'. exfalso. apply Hnotin.
      apply in_map_iff. now exists (t, v).
    + now apply IH.
Qed.

Lemma align_zip (lb : Series) :
  NoDup (map fst lb) ->
  forall la lb' : Series,
    incl lb' lb ->
    map fst la = map fst lb' ->
    align la lb
    = map (fun pq => (fst (fst pq), (snd (fst pq), snd (snd pq))))
          (combine la lb').
Proof.
  intros Hnd. induction la as [| [t va] la IH]; intros [| [t' vb] lb'] Hincl Hidx;
    cbn in *; try reflexivity; try discriminate.
  inversion Hidx; subst t'.
  rewrite (lookup_ts_in t vb lb Hnd) by (apply Hincl; now left).
  f_equal. apply IH; [| assumption].
  intros x Hx. apply Hincl. now right.
Qed.

(** The two columns of the alignment of series with a common index. *)
Lemma align_columns (la lb : Series) :
  map fst la = map fst lb ->
  NoDup (map fst lb) ->
  map (fun p => fst (snd p)) (align la lb) = values la /\
  map (fun p => snd (snd p)) (align la lb) = values lb /\
  map fst (align la lb) = map fst la.
Proof.
  intros Hidx Hnd.
  rewrite (align_zip lb Hnd la lb (incl_refl lb) Hidx).
  rewrite !map_map. cbn.
  assert (Hlen : length la = length lb).
  { rewrite <- (length_map fst la), Hidx. apply length_map. }
  clear Hnd. revert lb Hidx Hlen.
  induction la as [| [t va] la IH]; intros [| [t' vb] lb] Hidx Hlen;
    cbn in *; try discriminate; [repeat split |].
  injection Hidx as Ht Hidx'. subst t'.
  destruct (IH lb) as [Ca [Cb Ci]]; [assumption | lia |].
  unfold values in *. cbn. rewrite Ca, Cb, Ci. repeat split.
Qed.

(** *** The z-score of the sample series *)

Lemma lt_div (a b c : R) : 0 < c -> a * c < b -> a < b / c.
Proof.
  intros Hc H. apply (Rmult_lt_reg_r c); [assumption |].
  unfold Rdiv. rewrite Rmult_assoc, Rinv_l by lra. lra.
Qed.

Lemma div_lt (a b c : R) : 0 < c -> a < b * c -> a / c < b.
Proof.
  intros Hc H. apply (Rmult_lt_reg_r c); [assumption |].
  unfold Rdiv. rewrite Rmult_assoc, Rinv_l by lra. lra.
Qed.

Lemma div_le (a b c : R) : 0 < c -> a <= b * c -> a / c <= b.
Proof.
  intros Hc H. apply (Rmult_le_reg_r c); [assumption |].
  unfold Rdiv. rewrite Rmult_assoc, Rinv_l by lra. lra.
Qed.

Lemma ratio_gt (d v t : R) :
  0 < v -> 0 <= t -> 0 < d -> t * t * v < d * d -> t < d / sqrt v.
Proof.
  intros Hv Ht Hd Hsq.
  assert (Hs : 0 < sqrt v) by now apply sqrt_lt_R0.
  apply lt_div; [assumption |].
  apply Rsqr_incrst_0.
  - unfold Rsqr. replace (t * sqrt v * (t * sqrt v))
      with (t * t * (sqrt v * sqrt v)) by ring.
    rewrite sqrt_sqrt by lra. assumption.
  - apply Rmult_le_pos; lra.
  - lra.
Qed.

Lemma ratio_lt (d v t : R) :
  0 < v -> 0 <= t -> d < 0 -> t * t * v < d * d -> d / sqrt v < - t.
Proof.
  intros Hv Ht Hd Hsq.
  assert (H : t < (- d) / sqrt v).
  { apply ratio_gt; try assumption; [lra |].
    replace (- d * - d) with (d * d) by ring. assumption. }
  unfold Rdiv in *. lra.
Qed.

Lemma std_spike (m : nat) (s : R) :
  (0 < m)%nat -> std_ddof1 (spike m s) = sqrt (s * s / INR (S m)).
Proof.
  intros Hm. unfold std_ddof1. rewrite sum_dev2_spike, length_spike.
  f_equal. pose proof (INR_S_neq_0 m) as Hn.
  assert (Hm' : INR m <> 0) by (apply not_0_INR; lia).
  rewrite S_INR in *. field. split; [assumption | lra].
Qed.

Lemma std_zeros (m : nat) : std_ddof1 (repeat 0 m) = 0.
Proof.
  unfold std_ddof1. rewrite sum_dev2_zeros. unfold Rdiv.
  rewrite Rmult_0_l. apply sqrt_0.
Qed.

Lemma spike_var_pos (m : nat) (s : R) : s <> 0 -> 0 < s * s / INR (S m).
Proof.
  intros Hs. apply Rdiv_lt_0_compat; [nra | apply INR_S_pos].
Qed.

(** The z-score of a series that sits at 0 and ends on [s]. *)
Lemma zscore_spike (series : Series) (m : nat) (s : R) :
  values series = spike m s -> (49 <= m)%nat -> s <> 0 ->
  zscore series = (s - s / INR (S m)) / sqrt (s * s / INR (S m)).
Proof.
  intros Hv Hm Hs. unfold zscore.
  assert (Hlen : length series = S m).
  { rewrite <- length_values, Hv. apply length_spike. }
  rewrite Hlen.
  assert (E : (S m <? 50)%nat = false) by (apply Nat.ltb_ge; lia).
  rewrite E. cbv zeta. rewrite Hv, last_spike, mean_spike, std_spike by lia.
  assert (Hsd : 0 < sqrt (s * s / INR (S m))).
  { apply sqrt_lt_R0. now apply spike_var_pos. }
  destruct (Reqb (sqrt (s * s / INR (S m))) 0) eqn:Eq; [| reflexivity].
  apply Reqb_true in Eq. lra.
Qed.

Lemma spike_gap (m : nat) (s t : R) :
  s <> 0 -> t * t * INR (S m) < INR m * INR m ->
  t * t * (s * s / INR (S m)) < (s - s / INR (S m)) * (s - s / INR (S m)).
Proof.
  intros Hs Ht. pose proof (INR_S_pos m) as Hn.
  assert (Hn0 : INR (S m) <> 0) by lra.
  assert (E : (s - s / INR (S m)) * (s - s / INR (S m))
              - t * t * (s * s / INR (S m))
              = (s * s / (INR (S m) * INR (S m)))
                * (INR m * INR m - t * t * INR (S m))).
  { rewrite S_INR in *. field. assumption. }
  assert (0 < (s * s / (INR (S m) * INR (S m)))
              * (INR m * INR m - t * t * INR (S m))).
  { apply Rmult_lt_0_compat; [| lra].
    apply Rdiv_lt_0_compat; [nra | nra]. }
  lra.
Qed.

Lemma zscore_spike_high (series : Series) (m : nat) (s t : R) :
  values series = spike m s -> (49 <= m)%nat -> 0 < s -> 0 <= t ->
  t * t * INR (S m) < INR m * INR m ->
  t < zscore series.
Proof.
  intros Hv Hm Hs Ht Hgap.
  rewrite (zscore_spike series m s Hv Hm) by lra.
  apply ratio_gt; try assumption.
  - apply spike_var_pos. lra.
  - pose proof (INR_S_pos m) as Hn.
    assert (s / INR (S m) < s).
    { apply div_lt; [assumption |].
      assert (1 < INR (S m)) by (apply (lt_INR 1); lia). nra. }
    lra.
  - apply spike_gap; [lra | assumption].
Qed.

Lemma zscore_spike_low (series : Series) (m : nat) (s t : R) :
  values series = spike m s -> (49 <= m)%nat -> s < 0 -> 0 <= t ->
  t * t * INR (S m) < INR m * INR m ->
  zscore series < - t.
Proof.
  intros Hv Hm Hs Ht Hgap.
  rewrite (zscore_spike series m s Hv Hm) by lra.
  apply ratio_lt; try assumption.
  - apply spike_var_pos. lra.
  - pose proof (INR_S_pos m) as Hn.
    assert (s < s / INR (S m)).
    { apply lt_div; [assumption |].
      assert (1 < INR (S m)) by (apply (lt_INR 1); lia). nra. }
    lra.
  - apply spike_gap; [lra | assumption].
Qed.

(** *** Correlation *)

Lemma pearson_no_variance (xs ys : list R) :
  sum_dev2 ys = 0 -> pearson xs ys = None.
Proof.
  intros H. unfold pearson. rewrite H, sqrt_0, Rmult_0_r.
  destruct (Reqb 0 0) eqn:E; [reflexivity |].
  apply Reqb_false in E. contradiction.
Qed.

Lemma pearson_self (xs : list R) : 0 < sum_dev2 xs -> pearson xs xs = Some 1.
Proof.
  intros H. unfold pearson. rewrite sqrt_sqrt by lra.
  destruct (Reqb (sum_dev2 xs) 0) eqn:E.
  - apply Reqb_true in E. lra.
  - rewrite sum_codev_self. f_equal. field. lra.
Qed.

Lemma corr_same_index (ra rb : Series) :
  map fst ra = map fst rb -> NoDup (map fst rb) ->
  (30 <= length ra)%nat ->
  corr ra rb = pearson (values ra) (values rb).
Proof.
  intros Hidx Hnd Hlen. unfold corr.
  assert (Hlb : length rb = length ra).
  { rewrite <- (length_map fst rb), <- Hidx. apply length_map. }
  rewrite Hlb.
  assert (E : (length ra <? 30)%nat = false) by (apply Nat.ltb_ge; lia).
  rewrite E. cbn [orb]. cbv zeta.
  destruct (align_columns ra rb Hidx Hnd) as [Ha [Hb _]].
  now rewrite Ha, Hb.
Qed.

End SeriesFacts.

(** ** portfolio_bot.py: the signal *)

Module SignalFacts.
Import Data Monad MonadFacts Bot Utils UtilsFacts SeriesFacts.
Local Open Scope monad_scope.

Section Signal.

Context {W : Type} (env : World W) (cfg : Config).

Lemma regime_ok_unfold (la lb : Series) :
  _regime_ok cfg la lb =
  let ra := tail 400 (log_returns la) in
  let rb := tail 400 (log_returns lb) in
  if match corr ra rb with
     | Some c => Rltb c (min_corr cfg)
     | None => false
     end
  then false
  else vol_gate cfg (realized_vol ra) (realized_vol rb).
Proof. reflexivity. Qed.

(** Two legs of which one does not move, or that move alike, pass the
    volatility test of the regime filter. *)
Lemma vol_gate_ok (v1 v2 : R) :
  0 <= v1 -> v2 = 0 \/ v2 = v1 -> 1 <= max_vol_ratio cfg ->
  vol_gate cfg v1 v2 = true.
Proof.
  intros Hv1 Hv2 Hmax. unfold vol_gate.
  destruct (Req_dec_T v1 0) as [E1 | N1].
  { assert (E2 : v2 = 0) by (destruct Hv2; congruence). subst v1 v2.
    assert (E : Reqb 0 0 = true) by now apply Reqb_true.
    rewrite E. cbn [negb andb]. unfold Rmax.
    destruct (Rle_dec 0 0); now rewrite E. }
  assert (Hpos : 0 < v1) by lra.
  assert (F1 : Reqb v1 0 = false) by now apply Reqb_false.
  rewrite F1. cbn [negb andb].
  assert (Hcap : forall d, 0 < d -> v1 <= d -> Rleb (v1 / d) (max_vol_ratio cfg) = true).
  { intros d Hd Hle. apply Rleb_true. apply div_le; [assumption |]. nra. }
  assert (Hfloor : v1 <= Rmax (1 / 10 ^ 9) v1) by apply Rmax_r.
  destruct Hv2 as [E2 | E2]; subst v2.
  - assert (E : Reqb 0 0 = true) by now apply Reqb_true.
    rewrite E. cbn [negb].
    assert (Hm : Rmax v1 0 = v1) by (apply Rmax_left; lra).
    assert (Hn : Rmin v1 0 = 0) by (apply Rmin_right; lra).
    rewrite Hm, Hn, F1.
    assert (L : Rltb 0 0 = false) by (apply Rltb_false; lra).
    rewrite L. apply Hcap; [lra | assumption].
  - rewrite F1. cbn [negb].
    assert (Hm : Rmax v1 v1 = v1) by (apply Rmax_left; lra).
    assert (Hn : Rmin v1 v1 = v1) by (apply Rmin_left; lra).
    assert (Hb : (v1 + v1) / 2 = v1) by lra.
    rewrite Hm, Hn, Hb, F1.
    assert (L : Rltb 0 v1 = true) by now apply Rltb_true.
    rewrite L. apply Hcap; [lra | assumption].
Qed.

(** The decision table of [_compute_signal] for a pair without a
    position, once both histories are long enough and pass the regime
    filter. *)
Lemma compute_signal_no_position (a b : string) (st st1 st2 : State W)
      (ca cb : Series) (beta : R) :
  feed_fetch_close env cfg a st = (Ok ca, st1) ->
  feed_fetch_close env cfg b st1 = (Ok cb, st2) ->
  let la := tail (lookback cfg) (log_prices ca) in
  let lb := tail (lookback cfg) (log_prices cb) in
  (120 <= length la)%nat -> (120 <= length lb)%nat ->
  _regime_ok cfg la lb = true ->
  ols_beta (tail (beta_window cfg) la) (tail (beta_window cfg) lb) = Ok beta ->
  pos_get (a, b) (positions (bot st)) = None ->
  let z := zscore (tail 400 (spread_of la beta lb)) in
  _compute_signal env cfg a b st =
  (Ok (if Rltb (z_entry cfg) z then ("ENTER_LONGB_SHORTA"%string, z, beta, z_high)
       else if Rltb z (- z_entry cfg)
       then ("ENTER_LONGA_SHORTB"%string, z, beta, z_low)
       else ("HOLD"%string, z, beta, no_entry)), st2).
Proof.
  intros Ha Hb la lb Hla Hlb Hreg Hbeta Hpos z.
  assert (Kb : bot st2 = bot st).
  { rewrite (BotFacts.keeps_bot_eq _ _ _ _ (BotFacts.keeps_bot_fetch_close env cfg b) Hb).
    apply (BotFacts.keeps_bot_eq _ _ _ _ (BotFacts.keeps_bot_fetch_close env cfg a) Ha). }
  unfold _compute_signal.
  rewrite (bind_ok _ _ _ _ _ Ha), (bind_ok _ _ _ _ _ Hb).
  fold la lb. cbv zeta.
  assert (E1 : (length la <? 120)%nat = false) by (apply Nat.ltb_ge; lia).
  assert (E2 : (length lb <? 120)%nat = false) by (apply Nat.ltb_ge; lia).
  rewrite E1, E2. cbn [orb].
  unfold bind at 1, get_bot at 1. rewrite Hreg. cbn [negb andb].
  unfold bind at 1, lift. rewrite Hbeta. rewrite Kb, Hpos. fold z.
  destruct (Rltb (z_entry cfg) z); [reflexivity |].
  destruct (Rltb z (- z_entry cfg)); reflexivity.
Qed.

(** The same for a pair with a position: the regime filter is skipped
    and the clock is read. *)
Lemma compute_signal_position (a b : string) (st st1 st2 : State W)
      (ca cb : Series) (beta : R) (pos : Position) :
  feed_fetch_close env cfg a st = (Ok ca, st1) ->
  feed_fetch_close env cfg b st1 = (Ok cb, st2) ->
  let la := tail (lookback cfg) (log_prices ca) in
  let lb := tail (lookback cfg) (log_prices cb) in
  (120 <= length la)%nat -> (120 <= length lb)%nat ->
  ols_beta (tail (beta_window cfg) la) (tail (beta_window cfg) lb) = Ok beta ->
  pos_get (a, b) (positions (bot st)) = Some pos ->
  let z := zscore (tail 400 (spread_of la beta lb)) in
  let held_min := (fst (time env (world st2)) - entry_ts pos) / 60 in
  _compute_signal env cfg a b st =
  (Ok (if Rltb (IZR (max_hold_minutes cfg)) held_min
       then ("EXIT"%string, z, beta, max_hold held_min)
       else if Rltb (Rabs z) (z_exit cfg)
       then ("EXIT"%string, z, beta, mean_reversion)
       else ("HOLD"%string, z, beta, in_position)),
   Build_State (bot st2) (start_equity st2) (snd (time env (world st2)))
               (trace st2 ++ [EvTime])).
Proof.
  intros Ha Hb la lb Hla Hlb Hbeta Hpos z held_min.
  assert (Kb : bot st2 = bot st).
  { rewrite (BotFacts.keeps_bot_eq _ _ _ _ (BotFacts.keeps_bot_fetch_close env cfg b) Hb).
    apply (BotFacts.keeps_bot_eq _ _ _ _ (BotFacts.keeps_bot_fetch_close env cfg a) Ha). }
  unfold _compute_signal.
  rewrite (bind_ok _ _ _ _ _ Ha), (bind_ok _ _ _ _ _ Hb).
  fold la lb. cbv zeta.
  assert (E1 : (length la <? 120)%nat = false) by (apply Nat.ltb_ge; lia).
  assert (E2 : (length lb <? 120)%nat = false) by (apply Nat.ltb_ge; lia).
  rewrite E1, E2. cbn [orb].
  assert (Kp : positions (bot st2) = positions (bot st)) by now rewrite Kb.
  unfold bind at 1, get_bot at 1. rewrite Kp.
  rewrite (BotFacts.pos_get_mem _ _ _ Hpos). cbn [negb]. rewrite andb_false_r.
  unfold bind at 1, lift. rewrite Hbeta. rewrite Hpos. fold z.
  unfold bind, time_time, call_total.
  destruct (time env (world st2)) as [now w3]. cbn [fst snd] in *.
  subst held_min.
  destruct (Rltb (IZR (max_hold_minutes cfg)) ((now - entry_ts pos) / 60));
    [reflexivity |].
  destruct (Rltb (Rabs z) (z_exit cfg)); reflexivity.
Qed.

End Signal.

End SignalFacts.

(** ** The sample histories *)

Module SampleFacts.
Import Data Monad MonadFacts Bot Utils UtilsFacts SeriesFacts SignalFacts Samples.

Lemma INR_118 : INR 118 = 118.
Proof. rewrite INR_IZR_INZ. reflexivity. Qed.

Lemma INR_119 : INR 119 = 119.
Proof. rewrite INR_IZR_INZ. reflexivity. Qed.

Lemma INR_120 : INR 120 = 120.
Proof. rewrite INR_IZR_INZ. reflexivity. Qed.

Lemma ln_2_pos : 0 < ln 2.
Proof. pose proof ln_lt_2. lra. Qed.

Lemma log_prices_closes_ending (p : R) :
  p <> 0 -> log_prices (closes_ending p) = leg (ln p).
Proof.
  intros Hp. unfold closes_ending, leg, spike.
  rewrite log_prices_mk_series.
  - rewrite map_app, map_repeat, ln_1. reflexivity.
  - apply Forall_app. split.
    + apply Forall_forall. intros x Hx. apply repeat_spec in Hx. lra.
    + constructor; [assumption | constructor].
Qed.

Lemma length_leg (s : R) : length (leg s) = 120%nat.
Proof. unfold leg. now rewrite length_mk_series, length_spike. Qed.

Lemma values_leg (s : R) : values (leg s) = spike 119 s.
Proof. apply values_mk_series. Qed.

Lemma index_leg (s s' : R) : map fst (leg s) = map fst (leg s').
Proof. unfold leg. now rewrite !index_mk_series, !length_spike. Qed.

Lemma tail_leg (n : nat) (s : R) : (120 <= n)%nat -> tail n (leg s) = leg s.
Proof. intros H. apply tail_all. now rewrite length_leg. Qed.

(** *** The returns of a leg *)

Lemma values_returns_leg (s : R) :
  values (log_returns (leg s)) = spike 118 s.
Proof. rewrite values_log_returns, values_leg. apply diffs_spike. Qed.

Lemma length_returns_leg (s : R) : length (log_returns (leg s)) = 119%nat.
Proof.
  rewrite <- length_values, values_returns_leg. apply length_spike.
Qed.

Lemma tail_returns_leg (s : R) :
  tail 400 (log_returns (leg s)) = log_returns (leg s).
Proof. apply tail_all. rewrite length_returns_leg. lia. Qed.

Lemma index_returns_leg (s s' : R) :
  map fst (log_returns (leg s)) = map fst (log_returns (leg s')).
Proof. rewrite !index_log_returns. now rewrite (index_leg s s'). Qed.

Lemma NoDup_returns_leg (s : R) : NoDup (map fst (log_returns (leg s))).
Proof.
  rewrite index_log_returns. apply NoDup_tl. apply NoDup_index_mk_series.
Qed.

Lemma realized_vol_returns_leg (s : R) :
  realized_vol (log_returns (leg s)) = sqrt (s * s / INR 119).
Proof.
  unfold realized_vol. rewrite length_returns_leg.
  change ((119 <? 50)%nat) with false. cbv iota.
  rewrite values_returns_leg. apply std_spike. lia.
Qed.

Lemma corr_returns_flat (s : R) :
  corr (log_returns (leg s)) (log_returns (leg 0)) = None.
Proof.
  rewrite corr_same_index.
  - apply pearson_no_variance. rewrite values_returns_leg, sum_dev2_spike.
    unfold Rdiv. ring.
  - apply index_returns_leg.
  - apply NoDup_returns_leg.
  - rewrite length_returns_leg. lia.
Qed.

Lemma corr_returns_twin (s : R) :
  s <> 0 -> corr (log_returns (leg s)) (log_returns (leg s)) = Some 1.
Proof.
  intros Hs. rewrite corr_same_index.
  - apply pearson_self. rewrite values_returns_leg.
    apply sum_dev2_spike_pos; [lia | assumption].
  - reflexivity.
  - apply NoDup_returns_leg.
  - rewrite length_returns_leg. lia.
Qed.

(** *** The regime filter *)

Lemma regime_ok_flat (cfg : Config) (s : R) :
  1 <= max_vol_ratio cfg -> _regime_ok cfg (leg s) (leg 0) = true.
Proof.
  intros Hmax. rewrite regime_ok_unfold. cbv zeta.
  rewrite !tail_returns_leg, corr_returns_flat, !realized_vol_returns_leg.
  apply vol_gate_ok; [apply sqrt_pos | | assumption].
  left. replace (0 * 0 / INR 119) with 0 by (unfold Rdiv; ring). apply sqrt_0.
Qed.

Lemma regime_ok_twin (cfg : Config) (s : R) :
  s <> 0 -> min_corr cfg <= 1 -> 1 <= max_vol_ratio cfg ->
  _regime_ok cfg (leg s) (leg s) = true.
Proof.
  intros Hs Hmin Hmax. rewrite regime_ok_unfold. cbv zeta.
  rewrite !tail_returns_leg, corr_returns_twin by assumption.
  assert (E : Rltb 1 (min_corr cfg) = false) by (apply Rltb_false; lra).
  rewrite E.
  apply vol_gate_ok; [apply sqrt_pos | now right | assumption].
Qed.

(** *** The hedge ratio *)

Lemma ols_beta_flat (s : R) : ols_beta (leg s) (leg 0) = Ok 1.
Proof.
  apply ols_beta_no_variance. unfold np_var.
  rewrite values_leg, sum_dev2_spike. unfold Rdiv. ring.
Qed.

Lemma ols_beta_twin (s : R) : s <> 0 -> ols_beta (leg s) (leg s) = Ok (120 / 119).
Proof.
  intros Hs.
  assert (Hpos : 0 < sum_dev2 (spike 119 s))
    by (apply sum_dev2_spike_pos; [lia | assumption]).
  rewrite (ols_beta_biased _ _ 120).
  - f_equal. unfold ols_slope. rewrite values_leg, sum_codev_self, INR_120.
    field. lra.
  - apply length_leg.
  - apply length_leg.
  - lia.
  - unfold np_var. rewrite values_leg, length_spike, INR_120.
    apply Rgt_not_eq. apply Rdiv_lt_0_compat; lra.
Qed.

(** *** The spread *)

Lemma values_spread (la lb : Series) (beta : R) :
  map fst la = map fst lb -> NoDup (map fst lb) ->
  values (spread_of la beta lb)
  = map (fun p => fst p - beta * snd p) (combine (values la) (values lb)).
Proof.
  intros Hidx Hnd. unfold spread_of, values.
  rewrite (align_zip lb Hnd la lb (incl_refl lb) Hidx). rewrite !map_map. cbn.
  clear Hnd. revert lb Hidx.
  induction la as [| [t va] la IH]; intros [| [t' vb] lb] Hidx; cbn in *;
    try discriminate; try reflexivity.
  injection Hidx as Ht Hidx'. f_equal. now apply IH.
Qed.

Lemma length_spread (la lb : Series) (beta : R) :
  map fst la = map fst lb -> NoDup (map fst lb) ->
  length (spread_of la beta lb) = length la.
Proof.
  intros Hidx Hnd. rewrite <- length_values, values_spread by assumption.
  rewrite length_map, length_combine, !length_values.
  assert (length la = length lb).
  { rewrite <- (length_map fst la), Hidx. apply length_map. }
  lia.
Qed.

Lemma map_combine_spike (f : R * R -> R) (m : nat) (x y : R) :
  f (0, 0) = 0 ->
  map f (combine (spike m x) (spike m y)) = spike m (f (x, y)).
Proof.
  intros Hf. unfold spike. induction m as [| m IH]; cbn.
  - reflexivity.
  - now rewrite Hf, IH.
Qed.

Lemma values_spread_legs (sa sb beta : R) :
  values (spread_of (leg sa) beta (leg sb)) = spike 119 (sa - beta * sb).
Proof.
  rewrite values_spread.
  - rewrite !values_leg.
    apply (map_combine_spike (fun p => fst p - beta * snd p)). cbn. ring.
  - apply index_leg.
  - unfold leg. apply NoDup_index_mk_series.
Qed.

Lemma tail_spread_legs (sa sb beta : R) :
  tail 400 (spread_of (leg sa) beta (leg sb)) = spread_of (leg sa) beta (leg sb).
Proof.
  apply tail_all. rewrite length_spread.
  - rewrite length_leg. lia.
  - apply index_leg.
  - unfold leg. apply NoDup_index_mk_series.
Qed.

(** The z-score of the spread of two sample legs is beyond any entry
    threshold up to 10. *)
Lemma threshold_gap (t : R) : 0 <= t <= 10 -> t * t * INR 120 < INR 119 * INR 119.
Proof. intros H. rewrite INR_119, INR_120. nra. Qed.

Lemma zscore_spread_high (sa sb beta t : R) :
  0 < sa - beta * sb -> 0 <= t <= 10 ->
  t < zscore (tail 400 (spread_of (leg sa) beta (leg sb))).
Proof.
  intros Hs Ht. rewrite tail_spread_legs.
  apply (zscore_spike_high _ 119 (sa - beta * sb)).
  - apply values_spread_legs.
  - lia.
  - assumption.
  - lra.
  - now apply threshold_gap.
Qed.

Lemma zscore_spread_low (sa sb beta t : R) :
  sa - beta * sb < 0 -> 0 <= t <= 10 ->
  zscore (tail 400 (spread_of (leg sa) beta (leg sb))) < - t.
Proof.
  intros Hs Ht. rewrite tail_spread_legs.
  apply (zscore_spike_low _ 119 (sa - beta * sb)).
  - apply values_spread_legs.
  - lia.
  - assumption.
  - lra.
  - now apply threshold_gap.
Qed.

End SampleFacts.

(** ** Runs in the sample worlds *)

Module RunFacts.
Import Data Monad MonadFacts Bot Utils UtilsFacts SeriesFacts SignalFacts
       Samples SampleFacts.
Local Open Scope monad_scope.

Section AnyWorld.

Context {W : Type} (env : World W) (rcfg : RiskConfig) (cfg : Config).

(** [_can_trade] answers yes when the controller is not halted, the
    cooldown (for an entry) is over and the risk manager allows. *)
Lemma can_trade_gate_ok (st st' : State W) :
  halted (bot st) = false ->
  Risk.is_trading_allowed env rcfg st = (Ok (true, OK), st') ->
  _can_trade env rcfg false st = (Ok true, st').
Proof.
  intros Hh Hr. unfold _can_trade, bind, get_bot. rewrite Hh. cbn.
  now rewrite Hr.
Qed.

Lemma can_trade_entry_ok (st st' : State W) (now : R) (w1 : W) :
  halted (bot st) = false ->
  time env (world st) = (now, w1) ->
  ~ now < cooldown_until_ts (bot st) ->
  Risk.is_trading_allowed env rcfg
    (Build_State (bot st) (start_equity st) w1 (trace st ++ [EvTime]))
  = (Ok (true, OK), st') ->
  _can_trade env rcfg true st = (Ok true, st').
Proof.
  intros Hh Ht Hc Hr.
  unfold _can_trade, bind, get_bot, time_time, call_total. rewrite Hh. cbn.
  rewrite Ht. cbn. apply Rltb_false in Hc. rewrite Hc. cbn.
  now rewrite Hr.
Qed.

Lemma prefix_ENTER_not_EXIT (action : string) :
  String.prefix "ENTER" action = true -> String.eqb action "EXIT" = false.
Proof.
  intros H. destruct (String.eqb action "EXIT") eqn:E; [| reflexivity].
  apply String.eqb_eq in E. subst action. discriminate H.
Qed.

(** The entry path of an iteration. *)
Lemma step_pair_enter (a b : string) (st st1 st2 st3 st4 st5 : State W)
      (sig : Signal) (pa pb : R) :
  _compute_signal env cfg a b st = (Ok sig, st1) ->
  String.prefix "ENTER" (fst (fst (fst sig))) = true ->
  feed_fetch_last env a st1 = (Ok pa, st2) ->
  feed_fetch_last env b st2 = (Ok pb, st3) ->
  pos_mem (a, b) (positions (bot st3)) = false ->
  _can_trade env rcfg true st3 = (Ok true, st4) ->
  _live_enter env a b (fst (fst (fst sig))) pa pb st4 = (Ok tt, st5) ->
  step_pair env rcfg cfg (a, b) st
  = set_consecutive_errors 0 st5.
Proof.
  intros Hs Hp Ha Hb Hm Hc He.
  unfold step_pair, try_except, step_body.
  rewrite (bind_ok _ _ _ _ _ Hs), (bind_ok _ _ _ _ _ Ha), (bind_ok _ _ _ _ _ Hb).
  unfold bind at 1, get_bot at 1.
  rewrite (prefix_ENTER_not_EXIT _ Hp), Hp, Hm. cbn [andb negb].
  unfold bind at 1. rewrite (bind_ok _ _ _ _ _ Hc), He.
  destruct (set_consecutive_errors 0 st5) as [[u | e] s] eqn:E;
    [reflexivity |].
  unfold set_consecutive_errors, bind, get_bot, put_bot in E. discriminate.
Qed.

(** The suppressed entry of an iteration inside the cooldown window. *)
Lemma step_pair_enter_cooldown (a b : string) (st st1 st2 st3 : State W)
      (sig : Signal) (pa pb now now' : R) (w4 w5 : W) :
  _compute_signal env cfg a b st = (Ok sig, st1) ->
  String.prefix "ENTER" (fst (fst (fst sig))) = true ->
  feed_fetch_last env a st1 = (Ok pa, st2) ->
  feed_fetch_last env b st2 = (Ok pb, st3) ->
  pos_mem (a, b) (positions (bot st3)) = false ->
  halted (bot st3) = false ->
  time env (world st3) = (now, w4) ->
  time env w4 = (now', w5) ->
  now < cooldown_until_ts (bot st3) ->
  step_pair env rcfg cfg (a, b) st
  = (Ok tt,
     Build_State
       {| positions := positions (bot st3);
          cooldown_until_ts := cooldown_until_ts (bot st3);
          halted := false;
          consecutive_errors := 0 |}
       (start_equity st3) w5 (trace st3 ++ [EvTime; EvTime])).
Proof.
  intros Hs Hp Ha Hb Hm Hh Ht Ht' Hlt.
  unfold step_pair, try_except, step_body.
  rewrite (bind_ok _ _ _ _ _ Hs), (bind_ok _ _ _ _ _ Ha), (bind_ok _ _ _ _ _ Hb).
  unfold bind at 1, get_bot at 1.
  rewrite (prefix_ENTER_not_EXIT _ Hp), Hp, Hm. cbn [andb negb].
  unfold bind at 1.
  rewrite (bind_ok _ _ _ _ _
             (BotFacts.can_trade_cooldown env rcfg st3 now now' w4 w5 Hh Ht Ht' Hlt)).
  unfold ret, set_consecutive_errors, bind, get_bot, put_bot. cbn.
  now rewrite Hh.
Qed.

(** The suppressed entry of an iteration of a halted controller. *)
Lemma step_pair_enter_halted (a b : string) (st st1 st2 st3 : State W)
      (sig : Signal) (pa pb : R) :
  _compute_signal env cfg a b st = (Ok sig, st1) ->
  String.prefix "ENTER" (fst (fst (fst sig))) = true ->
  feed_fetch_last env a st1 = (Ok pa, st2) ->
  feed_fetch_last env b st2 = (Ok pb, st3) ->
  pos_mem (a, b) (positions (bot st3)) = false ->
  halted (bot st3) = true ->
  step_pair env rcfg cfg (a, b) st
  = (Ok tt,
     Build_State
       {| positions := positions (bot st3);
          cooldown_until_ts := cooldown_until_ts (bot st3);
          halted := true;
          consecutive_errors := 0 |}
       (start_equity st3) (world st3) (trace st3)).
Proof.
  intros Hs Hp Ha Hb Hm Hh.
  unfold step_pair, try_except, step_body.
  rewrite (bind_ok _ _ _ _ _ Hs), (bind_ok _ _ _ _ _ Ha), (bind_ok _ _ _ _ _ Hb).
  unfold bind at 1, get_bot at 1.
  rewrite (prefix_ENTER_not_EXIT _ Hp), Hp, Hm. cbn [andb negb].
  unfold bind at 1.
  rewrite (bind_ok _ _ _ _ _ (BotFacts.can_trade_halted env rcfg true st3 Hh)).
  unfold ret, set_consecutive_errors, bind, get_bot, put_bot. cbn.
  now rewrite Hh.
Qed.

(** The exit path of an iteration, both closes answered. *)
Lemma step_pair_exit (a b : string) (st st1 st2 st3 : State W)
      (sig : Signal) (pa pb : R) (pos : Position) (ra rb : CloseReply)
      (w1 w2 : W) :
  _compute_signal env cfg a b st = (Ok sig, st1) ->
  fst (fst (fst sig)) = "EXIT"%string ->
  feed_fetch_last env a st1 = (Ok pa, st2) ->
  feed_fetch_last env b st2 = (Ok pb, st3) ->
  pos_get (a, b) (positions (bot st3)) = Some pos ->
  close_position_by_ticket env (ticket_a pos) (world st3) = (Ok ra, w1) ->
  close_position_by_ticket env (ticket_b pos) w1 = (Ok rb, w2) ->
  step_pair env rcfg cfg (a, b) st
  = bind (_live_exit env (a, b)) (fun _ => set_consecutive_errors 0) st3.
Proof.
  intros Hs Hx Ha Hb Hg Hca Hcb.
  unfold step_pair, try_except, step_body.
  rewrite (bind_ok _ _ _ _ _ Hs), (bind_ok _ _ _ _ _ Ha), (bind_ok _ _ _ _ _ Hb).
  unfold bind at 1, get_bot at 1.
  rewrite Hx, (BotFacts.pos_get_mem _ _ _ Hg).
  change (String.eqb "EXIT" "EXIT") with true. cbn [andb].
  unfold bind.
  rewrite (BotFacts.live_exit_run env (a, b) st3 pos ra rb w1 w2 Hg Hca Hcb).
  destruct (Rltb (pnl_of ra + pnl_of rb) 0); reflexivity.
Qed.

End AnyWorld.

Section Steady.

Variables (closes : string -> Series) (equity now pnl : R) (ticket : Z).

Local Abbreviation env := (steady_world closes equity now pnl ticket).

Lemma steady_fetch_close (cfg : Config) (s : string) (st : State unit) :
  feed_fetch_close env cfg s st
  = (Ok (closes s),
     Build_State (bot st) (start_equity st) (world st)
                 (trace st ++ [EvFetchClose s])).
Proof. reflexivity. Qed.

(** The signal for a leg that ends away from 1 against a flat leg: the
    hedge ratio is 1 and the z-score is beyond the entry threshold, on
    the side of the move. *)
Lemma steady_signal_flat_leg (a b : string) (sa : R) (st : State unit) :
  log_prices (closes a) = leg sa ->
  log_prices (closes b) = leg 0 ->
  sa <> 0 ->
  pos_get (a, b) (positions (bot st)) = None ->
  exists z,
    _compute_signal env default_config a b st
    = (Ok (if Rltb 0 sa
           then ("ENTER_LONGB_SHORTA"%string, z, 1, z_high)
           else ("ENTER_LONGA_SHORTB"%string, z, 1, z_low)),
       Build_State (bot st) (start_equity st) (world st)
                   ((trace st ++ [EvFetchClose a]) ++ [EvFetchClose b])) /\
    (if Rltb 0 sa then z_entry default_config < z
     else z < - z_entry default_config).
Proof.
  intros Ha Hb Hsa Hpos.
  pose proof (compute_signal_no_position env default_config a b st _ _
                (closes a) (closes b) 1
                (steady_fetch_close default_config a st)
                (steady_fetch_close default_config b _)) as H.
  cbv zeta in H. rewrite Ha, Hb in H.
  change (lookback default_config) with 720%nat in H.
  change (beta_window default_config) with 720%nat in H.
  rewrite !tail_leg in H by lia.
  rewrite !length_leg in H.
  specialize (H (le_n 120) (le_n 120)).
  specialize (H (regime_ok_flat default_config sa ltac:(cbn; lra))).
  specialize (H (ols_beta_flat sa) Hpos).
  exists (zscore (tail 400 (spread_of (leg sa) 1 (leg 0)))).
  rewrite H. change (z_entry default_config) with (23 / 10).
  destruct (Rltb 0 sa) eqn:Es.
  - apply Rltb_true in Es.
    assert (Hz : 23 / 10 < zscore (tail 400 (spread_of (leg sa) 1 (leg 0))))
      by (apply zscore_spread_high; lra).
    split; [| exact Hz]. apply Rltb_true in Hz. now rewrite Hz.
  - apply Rltb_false in Es.
    assert (Hz : zscore (tail 400 (spread_of (leg sa) 1 (leg 0))) < - (23 / 10))
      by (apply zscore_spread_low; lra).
    split; [| exact Hz].
    assert (E1 : Rltb (23 / 10) (zscore (tail 400 (spread_of (leg sa) 1 (leg 0))))
                 = false) by (apply Rltb_false; lra).
    apply Rltb_true in Hz. now rewrite E1, Hz.
Qed.

(** The signal for two legs with the same history: the hedge ratio is
    120/119 and the z-score lies beyond the entry threshold. *)
Lemma steady_signal_twin (a b : string) (sa : R) (st : State unit) :
  log_prices (closes a) = leg sa ->
  log_prices (closes b) = leg sa ->
  0 < sa ->
  pos_get (a, b) (positions (bot st)) = None ->
  exists z,
    _compute_signal env default_config a b st
    = (Ok ("ENTER_LONGA_SHORTB"%string, z, 120 / 119, z_low),
       Build_State (bot st) (start_equity st) (world st)
                   ((trace st ++ [EvFetchClose a]) ++ [EvFetchClose b])) /\
    z < - z_entry default_config.
Proof.
  intros Ha Hb Hsa Hpos.
  pose proof (compute_signal_no_position env default_config a b st _ _
                (closes a) (closes b) (120 / 119)
                (steady_fetch_close default_config a st)
                (steady_fetch_close default_config b _)) as H.
  cbv zeta in H. rewrite Ha, Hb in H.
  change (lookback default_config) with 720%nat in H.
  change (beta_window default_config) with 720%nat in H.
  rewrite !tail_leg in H by lia.
  rewrite !length_leg in H.
  specialize (H (le_n 120) (le_n 120)).
  specialize (H (regime_ok_twin default_config sa ltac:(lra)
                   ltac:(cbn; lra) ltac:(cbn; lra))).
  specialize (H (ols_beta_twin sa ltac:(lra)) Hpos).
  exists (zscore (tail 400 (spread_of (leg sa) (120 / 119) (leg sa)))).
  rewrite H. change (z_entry default_config) with (23 / 10).
  assert (Hz : zscore (tail 400 (spread_of (leg sa) (120 / 119) (leg sa)))
               < - (23 / 10))
    by (apply zscore_spread_low; lra).
  split; [| exact Hz].
  assert (E1 : Rltb (23 / 10)
                 (zscore (tail 400 (spread_of (leg sa) (120 / 119) (leg sa))))
               = false) by (apply Rltb_false; lra).
  apply Rltb_true in Hz. now rewrite E1, Hz.
Qed.

(** The signal for a pair that is held longer than the time stop
    allows. *)
Lemma steady_signal_time_stop (a b : string) (sa : R) (st : State unit)
      (pos : Position) :
  log_prices (closes a) = leg sa ->
  log_prices (closes b) = leg sa ->
  0 < sa ->
  pos_get (a, b) (positions (bot st)) = Some pos ->
  IZR (max_hold_minutes default_config) < (now - entry_ts pos) / 60 ->
  exists z,
    _compute_signal env default_config a b st
    = (Ok ("EXIT"%string, z, 120 / 119, max_hold ((now - entry_ts pos) / 60)),
       Build_State (bot st) (start_equity st) (world st)
                   (((trace st ++ [EvFetchClose a]) ++ [EvFetchClose b])
                    ++ [EvTime])).
Proof.
  intros Ha Hb Hsa Hpos Hheld.
  pose proof (compute_signal_position env default_config a b st _ _
                (closes a) (closes b) (120 / 119) pos
                (steady_fetch_close default_config a st)
                (steady_fetch_close default_config b _)) as H.
  cbv zeta in H. rewrite Ha, Hb in H.
  change (lookback default_config) with 720%nat in H.
  change (beta_window default_config) with 720%nat in H.
  rewrite !tail_leg in H by lia.
  rewrite !length_leg in H.
  specialize (H (le_n 120) (le_n 120) (ols_beta_twin sa ltac:(lra)) Hpos).
  cbn [bot start_equity world trace] in H.
  change (fst (time env (world st))) with now in H.
  change (snd (time env (world st))) with (world st) in H.
  apply Rltb_true in Hheld. rewrite Hheld in H.
  exists (zscore (tail 400 (spread_of (leg sa) (120 / 119) (leg sa)))).
  exact H.
Qed.

(** An entry in which the broker fills both legs at once. *)
Lemma steady_live_enter (a b action : string) (pa pb : R) (st : State unit) :
  ticket <> 0%Z ->
  _live_enter env a b action pa pb st
  = (Ok tt,
     Build_State
       (with_positions (bot st)
          (pos_set (a, b)
             {| Data.a := a; Data.b := b;
                Data.side_a := side_a_of action;
                Data.side_b := side_b_of action;
                Data.vol_a := 1 / 100; Data.vol_b := 1 / 100;
                entry_pa := pa; entry_pb := pb; entry_ts := now;
                Data.ticket_a := ticket; Data.ticket_b := ticket |}
             (positions (bot st))))
       (start_equity st) (world st)
       (trace st ++
        [EvCalcVolume a; EvCalcVolume b;
         EvOpen a (side_a_of action) (1 / 100)
                (Ok {| open_ok := true; order := ticket |});
         EvOpen b (side_b_of action) (1 / 100)
                (Ok {| open_ok := true; order := ticket |});
         EvTime])).
Proof.
  intros Ht. apply Z.eqb_neq in Ht.
  unfold _live_enter. fold (side_a_of action). fold (side_b_of action).
  unfold bind, rm_calc_volume_for_risk, call, max_retries, enter_attempts,
    mt5c_open_position, call, time_time, call_total, set_positions, get_bot,
    put_bot, ret.
  cbn. rewrite Ht. cbn. rewrite <- !app_assoc. reflexivity.
Qed.

(** An iteration that enters: the signal says ENTER, the pair is free,
    the controller is neither halted nor cooling down, the risk manager
    allows, and the broker fills. *)
Lemma steady_enter_iteration (rcfg : RiskConfig) (a b : string)
      (st : State unit) (sig : Signal) (tr1 : list Event) (s0 : R) :
  _compute_signal env default_config a b st
  = (Ok sig, Build_State (bot st) (start_equity st) (world st) tr1) ->
  String.prefix "ENTER" (fst (fst (fst sig))) = true ->
  pos_mem (a, b) (positions (bot st)) = false ->
  halted (bot st) = false ->
  ~ now < cooldown_until_ts (bot st) ->
  start_equity st = Some s0 ->
  Risk.verdict_of rcfg (equity - s0) (Risk.realized_of (Some []) + Rsum [])
  = (true, OK) ->
  ticket <> 0%Z ->
  step_pair env rcfg default_config (a, b) st
  = (Ok tt,
     Build_State
       {| positions :=
            pos_set (a, b)
              {| Data.a := a; Data.b := b;
                 Data.side_a := side_a_of (fst (fst (fst sig)));
                 Data.side_b := side_b_of (fst (fst (fst sig)));
                 Data.vol_a := 1 / 100; Data.vol_b := 1 / 100;
                 entry_pa := 100; entry_pb := 100; entry_ts := now;
                 Data.ticket_a := ticket; Data.ticket_b := ticket |}
              (positions (bot st));
          cooldown_until_ts := cooldown_until_ts (bot st);
          halted := false;
          consecutive_errors := 0 |}
       (Some s0) (world st)
       (tr1 ++
        [EvFetchLast a; EvFetchLast b; EvTime;
         EvAccountInfo; EvHistoryDeals; EvPositionsGet;
         EvCalcVolume a; EvCalcVolume b;
         EvOpen a (side_a_of (fst (fst (fst sig)))) (1 / 100)
                (Ok {| open_ok := true; order := ticket |});
         EvOpen b (side_b_of (fst (fst (fst sig)))) (1 / 100)
                (Ok {| open_ok := true; order := ticket |});
         EvTime])).
Proof.
  intros Hs Hp Hm Hh Hc He Hv Ht.
  erewrite step_pair_enter;
    [ | exact Hs | exact Hp | reflexivity | reflexivity | exact Hm
      | eapply can_trade_entry_ok;
        [ exact Hh | reflexivity | exact Hc
        | eapply (RiskFacts.is_trading_allowed_ok env rcfg _ s0 equity);
          [ exact He | reflexivity | reflexivity | reflexivity | exact Hv ] ]
      | apply steady_live_enter; exact Ht ].
  unfold set_consecutive_errors, bind, get_bot, put_bot, with_positions.
  cbn. rewrite Hh, <- !app_assoc. reflexivity.
Qed.

End Steady.

(** The account of the sample worlds is within its limits. *)
Lemma verdict_calm :
  Risk.verdict_of risk_cfg (1000 - 1000) (Risk.realized_of (Some []) + Rsum [])
  = (true, OK).
Proof.
  unfold Risk.verdict_of. cbn.
  assert (E1 : Rleb (1000 - 1000) (- Rabs 500) = false).
  { apply Rleb_false. rewrite Rabs_right by lra. lra. }
  assert (E2 : Rleb (0 + 0) (- Rabs 250) = false).
  { apply Rleb_false. rewrite Rabs_right by lra. lra. }
  now rewrite E1, E2.
Qed.

(** One iteration in the world where A, C and E jump: a free pair of a
    jumping and a flat instrument is entered. *)
Lemma jump_flat_iteration (a b : string) (st : State unit) :
  jump_flat_feed a = jump_closes ->
  jump_flat_feed b = flat_closes ->
  pos_get (a, b) (positions (bot st)) = None ->
  halted (bot st) = false ->
  cooldown_until_ts (bot st) = 0 ->
  start_equity st = Some 1000 ->
  exists p tr,
    step_pair (steady_world jump_flat_feed 1000 0 0 101) risk_cfg
              default_config (a, b) st
    = (Ok tt,
       Build_State
         {| positions := pos_set (a, b) p (positions (bot st));
            cooldown_until_ts := 0;
            halted := false;
            consecutive_errors := 0 |}
         (Some 1000) (world st) tr).
Proof.
  intros Ha Hb Hpos Hh Hc He.
  destruct (steady_signal_flat_leg jump_flat_feed 1000 0 0 101
              a b (ln 2) st) as [z [E _]].
  - rewrite Ha. apply log_prices_closes_ending. lra.
  - rewrite Hb. unfold flat_closes.
    rewrite log_prices_closes_ending by lra. now rewrite ln_1.
  - pose proof ln_2_pos. lra.
  - exact Hpos.
  - assert (F : Rltb 0 (ln 2) = true) by (apply Rltb_true; apply ln_2_pos).
    rewrite F in E.
    eexists. eexists.
    rewrite (steady_enter_iteration jump_flat_feed 1000 0 0 101
               risk_cfg a b st _ _ 1000 E).
    + rewrite Hc. reflexivity.
    + reflexivity.
    + unfold pos_mem. now rewrite Hpos.
    + exact Hh.
    + rewrite Hc. lra.
    + exact He.
    + exact verdict_calm.
    + discriminate.
Qed.

Lemma ln_half_neg : ln (1 / 2) < 0.
Proof.
  replace (1 / 2) with (/ 2) by lra. rewrite ln_Rinv by lra.
  pose proof ln_2_pos. lra.
Qed.

End RunFacts.

(** ** Claims on the signal and on the cycle, at failing inputs *)

(** C4, at a failing input.  Both instruments have the same 120 closes
    (1, ..., 1, 2).  The hedge ratio comes out as 120/119 instead of 1,
    the spread is not zero, its z-score lies below minus the entry
    threshold and the signal is an ENTER.  The cause is the divisor
    mismatch of [ols_beta]. *)
Theorem C4_identical_series_enter :
  exists z st',
    Bot._compute_signal (Samples.steady_world Samples.twin_feed 1000 0 0 101)
                        Data.default_config "A" "B" (Samples.fresh_state 1000)
    = (Ok ("ENTER_LONGA_SHORTB"%string, z, 120 / 119, Data.z_low), st') /\
    z < - Data.z_entry Data.default_config.
Proof.
  destruct (RunFacts.steady_signal_twin Samples.twin_feed 1000 0 0 101
              "A" "B" (ln 2) (Samples.fresh_state 1000)) as [z [E Hz]].
  - apply SampleFacts.log_prices_closes_ending. lra.
  - apply SampleFacts.log_prices_closes_ending. lra.
  - apply SampleFacts.ln_2_pos.
  - reflexivity.
  - exists z. eexists. split; [exact E | exact Hz].
Qed.

(** C1, at a failing input.  Instrument A falls from 1 to 1/2 while B
    stays flat: the z-score is below minus the entry threshold and the
    signal is ENTER_LONGA_SHORTB.  The iteration then opens leg A with
    SELL and leg B with BUY and records the position with these sides:
    [_live_enter] tests the action against "ENTER_A_LONG", a name that
    [_compute_signal] never produces. *)
Theorem C1_long_a_signal_sells_a :
  exists z st1,
    (Bot._compute_signal
       (Samples.steady_world Samples.dip_flat_feed 1000 0 0 101)
       Data.default_config "A" "B" (Samples.fresh_state 1000)
     = (Ok ("ENTER_LONGA_SHORTB"%string, z, 1, Data.z_low), st1) /\
     z < - Data.z_entry Data.default_config) /\
    Bot.step_pair
      (Samples.steady_world Samples.dip_flat_feed 1000 0 0 101)
      Samples.risk_cfg Data.default_config
      ("A"%string, "B"%string) (Samples.fresh_state 1000)
    = (Ok tt,
       Data.Build_State
         {| Data.positions :=
              [(("A"%string, "B"%string),
                {| Data.a := "A"; Data.b := "B";
                   Data.side_a := "SELL"; Data.side_b := "BUY";
                   Data.vol_a := 1 / 100; Data.vol_b := 1 / 100;
                   Data.entry_pa := 100; Data.entry_pb := 100;
                   Data.entry_ts := 0;
                   Data.ticket_a := 101; Data.ticket_b := 101 |})];
            Data.cooldown_until_ts := 0;
            Data.halted := false;
            Data.consecutive_errors := 0 |}
         (Some 1000) tt
         [Data.EvFetchClose "A"; Data.EvFetchClose "B";
          Data.EvFetchLast "A"; Data.EvFetchLast "B"; Data.EvTime;
          Data.EvAccountInfo; Data.EvHistoryDeals; Data.EvPositionsGet;
          Data.EvCalcVolume "A"; Data.EvCalcVolume "B";
          Data.EvOpen "A" "SELL" (1 / 100)
            (Ok {| Data.open_ok := true; Data.order := 101 |});
          Data.EvOpen "B" "BUY" (1 / 100)
            (Ok {| Data.open_ok := true; Data.order := 101 |});
          Data.EvTime]).
Proof.
  destruct (RunFacts.steady_signal_flat_leg Samples.dip_flat_feed 1000 0 0 101
              "A" "B" (ln (1 / 2)) (Samples.fresh_state 1000)) as [z [E Hz]].
  - apply SampleFacts.log_prices_closes_ending. lra.
  - change (Samples.dip_flat_feed "B") with (Samples.closes_ending 1).
    rewrite SampleFacts.log_prices_closes_ending by lra. now rewrite ln_1.
  - pose proof RunFacts.ln_half_neg. lra.
  - reflexivity.
  - assert (F : Rltb 0 (ln (1 / 2)) = false).
    { apply Rltb_false. pose proof RunFacts.ln_half_neg. lra. }
    rewrite F in E, Hz.
    exists z. eexists. split; [split; [exact E | exact Hz] |].
    rewrite (RunFacts.steady_enter_iteration Samples.dip_flat_feed 1000 0 0 101
               Samples.risk_cfg "A" "B" (Samples.fresh_state 1000) _ _ 1000 E).
    + reflexivity.
    + reflexivity.
    + reflexivity.
    + reflexivity.
    + cbn. lra.
    + reflexivity.
    + exact RunFacts.verdict_calm.
    + discriminate.
Qed.

(** C2, at a failing input.  With [max_open_positions = 2], an empty
    table and three candidate pairs that all signal ENTER, one cycle
    records three positions: the limit is only consulted before the
    loop, to choose the list of pairs, and never before an entry. *)
Theorem C2_three_positions_in_one_cycle :
  Data.max_open_positions Data.default_config = 2%Z /\
  length
    (Data.positions
       (Data.bot
          (snd (Bot.step
                  (Samples.steady_world Samples.jump_flat_feed 1000 0 0 101)
                  Samples.risk_cfg Data.default_config
                  [("A"%string, "B"%string); ("C"%string, "D"%string);
                   ("E"%string, "F"%string)]
                  (Samples.fresh_state 1000)))))
  = 3%nat.
Proof.
  split; [reflexivity |].
  pose proof (RiskFacts.is_trading_allowed_ok
                (Samples.steady_world Samples.jump_flat_feed 1000 0 0 101)
                Samples.risk_cfg (Samples.fresh_state 1000)
                1000 1000 tt tt tt (Some []) []
                eq_refl eq_refl eq_refl eq_refl RunFacts.verdict_calm) as Hrisk.
  pose proof (RunFacts.can_trade_gate_ok _ Samples.risk_cfg
                (Samples.fresh_state 1000) _ eq_refl Hrisk) as Hgate.
  unfold Bot.step.
  rewrite (MonadFacts.bind_ok _ _ _ _ _ Hgate).
  cbn [negb]. unfold Monad.bind at 1, Monad.get_bot at 1.
  match goal with
  | |- context [Bot.for_pairs _ _ _ _ ?s] => set (s0 := s)
  end.
  match goal with
  | |- context [if ?c then Data.pos_keys _ else _] =>
      replace c with false by reflexivity
  end.
  cbv iota. cbn [Bot.for_pairs].
  destruct (RunFacts.jump_flat_iteration "A" "B" s0) as [p1 [tr1 E1]];
    try reflexivity.
  rewrite (MonadFacts.bind_ok _ _ _ _ _ E1).
  match type of E1 with _ = (_, ?s) => set (s1 := s) end.
  destruct (RunFacts.jump_flat_iteration "C" "D" s1) as [p2 [tr2 E2]];
    try reflexivity.
  rewrite (MonadFacts.bind_ok _ _ _ _ _ E2).
  match type of E2 with _ = (_, ?s) => set (s2 := s) end.
  destruct (RunFacts.jump_flat_iteration "E" "F" s2) as [p3 [tr3 E3]];
    try reflexivity.
  rewrite (MonadFacts.bind_ok _ _ _ _ _ E3).
  reflexivity.
Qed.

(** ** The cooldown over a cycle *)

Module CooldownFacts.
Import Data Monad MonadFacts Bot BotFacts.
Local Open Scope monad_scope.

Lemma opens_app (l1 l2 : list Event) : opens (l1 ++ l2) = opens l1 ++ opens l2.
Proof. unfold opens. apply filter_app. Qed.

Lemma pos_mem_del (k key : Key) (d : Positions) :
  pos_mem k (pos_del key d) = true -> pos_mem k d = true.
Proof.
  unfold pos_mem. induction d as [| [k0 p0] d IH]; cbn.
  - auto.
  - destruct (key_eqb key k0) eqn:E; cbn.
    + destruct (key_eqb k k0); auto.
    + destruct (key_eqb k k0); auto.
Qed.

(** *** Computations that send no order *)

Section Quiet.

Context {W : Type}.

Lemma quiet_ret {A : Type} (x : A) : sends_no_order (ret (W := W) x).
Proof. intros st. reflexivity. Qed.

Lemma quiet_raise {A : Type} (e : exn) :
  sends_no_order (raise (W := W) (A := A) e).
Proof. intros st. reflexivity. Qed.

Lemma quiet_lift {A : Type} (r : Res A) : sends_no_order (lift (W := W) r).
Proof. intros st. reflexivity. Qed.

Lemma quiet_get_bot : sends_no_order (get_bot (W := W)).
Proof. intros st. reflexivity. Qed.

Lemma quiet_put_bot (c : Controller) : sends_no_order (put_bot (W := W) c).
Proof. intros st. reflexivity. Qed.

Lemma quiet_get_start_equity : sends_no_order (get_start_equity (W := W)).
Proof. intros st. reflexivity. Qed.

Lemma quiet_put_start_equity (e : option R) :
  sends_no_order (put_start_equity (W := W) e).
Proof. intros st. reflexivity. Qed.

Lemma quiet_bind {A B : Type} (m : M W A) (f : A -> M W B) :
  sends_no_order m -> (forall x, sends_no_order (f x)) ->
  sends_no_order (bind m f).
Proof.
  intros Hm Hf st. unfold bind. specialize (Hm st).
  destruct (m st) as [[x | e] st1]; cbn in *.
  - now rewrite Hf.
  - assumption.
Qed.

Lemma quiet_try {A : Type} (m : M W A) (h : exn -> M W A) :
  sends_no_order m -> (forall e, sends_no_order (h e)) ->
  sends_no_order (try_except m h).
Proof.
  intros Hm Hh st. unfold try_except. specialize (Hm st).
  destruct (m st) as [[x | e] st1]; cbn in *.
  - assumption.
  - now rewrite Hh.
Qed.

Lemma quiet_call {A : Type} (ev : Res A -> Event) (op : W -> Res A * W) :
  (forall r, is_open (ev r) = false) -> sends_no_order (call ev op).
Proof.
  intros H st. unfold call. destruct (op (world st)) as [r w]. cbn.
  rewrite opens_app. cbn. rewrite H. apply app_nil_r.
Qed.

Lemma quiet_call_total {A : Type} (ev : Event) (op : W -> A * W) :
  is_open ev = false -> sends_no_order (call_total ev op).
Proof.
  intros H st. unfold call_total. destruct (op (world st)) as [x w]. cbn.
  rewrite opens_app. cbn. rewrite H. apply app_nil_r.
Qed.

Lemma quiet_eq {A : Type} (m : M W A) (st st' : State W) (r : Res A) :
  sends_no_order m -> m st = (r, st') -> opens (trace st') = opens (trace st).
Proof. intros K H. specialize (K st). now rewrite H in K. Qed.

End Quiet.

Create HintDb quiet.

#[export] Hint Resolve quiet_ret quiet_raise quiet_lift quiet_get_bot
  quiet_put_bot quiet_get_start_equity quiet_put_start_equity : quiet.

(** Splits a sequence of binds and branches into its calls, none of
    which is an order. *)
Ltac quiet :=
  repeat first
    [ progress auto with quiet
    | apply quiet_bind; [| intros ?]
    | apply quiet_call; intros ?; reflexivity
    | apply quiet_call_total; reflexivity
    | match goal with
      | |- sends_no_order (if ?b then _ else _) => destruct b
      | |- sends_no_order (match ?x with _ => _ end) => destruct x
      end ].

Section Controller.

Context {W : Type} (env : World W) (rcfg : RiskConfig) (cfg : Config).

Lemma quiet_is_trading_allowed : sends_no_order (Risk.is_trading_allowed env rcfg).
Proof.
  unfold Risk.is_trading_allowed, Risk.kill_switch_check,
    Risk.refresh_start_equity, Risk.daily_pnl_realized, Risk.floating_pnl,
    Risk.account_info.
  quiet.
Qed.

Lemma quiet_can_trade (b : bool) : sends_no_order (_can_trade env rcfg b).
Proof.
  pose proof quiet_is_trading_allowed.
  unfold _can_trade, set_halted, time_time. quiet.
Qed.

Lemma quiet_compute_signal (a b : string) :
  sends_no_order (_compute_signal env cfg a b).
Proof. unfold _compute_signal, feed_fetch_close, time_time. quiet. Qed.

Lemma quiet_fetch_last (s : string) : sends_no_order (feed_fetch_last env s).
Proof. unfold feed_fetch_last. quiet. Qed.

Lemma quiet_live_exit (key : Key) : sends_no_order (_live_exit env key).
Proof.
  unfold _live_exit, mt5c_close_position_by_ticket, time_time,
    set_cooldown_until_ts, set_positions.
  quiet.
Qed.

Lemma quiet_set_consecutive_errors (n : nat) :
  sends_no_order (set_consecutive_errors (W := W) n).
Proof. unfold set_consecutive_errors. quiet. Qed.

Lemma quiet_step_handler (e : exn) : sends_no_order (step_handler env e).
Proof.
  unfold step_handler, set_consecutive_errors, set_halted, time_sleep. quiet.
Qed.

(** The loop never raises, so it runs through a list in two parts. *)
Lemma for_pairs_app (l1 l2 : list Key) (st : State W) :
  for_pairs env rcfg cfg (l1 ++ l2) st
  = for_pairs env rcfg cfg l2 (snd (for_pairs env rcfg cfg l1 st)).
Proof.
  revert st. induction l1 as [| key l1 IH]; intros st; cbn [app for_pairs].
  - reflexivity.
  - unfold bind. destruct (step_pair env rcfg cfg key st) as [r st1] eqn:E.
    destruct (step_pair_run env rcfg cfg _ _ _ _ E) as [-> _]. apply IH.
Qed.

(** The gate of [step] does not look at the cooldown. *)
Lemma step_gate (pairs : list Key) (st st0 : State W) (reason : Reason) :
  halted (bot st) = false ->
  Risk.is_trading_allowed env rcfg st = (Ok (true, reason), st0) ->
  step env rcfg cfg pairs st
  = for_pairs env rcfg cfg
      (if (Z.of_nat (length (positions (bot st0))) >=? max_open_positions cfg)%Z
       then pos_keys (positions (bot st0))
       else pairs) st0.
Proof.
  intros Hh Hr. unfold step. unfold bind at 1.
  unfold _can_trade. unfold bind at 1, get_bot at 1. rewrite Hh.
  unfold bind at 1, ret at 1. unfold bind at 1. rewrite Hr. cbn.
  reflexivity.
Qed.

(** *** Inside the window *)

Section Window.

Variable c0 : R.

Hypothesis Hwin : in_window env c0.

Lemma calm_refl (st : State W) :
  c0 <= cooldown_until_ts (bot st) -> calm c0 st st.
Proof. intros H. repeat split; auto. Qed.

Lemma calm_frame {A : Type} (m : M W A) (st s s' : State W) (r : Res A) :
  keeps_bot m -> sends_no_order m ->
  m s = (r, s') -> calm c0 st s -> calm c0 st s'.
Proof.
  intros K Q E [Hc [Ho Hp]]. unfold calm.
  rewrite (keeps_bot_eq _ _ _ _ K E), (quiet_eq _ _ _ _ Q E). auto.
Qed.

(** The entry check answers no. *)
Lemma can_trade_blocked (st : State W) :
  c0 <= cooldown_until_ts (bot st) ->
  exists st', _can_trade env rcfg true st = (Ok false, st') /\
              bot st' = bot st.
Proof.
  intros Hc. destruct (halted (bot st)) eqn:Hh.
  - exists st. split; [now apply can_trade_halted | reflexivity].
  - destruct (time env (world st)) as [now w1] eqn:E1.
    destruct (time env w1) as [now' w2] eqn:E2.
    eexists. split.
    + apply (can_trade_cooldown env rcfg st now now' w1 w2 Hh E1 E2).
      pose proof (Hwin (world st)) as H. rewrite E1 in H. cbn in H. lra.
    + reflexivity.
Qed.

(** An exit keeps the end of the window where it is or moves it on. *)
Lemma live_exit_cooldown (key : Key) (st st' : State W) (r : Res unit) :
  _live_exit env key st = (r, st') ->
  c0 <= cooldown_until_ts (bot st) ->
  c0 <= cooldown_until_ts (bot st').
Proof.
  destruct (pos_get key (positions (bot st))) as [pos |] eqn:Hg.
  2:{ unfold _live_exit, bind, get_bot. rewrite Hg. cbn.
      intros H. now inversion H. }
  destruct (close_position_by_ticket env (ticket_a pos) (world st))
    as [[ra | e] w1] eqn:Ha.
  2:{ unfold _live_exit, bind, get_bot, mt5c_close_position_by_ticket, call.
      rewrite Hg. cbn. rewrite Ha.
      intros H. now inversion H. }
  destruct (close_position_by_ticket env (ticket_b pos) w1)
    as [[rb | e] w2] eqn:Hb.
  2:{ unfold _live_exit, bind, get_bot, mt5c_close_position_by_ticket, call.
      rewrite Hg. cbn. rewrite Ha. cbn. rewrite Hb.
      intros H. now inversion H. }
  rewrite (live_exit_run env key st pos ra rb w1 w2 Hg Ha Hb).
  destruct (Rltb (pnl_of ra + pnl_of rb) 0); intros H; inversion H; cbn.
  - intros _. pose proof (Hwin w2). lra.
  - auto.
Qed.

Lemma dispatch_calm (a b action : string) (pa pb : R) (c : Controller)
      (st s s' : State W) (r : Res unit) :
  (if String.eqb action "EXIT" && pos_mem (a, b) (positions c)
   then _live_exit env (a, b)
   else if String.prefix "ENTER" action && negb (pos_mem (a, b) (positions c))
   then bind (_can_trade env rcfg true)
             (fun ok : bool =>
                if ok then _live_enter env a b action pa pb else ret tt)
   else ret tt) s = (r, s') ->
  calm c0 st s -> calm c0 st s'.
Proof.
  intros H [Hc [Ho Hp]].
  destruct (String.eqb action "EXIT" && pos_mem (a, b) (positions c)).
  { split; [| split].
    - exact (live_exit_cooldown _ _ _ _ H Hc).
    - now rewrite (quiet_eq _ _ _ _ (quiet_live_exit (a, b)) H).
    - intros k Hk. apply Hp.
      destruct (live_exit_effect env _ _ _ _ H) as [E | [E _]];
        rewrite E in Hk; [assumption | now apply pos_mem_del in Hk]. }
  destruct (String.prefix "ENTER" action && negb (pos_mem (a, b) (positions c))).
  2:{ inversion H; subst. repeat split; auto. }
  destruct (can_trade_blocked s Hc) as [s1 [E K]].
  rewrite (bind_ok _ _ _ _ _ E) in H. inversion H; subst.
  unfold calm. rewrite K, (quiet_eq _ _ _ _ (quiet_can_trade true) E). auto.
Qed.

Lemma step_body_calm (key : Key) (st s s' : State W) (r : Res unit) :
  step_body env rcfg cfg key s = (r, s') -> calm c0 st s -> calm c0 st s'.
Proof.
  destruct key as [a b]. unfold step_body. intros H Hs.
  unfold bind at 1 in H.
  destruct (_compute_signal env cfg a b s) as [[sig | e] s1] eqn:E1;
    pose proof (calm_frame _ st _ _ _ (keeps_bot_compute_signal env cfg a b)
                  (quiet_compute_signal a b) E1 Hs) as H1.
  2:{ now inversion H; subst. }
  unfold bind at 1 in H.
  destruct (feed_fetch_last env a s1) as [[pa | e] s2] eqn:E2;
    pose proof (calm_frame _ st _ _ _ (keeps_bot_fetch_last env a)
                  (quiet_fetch_last a) E2 H1) as H2.
  2:{ now inversion H; subst. }
  unfold bind at 1 in H.
  destruct (feed_fetch_last env b s2) as [[pb | e] s3] eqn:E3;
    pose proof (calm_frame _ st _ _ _ (keeps_bot_fetch_last env b)
                  (quiet_fetch_last b) E3 H2) as H3.
  2:{ now inversion H; subst. }
  unfold bind at 1, get_bot at 1 in H. unfold bind at 1 in H.
  match type of H with
  | context [(if ?c1 then ?m1 else ?m2) s3] =>
      destruct ((if c1 then m1 else m2) s3) as [[u | e] s4] eqn:E4
  end; apply (dispatch_calm _ _ _ _ _ _ st) in E4; try assumption.
  - unfold set_consecutive_errors, bind, get_bot, put_bot in H.
    inversion H; subst. exact E4.
  - inversion H; subst. exact E4.
Qed.

Lemma step_pair_calm (key : Key) (st s : State W) :
  calm c0 st s -> calm c0 st (snd (step_pair env rcfg cfg key s)).
Proof.
  intros Hs.
  destruct (step_body env rcfg cfg key s) as [[u | e] s1] eqn:E.
  - rewrite (step_pair_ok env rcfg cfg _ _ _ _ E). cbn [snd].
    exact (step_body_calm _ _ _ _ _ E Hs).
  - rewrite (step_pair_raise env rcfg cfg _ _ _ _ E), step_handler_run.
    destruct (step_body_calm _ _ _ _ _ E Hs) as [Hc [Ho Hp]].
    unfold calm. cbn [snd bot positions cooldown_until_ts trace].
    rewrite opens_app, Ho. cbn. rewrite app_nil_r. auto.
Qed.

Lemma step_calm (pairs : list Key) (st : State W) :
  c0 <= cooldown_until_ts (bot st) ->
  calm c0 st (snd (step env rcfg cfg pairs st)).
Proof.
  intros Hc.
  apply (step_preserves env rcfg cfg (calm c0 st)).
  - intros s [Hs [Ho Hp]].
    destruct (can_trade_effect env rcfg false s) as [E1 [E2 _]].
    cbv zeta in E1, E2. unfold calm. rewrite E1, E2.
    rewrite (quiet_can_trade false s). auto.
  - intros key s. apply step_pair_calm.
  - now apply calm_refl.
Qed.

End Window.

End Controller.

End CooldownFacts.

(** ** A feed without a tick *)

Module TicklessFacts.
Import Data Monad MonadFacts Bot Utils UtilsFacts SeriesFacts SignalFacts
       Samples SampleFacts.
Local Open Scope monad_scope.

(** The time stop on the feed without a tick: the signal needs the
    closes and the clock only. *)
Lemma tickless_signal_time_stop (closes : string -> Series) (now : R)
      (a b : string) (sa : R) (st : State unit) (pos : Position) :
  log_prices (closes a) = leg sa ->
  log_prices (closes b) = leg sa ->
  0 < sa ->
  pos_get (a, b) (positions (bot st)) = Some pos ->
  IZR (max_hold_minutes default_config) < (now - entry_ts pos) / 60 ->
  exists z,
    _compute_signal (tickless_world closes now) default_config a b st
    = (Ok ("EXIT"%string, z, 120 / 119, max_hold ((now - entry_ts pos) / 60)),
       Build_State (bot st) (start_equity st) (world st)
                   (((trace st ++ [EvFetchClose a]) ++ [EvFetchClose b])
                    ++ [EvTime])).
Proof.
  intros Ha Hb Hsa Hpos Hheld.
  pose proof (compute_signal_position (tickless_world closes now)
                default_config a b st
                (Build_State (bot st) (start_equity st) (world st)
                   (trace st ++ [EvFetchClose a]))
                (Build_State (bot st) (start_equity st) (world st)
                   ((trace st ++ [EvFetchClose a]) ++ [EvFetchClose b]))
                (closes a) (closes b) (120 / 119) pos
                eq_refl eq_refl) as H.
  cbv zeta in H. rewrite Ha, Hb in H.
  change (lookback default_config) with 720%nat in H.
  change (beta_window default_config) with 720%nat in H.
  rewrite !tail_leg in H by lia.
  rewrite !length_leg in H.
  specialize (H (le_n 120) (le_n 120) (ols_beta_twin sa ltac:(lra)) Hpos).
  cbn [bot start_equity world trace] in H.
  change (fst (time (tickless_world closes now) (world st))) with now in H.
  change (snd (time (tickless_world closes now) (world st))) with (world st) in H.
  apply Rltb_true in Hheld. rewrite Hheld in H.
  exists (zscore (tail 400 (spread_of (leg sa) (120 / 119) (leg sa)))).
  exact H.
Qed.

End TicklessFacts.

(** C7.  The cooldown blocks entries and nothing else.
    - An exit whose two closes are answered and whose total profit
      (a refused close counting zero) is negative sets the end of the
      cooldown to the clock reading plus 30 minutes.
    - An iteration whose signal is an ENTER for a free pair, at a clock
      reading inside the window, returns without any call to the broker
      (the clock is all it reads after the prices) and leaves the
      position table as it was.
    - An iteration whose signal is EXIT for a held pair, once its two
      last-price requests have returned and when both closes are
      answered, closes both legs by their tickets and removes the
      position, whatever the cooldown.
    - A cycle whose clock readings all fall inside the window sends no
      order and adds no pair to the table, and the window does not end
      earlier for it.
    - The gate of a cycle does not look at the cooldown: when the
      controller is not halted and the risk manager allows, the cycle
      runs its iterations, and such an iteration with an EXIT signal
      closes both legs and removes the position before the cycle goes
      on with the pairs that are left. *)
Theorem C7_cooldown_blocks_entries_only
        (W : Type) (env : Data.World W) (rcfg : Data.RiskConfig)
        (cfg : Data.Config) :
  (forall key st pos ra rb w1 w2,
      Data.pos_get key (Data.positions (Data.bot st)) = Some pos ->
      Data.close_position_by_ticket env (Data.ticket_a pos) (Data.world st)
      = (Ok ra, w1) ->
      Data.close_position_by_ticket env (Data.ticket_b pos) w1 = (Ok rb, w2) ->
      Bot.pnl_of ra + Bot.pnl_of rb < 0 ->
      Data.cooldown_until_ts (Data.bot (snd (Bot._live_exit env key st)))
      = fst (Data.time env w2) + 30 * 60) /\
  (forall a b st st1 st2 st3 sig pa pb now w4,
      Bot._compute_signal env cfg a b st = (Ok sig, st1) ->
      String.prefix "ENTER" (fst (fst (fst sig))) = true ->
      Bot.feed_fetch_last env a st1 = (Ok pa, st2) ->
      Bot.feed_fetch_last env b st2 = (Ok pb, st3) ->
      Data.pos_mem (a, b) (Data.positions (Data.bot st)) = false ->
      Data.time env (Data.world st3) = (now, w4) ->
      now < Data.cooldown_until_ts (Data.bot st) ->
      exists st' evs,
        Bot.step_pair env rcfg cfg (a, b) st = (Ok tt, st') /\
        Data.positions (Data.bot st') = Data.positions (Data.bot st) /\
        Data.trace st' = Data.trace st3 ++ evs /\
        Forall (fun ev => ev = Data.EvTime) evs) /\
  (forall a b st st1 st2 st3 sig pa pb pos ra rb w1 w2,
      Bot._compute_signal env cfg a b st = (Ok sig, st1) ->
      fst (fst (fst sig)) = "EXIT"%string ->
      Bot.feed_fetch_last env a st1 = (Ok pa, st2) ->
      Bot.feed_fetch_last env b st2 = (Ok pb, st3) ->
      Data.pos_get (a, b) (Data.positions (Data.bot st)) = Some pos ->
      Data.close_position_by_ticket env (Data.ticket_a pos) (Data.world st3)
      = (Ok ra, w1) ->
      Data.close_position_by_ticket env (Data.ticket_b pos) w1 = (Ok rb, w2) ->
      exists st' evs,
        Bot.step_pair env rcfg cfg (a, b) st = (Ok tt, st') /\
        Data.positions (Data.bot st')
        = Data.pos_del (a, b) (Data.positions (Data.bot st)) /\
        Data.trace st'
        = Data.trace st3 ++
          [Data.EvClose (Data.ticket_a pos) (Ok ra);
           Data.EvClose (Data.ticket_b pos) (Ok rb)] ++ evs) /\
  (forall pairs st,
      Bot.in_window env (Data.cooldown_until_ts (Data.bot st)) ->
      let st' := snd (Bot.step env rcfg cfg pairs st) in
      Bot.opens (Data.trace st') = Bot.opens (Data.trace st) /\
      (forall k, Data.pos_mem k (Data.positions (Data.bot st')) = true ->
                 Data.pos_mem k (Data.positions (Data.bot st)) = true) /\
      Data.cooldown_until_ts (Data.bot st)
      <= Data.cooldown_until_ts (Data.bot st')) /\
  (forall pairs st st0 reason pre a b rest s st1 st2 st3 sig pa pb pos
          ra rb w1 w2,
      Data.halted (Data.bot st) = false ->
      Risk.is_trading_allowed env rcfg st = (Ok (true, reason), st0) ->
      (if (Z.of_nat (length (Data.positions (Data.bot st0)))
           >=? Data.max_open_positions cfg)%Z
       then Data.pos_keys (Data.positions (Data.bot st0))
       else pairs) = pre ++ (a, b) :: rest ->
      s = snd (Bot.for_pairs env rcfg cfg pre st0) ->
      Bot._compute_signal env cfg a b s = (Ok sig, st1) ->
      fst (fst (fst sig)) = "EXIT"%string ->
      Bot.feed_fetch_last env a st1 = (Ok pa, st2) ->
      Bot.feed_fetch_last env b st2 = (Ok pb, st3) ->
      Data.pos_get (a, b) (Data.positions (Data.bot s)) = Some pos ->
      Data.close_position_by_ticket env (Data.ticket_a pos) (Data.world st3)
      = (Ok ra, w1) ->
      Data.close_position_by_ticket env (Data.ticket_b pos) w1 = (Ok rb, w2) ->
      exists s' evs,
        Bot.step_pair env rcfg cfg (a, b) s = (Ok tt, s') /\
        Data.positions (Data.bot s')
        = Data.pos_del (a, b) (Data.positions (Data.bot s)) /\
        Data.trace s'
        = Data.trace st3 ++
          [Data.EvClose (Data.ticket_a pos) (Ok ra);
           Data.EvClose (Data.ticket_b pos) (Ok rb)] ++ evs /\
        Bot.step env rcfg cfg pairs st = Bot.for_pairs env rcfg cfg rest s').
Proof.
  assert (Hkeep : forall a b st st1 st2 st3 sig pa pb,
    Bot._compute_signal env cfg a b st = (Ok sig, st1) ->
    Bot.feed_fetch_last env a st1 = (Ok pa, st2) ->
    Bot.feed_fetch_last env b st2 = (Ok pb, st3) ->
    Data.bot st3 = Data.bot st).
  { intros a b st st1 st2 st3 sig pa pb Hs Ha Hb.
    rewrite (BotFacts.keeps_bot_eq _ _ _ _ (BotFacts.keeps_bot_fetch_last env b) Hb).
    rewrite (BotFacts.keeps_bot_eq _ _ _ _ (BotFacts.keeps_bot_fetch_last env a) Ha).
    apply (BotFacts.keeps_bot_eq _ _ _ _
             (BotFacts.keeps_bot_compute_signal env cfg a b) Hs). }
  assert (Hexit : forall a b st st1 st2 st3 sig pa pb pos ra rb w1 w2,
      Bot._compute_signal env cfg a b st = (Ok sig, st1) ->
      fst (fst (fst sig)) = "EXIT"%string ->
      Bot.feed_fetch_last env a st1 = (Ok pa, st2) ->
      Bot.feed_fetch_last env b st2 = (Ok pb, st3) ->
      Data.pos_get (a, b) (Data.positions (Data.bot st)) = Some pos ->
      Data.close_position_by_ticket env (Data.ticket_a pos) (Data.world st3)
      = (Ok ra, w1) ->
      Data.close_position_by_ticket env (Data.ticket_b pos) w1 = (Ok rb, w2) ->
      exists st' evs,
        Bot.step_pair env rcfg cfg (a, b) st = (Ok tt, st') /\
        Data.positions (Data.bot st')
        = Data.pos_del (a, b) (Data.positions (Data.bot st)) /\
        Data.trace st'
        = Data.trace st3 ++
          [Data.EvClose (Data.ticket_a pos) (Ok ra);
           Data.EvClose (Data.ticket_b pos) (Ok rb)] ++ evs).
  { intros a b st st1 st2 st3 sig pa pb pos ra rb w1 w2 Hs Hx Ha Hb Hg Hca Hcb.
    pose proof (Hkeep a b st st1 st2 st3 sig pa pb Hs Ha Hb) as K.
    rewrite <- K in Hg.
    rewrite (RunFacts.step_pair_exit env rcfg cfg a b st st1 st2 st3 sig pa pb
               pos ra rb w1 w2 Hs Hx Ha Hb Hg Hca Hcb).
    unfold Monad.bind.
    rewrite (BotFacts.live_exit_run env (a, b) st3 pos ra rb w1 w2 Hg Hca Hcb).
    destruct (Rltb (Bot.pnl_of ra + Bot.pnl_of rb) 0).
    + eexists. exists [Data.EvTime]. cbn. rewrite K. repeat split.
    + eexists. exists []. cbn. rewrite K. repeat split. }
  split; [| split; [| split; [| split]]].
  - intros key st pos ra rb w1 w2 Hg Ha Hb Hloss.
    rewrite (BotFacts.live_exit_run env key st pos ra rb w1 w2 Hg Ha Hb).
    apply Rltb_true in Hloss. rewrite Hloss. reflexivity.
  - intros a b st st1 st2 st3 sig pa pb now w4 Hs Hp Ha Hb Hm Ht Hlt.
    pose proof (Hkeep a b st st1 st2 st3 sig pa pb Hs Ha Hb) as K.
    rewrite <- K in Hm, Hlt.
    destruct (Data.halted (Data.bot st3)) eqn:Hh.
    + rewrite (RunFacts.step_pair_enter_halted env rcfg cfg a b st st1 st2 st3
                 sig pa pb Hs Hp Ha Hb Hm Hh).
      eexists. exists []. cbn. rewrite app_nil_r, K. repeat split. constructor.
    + destruct (Data.time env w4) as [now' w5] eqn:Ht'.
      rewrite (RunFacts.step_pair_enter_cooldown env rcfg cfg a b st st1 st2 st3
                 sig pa pb now now' w4 w5 Hs Hp Ha Hb Hm Hh Ht Ht' Hlt).
      eexists. exists [Data.EvTime; Data.EvTime]. cbn. rewrite K.
      repeat split. repeat constructor.
  - exact Hexit.
  - intros pairs st Hwin. cbv zeta.
    destruct (CooldownFacts.step_calm env rcfg cfg _ Hwin pairs st (Rle_refl _))
      as [Hc [Ho Hp]].
    auto.
  - intros pairs st st0 reason pre a b rest s st1 st2 st3 sig pa pb pos
           ra rb w1 w2 Hh Hr Hl Es Hs Hx Ha Hb Hg Hca Hcb.
    destruct (Hexit a b s st1 st2 st3 sig pa pb pos ra rb w1 w2
                Hs Hx Ha Hb Hg Hca Hcb) as [s' [evs [H1 [H2 H3]]]].
    exists s', evs. repeat split; try assumption.
    rewrite (CooldownFacts.step_gate env rcfg cfg pairs st st0 reason Hh Hr).
    rewrite Hl, CooldownFacts.for_pairs_app, <- Es.
    cbn [Bot.for_pairs]. now rewrite (MonadFacts.bind_ok _ _ _ _ _ H1).
Qed.

Lemma C7_cooldown_blocks_entries_only_witness :
  (Bot.pnl_of {| Data.close_ok := true; Data.profit := Some (- (25 / 4)) |}
   + Bot.pnl_of {| Data.close_ok := true; Data.profit := Some (- (25 / 4)) |} < 0 /\
   Data.cooldown_until_ts
     (Data.bot
        (snd (Bot._live_exit
                (Samples.steady_world Samples.no_history 1000 600 (- (25 / 4)) 101)
                ("A"%string, "B"%string) Samples.open_state)))
   = fst (Data.time
            (Samples.steady_world Samples.no_history 1000 600 (- (25 / 4)) 101) tt)
     + 30 * 60) /\
  (exists sig st1 (st3 : Data.State unit) st' evs,
      Bot._compute_signal
        (Samples.steady_world Samples.jump_flat_feed 1000 600 0 101)
        Data.default_config "A" "B" Samples.cooling_state = (Ok sig, st1) /\
      String.prefix "ENTER" (fst (fst (fst sig))) = true /\
      600 < Data.cooldown_until_ts (Data.bot Samples.cooling_state) /\
      Bot.step_pair
        (Samples.steady_world Samples.jump_flat_feed 1000 600 0 101)
        Samples.risk_cfg Data.default_config ("A"%string, "B"%string)
        Samples.cooling_state = (Ok tt, st') /\
      Data.positions (Data.bot st')
      = Data.positions (Data.bot Samples.cooling_state) /\
      Data.trace st' = Data.trace st3 ++ evs /\
      Forall (fun ev => ev = Data.EvTime) evs) /\
  (exists sig st1 (st3 : Data.State unit) st' evs,
      Bot._compute_signal
        (Samples.steady_world Samples.twin_feed 1000 1000000 0 101)
        Data.default_config "A" "B" Samples.cooling_open_state = (Ok sig, st1) /\
      fst (fst (fst sig)) = "EXIT"%string /\
      Bot.step_pair
        (Samples.steady_world Samples.twin_feed 1000 1000000 0 101)
        Samples.risk_cfg Data.default_config ("A"%string, "B"%string)
        Samples.cooling_open_state = (Ok tt, st') /\
      Data.positions (Data.bot st')
      = Data.pos_del ("A"%string, "B"%string)
          (Data.positions (Data.bot Samples.cooling_open_state)) /\
      Data.trace st'
      = Data.trace st3 ++
        [Data.EvClose 101 (Ok {| Data.close_ok := true; Data.profit := Some 0 |});
         Data.EvClose 102 (Ok {| Data.close_ok := true; Data.profit := Some 0 |})]
        ++ evs) /\
  (Bot.in_window (Samples.steady_world Samples.jump_flat_feed 1000 600 0 101)
                 (Data.cooldown_until_ts (Data.bot Samples.cooling_state)) /\
   (exists st0 sig st1,
       Bot._can_trade
         (Samples.steady_world Samples.jump_flat_feed 1000 600 0 101)
         Samples.risk_cfg false Samples.cooling_state = (Ok true, st0) /\
       Bot._compute_signal
         (Samples.steady_world Samples.jump_flat_feed 1000 600 0 101)
         Data.default_config "A" "B" st0 = (Ok sig, st1) /\
       String.prefix "ENTER" (fst (fst (fst sig))) = true) /\
   Bot.opens
     (Data.trace
        (snd (Bot.step
                (Samples.steady_world Samples.jump_flat_feed 1000 600 0 101)
                Samples.risk_cfg Data.default_config
                [("A"%string, "B"%string)] Samples.cooling_state))) = [] /\
   forall k,
     Data.pos_mem k
       (Data.positions
          (Data.bot
             (snd (Bot.step
                     (Samples.steady_world Samples.jump_flat_feed 1000 600 0 101)
                     Samples.risk_cfg Data.default_config
                     [("A"%string, "B"%string)] Samples.cooling_state))))
     = true ->
     Data.pos_mem k (Data.positions (Data.bot Samples.cooling_state)) = true) /\
  (exists st0 sig st1 (st3 : Data.State unit) s' evs,
      Risk.is_trading_allowed
        (Samples.steady_world Samples.twin_feed 1000 1999000 0 101)
        Samples.risk_cfg Samples.cooling_open_state
      = (Ok (true, Data.OK), st0) /\
      Bot.in_window
        (Samples.steady_world Samples.twin_feed 1000 1999000 0 101)
        (Data.cooldown_until_ts (Data.bot Samples.cooling_open_state)) /\
      Bot._compute_signal
        (Samples.steady_world Samples.twin_feed 1000 1999000 0 101)
        Data.default_config "A" "B" st0 = (Ok sig, st1) /\
      fst (fst (fst sig)) = "EXIT"%string /\
      Bot.step_pair
        (Samples.steady_world Samples.twin_feed 1000 1999000 0 101)
        Samples.risk_cfg Data.default_config ("A"%string, "B"%string) st0
      = (Ok tt, s') /\
      Data.positions (Data.bot s') = [] /\
      Data.trace s'
      = Data.trace st3 ++
        [Data.EvClose 101 (Ok {| Data.close_ok := true; Data.profit := Some 0 |});
         Data.EvClose 102 (Ok {| Data.close_ok := true; Data.profit := Some 0 |})]
        ++ evs /\
      Bot.step (Samples.steady_world Samples.twin_feed 1000 1999000 0 101)
               Samples.risk_cfg Data.default_config
               [("A"%string, "B"%string)] Samples.cooling_open_state
      = (Ok tt, s')).
Proof.
  split; [| split; [| split; [| split]]].
  - assert (Hloss :
      Bot.pnl_of {| Data.close_ok := true; Data.profit := Some (- (25 / 4)) |}
      + Bot.pnl_of {| Data.close_ok := true; Data.profit := Some (- (25 / 4)) |}
      < 0) by (cbn; lra).
    split; [exact Hloss |].
    exact (proj1 (C7_cooldown_blocks_entries_only unit
                    (Samples.steady_world Samples.no_history 1000 600 (- (25 / 4)) 101)
                    Samples.risk_cfg Data.default_config)
                 ("A"%string, "B"%string) Samples.open_state
                 Samples.sample_position _ _ tt tt eq_refl eq_refl eq_refl Hloss).
  - destruct (RunFacts.steady_signal_flat_leg Samples.jump_flat_feed 1000 600 0 101
                "A" "B" (ln 2) Samples.cooling_state) as [z [E _]].
    + apply SampleFacts.log_prices_closes_ending. lra.
    + change (Samples.jump_flat_feed "B") with (Samples.closes_ending 1).
      rewrite SampleFacts.log_prices_closes_ending by lra. now rewrite ln_1.
    + pose proof SampleFacts.ln_2_pos. lra.
    + reflexivity.
    + assert (F : Rltb 0 (ln 2) = true)
        by (apply Rltb_true; apply SampleFacts.ln_2_pos).
      rewrite F in E.
      assert (Hlt : 600 < Data.cooldown_until_ts (Data.bot Samples.cooling_state))
        by (cbn; lra).
      destruct (proj1 (proj2 (C7_cooldown_blocks_entries_only unit
                  (Samples.steady_world Samples.jump_flat_feed 1000 600 0 101)
                  Samples.risk_cfg Data.default_config))
                "A"%string "B"%string Samples.cooling_state _ _ _ _ _ _ 600 tt
                E eq_refl eq_refl eq_refl eq_refl eq_refl Hlt)
        as [st' [evs [H1 [H2 [H3 H4]]]]].
      eexists. eexists. eexists. exists st', evs.
      split; [exact E |]. split; [reflexivity |]. split; [exact Hlt |].
      split; [exact H1 |]. split; [exact H2 |]. split; [exact H3 | exact H4].
  - destruct (RunFacts.steady_signal_time_stop Samples.twin_feed 1000 1000000 0 101
                "A" "B" (ln 2) Samples.cooling_open_state Samples.sample_position)
      as [z E].
    + apply SampleFacts.log_prices_closes_ending. lra.
    + apply SampleFacts.log_prices_closes_ending. lra.
    + apply SampleFacts.ln_2_pos.
    + reflexivity.
    + cbn. lra.
    + destruct (proj1 (proj2 (proj2 (C7_cooldown_blocks_entries_only unit
                  (Samples.steady_world Samples.twin_feed 1000 1000000 0 101)
                  Samples.risk_cfg Data.default_config)))
                "A"%string "B"%string Samples.cooling_open_state _ _ _ _ _ _
                Samples.sample_position _ _ tt tt
                E eq_refl eq_refl eq_refl eq_refl eq_refl eq_refl)
        as [st' [evs [H1 [H2 H3]]]].
      eexists. eexists. eexists. exists st', evs.
      split; [exact E |]. split; [reflexivity |].
      split; [exact H1 |]. split; [exact H2 | exact H3].
  - assert (Hwin : Bot.in_window
                     (Samples.steady_world Samples.jump_flat_feed 1000 600 0 101)
                     (Data.cooldown_until_ts (Data.bot Samples.cooling_state))).
    { intros w. cbn. lra. }
    split; [exact Hwin |].
    pose proof (RiskFacts.is_trading_allowed_ok
                  (Samples.steady_world Samples.jump_flat_feed 1000 600 0 101)
                  Samples.risk_cfg Samples.cooling_state
                  1000 1000 tt tt tt (Some []) []
                  eq_refl eq_refl eq_refl eq_refl RunFacts.verdict_calm) as Hrisk.
    pose proof (RunFacts.can_trade_gate_ok _ Samples.risk_cfg
                  Samples.cooling_state _ eq_refl Hrisk) as Hgate.
    split.
    + match type of Hgate with _ = (_, ?s) => set (s0 := s) in * end.
      destruct (RunFacts.steady_signal_flat_leg Samples.jump_flat_feed
                  1000 600 0 101 "A" "B" (ln 2) s0) as [z [E _]].
      * apply SampleFacts.log_prices_closes_ending. lra.
      * change (Samples.jump_flat_feed "B") with (Samples.closes_ending 1).
        rewrite SampleFacts.log_prices_closes_ending by lra. now rewrite ln_1.
      * pose proof SampleFacts.ln_2_pos. lra.
      * reflexivity.
      * assert (F : Rltb 0 (ln 2) = true)
          by (apply Rltb_true; apply SampleFacts.ln_2_pos).
        rewrite F in E.
        eexists. eexists. eexists.
        split; [exact Hgate |]. split; [exact E | reflexivity].
    + destruct (proj1 (proj2 (proj2 (proj2 (C7_cooldown_blocks_entries_only unit
                  (Samples.steady_world Samples.jump_flat_feed 1000 600 0 101)
                  Samples.risk_cfg Data.default_config))))
                [("A"%string, "B"%string)] Samples.cooling_state Hwin)
        as [H1 [H2 _]].
      split; [exact H1 | exact H2].
  - pose proof (RiskFacts.is_trading_allowed_ok
                  (Samples.steady_world Samples.twin_feed 1000 1999000 0 101)
                  Samples.risk_cfg Samples.cooling_open_state
                  1000 1000 tt tt tt (Some []) []
                  eq_refl eq_refl eq_refl eq_refl RunFacts.verdict_calm) as Hrisk.
    match type of Hrisk with _ = (_, ?s) => set (s0 := s) in * end.
    destruct (RunFacts.steady_signal_time_stop Samples.twin_feed 1000 1999000 0 101
                "A" "B" (ln 2) s0 Samples.sample_position)
      as [z E].
    + apply SampleFacts.log_prices_closes_ending. lra.
    + apply SampleFacts.log_prices_closes_ending. lra.
    + apply SampleFacts.ln_2_pos.
    + reflexivity.
    + cbn. lra.
    + epose proof (proj2 (proj2 (proj2 (proj2 (C7_cooldown_blocks_entries_only unit
                  (Samples.steady_world Samples.twin_feed 1000 1999000 0 101)
                  Samples.risk_cfg Data.default_config))))
                [("A"%string, "B"%string)] Samples.cooling_open_state s0 Data.OK
                [] "A"%string "B"%string [] s0 _ _ _ _ _ _
                Samples.sample_position _ _ tt tt) as H.
      specialize (H eq_refl Hrisk eq_refl eq_refl E eq_refl).
      specialize (H eq_refl eq_refl eq_refl eq_refl eq_refl).
      destruct H as [s' [evs [H1 [H2 [H3 H4]]]]].
      exists s0. eexists. eexists. eexists. exists s', evs.
      split; [exact Hrisk |]. split; [intros w; cbn; lra |].
      split; [exact E |]. split; [reflexivity |].
      split; [exact H1 |]. split; [exact H2 |]. split; [exact H3 | exact H4].
Defined.

(** C7, the case left out: a feed without a tick.  Inside the window the
    signal for the held pair (A, B) is EXIT, by the time stop; the
    request for the last price of A raises before the branch on the
    action is reached, so the cycle sends no close and the position
    stays in the table. *)
Lemma C7_exit_dropped_counterexample :
  Bot.in_window (Samples.tickless_world Samples.twin_feed 1999000)
                (Data.cooldown_until_ts (Data.bot Samples.cooling_open_state)) /\
  (exists z st1,
      Bot._compute_signal
        (Samples.tickless_world Samples.twin_feed 1999000)
        Data.default_config "A" "B"
        (Data.Build_State (Data.bot Samples.cooling_open_state) (Some 1000) tt
           [Data.EvAccountInfo; Data.EvHistoryDeals; Data.EvPositionsGet])
      = (Ok ("EXIT"%string, z, 120 / 119,
             Data.max_hold ((1999000 - 0) / 60)), st1)) /\
  Bot.step (Samples.tickless_world Samples.twin_feed 1999000)
           Samples.risk_cfg Data.default_config
           [("A"%string, "B"%string)] Samples.cooling_open_state
  = (Ok tt,
     Data.Build_State
       {| Data.positions := [(("A"%string, "B"%string), Samples.sample_position)];
          Data.cooldown_until_ts := 2000000;
          Data.halted := false;
          Data.consecutive_errors := 1 |}
       (Some 1000) tt
       [Data.EvAccountInfo; Data.EvHistoryDeals; Data.EvPositionsGet;
        Data.EvFetchClose "A"; Data.EvFetchClose "B"; Data.EvTime;
        Data.EvFetchLast "A"; Data.EvSleep 20]).
Proof.
  assert (Hsig : exists z,
      Bot._compute_signal
        (Samples.tickless_world Samples.twin_feed 1999000)
        Data.default_config "A" "B"
        (Data.Build_State (Data.bot Samples.cooling_open_state) (Some 1000) tt
           [Data.EvAccountInfo; Data.EvHistoryDeals; Data.EvPositionsGet])
      = (Ok ("EXIT"%string, z, 120 / 119,
             Data.max_hold ((1999000 - 0) / 60)),
         Data.Build_State (Data.bot Samples.cooling_open_state) (Some 1000) tt
           [Data.EvAccountInfo; Data.EvHistoryDeals; Data.EvPositionsGet;
            Data.EvFetchClose "A"; Data.EvFetchClose "B"; Data.EvTime])).
  { destruct (TicklessFacts.tickless_signal_time_stop
                Samples.twin_feed 1999000 "A" "B" (ln 2)
                (Data.Build_State (Data.bot Samples.cooling_open_state)
                   (Some 1000) tt
                   [Data.EvAccountInfo; Data.EvHistoryDeals; Data.EvPositionsGet])
                Samples.sample_position)
      as [z E].
    - apply SampleFacts.log_prices_closes_ending. lra.
    - apply SampleFacts.log_prices_closes_ending. lra.
    - apply SampleFacts.ln_2_pos.
    - reflexivity.
    - cbn. lra.
    - exists z. exact E. }
  destruct Hsig as [z Hsig].
  split; [intros w; cbn; lra |].
  split; [exists z; eexists; exact Hsig |].
  pose proof (RiskFacts.is_trading_allowed_ok
                (Samples.tickless_world Samples.twin_feed 1999000)
                Samples.risk_cfg Samples.cooling_open_state
                1000 1000 tt tt tt (Some []) []
                eq_refl eq_refl eq_refl eq_refl RunFacts.verdict_calm) as Hrisk.
  rewrite (CooldownFacts.step_gate
             (Samples.tickless_world Samples.twin_feed 1999000)
             Samples.risk_cfg Data.default_config [("A"%string, "B"%string)]
             Samples.cooling_open_state _ Data.OK eq_refl Hrisk).
  change (Data.trace Samples.cooling_open_state) with (@nil Data.Event).
  cbn [app].
  match goal with
  | |- context [if ?c then Data.pos_keys _ else _] =>
      replace c with false by reflexivity
  end.
  cbn [Bot.for_pairs].
  assert (Hbody :
    Bot.step_body (Samples.tickless_world Samples.twin_feed 1999000)
      Samples.risk_cfg Data.default_config ("A"%string, "B"%string)
      (Data.Build_State (Data.bot Samples.cooling_open_state) (Some 1000) tt
         [Data.EvAccountInfo; Data.EvHistoryDeals; Data.EvPositionsGet])
    = (Raise (RuntimeError "symbol_info_tick failed"),
       Data.Build_State (Data.bot Samples.cooling_open_state) (Some 1000) tt
         [Data.EvAccountInfo; Data.EvHistoryDeals; Data.EvPositionsGet;
          Data.EvFetchClose "A"; Data.EvFetchClose "B"; Data.EvTime;
          Data.EvFetchLast "A"])).
  { unfold Bot.step_body. rewrite (MonadFacts.bind_ok _ _ _ _ _ Hsig).
    reflexivity. }
  unfold Monad.bind at 1.
  rewrite (BotFacts.step_pair_raise _ _ _ _ _ _ _ Hbody).
  rewrite BotFacts.step_handler_run. reflexivity.
Qed.

(** * Further properties *)

(** ** scanner.py: [pick_top_pairs] *)

Module PickFacts.
Import Scanner ScannerFacts.

Lemma ForallOrdPairs_nth {A : Type} (R : A -> A -> Prop) (l : list A) :
  ForallOrdPairs R l ->
  forall i j x y,
    (i < j)%nat -> nth_error l i = Some x -> nth_error l j = Some y -> R x y.
Proof.
  induction 1 as [| z l Hz Hl IH]; intros i j x y Hij Hi Hj.
  - destruct i; discriminate.
  - destruct j as [| j]; [lia |]. cbn in Hj. destruct i as [| i]; cbn in Hi.
    + inversion Hi; subst. apply nth_error_In in Hj.
      rewrite Forall_forall in Hz. now apply Hz.
    + apply (IH i j); [lia | assumption | assumption].
Qed.

Lemma share_instrument_true (p q : string * string) :
  share_instrument p q = true <->
  exists x, In x (instruments p) /\ In x (instruments q).
Proof.
  unfold share_instrument. rewrite existsb_exists. split.
  - intros [x [Hp Hq]]. exists x. split; [assumption | now apply mem_true_iff].
  - intros [x [Hp Hq]]. exists x. split; [assumption | now apply mem_true_iff].
Qed.

Lemma apart_sym (p q : string * string) : apart p q -> apart q p.
Proof.
  unfold apart. intros H.
  destruct (share_instrument q p) eqn:E; [| reflexivity].
  apply share_instrument_true in E. destruct E as [x [Hq Hp]].
  assert (T : share_instrument p q = true)
    by (apply share_instrument_true; now exists x).
  congruence.
Qed.

(** The result extends the accumulator by a subsequence of the ranked
    pairs. *)
Lemma pick_loop_subseq (scored : list PairScore) (k : Z) :
  forall picked used,
  exists rest,
    pick_loop scored k picked used = picked ++ rest /\
    subseq rest (map pair_of scored).
Proof.
  induction scored as [| p scored IH]; intros picked used; cbn.
  - exists []. rewrite app_nil_r. split; [reflexivity | constructor].
  - destruct (mem (a p) used || mem (b p) used).
    + destruct (IH picked used) as [rest [E S]].
      exists rest. split; [assumption | now constructor].
    + destruct (Z.of_nat (length (picked ++ [(a p, b p)])) >=? k)%Z.
      * exists [pair_of p]. split; [reflexivity |].
        apply subseq_take. clear. induction (map pair_of scored);
          now constructor.
      * destruct (IH (picked ++ [(a p, b p)]) (b p :: a p :: used))
          as [rest [E S]].
        exists (pair_of p :: rest). split.
        -- rewrite E, <- app_assoc. reflexivity.
        -- now constructor.
Qed.

(** When the loop ends below the limit it has run through the whole
    list, and every ranked pair meets a selected one. *)
Lemma pick_loop_maximal (scored : list PairScore) (k : Z) :
  forall picked used,
    (forall x, In x used -> exists q, In q picked /\ In x (instruments q)) ->
    (Z.of_nat (length (pick_loop scored k picked used)) < k)%Z ->
    forall p, In p scored ->
    exists q, In q (pick_loop scored k picked used) /\
              share_instrument (pair_of p) q = true.
Proof.
  induction scored as [| p0 scored IH]; intros picked used Hused Hlen p Hin;
    [contradiction |].
  cbn [pick_loop] in Hlen |- *.
  destruct (mem (a p0) used || mem (b p0) used) eqn:Em.
  - destruct Hin as [-> | Hin]; [| now apply IH].
    destruct (pick_loop_subseq scored k picked used) as [rest [E _]].
    apply orb_true_iff in Em.
    assert (Hx : exists x, In x (instruments (pair_of p)) /\ In x used).
    { destruct Em as [Em | Em]; apply mem_true_iff in Em;
        [exists (a p) | exists (b p)]; cbn; auto. }
    destruct Hx as [x [Hxp Hxu]].
    destruct (Hused x Hxu) as [q [Hq Hxq]].
    exists q. split.
    + rewrite E. apply in_or_app. now left.
    + apply share_instrument_true. now exists x.
  - destruct (Z.of_nat (length (picked ++ [(a p0, b p0)])) >=? k)%Z eqn:Ek.
    { rewrite Z.geb_leb in Ek. apply Z.leb_le in Ek. lia. }
    destruct Hin as [-> | Hin].
    + destruct (pick_loop_subseq scored k (picked ++ [(a p, b p)])
                  (b p :: a p :: used)) as [rest [E _]].
      exists (pair_of p). split.
      * rewrite E. apply in_or_app. left. apply in_or_app. right. now left.
      * apply share_instrument_true. exists (a p). cbn. auto.
    + apply IH; try assumption.
      intros x [<- | [<- | Hx]].
      * exists (a p0, b p0). split; [apply in_or_app; right; now left |].
        cbn. auto.
      * exists (a p0, b p0). split; [apply in_or_app; right; now left |].
        cbn. auto.
      * destruct (Hused x Hx) as [q [Hq Hxq]].
        exists q. split; [apply in_or_app; now left | assumption].
Qed.

End PickFacts.

(** X1.  No two of the pairs that [pick_top_pairs] returns share an
    instrument, for every ranked list and every limit. *)
Theorem X1_selected_pairs_share_no_instrument
        (scored : list Scanner.PairScore) (k : Z) :
  forall i j p q,
    i <> j ->
    nth_error (Scanner.pick_top_pairs scored k) i = Some p ->
    nth_error (Scanner.pick_top_pairs scored k) j = Some q ->
    Scanner.share_instrument p q = false.
Proof.
  intros i j p q Hij Hi Hj.
  pose proof (ScannerFacts.pick_top_pairs_disjoint scored k) as H.
  destruct (Nat.lt_ge_cases i j) as [L | L].
  - exact (PickFacts.ForallOrdPairs_nth _ _ H i j p q L Hi Hj).
  - apply PickFacts.apart_sym.
    apply (PickFacts.ForallOrdPairs_nth _ _ H j i q p); [lia | assumption..].
Qed.

Lemma X1_selected_pairs_share_no_instrument_witness :
  Scanner.share_instrument ("BTC/USD"%string, "ETH/USD"%string)
                           ("SOL/USD"%string, "XRP/USD"%string) = false.
Proof.
  apply (X1_selected_pairs_share_no_instrument Samples.chain_pairs 5
           0%nat 1%nat).
  - discriminate.
  - reflexivity.
  - reflexivity.
Defined.

(** X2.  [pick_top_pairs] returns at most [k] pairs when [k] is at least
    1, and at most one pair otherwise. *)
Theorem X2_selected_pairs_within_limit
        (scored : list Scanner.PairScore) (k : Z) :
  (Z.of_nat (length (Scanner.pick_top_pairs scored k)) <= Z.max k 1)%Z.
Proof. apply ScannerFacts.pick_top_pairs_length. Qed.

(** X3.  [pick_top_pairs] returns ranked pairs only, each at most once
    per rank and in the order of the ranking: its result is a
    subsequence of the pairs of the ranked list. *)
Theorem X3_selected_pairs_follow_the_ranking
        (scored : list Scanner.PairScore) (k : Z) :
  Scanner.subseq (Scanner.pick_top_pairs scored k)
                 (map Scanner.pair_of scored).
Proof.
  destruct (PickFacts.pick_loop_subseq scored k [] []) as [rest [E S]].
  unfold Scanner.pick_top_pairs. now rewrite E.
Qed.

(** X4.  The selection is greedy to the end: when fewer than [k] pairs
    are returned, every pair of the ranked list shares an instrument
    with a returned pair (itself, if it was selected). *)
Theorem X4_selection_is_maximal
        (scored : list Scanner.PairScore) (k : Z) :
  (Z.of_nat (length (Scanner.pick_top_pairs scored k)) < k)%Z ->
  forall p, In p scored ->
  exists q, In q (Scanner.pick_top_pairs scored k) /\
            Scanner.share_instrument (Scanner.pair_of p) q = true.
Proof.
  intros Hlen p Hin.
  apply (PickFacts.pick_loop_maximal scored k [] []); try assumption.
  intros x [].
Qed.

Lemma X4_selection_is_maximal_witness :
  exists q, In q (Scanner.pick_top_pairs Samples.chain_pairs 5) /\
            Scanner.share_instrument
              (Scanner.pair_of Samples.ranked_eth_sol) q = true.
Proof.
  apply (X4_selection_is_maximal Samples.chain_pairs 5).
  - cbn. lia.
  - right. now left.
Defined.

(** ** portfolio_bot.py: the cycle, the exit and the signal *)

Module CycleFacts.
Import Data Monad MonadFacts Bot BotFacts.
Local Open Scope monad_scope.

(** *** The keys of the position table *)

Lemma pos_mem_In (k : Key) (d : Positions) :
  pos_mem k d = true <-> In k (pos_keys d).
Proof.
  induction d as [| [k' p] d IH].
  - cbn. split; [discriminate | tauto].
  - unfold pos_mem in *. cbn. destruct (key_eqb k k') eqn:E.
    + apply key_eqb_eq in E. subst. split; auto.
    + apply key_eqb_neq in E. rewrite IH. split; [auto |].
      intros [H | H]; [congruence | assumption].
Qed.

Lemma pos_get_None (k : Key) (d : Positions) :
  pos_get k d = None <-> ~ In k (pos_keys d).
Proof.
  rewrite <- pos_mem_In. unfold pos_mem.
  destruct (pos_get k d).
  - split; [discriminate | intros H; now contradiction H].
  - split; [intros _ H; discriminate | reflexivity].
Qed.

Lemma pos_keys_set (k : Key) (p : Position) (d : Positions) :
  pos_keys (pos_set k p d) = if pos_mem k d then pos_keys d else pos_keys d ++ [k].
Proof.
  induction d as [| [k' p'] d IH]; [reflexivity |].
  unfold pos_mem, pos_keys in *. cbn. destruct (key_eqb k k') eqn:E.
  - apply key_eqb_eq in E. now subst.
  - cbn. rewrite IH. now destruct (pos_get k d).
Qed.

Lemma In_pos_keys_set (x k : Key) (p : Position) (d : Positions) :
  In x (pos_keys (pos_set k p d)) -> x = k \/ In x (pos_keys d).
Proof.
  rewrite pos_keys_set. destruct (pos_mem k d); [auto |].
  intros H. apply in_app_or in H. destruct H as [H | [H | []]]; auto.
Qed.

Lemma In_pos_keys_del (x k : Key) (d : Positions) :
  In x (pos_keys (pos_del k d)) -> In x (pos_keys d).
Proof.
  induction d as [| [k' p'] d IH]; cbn; [auto |].
  destruct (key_eqb k k'); cbn; [auto |].
  intros [H | H]; auto.
Qed.

Lemma NoDup_snoc {A : Type} (l : list A) (x : A) :
  NoDup l -> ~ In x l -> NoDup (l ++ [x]).
Proof.
  induction 1 as [| y l Hy Hl IH]; intros Hx; cbn.
  - constructor; [tauto | constructor].
  - constructor.
    + intros H. apply in_app_or in H. destruct H as [H | [H | []]].
      * contradiction.
      * apply Hx. now left.
    + apply IH. intros H. apply Hx. now right.
Qed.

Lemma NoDup_pos_set (k : Key) (p : Position) (d : Positions) :
  NoDup (pos_keys d) -> NoDup (pos_keys (pos_set k p d)).
Proof.
  intros H. rewrite pos_keys_set. destruct (pos_mem k d) eqn:E; [assumption |].
  apply NoDup_snoc; [assumption |].
  rewrite <- pos_mem_In. congruence.
Qed.

Lemma NoDup_pos_del (k : Key) (d : Positions) :
  NoDup (pos_keys d) -> NoDup (pos_keys (pos_del k d)).
Proof.
  induction d as [| [k' p'] d IH]; cbn; [auto |].
  intros H. inversion H as [| ? ? Hk Hd]; subst.
  destruct (key_eqb k k'); cbn; [assumption |].
  constructor; [| now apply IH].
  intros Hin. apply Hk. now apply In_pos_keys_del in Hin.
Qed.

(** With one entry per key, a deleted key is gone. *)
Lemma pos_get_del_same (k : Key) (d : Positions) :
  NoDup (pos_keys d) -> pos_get k (pos_del k d) = None.
Proof.
  intros H. apply pos_get_None.
  induction d as [| [k' p'] d IH]; cbn; [tauto |].
  inversion H as [| ? ? Hk Hd]; subst.
  destruct (key_eqb k k') eqn:E; cbn.
  - apply key_eqb_eq in E. now subst.
  - apply key_eqb_neq in E. intros [H1 | H1]; [congruence | now apply IH].
Qed.

Lemma only_at_NoDup (key : Key) (c c' : Controller) :
  only_at key c c' ->
  NoDup (pos_keys (positions c)) -> NoDup (pos_keys (positions c')).
Proof.
  intros [_ [H | [H | [p [_ [_ H]]]]]] Hn; rewrite H.
  - assumption.
  - now apply NoDup_pos_del.
  - now apply NoDup_pos_set.
Qed.

Lemma only_at_keys (key k : Key) (c c' : Controller) :
  only_at key c c' ->
  In k (pos_keys (positions c')) -> In k (pos_keys (positions c)) \/ k = key.
Proof.
  intros [_ [H | [H | [p [_ [_ H]]]]]]; rewrite H; intros Hin.
  - now left.
  - left. now apply In_pos_keys_del in Hin.
  - apply In_pos_keys_set in Hin. tauto.
Qed.

Section Cycle.

Context {W : Type} (env : World W) (rcfg : RiskConfig) (cfg : Config).

(** *** The gate at the start of a cycle *)

Lemma can_trade_gate (st : State W) :
  halted (bot st) = false ->
  _can_trade env rcfg false st =
  match Risk.is_trading_allowed env rcfg st with
  | (Ok v, st1) =>
      if fst v then (Ok true, st1)
      else (Ok false,
            Build_State (halt (bot st1)) (start_equity st1) (world st1)
                        (trace st1))
  | (Raise e, st1) => (Raise e, st1)
  end.
Proof.
  intros Hh. unfold _can_trade, bind, get_bot, set_halted, put_bot, ret.
  rewrite Hh.
  destruct (Risk.is_trading_allowed env rcfg st) as [[v | e] st1];
    [destruct (fst v) |]; reflexivity.
Qed.

(** The risk check raises only when a request for the account fails. *)
Lemma is_trading_allowed_raise (st st' : State W) (e : exn) :
  Risk.is_trading_allowed env rcfg st = (Raise e, st') ->
  exists w, account_info_equity env w = (Raise e, world st').
Proof.
  unfold Risk.is_trading_allowed, Risk.kill_switch_check,
    Risk.refresh_start_equity, Risk.account_info, Risk.daily_pnl_realized,
    Risk.floating_pnl.
  unfold bind, call, call_total, get_start_equity, put_start_equity, ret, raise.
  cbn [world start_equity bot trace].
  destruct (account_info_equity env (world st)) as [[equity | e0] w1] eqn:Ea.
  2:{ intros H. injection H as <- <-. now exists (world st). }
  assert (Hday : forall (b : Controller) (se : option R) (w : W) (tr : list Event),
    (let (x, w') := history_deals_get env w in
     let (y, w'') := positions_get env w' in
     (if Rleb (match x with None => 0 | Some ds => Utils.Rsum ds end + Utils.Rsum y)
              (- Rabs (max_daily_loss_usd rcfg))
      then (Ok (false, DAILY_LIMIT
                  (match x with None => 0 | Some ds => Utils.Rsum ds end
                   + Utils.Rsum y)),
            Build_State b se w'' ((tr ++ [EvHistoryDeals]) ++ [EvPositionsGet]))
      else (Ok (true, OK),
            Build_State b se w'' ((tr ++ [EvHistoryDeals]) ++ [EvPositionsGet])))
     : Res (bool * Reason) * State W) <> (Raise e, st')).
  { intros b se w tr. destruct (history_deals_get env w) as [x w'].
    destruct (positions_get env w') as [y w''].
    match goal with |- context [Rleb ?u ?v] => destruct (Rleb u v) end;
      discriminate. }
  destruct (enforce_kill_switch rcfg).
  - destruct (start_equity st) as [s0 |].
    + cbn [world start_equity bot trace].
      destruct (Rleb (equity - s0) (- Rabs (max_total_drawdown_usd rcfg))).
      * discriminate.
      * cbn [world start_equity bot trace].
        destruct (history_deals_get env w1) as [x w'].
        cbn [world start_equity bot trace].
        destruct (positions_get env w') as [y w''].
        match goal with |- context [Rleb ?u ?v] => destruct (Rleb u v) end;
          discriminate.
    + cbn [world start_equity bot trace].
      destruct (account_info_equity env w1) as [[equity2 | e1] w2] eqn:Eb.
      2:{ intros H. injection H as <- <-. now exists w1. }
      cbn [world start_equity bot trace].
      destruct (Rleb (equity - equity2) (- Rabs (max_total_drawdown_usd rcfg))).
      * discriminate.
      * cbn [world start_equity bot trace].
        destruct (history_deals_get env w2) as [x w'].
        cbn [world start_equity bot trace].
        destruct (positions_get env w') as [y w''].
        match goal with |- context [Rleb ?u ?v] => destruct (Rleb u v) end;
          discriminate.
  - cbn [world start_equity bot trace].
    destruct (history_deals_get env w1) as [x w'].
    cbn [world start_equity bot trace].
    destruct (positions_get env w') as [y w''].
    match goal with |- context [Rleb ?u ?v] => destruct (Rleb u v) end;
      discriminate.
Qed.

(** *** The loop *)

Lemma for_pairs_ok (l : list Key) :
  forall st, fst (for_pairs env rcfg cfg l st) = Ok tt.
Proof.
  induction l as [| key l IH]; intros st; cbn [for_pairs]; [reflexivity |].
  unfold bind. destruct (step_pair env rcfg cfg key st) as [r st1] eqn:E.
  destruct (step_pair_run env rcfg cfg _ _ _ _ E) as [-> _]. apply IH.
Qed.

Lemma for_pairs_NoDup (l : list Key) (st : State W) :
  NoDup (pos_keys (positions (bot st))) ->
  NoDup (pos_keys (positions (bot (snd (for_pairs env rcfg cfg l st))))).
Proof.
  apply (for_pairs_preserves env rcfg cfg
           (fun s => NoDup (pos_keys (positions (bot s))))).
  intros key s Hs.
  destruct (step_pair env rcfg cfg key s) as [r s'] eqn:E.
  apply step_pair_run in E. destruct E as [_ Ho]. cbn.
  now apply (only_at_NoDup key (bot s)).
Qed.

Lemma step_NoDup (pairs : list Key) (st : State W) :
  NoDup (pos_keys (positions (bot st))) ->
  NoDup (pos_keys (positions (bot (snd (step env rcfg cfg pairs st))))).
Proof.
  apply (step_preserves env rcfg cfg
           (fun s => NoDup (pos_keys (positions (bot s))))).
  - intros s Hs. destruct (can_trade_effect env rcfg false s) as [Hp _].
    cbv zeta in Hp. now rewrite Hp.
  - intros key s Hs.
    destruct (step_pair env rcfg cfg key s) as [r s'] eqn:E.
    apply step_pair_run in E. destruct E as [_ Ho]. cbn.
    now apply (only_at_NoDup key (bot s)).
Qed.

(** The loop adds keys of its list only. *)
Lemma for_pairs_keys (l : list Key) :
  forall st k,
    In k (pos_keys (positions (bot (snd (for_pairs env rcfg cfg l st))))) ->
    In k (pos_keys (positions (bot st))) \/ In k l.
Proof.
  induction l as [| key l IH]; intros st k; cbn [for_pairs].
  - cbn. auto.
  - unfold bind. destruct (step_pair env rcfg cfg key st) as [r st1] eqn:E.
    destruct (step_pair_run env rcfg cfg _ _ _ _ E) as [-> Ho].
    intros H. apply IH in H. destruct H as [H | H].
    + apply (only_at_keys key k _ _ Ho) in H. destruct H as [H | ->].
      * now left.
      * right. now left.
    + right. now right.
Qed.

Lemma step_keys (pairs : list Key) (st : State W) (k : Key) :
  In k (pos_keys (positions (bot (snd (step env rcfg cfg pairs st))))) ->
  In k (pos_keys (positions (bot st))) \/
  (In k pairs /\
   (Z.of_nat (length (positions (bot st))) < max_open_positions cfg)%Z).
Proof.
  unfold step. unfold bind at 1.
  destruct (can_trade_effect env rcfg false st) as [Hp _]. cbv zeta in Hp.
  destruct (_can_trade env rcfg false st) as [[ok | e] st1]; cbn [snd] in Hp.
  - destruct ok; cbn [negb].
    + unfold bind at 1, get_bot at 1. rewrite Hp.
      destruct (Z.of_nat (length (positions (bot st))) >=? max_open_positions cfg)%Z
        eqn:Ecap; intros H; apply for_pairs_keys in H; rewrite Hp in H.
      * left. tauto.
      * rewrite Z.geb_leb in Ecap. apply Z.leb_gt in Ecap. tauto.
    + cbn. rewrite Hp. auto.
  - cbn. rewrite Hp. auto.
Qed.

(** *** The exit *)

Lemma live_exit_outcome (key : Key) (st st' : State W) (r : Res unit) :
  _live_exit env key st = (r, st') ->
  match r with
  | Ok _ => positions (bot st') = pos_del key (positions (bot st)) /\
            halted (bot st') = halted (bot st) /\
            consecutive_errors (bot st') = consecutive_errors (bot st)
  | Raise _ => bot st' = bot st
  end.
Proof.
  destruct (pos_get key (positions (bot st))) as [pos |] eqn:Hg.
  2:{ unfold _live_exit, bind, get_bot. rewrite Hg. cbn.
      intros H. now inversion H. }
  destruct (close_position_by_ticket env (ticket_a pos) (world st))
    as [[ra | e] w1] eqn:Ha.
  2:{ unfold _live_exit, bind, get_bot, mt5c_close_position_by_ticket, call.
      rewrite Hg. cbn. rewrite Ha.
      intros H. now inversion H. }
  destruct (close_position_by_ticket env (ticket_b pos) w1)
    as [[rb | e] w2] eqn:Hb.
  2:{ unfold _live_exit, bind, get_bot, mt5c_close_position_by_ticket, call.
      rewrite Hg. cbn. rewrite Ha. cbn. rewrite Hb.
      intros H. now inversion H. }
  rewrite (live_exit_run env key st pos ra rb w1 w2 Hg Ha Hb).
  destruct (Rltb (pnl_of ra + pnl_of rb) 0); intros H; inversion H; cbn; auto.
Qed.

(** *** The signal *)

Lemma compute_signal_actions (a b : string) (st st' : State W) (sig : Signal) :
  _compute_signal env cfg a b st = (Ok sig, st') ->
  let action := fst (fst (fst sig)) in
  if pos_mem (a, b) (positions (bot st))
  then In action ["SKIP"; "EXIT"; "HOLD"]%string
  else In action ["SKIP"; "ENTER_LONGB_SHORTA"; "ENTER_LONGA_SHORTB"; "HOLD"]%string.
Proof.
  unfold _compute_signal. unfold bind at 1.
  destruct (feed_fetch_close env cfg a st) as [[ca | e] st1] eqn:Ea;
    [| discriminate].
  unfold bind at 1.
  destruct (feed_fetch_close env cfg b st1) as [[cb | e] st2] eqn:Eb;
    [| discriminate].
  assert (Kb : bot st2 = bot st).
  { rewrite (keeps_bot_eq _ _ _ _ (keeps_bot_fetch_close env cfg b) Eb).
    apply (keeps_bot_eq _ _ _ _ (keeps_bot_fetch_close env cfg a) Ea). }
  cbv zeta.
  match goal with
  | |- context [if ?c then ret (_, _, _, not_enough_data) else _] => destruct c
  end.
  { intros H. injection H as <- _. cbn [fst].
    destruct (pos_mem (a, b) (positions (bot st))); cbn; auto. }
  unfold bind at 1, get_bot at 1. rewrite Kb.
  unfold pos_mem.
  destruct (pos_get (a, b) (positions (bot st))) as [pos |] eqn:Hg.
  - rewrite andb_false_r. unfold bind at 1, lift.
    match goal with
    | |- context [Utils.ols_beta ?y ?x] =>
        destruct (Utils.ols_beta y x) as [beta | e]; [| discriminate]
    end.
    unfold bind, time_time, call_total.
    destruct (time env (world st2)) as [now w3].
    repeat match goal with
           | |- context [if Rltb ?u ?v then _ else _] => destruct (Rltb u v)
           end;
      intros H; injection H as <- _; cbn; auto.
  - rewrite andb_true_r.
    match goal with
    | |- context [if negb ?c then _ else _] => destruct c
    end; cbn [negb].
    2:{ intros H. injection H as <- _. cbn. auto. }
    unfold bind at 1, lift.
    match goal with
    | |- context [Utils.ols_beta ?y ?x] =>
        destruct (Utils.ols_beta y x) as [beta | e]; [| discriminate]
    end.
    repeat match goal with
           | |- context [if Rltb ?u ?v then _ else _] => destruct (Rltb u v)
           end;
      intros H; injection H as <- _; cbn; auto.
Qed.

End Cycle.

End CycleFacts.

(** X5.  No exception of the loop leaves [step]: when [step] raises, it
    is the risk check at its start that raised, on a failed request for
    the account, and the controller is as it was. *)
Theorem X5_step_raises_only_from_the_risk_check
        (W : Type) (env : Data.World W) (rcfg : Data.RiskConfig)
        (cfg : Data.Config) (pairs : list Data.Key)
        (st st' : Data.State W) (e : exn) :
  Bot.step env rcfg cfg pairs st = (Raise e, st') ->
  Risk.is_trading_allowed env rcfg st = (Raise e, st') /\
  Data.bot st' = Data.bot st /\
  exists w, Data.account_info_equity env w = (Raise e, Data.world st').
Proof.
  intros H.
  destruct (Data.halted (Data.bot st)) eqn:Hh.
  { rewrite (BotFacts.step_halted env rcfg cfg pairs st Hh) in H.
    discriminate. }
  unfold Bot.step in H. unfold Monad.bind at 1 in H.
  rewrite (CycleFacts.can_trade_gate env rcfg st Hh) in H.
  pose proof (RiskFacts.keeps_bot_is_trading_allowed env rcfg st) as K.
  destruct (Risk.is_trading_allowed env rcfg st) as [[v | e0] st1] eqn:E.
  - destruct (fst v); cbn [negb] in H.
    + unfold Monad.bind at 1, Monad.get_bot at 1 in H.
      match type of H with
      | Bot.for_pairs _ _ _ ?l _ = _ =>
          pose proof (CycleFacts.for_pairs_ok env rcfg cfg l st1) as F
      end.
      rewrite H in F. discriminate.
    + discriminate.
  - injection H as <- <-. cbn [snd] in K.
    split; [reflexivity |]. split; [assumption |].
    exact (CycleFacts.is_trading_allowed_raise env rcfg st st1 e0 E).
Qed.

Lemma X5_step_raises_only_from_the_risk_check_witness :
  Risk.is_trading_allowed Samples.offline_world Samples.risk_cfg
                          (Samples.fresh_state 1000)
  = (Raise (RuntimeError "account_info failed"),
     Data.Build_State Data.init_controller (Some 1000) tt [Data.EvAccountInfo]) /\
  Data.bot (Data.Build_State Data.init_controller (Some 1000) tt
                             [Data.EvAccountInfo])
  = Data.bot (Samples.fresh_state 1000) /\
  exists w, Data.account_info_equity Samples.offline_world w
            = (Raise (RuntimeError "account_info failed"),
               Data.world (Data.Build_State Data.init_controller (Some 1000) tt
                                            [Data.EvAccountInfo])).
Proof.
  apply (X5_step_raises_only_from_the_risk_check unit Samples.offline_world
           Samples.risk_cfg Data.default_config [("A"%string, "B"%string)]).
  reflexivity.
Defined.

(** X6.  When the risk manager refuses at the start of a cycle, [step]
    sets the halted flag and returns: no signal is computed, no price is
    read and no order is sent, so the open positions are neither closed
    nor touched. *)
Theorem X6_risk_refusal_halts_without_closing
        (W : Type) (env : Data.World W) (rcfg : Data.RiskConfig)
        (cfg : Data.Config) (pairs : list Data.Key)
        (st st1 : Data.State W) (reason : Data.Reason) :
  Data.halted (Data.bot st) = false ->
  Risk.is_trading_allowed env rcfg st = (Ok (false, reason), st1) ->
  Bot.step env rcfg cfg pairs st
  = (Ok tt,
     Data.Build_State (Bot.halt (Data.bot st)) (Data.start_equity st1)
                      (Data.world st1) (Data.trace st1)).
Proof.
  intros Hh E. unfold Bot.step. unfold Monad.bind at 1.
  rewrite (CycleFacts.can_trade_gate env rcfg st Hh), E. cbn.
  pose proof (RiskFacts.keeps_bot_is_trading_allowed env rcfg st) as K.
  rewrite E in K. cbn in K. now rewrite K.
Qed.

Lemma X6_risk_refusal_halts_without_closing_witness :
  Bot.step (Samples.steady_world Samples.no_history 400 0 0 101)
           Samples.risk_cfg Data.default_config [("A"%string, "B"%string)]
           Samples.open_state
  = (Ok tt,
     Data.Build_State (Bot.halt (Data.bot Samples.open_state))
                      (Some 1000) tt [Data.EvAccountInfo]).
Proof.
  apply (X6_risk_refusal_halts_without_closing unit
           (Samples.steady_world Samples.no_history 400 0 0 101)
           Samples.risk_cfg Data.default_config [("A"%string, "B"%string)]
           Samples.open_state
           (Data.Build_State (Data.bot Samples.open_state) (Some 1000) tt
                             [Data.EvAccountInfo])
           (Data.KILL_SWITCH (400 - 1000))).
  - reflexivity.
  - rewrite (RiskFacts.is_trading_allowed_run _ _ _ 1000 400 tt tt tt (Some []) [])
      by reflexivity.
    cbn.
    assert (E : Rleb (400 - 1000) (- Rabs 500) = true).
    { apply Rleb_true. rewrite Rabs_right by lra. lra. }
    now rewrite E.
Defined.

(** X7.  An exit whose two closes are both refused by the broker still
    removes the position from the table; the refused closes count as a
    result of 0, whatever they report, so no cooldown starts. *)
Theorem X7_refused_closes_still_drop_the_position
        (W : Type) (env : Data.World W) (key : Data.Key) (st : Data.State W)
        (pos : Data.Position) (ra rb : Data.CloseReply) (w1 w2 : W) :
  Data.pos_get key (Data.positions (Data.bot st)) = Some pos ->
  Data.close_position_by_ticket env (Data.ticket_a pos) (Data.world st)
  = (Ok ra, w1) ->
  Data.close_position_by_ticket env (Data.ticket_b pos) w1 = (Ok rb, w2) ->
  Data.close_ok ra = false ->
  Data.close_ok rb = false ->
  Bot._live_exit env key st
  = (Ok tt,
     Data.Build_State
       (Data.with_positions (Data.bot st)
          (Data.pos_del key (Data.positions (Data.bot st))))
       (Data.start_equity st) w2
       (Data.trace st ++ [Data.EvClose (Data.ticket_a pos) (Ok ra);
                          Data.EvClose (Data.ticket_b pos) (Ok rb)])).
Proof.
  intros Hg Ha Hb Hra Hrb.
  rewrite (BotFacts.live_exit_run env key st pos ra rb w1 w2 Hg Ha Hb).
  unfold Bot.pnl_of. rewrite Hra, Hrb.
  assert (E : Rltb (0 + 0) 0 = false) by (apply Rltb_false; lra).
  now rewrite E.
Qed.

Lemma X7_refused_closes_still_drop_the_position_witness :
  Bot._live_exit Samples.refusing_world ("A"%string, "B"%string)
                 Samples.open_state
  = (Ok tt,
     Data.Build_State
       (Data.with_positions (Data.bot Samples.open_state) [])
       (Some 1000) tt
       [Data.EvClose 101 (Ok Samples.refused_close);
        Data.EvClose 102 (Ok Samples.refused_close)]).
Proof.
  apply (X7_refused_closes_still_drop_the_position unit Samples.refusing_world
           ("A"%string, "B"%string) Samples.open_state Samples.sample_position
           Samples.refused_close Samples.refused_close tt tt);
    reflexivity.
Defined.

(** X8.  An exit is all or nothing for the controller.  With one entry
    per pair in the table: when [_live_exit] returns, its pair is gone
    from the table, every other pair is as before and the halted flag is
    not written; when it raises (no such position, or a close that
    raises), nothing was written, the cooldown included. *)
Theorem X8_exit_is_all_or_nothing
        (W : Type) (env : Data.World W) (key : Data.Key)
        (st st' : Data.State W) (r : Res unit) :
  NoDup (Data.pos_keys (Data.positions (Data.bot st))) ->
  Bot._live_exit env key st = (r, st') ->
  match r with
  | Ok _ =>
      Data.pos_get key (Data.positions (Data.bot st')) = None /\
      (forall k, k <> key ->
                 Data.pos_get k (Data.positions (Data.bot st'))
                 = Data.pos_get k (Data.positions (Data.bot st))) /\
      Data.halted (Data.bot st') = Data.halted (Data.bot st)
  | Raise _ => Data.bot st' = Data.bot st
  end.
Proof.
  intros Hn H. apply CycleFacts.live_exit_outcome in H.
  destruct r as [u | e]; [| assumption].
  destruct H as [Hp [Hh _]]. rewrite Hp. split; [| split].
  - now apply CycleFacts.pos_get_del_same.
  - intros k Hk. now apply BotFacts.pos_get_del_other.
  - assumption.
Qed.

Lemma X8_exit_is_all_or_nothing_witness :
  match fst (Bot._live_exit (Samples.steady_world Samples.no_history 1000 0 0 101)
                            ("A"%string, "B"%string) Samples.open_state) with
  | Ok _ =>
      Data.pos_get ("A"%string, "B"%string)
        (Data.positions
           (Data.bot
              (snd (Bot._live_exit
                      (Samples.steady_world Samples.no_history 1000 0 0 101)
                      ("A"%string, "B"%string) Samples.open_state)))) = None /\
      (forall k, k <> ("A"%string, "B"%string) ->
                 Data.pos_get k
                   (Data.positions
                      (Data.bot
                         (snd (Bot._live_exit
                                 (Samples.steady_world Samples.no_history 1000 0 0 101)
                                 ("A"%string, "B"%string) Samples.open_state))))
                 = Data.pos_get k (Data.positions (Data.bot Samples.open_state))) /\
      Data.halted
        (Data.bot
           (snd (Bot._live_exit
                   (Samples.steady_world Samples.no_history 1000 0 0 101)
                   ("A"%string, "B"%string) Samples.open_state)))
      = Data.halted (Data.bot Samples.open_state)
  | Raise _ =>
      Data.bot
        (snd (Bot._live_exit
                (Samples.steady_world Samples.no_history 1000 0 0 101)
                ("A"%string, "B"%string) Samples.open_state))
      = Data.bot Samples.open_state
  end.
Proof.
  apply (X8_exit_is_all_or_nothing unit
           (Samples.steady_world Samples.no_history 1000 0 0 101)
           ("A"%string, "B"%string) Samples.open_state).
  - cbn. constructor; [intros [] | constructor].
  - apply surjective_pairing.
Defined.

(** X9.  The actions of [_compute_signal].  For a pair without a
    position it answers SKIP, ENTER_LONGB_SHORTA, ENTER_LONGA_SHORTB or
    HOLD; for a pair with a position it answers SKIP, EXIT or HOLD.  So
    an entry is never signalled for a held pair and an exit never for a
    free one. *)
Theorem X9_signal_actions_by_position
        (W : Type) (env : Data.World W) (cfg : Data.Config) (a b : string)
        (st st' : Data.State W) (sig : Bot.Signal) :
  Bot._compute_signal env cfg a b st = (Ok sig, st') ->
  let action := fst (fst (fst sig)) in
  if Data.pos_mem (a, b) (Data.positions (Data.bot st))
  then In action ["SKIP"; "EXIT"; "HOLD"]%string
  else In action ["SKIP"; "ENTER_LONGB_SHORTA"; "ENTER_LONGA_SHORTB"; "HOLD"]%string.
Proof. apply CycleFacts.compute_signal_actions. Qed.

Lemma X9_signal_actions_by_position_witness :
  (exists z st',
      Bot._compute_signal
        (Samples.steady_world Samples.twin_feed 1000 1000000 0 101)
        Data.default_config "A" "B" Samples.cooling_open_state
      = (Ok ("EXIT"%string, z, 120 / 119,
             Data.max_hold ((1000000 - 0) / 60)), st') /\
      Data.pos_mem ("A"%string, "B"%string)
        (Data.positions (Data.bot Samples.cooling_open_state)) = true /\
      In "EXIT"%string ["SKIP"; "EXIT"; "HOLD"]%string) /\
  (exists z st',
      Bot._compute_signal
        (Samples.steady_world Samples.twin_feed 1000 0 0 101)
        Data.default_config "A" "B" (Samples.fresh_state 1000)
      = (Ok ("ENTER_LONGA_SHORTB"%string, z, 120 / 119, Data.z_low), st') /\
      Data.pos_mem ("A"%string, "B"%string)
        (Data.positions (Data.bot (Samples.fresh_state 1000))) = false /\
      In "ENTER_LONGA_SHORTB"%string
         ["SKIP"; "ENTER_LONGB_SHORTA"; "ENTER_LONGA_SHORTB"; "HOLD"]%string).
Proof.
  split.
  - destruct (RunFacts.steady_signal_time_stop Samples.twin_feed 1000 1000000 0 101
                "A" "B" (ln 2) Samples.cooling_open_state Samples.sample_position)
      as [z E].
    + apply SampleFacts.log_prices_closes_ending. lra.
    + apply SampleFacts.log_prices_closes_ending. lra.
    + apply SampleFacts.ln_2_pos.
    + reflexivity.
    + cbn. lra.
    + exists z. eexists. split; [exact E |]. split; [reflexivity |].
      exact (X9_signal_actions_by_position unit
               (Samples.steady_world Samples.twin_feed 1000 1000000 0 101)
               Data.default_config "A" "B" Samples.cooling_open_state _ _ E).
  - destruct (RunFacts.steady_signal_twin Samples.twin_feed 1000 0 0 101
                "A" "B" (ln 2) (Samples.fresh_state 1000)) as [z [E _]].
    + apply SampleFacts.log_prices_closes_ending. lra.
    + apply SampleFacts.log_prices_closes_ending. lra.
    + apply SampleFacts.ln_2_pos.
    + reflexivity.
    + exists z. eexists. split; [exact E |]. split; [reflexivity |].
      exact (X9_signal_actions_by_position unit
               (Samples.steady_world Samples.twin_feed 1000 0 0 101)
               Data.default_config "A" "B" (Samples.fresh_state 1000) _ _ E).
Defined.

(** X11.  Where the positions of a cycle come from: a pair held after
    [step] was held before, or it is one of the pairs given to [step]
    and the table was below [max_open_positions] when the cycle
    started. *)
Theorem X11_step_opens_given_pairs_only
        (W : Type) (env : Data.World W) (rcfg : Data.RiskConfig)
        (cfg : Data.Config) (pairs : list Data.Key) (st : Data.State W)
        (k : Data.Key) :
  Data.pos_mem k
    (Data.positions (Data.bot (snd (Bot.step env rcfg cfg pairs st)))) = true ->
  Data.pos_mem k (Data.positions (Data.bot st)) = true \/
  (In k pairs /\
   (Z.of_nat (length (Data.positions (Data.bot st)))
    < Data.max_open_positions cfg)%Z).
Proof.
  rewrite !CycleFacts.pos_mem_In. apply CycleFacts.step_keys.
Qed.

Lemma X11_step_opens_given_pairs_only_witness :
  Data.pos_mem ("A"%string, "B"%string)
    (Data.positions (Data.bot (Samples.fresh_state 1000))) = false /\
  Data.pos_mem ("A"%string, "B"%string)
    (Data.positions
       (Data.bot
          (snd (Bot.step
                  (Samples.steady_world Samples.jump_flat_feed 1000 0 0 101)
                  Samples.risk_cfg Data.default_config
                  [("A"%string, "B"%string)] (Samples.fresh_state 1000)))))
  = true /\
  (Data.pos_mem ("A"%string, "B"%string)
     (Data.positions (Data.bot (Samples.fresh_state 1000))) = true \/
   (In ("A"%string, "B"%string) [("A"%string, "B"%string)] /\
    (Z.of_nat (length (Data.positions (Data.bot (Samples.fresh_state 1000))))
     < Data.max_open_positions Data.default_config)%Z)).
Proof.
  assert (Hheld :
    Data.pos_mem ("A"%string, "B"%string)
      (Data.positions
         (Data.bot
            (snd (Bot.step
                    (Samples.steady_world Samples.jump_flat_feed 1000 0 0 101)
                    Samples.risk_cfg Data.default_config
                    [("A"%string, "B"%string)] (Samples.fresh_state 1000)))))
    = true).
  { pose proof (RiskFacts.is_trading_allowed_ok
                  (Samples.steady_world Samples.jump_flat_feed 1000 0 0 101)
                  Samples.risk_cfg (Samples.fresh_state 1000)
                  1000 1000 tt tt tt (Some []) []
                  eq_refl eq_refl eq_refl eq_refl RunFacts.verdict_calm) as Hrisk.
    pose proof (RunFacts.can_trade_gate_ok _ Samples.risk_cfg
                  (Samples.fresh_state 1000) _ eq_refl Hrisk) as Hgate.
    unfold Bot.step.
    rewrite (MonadFacts.bind_ok _ _ _ _ _ Hgate).
    cbn [negb]. unfold Monad.bind at 1, Monad.get_bot at 1.
    match goal with
    | |- context [Bot.for_pairs _ _ _ _ ?s] => set (s0 := s)
    end.
    match goal with
    | |- context [if ?c then Data.pos_keys _ else _] =>
        replace c with false by reflexivity
    end.
    cbv iota. cbn [Bot.for_pairs].
    destruct (RunFacts.jump_flat_iteration "A" "B" s0) as [p1 [tr1 E1]];
      try reflexivity.
    rewrite (MonadFacts.bind_ok _ _ _ _ _ E1).
    reflexivity. }
  split; [reflexivity |]. split; [exact Hheld |].
  exact (X11_step_opens_given_pairs_only unit
           (Samples.steady_world Samples.jump_flat_feed 1000 0 0 101)
           Samples.risk_cfg Data.default_config [("A"%string, "B"%string)]
           (Samples.fresh_state 1000) ("A"%string, "B"%string) Hheld).
Defined.

(** X12.  A cycle that starts with the table at or above
    [max_open_positions] opens nothing: every pair held afterwards was
    held before, and the table does not grow. *)
Theorem X12_full_table_does_not_grow
        (W : Type) (env : Data.World W) (rcfg : Data.RiskConfig)
        (cfg : Data.Config) (pairs : list Data.Key) (st : Data.State W) :
  (Z.of_nat (length (Data.positions (Data.bot st)))
   >= Data.max_open_positions cfg)%Z ->
  NoDup (Data.pos_keys (Data.positions (Data.bot st))) ->
  let after := Data.positions (Data.bot (snd (Bot.step env rcfg cfg pairs st))) in
  (forall k, Data.pos_mem k after = true ->
             Data.pos_mem k (Data.positions (Data.bot st)) = true) /\
  (length after <= length (Data.positions (Data.bot st)))%nat.
Proof.
  intros Hcap Hn after.
  assert (Hincl : incl (Data.pos_keys after)
                       (Data.pos_keys (Data.positions (Data.bot st)))).
  { intros k Hk. apply CycleFacts.step_keys in Hk.
    destruct Hk as [Hk | [_ Hk]]; [assumption | lia]. }
  split.
  - intros k Hk. apply CycleFacts.pos_mem_In. apply Hincl.
    now apply CycleFacts.pos_mem_In.
  - pose proof (CycleFacts.step_NoDup env rcfg cfg pairs st Hn) as Hn'.
    fold after in Hn'.
    pose proof (NoDup_incl_length Hn' Hincl) as L.
    unfold Data.pos_keys in L. now rewrite !length_map in L.
Qed.

Lemma X12_full_table_does_not_grow_witness :
  let after :=
    Data.positions
      (Data.bot
         (snd (Bot.step (Samples.steady_world Samples.twin_feed 1000 0 0 101)
                        Samples.risk_cfg Samples.single_slot_config
                        [("C"%string, "D"%string)] Samples.open_state))) in
  (forall k, Data.pos_mem k after = true ->
             Data.pos_mem k (Data.positions (Data.bot Samples.open_state)) = true) /\
  (length after <= length (Data.positions (Data.bot Samples.open_state)))%nat.
Proof.
  apply (X12_full_table_does_not_grow unit
           (Samples.steady_world Samples.twin_feed 1000 0 0 101)
           Samples.risk_cfg Samples.single_slot_config
           [("C"%string, "D"%string)] Samples.open_state).
  - cbn. lia.
  - cbn. constructor; [intros [] | constructor].
Defined.

(** ** mt5_bridge.py: the start equity of the risk manager *)

Module EquityFacts.
Import Data Monad MonadFacts Bot.
Local Open Scope monad_scope.

Section Frame.

Context {W : Type} (se : option R).

Lemma keeps_equity_ret {A : Type} (x : A) : keeps_equity se (ret (W := W) x).
Proof. intros st H. exact H. Qed.

Lemma keeps_equity_raise {A : Type} (e : exn) :
  keeps_equity se (raise (W := W) (A := A) e).
Proof. intros st H. exact H. Qed.

Lemma keeps_equity_lift {A : Type} (r : Res A) :
  keeps_equity se (lift (W := W) r).
Proof. intros st H. exact H. Qed.

Lemma keeps_equity_bind {A B : Type} (m : M W A) (f : A -> M W B) :
  keeps_equity se m -> (forall x, keeps_equity se (f x)) ->
  keeps_equity se (bind m f).
Proof.
  intros Hm Hf st H. unfold bind. specialize (Hm st H).
  destruct (m st) as [[x | e] st1]; cbn in *.
  - now apply Hf.
  - assumption.
Qed.

(** After reading the start equity, its value is known. *)
Lemma keeps_equity_read {B : Type} (f : option R -> M W B) :
  keeps_equity se (f se) -> keeps_equity se (bind get_start_equity f).
Proof.
  intros Hf st H. unfold bind, get_start_equity. rewrite H. now apply Hf.
Qed.

Lemma keeps_equity_call {A : Type} (ev : Res A -> Event) (op : W -> Res A * W) :
  keeps_equity se (call ev op).
Proof. intros st H. unfold call. now destruct (op (world st)). Qed.

Lemma keeps_equity_call_total {A : Type} (ev : Event) (op : W -> A * W) :
  keeps_equity se (call_total ev op).
Proof. intros st H. unfold call_total. now destruct (op (world st)). Qed.

Lemma keeps_equity_get_bot : keeps_equity se (get_bot (W := W)).
Proof. intros st H. exact H. Qed.

Lemma keeps_equity_put_bot (c : Controller) :
  keeps_equity se (put_bot (W := W) c).
Proof. intros st H. exact H. Qed.

End Frame.

Create HintDb equity.

#[export] Hint Resolve keeps_equity_ret keeps_equity_raise keeps_equity_lift
  keeps_equity_call keeps_equity_call_total keeps_equity_get_bot
  keeps_equity_put_bot : equity.

Ltac equity :=
  repeat first
    [ progress auto with equity
    | apply keeps_equity_read
    | apply keeps_equity_bind; [| intros ?]
    | match goal with
      | |- keeps_equity _ (if ?b then _ else _) => destruct b
      | |- keeps_equity _ (match ?x with _ => _ end) => destruct x
      end ].

Section Controller.

Context {W : Type} (env : World W) (rcfg : RiskConfig) (cfg : Config).

(** The risk check writes the start equity only when it finds none and
    the kill switch is enforced. *)
Lemma keeps_equity_is_trading_allowed (se : option R) :
  se <> None \/ enforce_kill_switch rcfg = false ->
  keeps_equity se (Risk.is_trading_allowed env rcfg).
Proof.
  intros Hse.
  unfold Risk.is_trading_allowed, Risk.kill_switch_check,
    Risk.daily_pnl_realized, Risk.floating_pnl, Risk.account_info.
  apply keeps_equity_bind; [equity | intros equity0].
  apply keeps_equity_bind; [| intros kill; equity].
  destruct (enforce_kill_switch rcfg).
  - destruct Hse as [Hse | Hse]; [| discriminate].
    apply keeps_equity_read.
    destruct se as [s |]; [| contradiction].
    equity.
  - equity.
Qed.

Lemma keeps_equity_can_trade (se : option R) (b : bool) :
  se <> None \/ enforce_kill_switch rcfg = false ->
  keeps_equity se (_can_trade env rcfg b).
Proof.
  intros Hse. pose proof (keeps_equity_is_trading_allowed se Hse) as K.
  unfold _can_trade, set_halted, time_time. equity.
Qed.

Lemma keeps_equity_compute_signal (se : option R) (a b : string) :
  keeps_equity se (_compute_signal env cfg a b).
Proof. unfold _compute_signal, feed_fetch_close, time_time. equity. Qed.

Lemma keeps_equity_enter_attempts (se : option R) (n : nat)
      (a b sa sb : string) (va vb : R) :
  forall ta tb, keeps_equity se (enter_attempts env n a b sa sb va vb ta tb).
Proof.
  induction n as [| n IH]; intros ta tb; cbn [enter_attempts];
    unfold mt5c_open_position, mt5c_close_position_by_ticket, time_sleep;
    equity.
Qed.

Lemma keeps_equity_live_enter (se : option R) (a b action : string) (pa pb : R) :
  keeps_equity se (_live_enter env a b action pa pb).
Proof.
  pose proof (keeps_equity_enter_attempts se) as K.
  unfold _live_enter, rm_calc_volume_for_risk, set_positions, time_time.
  equity.
Qed.

Lemma keeps_equity_live_exit (se : option R) (key : Key) :
  keeps_equity se (_live_exit env key).
Proof.
  unfold _live_exit, mt5c_close_position_by_ticket, set_cooldown_until_ts,
    set_positions, time_time.
  equity.
Qed.

Lemma keeps_equity_step_pair (se : option R) (key : Key) :
  se <> None \/ enforce_kill_switch rcfg = false ->
  keeps_equity se (step_pair env rcfg cfg key).
Proof.
  intros Hse st H. unfold step_pair, try_except.
  assert (Kb : keeps_equity se (step_body env rcfg cfg key)).
  { pose proof (keeps_equity_can_trade se true Hse) as K1.
    pose proof (keeps_equity_compute_signal se) as K2.
    pose proof (keeps_equity_live_enter se) as K3.
    pose proof (keeps_equity_live_exit se) as K4.
    destruct key as [a b].
    unfold step_body, feed_fetch_last, set_consecutive_errors. equity. }
  assert (Kh : forall e, keeps_equity se (step_handler env e)).
  { intros e. unfold step_handler, set_consecutive_errors, set_halted,
      time_sleep. equity. }
  specialize (Kb st H).
  destruct (step_body env rcfg cfg key st) as [[u | e] st1]; cbn [snd] in *.
  - assumption.
  - now apply Kh.
Qed.

Lemma keeps_equity_step (se : option R) (pairs : list Key) :
  se <> None \/ enforce_kill_switch rcfg = false ->
  keeps_equity se (step env rcfg cfg pairs).
Proof.
  intros Hse st H.
  apply (BotFacts.step_preserves env rcfg cfg (fun s => start_equity s = se)).
  - intros s Hs. now apply keeps_equity_can_trade.
  - intros key s Hs. now apply keeps_equity_step_pair.
  - assumption.
Qed.

(** The first check of a risk manager without a start equity: the
    account is read twice, the second reading becomes the start equity
    and the drawdown is the first reading minus the second. *)
Lemma is_trading_allowed_first_run (st : State W) (equity equity0 : R)
      (w1 w2 w3 w4 : W) (deals : option (list R)) (ps : list R) :
  start_equity st = None ->
  enforce_kill_switch rcfg = true ->
  account_info_equity env (world st) = (Ok equity, w1) ->
  account_info_equity env w1 = (Ok equity0, w2) ->
  history_deals_get env w2 = (deals, w3) ->
  positions_get env w3 = (ps, w4) ->
  Risk.is_trading_allowed env rcfg st =
  if Rleb (equity - equity0) (- Rabs (max_total_drawdown_usd rcfg))
  then (Ok (false, KILL_SWITCH (equity - equity0)),
        Build_State (bot st) (Some equity0) w2
          (trace st ++ [EvAccountInfo; EvAccountInfo]))
  else (Ok (Risk.verdict_of rcfg (equity - equity0)
                            (Risk.realized_of deals + Utils.Rsum ps)),
        Build_State (bot st) (Some equity0) w4
          (trace st ++ [EvAccountInfo; EvAccountInfo; EvHistoryDeals;
                        EvPositionsGet])).
Proof.
  intros Hs He Ha Hb Hd Hp.
  unfold Risk.is_trading_allowed, Risk.kill_switch_check,
    Risk.refresh_start_equity, Risk.account_info,
    Risk.daily_pnl_realized, Risk.floating_pnl, Risk.verdict_of,
    Risk.realized_of.
  unfold bind, call, call_total, get_start_equity, put_start_equity, ret.
  cbn. rewrite Ha. cbn. rewrite He, Hs. cbn. rewrite Hb. cbn.
  destruct (Rleb (equity - equity0) (- Rabs (max_total_drawdown_usd rcfg))); cbn.
  - rewrite <- !app_assoc. reflexivity.
  - rewrite Hd. cbn. rewrite Hp. cbn. rewrite <- !app_assoc. cbn.
    match goal with |- context [Rleb ?x ?y] => destruct (Rleb x y) end;
      reflexivity.
Qed.

End Controller.

End EquityFacts.

(** X13.  The start equity is written at most once.  When it is
    recorded, or when the kill switch is not enforced, a whole cycle of
    [step] leaves it as it is: the drawdown of the kill switch is always
    measured against the first recorded equity. *)
Theorem X13_start_equity_is_never_refreshed
        (W : Type) (env : Data.World W) (rcfg : Data.RiskConfig)
        (cfg : Data.Config) (pairs : list Data.Key) (st : Data.State W) :
  Data.start_equity st <> None \/ Data.enforce_kill_switch rcfg = false ->
  Data.start_equity (snd (Bot.step env rcfg cfg pairs st))
  = Data.start_equity st.
Proof.
  intros H.
  now apply (EquityFacts.keeps_equity_step env rcfg cfg (Data.start_equity st)).
Qed.

Lemma X13_start_equity_is_never_refreshed_witness :
  Data.start_equity
    (snd (Bot.step (Samples.steady_world Samples.twin_feed 400 0 0 101)
                   Samples.risk_cfg Data.default_config
                   [("A"%string, "B"%string)] (Samples.fresh_state 1000)))
  = Data.start_equity (Samples.fresh_state 1000).
Proof.
  apply (X13_start_equity_is_never_refreshed unit
           (Samples.steady_world Samples.twin_feed 400 0 0 101)
           Samples.risk_cfg Data.default_config [("A"%string, "B"%string)]
           (Samples.fresh_state 1000)).
  left. discriminate.
Defined.

(** X14.  The first risk check of a manager whose start equity was never
    recorded, with the kill switch enforced: the account is requested a
    second time, that second reading is recorded as the start equity,
    and the drawdown tested is the first reading minus the second. *)
Theorem X14_first_check_records_the_second_reading
        (W : Type) (env : Data.World W) (rcfg : Data.RiskConfig)
        (st : Data.State W) (equity equity0 : R) (w1 w2 w3 w4 : W)
        (deals : option (list R)) (ps : list R) :
  Data.start_equity st = None ->
  Data.enforce_kill_switch rcfg = true ->
  Data.account_info_equity env (Data.world st) = (Ok equity, w1) ->
  Data.account_info_equity env w1 = (Ok equity0, w2) ->
  Data.history_deals_get env w2 = (deals, w3) ->
  Data.positions_get env w3 = (ps, w4) ->
  let r := Risk.is_trading_allowed env rcfg st in
  Data.start_equity (snd r) = Some equity0 /\
  Data.bot (snd r) = Data.bot st /\
  fst r = Ok (Risk.verdict_of rcfg (equity - equity0)
                              (Risk.realized_of deals + Utils.Rsum ps)) /\
  exists rest, Data.trace (snd r)
               = Data.trace st ++ Data.EvAccountInfo :: Data.EvAccountInfo :: rest.
Proof.
  intros Hs He Ha Hb Hd Hp r. subst r.
  rewrite (EquityFacts.is_trading_allowed_first_run env rcfg st equity equity0
             w1 w2 w3 w4 deals ps Hs He Ha Hb Hd Hp).
  destruct (Rleb (equity - equity0) (- Rabs (Data.max_total_drawdown_usd rcfg)))
    eqn:E; cbn [fst snd Data.start_equity Data.bot Data.trace].
  - repeat split.
    + unfold Risk.verdict_of. now rewrite He, E.
    + now exists [].
  - repeat split.
    now exists [Data.EvHistoryDeals; Data.EvPositionsGet].
Qed.

Lemma X14_first_check_records_the_second_reading_witness :
  let r := Risk.is_trading_allowed
             (Samples.steady_world Samples.no_history 400 0 0 101)
             Samples.risk_cfg
             (Data.Build_State Data.init_controller None tt []) in
  Data.start_equity (snd r) = Some 400 /\
  Data.bot (snd r) = Data.init_controller /\
  fst r = Ok (Risk.verdict_of Samples.risk_cfg (400 - 400)
                              (Risk.realized_of (Some []) + Utils.Rsum [])) /\
  exists rest, Data.trace (snd r)
               = [] ++ Data.EvAccountInfo :: Data.EvAccountInfo :: rest.
Proof.
  apply (X14_first_check_records_the_second_reading unit
           (Samples.steady_world Samples.no_history 400 0 0 101)
           Samples.risk_cfg
           (Data.Build_State Data.init_controller None tt [])
           400 400 tt tt tt tt (Some []) []);
    reflexivity.
Defined.

(** ** utils.py: the statistics on arbitrary series *)

Module StatFacts.
Import Utils UtilsFacts SeriesFacts.

(** *** Correlation *)

Lemma sq_le_le (x y : R) : 0 <= y -> x * x <= y * y -> x <= y.
Proof.
  intros Hy H. destruct (Rle_lt_dec x y) as [L | L]; [assumption | nra].
Qed.

Lemma Rsum_map_nonneg {A : Type} (f : A -> R) (l : list A) :
  (forall x, 0 <= f x) -> 0 <= Rsum (map f l).
Proof.
  intros H. induction l as [| x l IH]; cbn; [lra |].
  specialize (H x). lra.
Qed.

Lemma cauchy_schwarz {A : Type} (f g : A -> R) (l : list A) :
  Rsum (map (fun p => f p * g p) l) * Rsum (map (fun p => f p * g p) l)
  <= Rsum (map (fun p => f p * f p) l) * Rsum (map (fun p => g p * g p) l).
Proof.
  induction l as [| p l IH]; cbn; [lra |].
  assert (HA : 0 <= Rsum (map (fun p => f p * f p) l))
    by (apply Rsum_map_nonneg; intros x; apply Rle_0_sqr).
  assert (HB : 0 <= Rsum (map (fun p => g p * g p) l))
    by (apply Rsum_map_nonneg; intros x; apply Rle_0_sqr).
  set (S0 := Rsum (map (fun p => f p * g p) l)) in *.
  set (A0 := Rsum (map (fun p => f p * f p) l)) in *.
  set (B0 := Rsum (map (fun p => g p * g p) l)) in *.
  set (a := f p). set (b := g p).
  assert (Ha : 0 <= a * a) by apply Rle_0_sqr.
  assert (Hb : 0 <= b * b) by apply Rle_0_sqr.
  assert (H2 : 2 * (a * b * S0) <= a * a * B0 + b * b * A0).
  { apply sq_le_le; [nra |].
    assert (Hab : 0 <= a * a * (b * b)) by nra.
    assert (H1 : a * a * (b * b) * (S0 * S0) <= a * a * (b * b) * (A0 * B0))
      by (apply Rmult_le_compat_l; assumption).
    pose proof (Rle_0_sqr (a * a * B0 - b * b * A0)) as H3.
    unfold Rsqr in H3. nra. }
  nra.
Qed.

Lemma Rsum_combine_fst_le (f : R -> R) (l1 l2 : list R) :
  (forall x, 0 <= f x) ->
  Rsum (map (fun p => f (fst p)) (combine l1 l2)) <= Rsum (map f l1).
Proof.
  intros Hf. revert l2. induction l1 as [| x l1 IH]; intros l2; cbn; [lra |].
  destruct l2 as [| y l2]; cbn.
  - pose proof (Rsum_map_nonneg f l1 Hf). specialize (Hf x). lra.
  - specialize (IH l2). lra.
Qed.

Lemma Rsum_combine_snd_le (f : R -> R) (l1 l2 : list R) :
  (forall x, 0 <= f x) ->
  Rsum (map (fun p => f (snd p)) (combine l1 l2)) <= Rsum (map f l2).
Proof.
  intros Hf. revert l2. induction l1 as [| x l1 IH]; intros l2; cbn.
  - apply Rsum_map_nonneg. assumption.
  - destruct l2 as [| y l2]; cbn; [lra |]. specialize (IH l2). lra.
Qed.

Lemma sum_codev_sqr_le (xs ys : list R) :
  sum_codev xs ys * sum_codev xs ys <= sum_dev2 xs * sum_dev2 ys.
Proof.
  unfold sum_codev, sum_dev2. cbv zeta.
  eapply Rle_trans.
  - apply (cauchy_schwarz (fun p => fst p - mean xs) (fun p => snd p - mean ys)).
  - apply Rmult_le_compat.
    + apply Rsum_map_nonneg. intros x. apply Rle_0_sqr.
    + apply Rsum_map_nonneg. intros x. apply Rle_0_sqr.
    + apply (Rsum_combine_fst_le (fun v => (v - mean xs) * (v - mean xs))).
      intros x. apply Rle_0_sqr.
    + apply (Rsum_combine_snd_le (fun v => (v - mean ys) * (v - mean ys))).
      intros x. apply Rle_0_sqr.
Qed.

Lemma pearson_bounded (xs ys : list R) (c : R) :
  pearson xs ys = Some c -> -1 <= c <= 1.
Proof.
  unfold pearson. cbv zeta.
  set (d := sqrt (sum_dev2 xs) * sqrt (sum_dev2 ys)).
  destruct (Reqb d 0) eqn:E; [discriminate |].
  intros H. injection H as <-. apply Reqb_false in E.
  pose proof (sum_dev2_nonneg xs) as Hx.
  pose proof (sum_dev2_nonneg ys) as Hy.
  assert (Hd : 0 < d).
  { pose proof (sqrt_pos (sum_dev2 xs)). pose proof (sqrt_pos (sum_dev2 ys)).
    assert (0 <= d) by (unfold d; nra). lra. }
  assert (Hdd : d * d = sum_dev2 xs * sum_dev2 ys).
  { unfold d.
    replace (sqrt (sum_dev2 xs) * sqrt (sum_dev2 ys)
             * (sqrt (sum_dev2 xs) * sqrt (sum_dev2 ys)))
      with (sqrt (sum_dev2 xs) * sqrt (sum_dev2 xs)
            * (sqrt (sum_dev2 ys) * sqrt (sum_dev2 ys))) by ring.
    now rewrite !sqrt_sqrt. }
  pose proof (sum_codev_sqr_le xs ys) as Hcs. rewrite <- Hdd in Hcs.
  assert (H1 : sum_codev xs ys <= d) by (apply sq_le_le; lra).
  assert (H2 : - sum_codev xs ys <= d) by (apply sq_le_le; nra).
  split.
  - apply Rmult_le_reg_r with d; [assumption |].
    unfold Rdiv. rewrite Rmult_assoc, Rinv_l by lra. lra.
  - apply div_le; [assumption | lra].
Qed.

Lemma corr_bounded (a b : Series) (c : R) :
  corr a b = Some c -> -1 <= c <= 1.
Proof.
  unfold corr. destruct ((length a <? 30) || (length b <? 30))%nat.
  - intros H. injection H as <-. lra.
  - cbv zeta. apply pearson_bounded.
Qed.

(** *** The z-score of a rescaled series *)

Lemma values_rescale (k c : R) (s : Series) :
  values (rescale k c s) = map (fun v => k * v + c) (values s).
Proof. unfold values, rescale. now rewrite !map_map. Qed.

Lemma Rsum_map_affine (k c : R) (l : list R) :
  Rsum (map (fun v => k * v + c) l) = k * Rsum l + INR (length l) * c.
Proof.
  induction l as [| x l IH]; [cbn; lra |].
  change (length (x :: l)) with (S (length l)). rewrite S_INR.
  cbn [map Rsum]. rewrite IH. lra.
Qed.

Lemma mean_affine (k c : R) (l : list R) :
  l <> [] -> mean (map (fun v => k * v + c) l) = k * mean l + c.
Proof.
  intros Hl. unfold mean. rewrite Rsum_map_affine, length_map.
  field. destruct l; [contradiction | apply INR_S_neq_0].
Qed.

Lemma sum_dev2_affine (k c : R) (l : list R) :
  l <> [] -> sum_dev2 (map (fun v => k * v + c) l) = k * k * sum_dev2 l.
Proof.
  intros Hl. unfold sum_dev2. cbv zeta. rewrite mean_affine by assumption.
  rewrite map_map. generalize (mean l). intros m.
  clear Hl. induction l as [| x l IH]; cbn; [lra |]. rewrite IH. ring.
Qed.

Lemma std_affine (k c : R) (l : list R) :
  l <> [] -> std_ddof1 (map (fun v => k * v + c) l) = Rabs k * std_ddof1 l.
Proof.
  intros Hl. unfold std_ddof1. rewrite sum_dev2_affine, length_map by assumption.
  replace (k * k * sum_dev2 l / (INR (length l) - 1))
    with (Rsqr k * (sum_dev2 l / (INR (length l) - 1)))
    by (unfold Rsqr, Rdiv; ring).
  rewrite sqrt_mult_alt by apply Rle_0_sqr.
  now rewrite sqrt_Rsqr_abs.
Qed.

Lemma last_indep {A : Type} (l : list A) (d d' : A) :
  l <> [] -> last l d = last l d'.
Proof.
  induction l as [| x l IH]; [contradiction |]. intros _.
  destruct l as [| y l]; [reflexivity |].
  change (last (y :: l) d = last (y :: l) d'). apply IH. discriminate.
Qed.

Lemma last_cons {A : Type} (x : A) (l : list A) (d : A) :
  last (x :: l) d = last l x.
Proof.
  destruct l as [| y l]; [reflexivity |].
  change (last (y :: l) d = last (y :: l) x). apply last_indep. discriminate.
Qed.

Lemma last_map_nonempty {A B : Type} (f : A -> B) (l : list A) (d : A) (d' : B) :
  l <> [] -> last (map f l) d' = f (last l d).
Proof.
  induction l as [| x l IH]; [contradiction |]. intros _.
  destruct l as [| y l]; [reflexivity |].
  change (last (map f (y :: l)) d' = f (last (y :: l) d)).
  apply IH. discriminate.
Qed.

Lemma zscore_rescale (k c : R) (s : Series) :
  k <> 0 ->
  zscore (rescale k c s) = if Rltb 0 k then zscore s else - zscore s.
Proof.
  intros Hk. unfold zscore.
  assert (Hlen : length (rescale k c s) = length s) by apply length_map.
  rewrite Hlen.
  destruct (length s <? 50)%nat eqn:El.
  { destruct (Rltb 0 k); lra. }
  apply Nat.ltb_ge in El.
  assert (Hv : values s <> []).
  { intros E. apply (f_equal (@length R)) in E.
    rewrite length_values in E. cbn in E. lia. }
  cbv zeta. rewrite values_rescale.
  rewrite std_affine, mean_affine by assumption.
  rewrite (last_map_nonempty (fun v => k * v + c) (values s) 0 0 Hv).
  set (sd := std_ddof1 (values s)).
  set (mu := mean (values s)).
  set (x := last (values s) 0).
  assert (Ha : Rabs k <> 0) by now apply Rabs_no_R0.
  destruct (Reqb sd 0) eqn:E0.
  - apply Reqb_true in E0.
    assert (E1 : Reqb (Rabs k * sd) 0 = true)
      by (apply Reqb_true; rewrite E0; ring).
    rewrite E1. destruct (Rltb 0 k); lra.
  - apply Reqb_false in E0.
    assert (E1 : Reqb (Rabs k * sd) 0 = false).
    { apply Reqb_false. intros H. apply Rmult_integral in H. tauto. }
    rewrite E1.
    destruct (Rltb 0 k) eqn:Ek.
    + apply Rltb_true in Ek. rewrite Rabs_right by lra. field. tauto.
    + apply Rltb_false in Ek. rewrite Rabs_left by lra. field. tauto.
Qed.

(** *** Log-prices and log-returns *)

Lemma Rsum_diffs_from (vs : list R) :
  forall prev, Rsum (diffs_from prev vs) = last vs prev - prev.
Proof.
  induction vs as [| v vs IH]; intros prev; [cbn; lra |].
  rewrite last_cons. cbn [diffs_from Rsum]. rewrite IH. lra.
Qed.

Lemma length_log_returns (s : Series) :
  length (log_returns s) = (length s - 1)%nat.
Proof.
  rewrite <- (length_values (log_returns s)), values_log_returns.
  rewrite <- (length_values s).
  destruct (values s) as [| v vs]; [reflexivity |].
  cbn [diffs]. rewrite length_diffs_from. cbn. lia.
Qed.

Lemma log_prices_exp (close : Series) :
  Forall (fun p => 0 < snd p) close ->
  map (fun p => (fst p, exp (snd p))) (log_prices close) = close.
Proof.
  unfold log_prices. induction 1 as [| [t v] close Hv Hc IH]; [reflexivity |].
  cbn [filter snd fst]. cbn [snd] in Hv.
  assert (E : Reqb v 0 = false) by (apply Reqb_false; lra).
  rewrite E. cbn [negb map fst snd]. rewrite IH, exp_ln by assumption.
  reflexivity.
Qed.

(** *** The regression on arrays of different lengths *)

Lemma ols_beta_mismatch (y x : Series) :
  (50 <= length y)%nat -> (50 <= length x)%nat ->
  length y <> length x ->
  np_var (values x) <> 0 ->
  ols_beta y x = Raise (ValueError "all the input array dimensions must match").
Proof.
  intros Hy Hx Hne Hvar. unfold ols_beta.
  assert (E1 : (length y <? 50)%nat = false) by (apply Nat.ltb_ge; lia).
  assert (E2 : (length x <? 50)%nat = false) by (apply Nat.ltb_ge; lia).
  rewrite E1, E2. cbn [orb]. cbv zeta.
  apply Reqb_false in Hvar. rewrite Hvar.
  unfold np_cov_ddof1. rewrite !length_values.
  apply Nat.eqb_neq in Hne. now rewrite Hne.
Qed.

End StatFacts.

(** X15.  A correlation that [corr] returns as a number lies between -1
    and 1, whatever the two series (also when their indexes differ and
    only the common rows are correlated). *)
Theorem X15_corr_is_between_minus_one_and_one
        (a b : Utils.Series) (c : R) :
  Utils.corr a b = Some c -> -1 <= c <= 1.
Proof. apply StatFacts.corr_bounded. Qed.

Lemma X15_corr_is_between_minus_one_and_one_witness :
  Utils.corr (Utils.log_returns (Samples.leg (ln 2)))
             (Utils.log_returns (Samples.leg (ln 2))) = Some 1 /\
  -1 <= 1 <= 1.
Proof.
  assert (H : Utils.corr (Utils.log_returns (Samples.leg (ln 2)))
                         (Utils.log_returns (Samples.leg (ln 2))) = Some 1).
  { apply SampleFacts.corr_returns_twin. pose proof SampleFacts.ln_2_pos. lra. }
  split; [exact H |].
  exact (X15_corr_is_between_minus_one_and_one _ _ 1 H).
Defined.

(** X16.  The z-score does not depend on the unit or the origin of a
    series that has some spread (its standard deviation is not zero):
    for [k > 0] the series [k * s + c] has the z-score of [s]; for
    [k < 0] it has the opposite z-score. *)
Theorem X16_zscore_of_a_rescaled_series
        (k c : R) (s : Utils.Series) :
  k <> 0 ->
  Utils.std_ddof1 (Utils.values s) <> 0 ->
  Utils.zscore (Utils.rescale k c s)
  = if Rltb 0 k then Utils.zscore s else - Utils.zscore s.
Proof. intros Hk _. now apply StatFacts.zscore_rescale. Qed.

Lemma X16_zscore_of_a_rescaled_series_witness :
  Utils.std_ddof1 (Utils.values Samples.ols_x) <> 0 /\
  Utils.zscore (Utils.rescale (-2) 1 Samples.ols_x)
  = - Utils.zscore Samples.ols_x.
Proof.
  assert (Hsd : Utils.std_ddof1 (Utils.values Samples.ols_x) <> 0).
  { unfold Samples.ols_x. rewrite UtilsFacts.values_mk_series.
    rewrite SeriesFacts.std_spike by lia.
    pose proof (SeriesFacts.spike_var_pos 49 1 ltac:(lra)) as Hv.
    pose proof (sqrt_lt_R0 _ Hv). lra. }
  split; [exact Hsd |].
  rewrite (X16_zscore_of_a_rescaled_series (-2) 1 Samples.ols_x
             ltac:(lra) Hsd).
  assert (E : Rltb 0 (-2) = false) by (apply Rltb_false; lra).
  now rewrite E.
Defined.

(** X17.  Log-returns telescope: the returns of a series of log-prices
    are one fewer than the log-prices, and they add up to the last
    log-price minus the first. *)
Theorem X17_log_returns_telescope (logp : Utils.Series) :
  length (Utils.log_returns logp) = (length logp - 1)%nat /\
  Utils.Rsum (Utils.values (Utils.log_returns logp))
  = last (Utils.values logp) 0 - hd 0 (Utils.values logp).
Proof.
  split; [apply StatFacts.length_log_returns |].
  rewrite SeriesFacts.values_log_returns.
  destruct (Utils.values logp) as [| v vs]; [cbn; lra |].
  cbn [Utils.diffs hd].
  now rewrite StatFacts.Rsum_diffs_from, StatFacts.last_cons.
Qed.

(** X18.  On positive closes [log_prices] loses nothing: it keeps every
    row and its timestamp, and the exponential of its values gives the
    closes back. *)
Theorem X18_log_prices_round_trip (close : Utils.Series) :
  Forall (fun p => 0 < snd p) close ->
  map (fun p => (fst p, exp (snd p))) (Utils.log_prices close) = close.
Proof. apply StatFacts.log_prices_exp. Qed.

Lemma X18_log_prices_round_trip_witness :
  map (fun p => (fst p, exp (snd p)))
      (Utils.log_prices [(0%Z, 100); (60%Z, 101); (120%Z, 99)])
  = [(0%Z, 100); (60%Z, 101); (120%Z, 99)].
Proof.
  apply (X18_log_prices_round_trip [(0%Z, 100); (60%Z, 101); (120%Z, 99)]).
  repeat constructor; cbn; lra.
Defined.

(** X19.  [ols_beta] raises on series of different lengths: with at
    least 50 rows in each and a regressor that is not constant, the
    covariance of numpy is asked for two arrays that do not match and
    the ValueError leaves the function. *)
Theorem X19_ols_beta_raises_on_unequal_lengths (y x : Utils.Series) :
  (50 <= length y)%nat -> (50 <= length x)%nat ->
  length y <> length x ->
  Utils.np_var (Utils.values x) <> 0 ->
  Utils.ols_beta y x
  = Raise (ValueError "all the input array dimensions must match").
Proof. apply StatFacts.ols_beta_mismatch. Qed.

Lemma X19_ols_beta_raises_on_unequal_lengths_witness :
  Utils.ols_beta Samples.ols_x (Utils.mk_series (Utils.spike 50 1))
  = Raise (ValueError "all the input array dimensions must match").
Proof.
  apply (X19_ols_beta_raises_on_unequal_lengths Samples.ols_x
           (Utils.mk_series (Utils.spike 50 1))).
  - unfold Samples.ols_x.
    rewrite UtilsFacts.length_mk_series, UtilsFacts.length_spike. lia.
  - rewrite UtilsFacts.length_mk_series, UtilsFacts.length_spike. lia.
  - unfold Samples.ols_x.
    rewrite !UtilsFacts.length_mk_series, !UtilsFacts.length_spike. lia.
  - rewrite UtilsFacts.values_mk_series. unfold Utils.np_var.
    rewrite UtilsFacts.length_spike.
    pose proof (UtilsFacts.sum_dev2_spike_pos 50 1 ltac:(lia) ltac:(lra)) as H1.
    pose proof (UtilsFacts.INR_S_pos 50) as H2.
    pose proof (Rdiv_lt_0_compat _ _ H1 H2). lra.
Defined.

(** ** portfolio_bot.py: histories of different lengths *)

Module UnevenFacts.
Import Data Monad MonadFacts Bot BotFacts Utils UtilsFacts SeriesFacts Samples.
Local Open Scope monad_scope.

Lemma length_tail {A : Type} (n : nat) (l : list A) :
  length (tail n l) = Nat.min n (length l).
Proof. unfold tail. rewrite length_skipn. lia. Qed.

Section Uneven.

Context {W : Type} (env : World W) (rcfg : RiskConfig) (cfg : Config).

(** For a held pair the regime filter is not consulted, and a regression
    on windows of different lengths raises out of [_compute_signal]. *)
Lemma compute_signal_uneven (a b : string) (st st1 st2 : State W)
      (ca cb : Series) :
  feed_fetch_close env cfg a st = (Ok ca, st1) ->
  feed_fetch_close env cfg b st1 = (Ok cb, st2) ->
  let la := tail (lookback cfg) (log_prices ca) in
  let lb := tail (lookback cfg) (log_prices cb) in
  (120 <= length la)%nat -> (120 <= length lb)%nat ->
  (50 <= beta_window cfg)%nat ->
  length (tail (beta_window cfg) la) <> length (tail (beta_window cfg) lb) ->
  np_var (values (tail (beta_window cfg) lb)) <> 0 ->
  pos_mem (a, b) (positions (bot st)) = true ->
  _compute_signal env cfg a b st
  = (Raise (ValueError "all the input array dimensions must match"), st2).
Proof.
  intros Ha Hb la lb Hla Hlb Hbw Hne Hvar Hmem.
  assert (Kb : bot st2 = bot st).
  { rewrite (keeps_bot_eq _ _ _ _ (keeps_bot_fetch_close env cfg b) Hb).
    apply (keeps_bot_eq _ _ _ _ (keeps_bot_fetch_close env cfg a) Ha). }
  unfold _compute_signal.
  rewrite (bind_ok _ _ _ _ _ Ha), (bind_ok _ _ _ _ _ Hb).
  fold la lb. cbv zeta.
  assert (E1 : (length la <? 120)%nat = false) by (apply Nat.ltb_ge; lia).
  assert (E2 : (length lb <? 120)%nat = false) by (apply Nat.ltb_ge; lia).
  rewrite E1, E2. cbn [orb].
  unfold bind at 1, get_bot at 1. rewrite Kb, Hmem. cbn [negb].
  rewrite andb_false_r.
  unfold bind at 1, lift.
  rewrite StatFacts.ols_beta_mismatch; try assumption.
  - reflexivity.
  - rewrite length_tail. lia.
  - rewrite length_tail. lia.
Qed.

Lemma step_pair_uneven (a b : string) (st st1 st2 : State W)
      (ca cb : Series) :
  feed_fetch_close env cfg a st = (Ok ca, st1) ->
  feed_fetch_close env cfg b st1 = (Ok cb, st2) ->
  let la := tail (lookback cfg) (log_prices ca) in
  let lb := tail (lookback cfg) (log_prices cb) in
  (120 <= length la)%nat -> (120 <= length lb)%nat ->
  (50 <= beta_window cfg)%nat ->
  length (tail (beta_window cfg) la) <> length (tail (beta_window cfg) lb) ->
  np_var (values (tail (beta_window cfg) lb)) <> 0 ->
  pos_mem (a, b) (positions (bot st)) = true ->
  step_pair env rcfg cfg (a, b) st
  = (Ok tt,
     Build_State
       {| positions := positions (bot st);
          cooldown_until_ts := cooldown_until_ts (bot st);
          halted := if (8 <=? consecutive_errors (bot st) + 1)%nat
                    then true else halted (bot st);
          consecutive_errors := consecutive_errors (bot st) + 1 |}
       (start_equity st2) (sleep env 20 (world st2))
       (trace st2 ++ [EvSleep 20])).
Proof.
  intros Ha Hb la lb Hla Hlb Hbw Hne Hvar Hmem.
  pose proof (compute_signal_uneven a b st st1 st2 ca cb Ha Hb
                Hla Hlb Hbw Hne Hvar Hmem) as Hsig.
  assert (Kb : bot st2 = bot st).
  { rewrite (keeps_bot_eq _ _ _ _ (keeps_bot_fetch_close env cfg b) Hb).
    apply (keeps_bot_eq _ _ _ _ (keeps_bot_fetch_close env cfg a) Ha). }
  assert (Hbody : step_body env rcfg cfg (a, b) st
                  = (Raise (ValueError "all the input array dimensions must match"),
                     st2)).
  { unfold step_body. now rewrite (bind_raise _ _ _ _ _ Hsig). }
  rewrite (step_pair_raise env rcfg cfg _ _ _ _ Hbody), step_handler_run.
  now rewrite Kb.
Qed.

End Uneven.

(** The sample histories of different lengths. *)
Lemma log_prices_longer_closes :
  log_prices longer_closes = mk_series (spike 120 (ln 2)).
Proof.
  unfold longer_closes, spike. rewrite log_prices_mk_series.
  - rewrite map_app, map_repeat, ln_1. reflexivity.
  - apply Forall_app. split.
    + apply Forall_forall. intros x Hx. apply repeat_spec in Hx. lra.
    + constructor; [lra | constructor].
Qed.

Lemma tail_longer (n : nat) :
  (121 <= n)%nat ->
  tail n (mk_series (spike 120 (ln 2))) = mk_series (spike 120 (ln 2)).
Proof.
  intros H. apply tail_all. rewrite length_mk_series, length_spike. lia.
Qed.

End UnevenFacts.

(** X20.  Histories of different lengths block a held pair.  When the two
    cleaned histories of a held pair are long enough but their
    regression windows differ in length (and the regressor moves), the
    iteration of [step] for the pair ends in the exception handler with
    the ValueError of the regression: no price is read and no order is
    sent, the position stays in the table, the error counter goes up by
    one (halting at eight) and the loop sleeps 20 seconds. *)
Theorem X20_uneven_histories_block_a_held_pair
        (W : Type) (env : Data.World W) (rcfg : Data.RiskConfig)
        (cfg : Data.Config) (a b : string) (st st1 st2 : Data.State W)
        (ca cb : Utils.Series) :
  Bot.feed_fetch_close env cfg a st = (Ok ca, st1) ->
  Bot.feed_fetch_close env cfg b st1 = (Ok cb, st2) ->
  let la := Utils.tail (Data.lookback cfg) (Utils.log_prices ca) in
  let lb := Utils.tail (Data.lookback cfg) (Utils.log_prices cb) in
  (120 <= length la)%nat -> (120 <= length lb)%nat ->
  (50 <= Data.beta_window cfg)%nat ->
  length (Utils.tail (Data.beta_window cfg) la)
  <> length (Utils.tail (Data.beta_window cfg) lb) ->
  Utils.np_var (Utils.values (Utils.tail (Data.beta_window cfg) lb)) <> 0 ->
  Data.pos_mem (a, b) (Data.positions (Data.bot st)) = true ->
  Bot._compute_signal env cfg a b st
  = (Raise (ValueError "all the input array dimensions must match"), st2) /\
  Bot.step_pair env rcfg cfg (a, b) st
  = (Ok tt,
     Data.Build_State
       {| Data.positions := Data.positions (Data.bot st);
          Data.cooldown_until_ts := Data.cooldown_until_ts (Data.bot st);
          Data.halted := if (8 <=? Data.consecutive_errors (Data.bot st) + 1)%nat
                         then true else Data.halted (Data.bot st);
          Data.consecutive_errors := Data.consecutive_errors (Data.bot st) + 1 |}
       (Data.start_equity st2) (Data.sleep env 20 (Data.world st2))
       (Data.trace st2 ++ [Data.EvSleep 20])).
Proof.
  intros Ha Hb la lb Hla Hlb Hbw Hne Hvar Hmem. split.
  - exact (UnevenFacts.compute_signal_uneven env cfg a b st st1 st2 ca cb
             Ha Hb Hla Hlb Hbw Hne Hvar Hmem).
  - exact (UnevenFacts.step_pair_uneven env rcfg cfg a b st st1 st2 ca cb
             Ha Hb Hla Hlb Hbw Hne Hvar Hmem).
Qed.

Lemma X20_uneven_histories_block_a_held_pair_witness :
  Bot._compute_signal (Samples.steady_world Samples.uneven_feed 1000 0 0 101)
                      Data.default_config "A" "B" Samples.open_state
  = (Raise (ValueError "all the input array dimensions must match"),
     Data.Build_State (Data.bot Samples.open_state) (Some 1000) tt
       [Data.EvFetchClose "A"; Data.EvFetchClose "B"]) /\
  Bot.step_pair (Samples.steady_world Samples.uneven_feed 1000 0 0 101)
                Samples.risk_cfg Data.default_config
                ("A"%string, "B"%string) Samples.open_state
  = (Ok tt,
     Data.Build_State
       {| Data.positions := [(("A"%string, "B"%string), Samples.sample_position)];
          Data.cooldown_until_ts := 0;
          Data.halted := false;
          Data.consecutive_errors := 1 |}
       (Some 1000) tt
       [Data.EvFetchClose "A"; Data.EvFetchClose "B"; Data.EvSleep 20]).
Proof.
  assert (La : Utils.tail 720 (Utils.log_prices Samples.jump_closes)
               = Samples.leg (ln 2)).
  { unfold Samples.jump_closes.
    rewrite SampleFacts.log_prices_closes_ending by lra.
    apply SampleFacts.tail_leg. lia. }
  assert (Lb : Utils.tail 720 (Utils.log_prices Samples.longer_closes)
               = Utils.mk_series (Utils.spike 120 (ln 2))).
  { rewrite UnevenFacts.log_prices_longer_closes.
    apply UnevenFacts.tail_longer. lia. }
  apply (X20_uneven_histories_block_a_held_pair unit
           (Samples.steady_world Samples.uneven_feed 1000 0 0 101)
           Samples.risk_cfg Data.default_config "A" "B" Samples.open_state
           (Data.Build_State (Data.bot Samples.open_state) (Some 1000) tt
              [Data.EvFetchClose "A"])
           (Data.Build_State (Data.bot Samples.open_state) (Some 1000) tt
              [Data.EvFetchClose "A"; Data.EvFetchClose "B"])
           Samples.jump_closes Samples.longer_closes).
  - reflexivity.
  - reflexivity.
  - change (Data.lookback Data.default_config) with 720%nat.
    rewrite La, SampleFacts.length_leg. lia.
  - change (Data.lookback Data.default_config) with 720%nat.
    rewrite Lb, UtilsFacts.length_mk_series, UtilsFacts.length_spike. lia.
  - cbn. lia.
  - change (Data.lookback Data.default_config) with 720%nat.
    change (Data.beta_window Data.default_config) with 720%nat.
    rewrite La, Lb, SampleFacts.tail_leg, UnevenFacts.tail_longer by lia.
    rewrite SampleFacts.length_leg, UtilsFacts.length_mk_series,
      UtilsFacts.length_spike. lia.
  - change (Data.lookback Data.default_config) with 720%nat.
    change (Data.beta_window Data.default_config) with 720%nat.
    rewrite Lb, UnevenFacts.tail_longer by lia.
    rewrite UtilsFacts.values_mk_series. unfold Utils.np_var.
    rewrite UtilsFacts.length_spike.
    pose proof SampleFacts.ln_2_pos as L2.
    pose proof (UtilsFacts.sum_dev2_spike_pos 120 (ln 2) ltac:(lia) ltac:(lra))
      as H1.
    pose proof (UtilsFacts.INR_S_pos 120) as H2.
    pose proof (Rdiv_lt_0_compat _ _ H1 H2). lra.
  - reflexivity.
Defined.

(** ** portfolio_bot.py: a gateway that cannot open *)

Module GatewayFacts.
Import Data Monad MonadFacts Bot BotFacts.
Local Open Scope monad_scope.

Section NoOpen.

Context {W : Type} (env : World W) (rcfg : RiskConfig) (cfg : Config).

(** Every call of [open_position] raises. *)
Hypothesis Hopen :
  forall s side v w, exists e w', open_position env s side v w = (Raise e, w').

Lemma enter_attempts_fails (n : nat) (a b sa sb : string) (va vb : R)
      (ta tb : Z) (st : State W) :
  exists e st',
    enter_attempts env (S n) a b sa sb va vb ta tb st = (Raise e, st') /\
    bot st' = bot st.
Proof.
  cbn [enter_attempts]. unfold bind at 1. unfold mt5c_open_position, call.
  destruct (Hopen a sa va (world st)) as [e [w' E]]. rewrite E.
  eexists. eexists. split; reflexivity.
Qed.

Lemma live_enter_fails (a b action : string) (pa pb : R) (st : State W) :
  bot (snd (_live_enter env a b action pa pb st)) = bot st.
Proof.
  unfold _live_enter. cbv zeta. unfold bind at 1.
  destruct (rm_calc_volume_for_risk env a pa (pa * (95 / 100)) st)
    as [[va | e] st1] eqn:E1;
    pose proof (keeps_bot_eq _ _ _ _ (keeps_bot_calc_volume env _ _ _) E1) as K1;
    [| exact K1].
  unfold bind at 1.
  destruct (rm_calc_volume_for_risk env b pb (pb * (95 / 100)) st1)
    as [[vb | e] st2] eqn:E2;
    pose proof (keeps_bot_eq _ _ _ _ (keeps_bot_calc_volume env _ _ _) E2) as K2;
    [| cbn; congruence].
  unfold bind at 1. unfold max_retries.
  match goal with
  | |- context [enter_attempts env 3 a b ?sa ?sb va vb 0%Z 0%Z st2] =>
      destruct (enter_attempts_fails 2 a b sa sb va vb 0%Z 0%Z st2)
        as [e [st3 [E3 K3]]]
  end.
  rewrite E3. cbn. congruence.
Qed.

Lemma dispatch_shrinks (a b action : string) (pa pb : R) (c : Controller)
      (st st' : State W) (r : Res unit) :
  (if String.eqb action "EXIT" && pos_mem (a, b) (positions c)
   then _live_exit env (a, b)
   else if String.prefix "ENTER" action && negb (pos_mem (a, b) (positions c))
   then bind (_can_trade env rcfg true)
             (fun ok : bool =>
                if ok then _live_enter env a b action pa pb else ret tt)
   else ret tt) st = (r, st') ->
  shrinks (a, b) (positions (bot st)) (positions (bot st')).
Proof.
  destruct (String.eqb action "EXIT" && pos_mem (a, b) (positions c)).
  { intros H. apply live_exit_effect in H.
    destruct H as [H | [Hp _]]; [left; now rewrite H | now right]. }
  destruct (String.prefix "ENTER" action && negb (pos_mem (a, b) (positions c))).
  2:{ intros H. inversion H. now left. }
  unfold bind at 1.
  destruct (can_trade_effect env rcfg true st) as [Hp _]. cbv zeta in Hp.
  destruct (_can_trade env rcfg true st) as [[ok | e] st1]; cbn [snd] in Hp.
  2:{ intros H. inversion H; subst. now left. }
  destruct ok.
  - intros H. left.
    pose proof (live_enter_fails a b action pa pb st1) as K.
    rewrite H in K. cbn [snd] in K. now rewrite K.
  - intros H. inversion H; subst. now left.
Qed.

Lemma step_body_shrinks (key : Key) (st st' : State W) (r : Res unit) :
  step_body env rcfg cfg key st = (r, st') ->
  shrinks key (positions (bot st)) (positions (bot st')).
Proof.
  destruct key as [a b]. unfold step_body.
  unfold bind at 1.
  destruct (_compute_signal env cfg a b st) as [[sig | e] st1] eqn:E1;
    apply (keeps_bot_eq _ _ _ _ (keeps_bot_compute_signal env cfg a b)) in E1.
  2:{ intros H. inversion H; subst. left. now rewrite E1. }
  unfold bind at 1.
  destruct (feed_fetch_last env a st1) as [[pa | e] st2] eqn:E2;
    apply (keeps_bot_eq _ _ _ _ (keeps_bot_fetch_last env a)) in E2.
  2:{ intros H. inversion H; subst. left. now rewrite E2, E1. }
  unfold bind at 1.
  destruct (feed_fetch_last env b st2) as [[pb | e] st3] eqn:E3;
    apply (keeps_bot_eq _ _ _ _ (keeps_bot_fetch_last env b)) in E3.
  2:{ intros H. inversion H; subst. left. now rewrite E3, E2, E1. }
  unfold bind at 1, get_bot at 1. unfold bind at 1.
  match goal with
  | |- context [(if ?c1 then ?m1 else ?m2) st3] =>
      destruct ((if c1 then m1 else m2) st3) as [[u | e] st4] eqn:E4
  end; apply dispatch_shrinks in E4; rewrite E3, E2, E1 in E4.
  - unfold set_consecutive_errors, bind, get_bot, put_bot.
    intros H. inversion H; subst. exact E4.
  - intros H. inversion H; subst. exact E4.
Qed.

Lemma step_pair_shrinks (key : Key) (st : State W) :
  shrinks key (positions (bot st))
          (positions (bot (snd (step_pair env rcfg cfg key st)))).
Proof.
  destruct (step_body env rcfg cfg key st) as [[u | e] st1] eqn:E.
  - rewrite (step_pair_ok env rcfg cfg _ _ _ _ E). cbn [snd].
    now apply step_body_shrinks in E.
  - rewrite (step_pair_raise env rcfg cfg _ _ _ _ E), step_handler_run.
    cbn [snd bot positions]. now apply step_body_shrinks in E.
Qed.

Lemma step_never_opens (pairs : list Key) (st : State W) (k : Key) :
  In k (pos_keys (positions (bot (snd (step env rcfg cfg pairs st))))) ->
  In k (pos_keys (positions (bot st))).
Proof.
  apply (step_preserves env rcfg cfg
           (fun s => In k (pos_keys (positions (bot s))) ->
                     In k (pos_keys (positions (bot st))))).
  - intros s Hs. destruct (can_trade_effect env rcfg false s) as [Hp _].
    cbv zeta in Hp. now rewrite Hp.
  - intros key s Hs H. apply Hs.
    destruct (step_pair_shrinks key s) as [E | E]; rewrite E in H.
    + assumption.
    + now apply CycleFacts.In_pos_keys_del in H.
  - auto.
Qed.

End NoOpen.

Section Runs.

Context {W : Type}.

Lemma bind_ext {A B : Type} (m m' : M W A) (f f' : A -> M W B) (st : State W) :
  m st = m' st -> (forall x s, f x s = f' x s) -> bind m f st = bind m' f' st.
Proof.
  intros Hm Hf. unfold bind. rewrite Hm.
  destruct (m' st) as [[x | e] s]; [apply Hf | reflexivity].
Qed.

(** The signal needs the closes and the clock only. *)
Lemma compute_signal_ext (env env' : World W) (cfg : Config) (a b : string)
      (st : State W) :
  (forall s tf lb w, fetch_close env s tf lb w = fetch_close env' s tf lb w) ->
  (forall w, time env w = time env' w) ->
  _compute_signal env cfg a b st = _compute_signal env' cfg a b st.
Proof.
  intros Hf Ht. unfold _compute_signal.
  apply bind_ext; [unfold feed_fetch_close, call; now rewrite Hf | intros ca s1].
  apply bind_ext; [unfold feed_fetch_close, call; now rewrite Hf | intros cb s2].
  cbv zeta.
  match goal with |- (if ?c then _ else _) _ = _ => destruct c end;
    [reflexivity |].
  apply bind_ext; [reflexivity | intros c s3].
  match goal with |- (if ?c then _ else _) _ = _ => destruct c end;
    [reflexivity |].
  apply bind_ext; [reflexivity | intros beta s4].
  destruct (pos_get (a, b) (positions c)) as [pos |]; [| reflexivity].
  apply bind_ext; [| reflexivity].
  unfold time_time, call_total. now rewrite Ht.
Qed.

(** The entry path of an iteration when [_live_enter] raises. *)
Lemma step_pair_enter_raise (env : World W) (rcfg : RiskConfig) (cfg : Config)
      (a b : string) (st st1 st2 st3 st4 st5 : State W)
      (sig : Signal) (pa pb : R) (e : exn) :
  _compute_signal env cfg a b st = (Ok sig, st1) ->
  String.prefix "ENTER" (fst (fst (fst sig))) = true ->
  feed_fetch_last env a st1 = (Ok pa, st2) ->
  feed_fetch_last env b st2 = (Ok pb, st3) ->
  pos_mem (a, b) (positions (bot st3)) = false ->
  _can_trade env rcfg true st3 = (Ok true, st4) ->
  _live_enter env a b (fst (fst (fst sig))) pa pb st4 = (Raise e, st5) ->
  step_pair env rcfg cfg (a, b) st = step_handler env e st5.
Proof.
  intros Hs Hp Ha Hb Hm Hc He.
  apply step_pair_raise. unfold step_body.
  rewrite (bind_ok _ _ _ _ _ Hs), (bind_ok _ _ _ _ _ Ha), (bind_ok _ _ _ _ _ Hb).
  unfold bind at 1, get_bot at 1.
  assert (Hx : String.eqb (fst (fst (fst sig))) "EXIT" = false).
  { destruct (String.eqb (fst (fst (fst sig))) "EXIT") eqn:E; [| reflexivity].
    apply String.eqb_eq in E. rewrite E in Hp. discriminate Hp. }
  rewrite Hx, Hp, Hm. cbn [andb negb].
  unfold bind at 1. rewrite (bind_ok _ _ _ _ _ Hc), He. reflexivity.
Qed.

End Runs.

End GatewayFacts.

(** X21.  A gateway that cannot open.  If every call of [open_position]
    raises (as for a connector object that has no such method), [step]
    never adds a position: every pair in the table after a cycle was in
    it before.  Exits still work. *)
Theorem X21_no_entry_through_a_failing_gateway
        (W : Type) (env : Data.World W) (rcfg : Data.RiskConfig)
        (cfg : Data.Config) (pairs : list Data.Key) (st : Data.State W)
        (k : Data.Key) :
  (forall s side v w,
      exists e w', Data.open_position env s side v w = (Raise e, w')) ->
  Data.pos_mem k
    (Data.positions (Data.bot (snd (Bot.step env rcfg cfg pairs st)))) = true ->
  Data.pos_mem k (Data.positions (Data.bot st)) = true.
Proof.
  intros Hopen. rewrite !CycleFacts.pos_mem_In.
  now apply GatewayFacts.step_never_opens.
Qed.

(** The pair (C, D) signals an entry and the order for C raises: the
    iteration ends in the handler, and the held pair (A, B) is all the
    table has afterwards. *)
Lemma X21_no_entry_through_a_failing_gateway_witness :
  Bot.step (Samples.closed_gateway_world Samples.jump_flat_feed 0)
           Samples.risk_cfg Data.default_config
           [("C"%string, "D"%string)] Samples.open_state
  = (Ok tt,
     Data.Build_State
       {| Data.positions := [(("A"%string, "B"%string), Samples.sample_position)];
          Data.cooldown_until_ts := 0;
          Data.halted := false;
          Data.consecutive_errors := 1 |}
       (Some 1000) tt
       [Data.EvAccountInfo; Data.EvHistoryDeals; Data.EvPositionsGet;
        Data.EvFetchClose "C"; Data.EvFetchClose "D";
        Data.EvFetchLast "C"; Data.EvFetchLast "D";
        Data.EvTime;
        Data.EvAccountInfo; Data.EvHistoryDeals; Data.EvPositionsGet;
        Data.EvCalcVolume "C"; Data.EvCalcVolume "D";
        Data.EvOpen "C" "SELL" (1 / 100)
          (Raise (OtherError "AttributeError: open_position"));
        Data.EvSleep 20]) /\
  Data.pos_mem ("A"%string, "B"%string)
    (Data.positions (Data.bot Samples.open_state)) = true /\
  Data.pos_mem ("C"%string, "D"%string)
    (Data.positions
       (Data.bot
          (snd (Bot.step (Samples.closed_gateway_world Samples.jump_flat_feed 0)
                         Samples.risk_cfg Data.default_config
                         [("C"%string, "D"%string)] Samples.open_state))))
  = false.
Proof.
  pose (env := Samples.closed_gateway_world Samples.jump_flat_feed 0).
  pose (s0 := Data.Build_State (Data.bot Samples.open_state) (Some 1000) tt
                [Data.EvAccountInfo; Data.EvHistoryDeals; Data.EvPositionsGet]).
  assert (Hrisk : Risk.is_trading_allowed env Samples.risk_cfg Samples.open_state
                  = (Ok (true, Data.OK), s0)).
  { exact (RiskFacts.is_trading_allowed_ok env Samples.risk_cfg
             Samples.open_state 1000 1000 tt tt tt (Some []) []
             eq_refl eq_refl eq_refl eq_refl RunFacts.verdict_calm). }
  destruct (RunFacts.steady_signal_flat_leg Samples.jump_flat_feed 1000 0 0 101
              "C" "D" (ln 2) s0) as [z [Esig _]].
  { apply SampleFacts.log_prices_closes_ending. lra. }
  { change (Samples.jump_flat_feed "D") with (Samples.closes_ending 1).
    rewrite SampleFacts.log_prices_closes_ending by lra. now rewrite ln_1. }
  { pose proof SampleFacts.ln_2_pos. lra. }
  { reflexivity. }
  assert (F : Rltb 0 (ln 2) = true)
    by (apply Rltb_true; apply SampleFacts.ln_2_pos).
  rewrite F in Esig.
  rewrite (GatewayFacts.compute_signal_ext
             (Samples.steady_world Samples.jump_flat_feed 1000 0 0 101) env
             Data.default_config "C" "D" s0
             (fun _ _ _ _ => eq_refl) (fun _ => eq_refl)) in Esig.
  pose (s3 := Data.Build_State (Data.bot Samples.open_state) (Some 1000) tt
                [Data.EvAccountInfo; Data.EvHistoryDeals; Data.EvPositionsGet;
                 Data.EvFetchClose "C"; Data.EvFetchClose "D";
                 Data.EvFetchLast "C"; Data.EvFetchLast "D"]).
  pose (s4 := Data.Build_State (Data.bot Samples.open_state) (Some 1000) tt
                [Data.EvAccountInfo; Data.EvHistoryDeals; Data.EvPositionsGet;
                 Data.EvFetchClose "C"; Data.EvFetchClose "D";
                 Data.EvFetchLast "C"; Data.EvFetchLast "D";
                 Data.EvTime;
                 Data.EvAccountInfo; Data.EvHistoryDeals; Data.EvPositionsGet]).
  assert (Hcan : Bot._can_trade env Samples.risk_cfg true s3 = (Ok true, s4)).
  { apply (RunFacts.can_trade_entry_ok env Samples.risk_cfg s3 s4 0 tt).
    - reflexivity.
    - reflexivity.
    - cbn. lra.
    - exact (RiskFacts.is_trading_allowed_ok env Samples.risk_cfg
               (Data.Build_State (Data.bot s3) (Data.start_equity s3) tt
                  (Data.trace s3 ++ [Data.EvTime]))
               1000 1000 tt tt tt (Some []) []
               eq_refl eq_refl eq_refl eq_refl RunFacts.verdict_calm). }
  assert (Hstep :
    Bot.step env Samples.risk_cfg Data.default_config
             [("C"%string, "D"%string)] Samples.open_state
    = (Ok tt,
       Data.Build_State
         {| Data.positions :=
              [(("A"%string, "B"%string), Samples.sample_position)];
            Data.cooldown_until_ts := 0;
            Data.halted := false;
            Data.consecutive_errors := 1 |}
         (Some 1000) tt
         [Data.EvAccountInfo; Data.EvHistoryDeals; Data.EvPositionsGet;
          Data.EvFetchClose "C"; Data.EvFetchClose "D";
          Data.EvFetchLast "C"; Data.EvFetchLast "D";
          Data.EvTime;
          Data.EvAccountInfo; Data.EvHistoryDeals; Data.EvPositionsGet;
          Data.EvCalcVolume "C"; Data.EvCalcVolume "D";
          Data.EvOpen "C" "SELL" (1 / 100)
            (Raise (OtherError "AttributeError: open_position"));
          Data.EvSleep 20])).
  { rewrite (CooldownFacts.step_gate env Samples.risk_cfg Data.default_config
               [("C"%string, "D"%string)] Samples.open_state s0 Data.OK
               eq_refl Hrisk).
    match goal with
    | |- context [if ?c then Data.pos_keys _ else _] =>
        replace c with false by reflexivity
    end.
    cbn [Bot.for_pairs]. unfold Monad.bind at 1.
    rewrite (GatewayFacts.step_pair_enter_raise env Samples.risk_cfg
               Data.default_config "C" "D" s0 _ _ s3 s4 _ _ 100 100 _
               Esig eq_refl eq_refl eq_refl eq_refl Hcan eq_refl).
    rewrite BotFacts.step_handler_run. reflexivity. }
  split; [exact Hstep |]. split.
  - apply (X21_no_entry_through_a_failing_gateway unit env Samples.risk_cfg
             Data.default_config [("C"%string, "D"%string)] Samples.open_state
             ("A"%string, "B"%string)).
    + intros s side v w. eexists. eexists. reflexivity.
    + rewrite Hstep. reflexivity.
  - fold env. rewrite Hstep. reflexivity.
Defined.

(** ** mt5_bridge.py and datafeed.py: the calls on the terminal *)

Module TerminalFacts.
Import Terminal.
Local Open Scope terminal_scope.

Lemma bindC_ok {T A B : Type} (m : C T A) (f : A -> C T B) (w w' : T) (y : B) :
  bindC m f w = (Ok y, w') ->
  exists x w1, m w = (Ok x, w1) /\ f x w1 = (Ok y, w').
Proof.
  unfold bindC. destruct (m w) as [[x | e] w1]; [| discriminate].
  intros H. now exists x, w1.
Qed.

Lemma callC_ok {T A : Type} (op : T -> A * T) (w w1 : T) (x : A) :
  callC op w = (Ok x, w1) -> op w = (x, w1).
Proof.
  unfold callC. destruct (op w) as [x0 w0]. intros H. now inversion H.
Qed.

Lemma retC_ok {T A : Type} (x y : A) (w w' : T) :
  retC x w = (Ok y, w') -> x = y /\ w = w'.
Proof. unfold retC. intros H. now inversion H. Qed.

(** Takes a returning run apart into its calls. *)
Ltac runs :=
  repeat match goal with
         | H : bindC _ _ _ = (Ok _, _) |- _ =>
             apply bindC_ok in H; destruct H as [? [? [? H]]]; cbv beta in H
         | H : callC _ _ = (Ok _, _) |- _ => apply callC_ok in H
         | H : raiseC _ _ = (Ok _, _) |- _ => discriminate H
         | H : retC _ _ = (Ok _, _) |- _ =>
             apply retC_ok in H; destruct H as [? ?]; subst
         | H : (match ?x with _ => _ end) _ = (Ok _, _) |- _ =>
             destruct x eqn:?
         end.

Section Connector.

Context {T : Type} (mt5 : Mt5 T) (magic default_deviation : Z).

Lemma get_tick_ok (symbol : string) (w w' : T) (tick : Tick) :
  get_tick mt5 symbol w = (Ok tick, w') ->
  exists w1, symbol_info_tick mt5 symbol w1 = (Some tick, w').
Proof.
  unfold get_tick. intros H. runs. eauto.
Qed.

Lemma close_position_by_ticket_ok (ticket : Z) (w w' : T) (r : Reply) :
  close_position_by_ticket mt5 magic default_deviation ticket w = (Ok r, w') ->
  match request r with
  | None =>
      ok r = false /\ result r = None /\
      exists ps, positions_get_ticket mt5 ticket w = (ps, w') /\
                 (ps = None \/ ps = Some [])
  | Some req =>
      exists pos rest w1 w2 w3 tick res,
        positions_get_ticket mt5 ticket w = (Some (pos :: rest), w1) /\
        symbol_info_tick mt5 (pos_symbol pos) w2 = (Some tick, w3) /\
        order_send mt5 req w3 = (res, w') /\
        req_action req = TRADE_ACTION_DEAL mt5 /\
        req_position req = Some ticket /\
        req_symbol req = pos_symbol pos /\
        req_volume req = pos_volume pos /\
        req_type req = (if (pos_type pos =? ORDER_TYPE_BUY mt5)%Z
                        then ORDER_TYPE_SELL mt5 else ORDER_TYPE_BUY mt5) /\
        req_price req = (if (req_type req =? ORDER_TYPE_SELL mt5)%Z
                         then bid tick else ask tick) /\
        ok r = match res with
               | Some sr => (retcode sr =? TRADE_RETCODE_DONE mt5)%Z
               | None => false
               end
  end.
Proof.
  unfold close_position_by_ticket. intros H.
  apply bindC_ok in H. destruct H as [ps [w1 [Hps H]]].
  apply callC_ok in Hps.
  destruct ps as [[| pos rest] |].
  - apply retC_ok in H. destruct H as [<- <-]. cbn. eauto 6.
  - cbv zeta in H.
    apply bindC_ok in H. destruct H as [u [w2 [He H]]].
    apply bindC_ok in H. destruct H as [tick [w3 [Ht H]]].
    apply get_tick_ok in Ht. destruct Ht as [w2' Ht].
    apply bindC_ok in H. destruct H as [res [w4 [Hs H]]].
    apply callC_ok in Hs.
    destruct res as [sr |]; apply retC_ok in H; destruct H as [<- <-]; cbn;
      exists pos, rest, w1, w2', w3, tick; eexists; repeat split;
      first [eassumption | reflexivity].
  - apply retC_ok in H. destruct H as [<- <-]. cbn. eauto 6.
Qed.

(** *** Orders *)

Lemma length_substring_le (n : nat) (s : string) :
  (String.length (String.substring 0 n s) <= n)%nat.
Proof.
  revert s. induction n as [| n IH]; intros s; destruct s as [| c s]; cbn;
    try lia.
  specialize (IH s). lia.
Qed.

Lemma prefix_substring (n : nat) (s : string) :
  String.prefix (String.substring 0 n s) s = true.
Proof.
  revert n. induction s as [| c s IH]; intros n; destruct n as [| n]; cbn;
    try reflexivity.
  destruct (Ascii.ascii_dec c c) as [_ | N]; [apply IH | now contradiction N].
Qed.

Lemma place_market_order_ok (symbol side : string) (volume : R)
      (sl tp : option R) (comment : string) (w w' : T) (r : Reply) :
  place_market_order mt5 magic default_deviation symbol side volume sl tp
                     comment w = (Ok r, w') ->
  exists req tick w1 w2 res,
    request r = Some req /\
    symbol_info_tick mt5 symbol w1 = (Some tick, w2) /\
    order_send mt5 req w2 = (res, w') /\
    req_symbol req = symbol /\
    req_volume req = volume /\
    req_position req = None /\
    (req_type req, req_price req)
    = (if String.eqb side "BUY" then (ORDER_TYPE_BUY mt5, ask tick)
       else (ORDER_TYPE_SELL mt5, bid tick)) /\
    (String.length (req_comment req) <= 31)%nat /\
    String.prefix (req_comment req) comment = true /\
    ok r = match res with
           | Some sr => (retcode sr =? TRADE_RETCODE_DONE mt5)%Z
           | None => false
           end.
Proof.
  unfold place_market_order. intros H.
  apply bindC_ok in H. destruct H as [u [w1 [He H]]].
  apply bindC_ok in H. destruct H as [tick [w2 [Ht H]]].
  apply get_tick_ok in Ht. destruct Ht as [w1' Ht].
  cbv zeta in H.
  apply bindC_ok in H. destruct H as [res [w3 [Hs H]]].
  apply callC_ok in Hs.
  destruct res as [sr |]; apply retC_ok in H; destruct H as [<- <-];
    eexists; exists tick, w1', w2; eexists;
    (split; [reflexivity |]); (split; [exact Ht |]); (split; [exact Hs |]);
    cbn [req_symbol req_volume req_position req_type req_price req_comment ok];
    repeat split;
    try apply length_substring_le; try apply prefix_substring;
    now destruct (String.eqb side "BUY").
Qed.

(** *** The data feed *)

Lemma resolve_symbol_ok (s sym : string) (w w' : T) :
  _resolve_symbol mt5 s w = (Ok sym, w') -> sym = s \/ sym = remove_slash s.
Proof.
  unfold _resolve_symbol. intros H. runs; auto.
Qed.

Lemma get_ohlcv_ok (symbol : string) (tf : Z) (n : nat) (w w' : T)
      (rates : list Rate) :
  get_ohlcv mt5 symbol tf n w = (Ok rates, w') ->
  exists w1, copy_rates_from_pos mt5 symbol tf 0 n w1 = (Some rates, w').
Proof.
  unfold get_ohlcv. intros H. runs. eauto.
Qed.

Lemma timeframe_map_some (timeframe : string) (tf : Z) :
  timeframe_map mt5 timeframe = Some tf ->
  In timeframe ["1m"; "5m"; "15m"; "1h"; "4h"; "1d"]%string.
Proof.
  unfold timeframe_map.
  repeat match goal with
         | |- context [String.eqb timeframe ?x] =>
             destruct (String.eqb_spec timeframe x); [subst; cbn; tauto |]
         end.
  discriminate.
Qed.

Lemma fetch_close_ok (symbol timeframe : string) (limit : nat) (w w' : T)
      (series : Utils.Series) :
  fetch_close mt5 symbol timeframe limit w = (Ok series, w') ->
  exists sym tf rates w1,
    (sym = symbol \/ sym = remove_slash symbol) /\
    timeframe_map mt5 timeframe = Some tf /\
    copy_rates_from_pos mt5 sym tf 0 limit w1 = (Some rates, w') /\
    series = map (fun r => (rate_time r, rate_close r)) rates.
Proof.
  unfold fetch_close.
  destruct (timeframe_map mt5 timeframe) as [tf |] eqn:Etf; [| discriminate].
  intros H.
  apply bindC_ok in H. destruct H as [sym [w1 [Hr H]]].
  apply resolve_symbol_ok in Hr.
  apply bindC_ok in H. destruct H as [u [w2 [He H]]].
  apply bindC_ok in H. destruct H as [rates [w3 [Ho H]]].
  apply get_ohlcv_ok in Ho. destruct Ho as [w2' Ho].
  exists sym, tf, rates, w2'.
  destruct rates as [| r0 rates]; apply retC_ok in H; destruct H as [<- <-];
    auto.
Qed.

Lemma fetch_last_ok (symbol : string) (w w' : T) (p : R) :
  fetch_last mt5 symbol w = (Ok p, w') ->
  exists sym tick w1,
    (sym = symbol \/ sym = remove_slash symbol) /\
    symbol_info_tick mt5 sym w1 = (Some tick, w') /\
    p = (bid tick + ask tick) / 2.
Proof.
  unfold fetch_last. intros H.
  apply bindC_ok in H. destruct H as [sym [w1 [Hr H]]].
  apply resolve_symbol_ok in Hr.
  apply bindC_ok in H. destruct H as [u [w2 [He H]]].
  apply bindC_ok in H. destruct H as [tick [w3 [Ht H]]].
  apply get_tick_ok in Ht. destruct Ht as [w2' Ht].
  apply retC_ok in H. destruct H as [<- <-].
  exists sym, tick, w2'. auto.
Qed.

(** *** The sizing of a leg *)

Lemma round_half_even_error (x : R) :
  - (1 / 2) <= IZR (round_half_even x) - x <= 1 / 2.
Proof.
  unfold round_half_even. cbv zeta.
  pose proof (Zfloor_bound x) as [H1 H2].
  destruct (Rltb (x - IZR (Zfloor x)) (1 / 2)) eqn:E1.
  { apply Rltb_true in E1. lra. }
  apply Rltb_false in E1.
  destruct (Rltb (1 / 2) (x - IZR (Zfloor x))) eqn:E2.
  { apply Rltb_true in E2. rewrite plus_IZR. lra. }
  apply Rltb_false in E2.
  destruct (Z.even (Zfloor x)); [| rewrite plus_IZR]; lra.
Qed.

Lemma round4_error (x : R) :
  - (1 / 20000) <= round4 x - x <= 1 / 20000.
Proof.
  unfold round4.
  assert (E : 10 ^ 4 = 10000) by (simpl; lra).
  rewrite E. pose proof (round_half_even_error (x * 10000)) as H. lra.
Qed.

Lemma calc_volume_for_risk_ok (cfg : Data.RiskConfig) (symbol : string)
      (entry_price sl_price : R) (w w' : T) (v : R) :
  calc_volume_for_risk mt5 cfg symbol entry_price sl_price w = (Ok v, w') ->
  exists info w1,
    symbol_info mt5 symbol w1 = (Some info, w') /\
    entry_price <> sl_price /\
    0 < effective_tick_size info /\
    0 < effective_tick_value info /\
    volume_step info <> 0 /\
    v = round4 (stepped_volume cfg info entry_price sl_price).
Proof.
  unfold calc_volume_for_risk. intros H.
  apply bindC_ok in H. destruct H as [u [w1 [He H]]].
  apply bindC_ok in H. destruct H as [oi [w2 [Hi H]]].
  apply callC_ok in Hi.
  destruct oi as [info |]; [| discriminate].
  cbv zeta in H.
  destruct (Rleb (Rabs (entry_price - sl_price)) 0) eqn:Ed; [discriminate |].
  fold (effective_tick_size info) in H.
  fold (effective_tick_value info) in H.
  destruct (Rleb (effective_tick_size info) 0) eqn:Es; [discriminate |].
  destruct (Rleb (effective_tick_value info) 0) eqn:Ev; [discriminate |].
  cbn [orb] in H.
  destruct (Reqb (volume_step info) 0) eqn:Est; [discriminate |].
  apply retC_ok in H. destruct H as [<- <-].
  apply Rleb_false in Ed, Es, Ev. apply Reqb_false in Est.
  exists info, w1. repeat split; try assumption; try lra.
  intros E. apply Ed. rewrite E, Rminus_diag, Rabs_R0. lra.
Qed.

Lemma stepped_volume_limits (cfg : Data.RiskConfig) (info : SymbolInfo)
      (entry_price sl_price : R) :
  (volume_min info <= volume_max info ->
   volume_min info <= stepped_volume cfg info entry_price sl_price
   <= volume_max info) /\
  (volume_max info < volume_min info ->
   stepped_volume cfg info entry_price sl_price = volume_min info).
Proof.
  unfold stepped_volume.
  set (vol := IZR (Zfloor (raw_volume cfg info entry_price sl_price
                           / volume_step info)) * volume_step info).
  pose proof (Rmax_l (volume_min info) (Rmin (volume_max info) vol)).
  pose proof (Rmin_l (volume_max info) vol).
  split; intros Hm.
  - split; [assumption |]. apply Rmax_lub; assumption.
  - apply Rmax_left. lra.
Qed.

(** The volume before the rounding is within the risk budget, when the
    budget pays for the minimum volume and one step more. *)
Lemma stepped_volume_budget (cfg : Data.RiskConfig) (info : SymbolInfo)
      (entry_price sl_price : R) :
  0 < volume_step info ->
  0 <= volume_min info ->
  0 <= loss_per_lot info entry_price sl_price ->
  (volume_min info + volume_step info)
  * Rmax (1 / 10 ^ 9) (loss_per_lot info entry_price sl_price)
  <= Data.risk_usd_per_leg cfg ->
  0 <= stepped_volume cfg info entry_price sl_price /\
  stepped_volume cfg info entry_price sl_price
  * loss_per_lot info entry_price sl_price <= Data.risk_usd_per_leg cfg.
Proof.
  intros Hstep Hmin Hloss Hpay.
  set (loss := loss_per_lot info entry_price sl_price) in *.
  set (M := Rmax (1 / 10 ^ 9) loss) in *.
  assert (HM : 0 < M).
  { pose proof (Rmax_l (1 / 10 ^ 9) loss) as L. fold M in L.
    assert (0 < 1 / 10 ^ 9) by (simpl; lra). lra. }
  assert (HlM : loss <= M) by apply Rmax_r.
  unfold stepped_volume. fold loss.
  set (raw := raw_volume cfg info entry_price sl_price).
  assert (Hraw : raw * M = Data.risk_usd_per_leg cfg).
  { unfold raw, raw_volume. fold loss. fold M. field. lra. }
  set (q := raw / volume_step info).
  pose proof (Zfloor_bound q) as [F1 F2].
  set (vol := IZR (Zfloor q) * volume_step info).
  assert (Hq : q * volume_step info = raw) by (unfold q; field; lra).
  assert (V1 : vol <= raw) by (unfold vol; nra).
  assert (V2 : raw - volume_step info < vol) by (unfold vol; nra).
  assert (Hmr : volume_min info + volume_step info <= raw) by nra.
  set (c := Rmax (volume_min info) (Rmin (volume_max info) vol)).
  assert (C1 : volume_min info <= c) by apply Rmax_l.
  assert (C2 : c <= raw).
  { unfold c. apply Rmax_lub; [lra |].
    pose proof (Rmin_r (volume_max info) vol). lra. }
  split; [lra | nra].
Qed.

End Connector.

End TerminalFacts.

(** X22.  What [close_position_by_ticket] sends.  When it returns:
    either the terminal has no position under the ticket, the answer is
    not-ok and nothing else was asked of the terminal (no order is
    sent); or one order was sent for the position found, a deal that
    names the ticket as the position to close, on the position's
    instrument and for its volume, of the opposite type (a sell for a
    buy, a buy otherwise), at the bid for a sell and at the ask for a
    buy, and the answer is ok exactly when the return code is
    TRADE_RETCODE_DONE. *)
Theorem X22_close_by_ticket_sends_the_opposite_deal
        (T : Type) (mt5 : Terminal.Mt5 T) (magic default_deviation : Z)
        (ticket : Z) (w w' : T) (r : Terminal.Reply) :
  Terminal.close_position_by_ticket mt5 magic default_deviation ticket w
  = (Ok r, w') ->
  match Terminal.request r with
  | None =>
      Terminal.ok r = false /\ Terminal.result r = None /\
      exists ps, Terminal.positions_get_ticket mt5 ticket w = (ps, w') /\
                 (ps = None \/ ps = Some [])
  | Some req =>
      exists pos rest w1 w2 w3 tick res,
        Terminal.positions_get_ticket mt5 ticket w = (Some (pos :: rest), w1) /\
        Terminal.symbol_info_tick mt5 (Terminal.pos_symbol pos) w2
        = (Some tick, w3) /\
        Terminal.order_send mt5 req w3 = (res, w') /\
        Terminal.req_action req = Terminal.TRADE_ACTION_DEAL mt5 /\
        Terminal.req_position req = Some ticket /\
        Terminal.req_symbol req = Terminal.pos_symbol pos /\
        Terminal.req_volume req = Terminal.pos_volume pos /\
        Terminal.req_type req
        = (if (Terminal.pos_type pos =? Terminal.ORDER_TYPE_BUY mt5)%Z
           then Terminal.ORDER_TYPE_SELL mt5 else Terminal.ORDER_TYPE_BUY mt5) /\
        Terminal.req_price req
        = (if (Terminal.req_type req =? Terminal.ORDER_TYPE_SELL mt5)%Z
           then Terminal.bid tick else Terminal.ask tick) /\
        Terminal.ok r = match res with
                        | Some sr => (Terminal.retcode sr
                                      =? Terminal.TRADE_RETCODE_DONE mt5)%Z
                        | None => false
                        end
  end.
Proof. apply TerminalFacts.close_position_by_ticket_ok. Qed.

Lemma X22_close_by_ticket_sends_the_opposite_deal_witness :
  exists pos rest w1 w2 w3 tick res,
    Terminal.positions_get_ticket Samples.demo_terminal 7 tt
    = (Some (pos :: rest), w1) /\
    Terminal.symbol_info_tick Samples.demo_terminal (Terminal.pos_symbol pos) w2
    = (Some tick, w3) /\
    Terminal.order_send Samples.demo_terminal
      {| Terminal.req_action := 1; Terminal.req_symbol := "BTCUSD";
         Terminal.req_volume := 1 / 100; Terminal.req_type := 1;
         Terminal.req_position := Some 7%Z; Terminal.req_price := 99;
         Terminal.req_sl := None; Terminal.req_tp := None;
         Terminal.req_deviation := 20; Terminal.req_magic := 777001;
         Terminal.req_comment := "bot_close"; Terminal.req_type_time := 0;
         Terminal.req_type_filling := 0 |} w3 = (res, tt) /\
    1%Z = Terminal.TRADE_ACTION_DEAL Samples.demo_terminal /\
    Some 7%Z = Some 7%Z /\
    "BTCUSD"%string = Terminal.pos_symbol pos /\
    1 / 100 = Terminal.pos_volume pos /\
    1%Z = (if (Terminal.pos_type pos
               =? Terminal.ORDER_TYPE_BUY Samples.demo_terminal)%Z
           then Terminal.ORDER_TYPE_SELL Samples.demo_terminal
           else Terminal.ORDER_TYPE_BUY Samples.demo_terminal) /\
    99 = (if (1 =? Terminal.ORDER_TYPE_SELL Samples.demo_terminal)%Z
          then Terminal.bid tick else Terminal.ask tick) /\
    true = match res with
           | Some sr => (Terminal.retcode sr
                         =? Terminal.TRADE_RETCODE_DONE Samples.demo_terminal)%Z
           | None => false
           end.
Proof.
  exact (X22_close_by_ticket_sends_the_opposite_deal unit Samples.demo_terminal
           777001 20 7 tt tt _ eq_refl).
Defined.

(** ** The controller on the connector and the data feed *)

Module ConnectorFacts.
Import Data Monad MonadFacts Bot BotFacts.
Local Open Scope monad_scope.

Section OnTerminal.

Context {T : Type} (mt5 : Terminal.Mt5 T) (magic default_deviation : Z)
        (rcfg : RiskConfig)
        (open_op : string -> string -> R -> T -> Res OpenReply * T)
        (clock : T -> R * T) (pause : R -> T -> T).

Local Abbreviation env :=
  (Terminal.connector_world mt5 magic default_deviation rcfg open_op clock pause).

Lemma close_stale (ticket : Z) (w w' : T)
      (ps : option (list Terminal.TradePosition)) :
  Terminal.positions_get_ticket mt5 ticket w = (ps, w') ->
  ps = None \/ ps = Some [] ->
  close_position_by_ticket env ticket w = (Ok Terminal.not_found, w').
Proof.
  intros H Hps. cbn [close_position_by_ticket Terminal.connector_world].
  unfold Terminal.close_position_by_ticket, Terminal.bindC, Terminal.callC.
  rewrite H. destruct Hps; subst; reflexivity.
Qed.

Lemma live_exit_stale (key : Key) (st : State T) (pos : Position)
      (psa psb : option (list Terminal.TradePosition)) (w1 w2 : T) :
  pos_get key (positions (bot st)) = Some pos ->
  Terminal.positions_get_ticket mt5 (ticket_a pos) (world st) = (psa, w1) ->
  psa = None \/ psa = Some [] ->
  Terminal.positions_get_ticket mt5 (ticket_b pos) w1 = (psb, w2) ->
  psb = None \/ psb = Some [] ->
  _live_exit env key st
  = (Ok tt,
     Build_State
       (with_positions (bot st) (pos_del key (positions (bot st))))
       (start_equity st) w2
       (trace st ++ [EvClose (ticket_a pos) (Ok Terminal.not_found);
                     EvClose (ticket_b pos) (Ok Terminal.not_found)])).
Proof.
  intros Hg Ha Hpa Hb Hpb.
  rewrite (live_exit_run env key st pos Terminal.not_found Terminal.not_found w1 w2 Hg
             (close_stale _ _ _ _ Ha Hpa) (close_stale _ _ _ _ Hb Hpb)).
  assert (E : Rltb (pnl_of Terminal.not_found + pnl_of Terminal.not_found) 0 = false).
  { apply Rltb_false. unfold pnl_of. cbn. lra. }
  now rewrite E.
Qed.

Lemma fetch_close_unsupported (cfg : Config) (s : string) (st : State T) :
  Terminal.timeframe_map mt5 (timeframe cfg) = None ->
  feed_fetch_close env cfg s st
  = (Raise (ValueError "Unsupported timeframe"),
     Build_State (bot st) (start_equity st) (world st)
                 (trace st ++ [EvFetchClose s])).
Proof.
  intros H. unfold feed_fetch_close, call.
  cbn [fetch_close Terminal.connector_world].
  unfold Terminal.fetch_close. rewrite H. reflexivity.
Qed.

Lemma step_pair_unsupported (cfg : Config) (a b : string) (st : State T) :
  Terminal.timeframe_map mt5 (timeframe cfg) = None ->
  step_pair env rcfg cfg (a, b) st
  = (Ok tt,
     Build_State
       {| positions := positions (bot st);
          cooldown_until_ts := cooldown_until_ts (bot st);
          halted := if (8 <=? consecutive_errors (bot st) + 1)%nat
                    then true else halted (bot st);
          consecutive_errors := consecutive_errors (bot st) + 1 |}
       (start_equity st) (pause 20 (world st))
       (trace st ++ [EvFetchClose a; EvSleep 20])).
Proof.
  intros H.
  assert (Hbody : step_body env rcfg cfg (a, b) st
                  = (Raise (ValueError "Unsupported timeframe"),
                     Build_State (bot st) (start_equity st) (world st)
                                 (trace st ++ [EvFetchClose a]))).
  { unfold step_body.
    apply bind_raise. unfold _compute_signal.
    apply bind_raise. now apply fetch_close_unsupported. }
  rewrite (step_pair_raise env rcfg cfg _ _ _ _ Hbody), step_handler_run.
  cbn [bot start_equity world trace sleep Terminal.connector_world].
  now rewrite <- app_assoc.
Qed.

Lemma is_trading_allowed_no_account (rm : RiskConfig) (st : State T) (w1 : T) :
  Terminal.account_info_equity mt5 (world st) = (None, w1) ->
  Risk.is_trading_allowed env rm st
  = (Raise (RuntimeError "account_info failed"),
     Build_State (bot st) (start_equity st) w1 (trace st ++ [EvAccountInfo])).
Proof.
  intros H. unfold Risk.is_trading_allowed. apply bind_raise.
  unfold Risk.account_info, call.
  cbn [account_info_equity Terminal.connector_world].
  unfold Terminal.account_info, Terminal.bindC, Terminal.callC.
  now rewrite H.
Qed.

Lemma step_no_account (rm : RiskConfig) (cfg : Config) (pairs : list Key)
      (st : State T) (w1 : T) :
  halted (bot st) = false ->
  Terminal.account_info_equity mt5 (world st) = (None, w1) ->
  step env rm cfg pairs st
  = (Raise (RuntimeError "account_info failed"),
     Build_State (bot st) (start_equity st) w1 (trace st ++ [EvAccountInfo])).
Proof.
  intros Hh H. unfold step. apply bind_raise.
  rewrite (CycleFacts.can_trade_gate env rm st Hh).
  now rewrite (is_trading_allowed_no_account rm st w1 H).
Qed.

End OnTerminal.

End ConnectorFacts.

(** ** The sample terminal *)

Module DemoFacts.
Import Terminal Samples.

Lemma demo_tick_size : effective_tick_size demo_info = 1 / 100.
Proof.
  unfold effective_tick_size. cbn [trade_tick_size demo_info].
  assert (E : Reqb (1 / 100) 0 = false) by (apply Reqb_false; lra).
  now rewrite E.
Qed.

Lemma demo_tick_value : effective_tick_value demo_info = 1 / 100.
Proof.
  unfold effective_tick_value. cbn [trade_tick_value demo_info].
  assert (E : Reqb (1 / 100) 0 = false) by (apply Reqb_false; lra).
  now rewrite E.
Qed.

(** Sizing a leg of BTCUSD entered at 100 with the stop at 95. *)
Lemma demo_calc :
  calc_volume_for_risk demo_terminal risk_cfg "BTCUSD" 100 95 tt
  = (Ok (round4 (stepped_volume risk_cfg demo_info 100 95)), tt).
Proof.
  unfold calc_volume_for_risk, ensure_symbol, bindC, callC, retC, raiseC.
  cbn [symbol_info demo_terminal String.eqb Ascii.eqb Bool.eqb orb
       visible demo_info negb].
  change (if negb (Reqb (trade_tick_size demo_info) 0)
          then trade_tick_size demo_info else tick_size demo_info)
    with (effective_tick_size demo_info).
  change (if negb (Reqb (trade_tick_value demo_info) 0)
          then trade_tick_value demo_info else tick_value demo_info)
    with (effective_tick_value demo_info).
  rewrite demo_tick_size, demo_tick_value.
  assert (E1 : Rleb (Rabs (100 - 95)) 0 = false).
  { apply Rleb_false. rewrite Rabs_right by lra. lra. }
  assert (E2 : Rleb (1 / 100) 0 = false) by (apply Rleb_false; lra).
  assert (E3 : Reqb (volume_step demo_info) 0 = false)
    by (apply Reqb_false; cbn; lra).
  rewrite E1, E2, E3. cbn [orb].
  unfold stepped_volume, raw_volume, loss_per_lot.
  now rewrite demo_tick_size, demo_tick_value.
Qed.

End DemoFacts.

(** X23.  An exit for tickets that the terminal no longer holds.  With
    the connector of mt5_bridge.py as gateway, when neither ticket of a
    held position is found at the terminal, [_live_exit] asks for the
    two tickets and nothing else (no symbol, no tick, no order), starts
    no cooldown and removes the position from the table. *)
Theorem X23_exit_with_stale_tickets_drops_the_position
        (T : Type) (mt5 : Terminal.Mt5 T) (magic default_deviation : Z)
        (rcfg : Data.RiskConfig)
        (open_op : string -> string -> R -> T -> Res Data.OpenReply * T)
        (clock : T -> R * T) (pause : R -> T -> T)
        (key : Data.Key) (st : Data.State T) (pos : Data.Position)
        (psa psb : option (list Terminal.TradePosition)) (w1 w2 : T) :
  Data.pos_get key (Data.positions (Data.bot st)) = Some pos ->
  Terminal.positions_get_ticket mt5 (Data.ticket_a pos) (Data.world st)
  = (psa, w1) ->
  psa = None \/ psa = Some [] ->
  Terminal.positions_get_ticket mt5 (Data.ticket_b pos) w1 = (psb, w2) ->
  psb = None \/ psb = Some [] ->
  Bot._live_exit
    (Terminal.connector_world mt5 magic default_deviation rcfg open_op
                              clock pause) key st
  = (Ok tt,
     Data.Build_State
       (Data.with_positions (Data.bot st)
          (Data.pos_del key (Data.positions (Data.bot st))))
       (Data.start_equity st) w2
       (Data.trace st
        ++ [Data.EvClose (Data.ticket_a pos) (Ok Terminal.not_found);
            Data.EvClose (Data.ticket_b pos) (Ok Terminal.not_found)])).
Proof. apply ConnectorFacts.live_exit_stale. Qed.

Lemma X23_exit_with_stale_tickets_drops_the_position_witness :
  Bot._live_exit Samples.demo_world ("A"%string, "B"%string) Samples.open_state
  = (Ok tt,
     Data.Build_State
       (Data.with_positions (Data.bot Samples.open_state) [])
       (Some 1000) tt
       [Data.EvClose 101 (Ok Terminal.not_found);
        Data.EvClose 102 (Ok Terminal.not_found)]).
Proof.
  apply (X23_exit_with_stale_tickets_drops_the_position unit
           Samples.demo_terminal 777001 20 Samples.risk_cfg
           Samples.demo_open Samples.demo_clock Samples.demo_pause
           ("A"%string, "B"%string) Samples.open_state Samples.sample_position
           (Some []) (Some []) tt tt);
    first [reflexivity | now right].
Defined.

(** X24.  What [place_market_order] sends.  When it returns, one order
    was sent: on the given instrument and volume, naming no position; a
    buy at the ask when the side is the string BUY, and for every other
    side a sell at the bid; its comment is the given one cut to at most
    31 characters; and the answer is ok exactly when the return code is
    TRADE_RETCODE_DONE. *)
Theorem X24_market_order_request
        (T : Type) (mt5 : Terminal.Mt5 T) (magic default_deviation : Z)
        (symbol side : string) (volume : R) (sl tp : option R)
        (comment : string) (w w' : T) (r : Terminal.Reply) :
  Terminal.place_market_order mt5 magic default_deviation symbol side volume
                              sl tp comment w = (Ok r, w') ->
  exists req tick w1 w2 res,
    Terminal.request r = Some req /\
    Terminal.symbol_info_tick mt5 symbol w1 = (Some tick, w2) /\
    Terminal.order_send mt5 req w2 = (res, w') /\
    Terminal.req_symbol req = symbol /\
    Terminal.req_volume req = volume /\
    Terminal.req_position req = None /\
    (Terminal.req_type req, Terminal.req_price req)
    = (if String.eqb side "BUY"
       then (Terminal.ORDER_TYPE_BUY mt5, Terminal.ask tick)
       else (Terminal.ORDER_TYPE_SELL mt5, Terminal.bid tick)) /\
    (String.length (Terminal.req_comment req) <= 31)%nat /\
    String.prefix (Terminal.req_comment req) comment = true /\
    Terminal.ok r = match res with
                    | Some sr => (Terminal.retcode sr
                                  =? Terminal.TRADE_RETCODE_DONE mt5)%Z
                    | None => false
                    end.
Proof. apply TerminalFacts.place_market_order_ok. Qed.

Lemma X24_market_order_request_witness :
  exists req tick w1 w2 res,
    Some req = Some req /\
    Terminal.symbol_info_tick Samples.demo_terminal "BTCUSD" w1
    = (Some tick, w2) /\
    Terminal.order_send Samples.demo_terminal req w2 = (res, tt) /\
    Terminal.req_symbol req = "BTCUSD"%string /\
    Terminal.req_volume req = 1 / 100 /\
    Terminal.req_position req = None /\
    (Terminal.req_type req, Terminal.req_price req)
    = (Terminal.ORDER_TYPE_SELL Samples.demo_terminal, Terminal.bid tick) /\
    (String.length (Terminal.req_comment req) <= 31)%nat /\
    String.prefix (Terminal.req_comment req)
                  "a comment of more than thirty-one characters" = true /\
    true = match res with
           | Some sr => (Terminal.retcode sr
                         =? Terminal.TRADE_RETCODE_DONE Samples.demo_terminal)%Z
           | None => false
           end.
Proof.
  destruct (X24_market_order_request unit Samples.demo_terminal 777001 20
              "BTCUSD" "buy" (1 / 100) None None
              "a comment of more than thirty-one characters" tt tt _ eq_refl)
    as [req [tick [w1 [w2 [res H]]]]].
  exists req, tick, w1, w2, res.
  destruct H as [H1 [H2 [H3 [H4 [H5 [H6 [H7 [H8 [H9 H10]]]]]]]]].
  repeat split; assumption.
Defined.

(** X25.  What [fetch_close] returns.  When it returns, the timeframe is
    one of 1m, 5m, 15m, 1h, 4h, 1d, the bars were requested for the
    given instrument name or for that name without its slashes, and the
    series has one row per bar returned: the close of the bar at the
    time of the bar. *)
Theorem X25_fetch_close_rows
        (T : Type) (mt5 : Terminal.Mt5 T) (symbol timeframe : string)
        (limit : nat) (w w' : T) (series : Utils.Series) :
  Terminal.fetch_close mt5 symbol timeframe limit w = (Ok series, w') ->
  In timeframe ["1m"; "5m"; "15m"; "1h"; "4h"; "1d"]%string /\
  exists sym tf rates w1,
    (sym = symbol \/ sym = Terminal.remove_slash symbol) /\
    Terminal.timeframe_map mt5 timeframe = Some tf /\
    Terminal.copy_rates_from_pos mt5 sym tf 0 limit w1 = (Some rates, w') /\
    series = map (fun r => (Terminal.rate_time r, Terminal.rate_close r)) rates.
Proof.
  intros H. apply TerminalFacts.fetch_close_ok in H.
  destruct H as [sym [tf [rates [w1 [Hs [Htf [Hr Hv]]]]]]].
  split; [exact (TerminalFacts.timeframe_map_some mt5 _ _ Htf) |].
  now exists sym, tf, rates, w1.
Qed.

Lemma X25_fetch_close_rows_witness :
  In "1m"%string ["1m"; "5m"; "15m"; "1h"; "4h"; "1d"]%string /\
  exists sym tf rates w1,
    (sym = "BTC/USD"%string \/ sym = Terminal.remove_slash "BTC/USD") /\
    Terminal.timeframe_map Samples.demo_terminal "1m" = Some tf /\
    Terminal.copy_rates_from_pos Samples.demo_terminal sym tf 0 720 w1
    = (Some rates, tt) /\
    [(0%Z, 100); (60%Z, 101)]
    = map (fun r => (Terminal.rate_time r, Terminal.rate_close r)) rates.
Proof.
  apply (X25_fetch_close_rows unit Samples.demo_terminal "BTC/USD" "1m" 720
           tt tt).
  reflexivity.
Defined.

(** X26.  What [fetch_last] returns: the middle of the bid and the ask
    of a tick of the given instrument name or of that name without its
    slashes; so a price between the two when the bid is not above the
    ask. *)
Theorem X26_fetch_last_is_the_mid_price
        (T : Type) (mt5 : Terminal.Mt5 T) (symbol : string) (w w' : T) (p : R) :
  Terminal.fetch_last mt5 symbol w = (Ok p, w') ->
  exists sym tick w1,
    (sym = symbol \/ sym = Terminal.remove_slash symbol) /\
    Terminal.symbol_info_tick mt5 sym w1 = (Some tick, w') /\
    p = (Terminal.bid tick + Terminal.ask tick) / 2 /\
    (Terminal.bid tick <= Terminal.ask tick ->
     Terminal.bid tick <= p <= Terminal.ask tick).
Proof.
  intros H. apply TerminalFacts.fetch_last_ok in H.
  destruct H as [sym [tick [w1 [Hs [Ht Hp]]]]].
  exists sym, tick, w1. repeat split; try assumption; subst p; lra.
Qed.

Lemma X26_fetch_last_is_the_mid_price_witness :
  exists sym tick w1,
    (sym = "BTC/USD"%string \/ sym = Terminal.remove_slash "BTC/USD") /\
    Terminal.symbol_info_tick Samples.demo_terminal sym w1 = (Some tick, tt) /\
    (99 + 101) / 2 = (Terminal.bid tick + Terminal.ask tick) / 2 /\
    (Terminal.bid tick <= Terminal.ask tick ->
     Terminal.bid tick <= (99 + 101) / 2 <= Terminal.ask tick).
Proof.
  apply (X26_fetch_last_is_the_mid_price unit Samples.demo_terminal "BTC/USD"
           tt tt).
  reflexivity.
Defined.

(** X27.  A sized volume respects the instrument.  When
    [calc_volume_for_risk] returns, the entry and the stop differ, the
    tick size and the tick value it used are positive, the volume step
    is not zero, and the volume is the risk-based volume cut down to a
    multiple of the step, clamped to the volume limits and rounded to
    four decimals: within 0.00005 of the interval from [volume_min] to
    [volume_max] when that interval is not empty, and the rounded
    [volume_min] otherwise. *)
Theorem X27_sized_volume_within_limits
        (T : Type) (mt5 : Terminal.Mt5 T) (cfg : Data.RiskConfig)
        (symbol : string) (entry_price sl_price : R) (w w' : T) (v : R) :
  Terminal.calc_volume_for_risk mt5 cfg symbol entry_price sl_price w
  = (Ok v, w') ->
  exists info w1,
    Terminal.symbol_info mt5 symbol w1 = (Some info, w') /\
    entry_price <> sl_price /\
    0 < Terminal.effective_tick_size info /\
    0 < Terminal.effective_tick_value info /\
    Terminal.volume_step info <> 0 /\
    v = Terminal.round4 (Terminal.stepped_volume cfg info entry_price sl_price) /\
    (Terminal.volume_min info <= Terminal.volume_max info ->
     Terminal.volume_min info - 1 / 20000 <= v
     <= Terminal.volume_max info + 1 / 20000) /\
    (Terminal.volume_max info < Terminal.volume_min info ->
     v = Terminal.round4 (Terminal.volume_min info)).
Proof.
  intros H. apply TerminalFacts.calc_volume_for_risk_ok in H.
  destruct H as [info [w1 [Hi [Hne [Hs [Hv [Hst Hr]]]]]]].
  exists info, w1.
  destruct (TerminalFacts.stepped_volume_limits cfg info entry_price sl_price)
    as [L1 L2].
  pose proof (TerminalFacts.round4_error
                (Terminal.stepped_volume cfg info entry_price sl_price)) as Hround.
  repeat split; try assumption.
  - specialize (L1 H). subst v. lra.
  - specialize (L1 H). subst v. lra.
  - intros Hm. subst v. now rewrite (L2 Hm).
Qed.

Lemma X27_sized_volume_within_limits_witness :
  exists info w1,
    Terminal.symbol_info Samples.demo_terminal "BTCUSD" w1 = (Some info, tt) /\
    100 <> 95 /\
    0 < Terminal.effective_tick_size info /\
    0 < Terminal.effective_tick_value info /\
    Terminal.volume_step info <> 0 /\
    Terminal.round4
      (Terminal.stepped_volume Samples.risk_cfg Samples.demo_info 100 95)
    = Terminal.round4 (Terminal.stepped_volume Samples.risk_cfg info 100 95) /\
    (Terminal.volume_min info <= Terminal.volume_max info ->
     Terminal.volume_min info - 1 / 20000
     <= Terminal.round4
          (Terminal.stepped_volume Samples.risk_cfg Samples.demo_info 100 95)
     <= Terminal.volume_max info + 1 / 20000) /\
    (Terminal.volume_max info < Terminal.volume_min info ->
     Terminal.round4
       (Terminal.stepped_volume Samples.risk_cfg Samples.demo_info 100 95)
     = Terminal.round4 (Terminal.volume_min info)).
Proof.
  apply (X27_sized_volume_within_limits unit Samples.demo_terminal
           Samples.risk_cfg "BTCUSD" 100 95 tt tt).
  exact DemoFacts.demo_calc.
Defined.

(** X28.  A sized volume respects the risk budget.  When
    [calc_volume_for_risk] returns a volume for an instrument with a
    positive step and a minimum volume that is not negative, and the
    budget [risk_usd_per_leg] pays for the minimum volume plus one step,
    then the loss of that volume at the stop is at most the budget (up
    to the rounding of the volume to four decimals). *)
Theorem X28_sized_volume_within_budget
        (T : Type) (mt5 : Terminal.Mt5 T) (cfg : Data.RiskConfig)
        (symbol : string) (entry_price sl_price : R) (w w' : T) (v : R) :
  Terminal.calc_volume_for_risk mt5 cfg symbol entry_price sl_price w
  = (Ok v, w') ->
  exists info w1,
    Terminal.symbol_info mt5 symbol w1 = (Some info, w') /\
    (0 < Terminal.volume_step info ->
     0 <= Terminal.volume_min info ->
     (Terminal.volume_min info + Terminal.volume_step info)
     * Rmax (1 / 10 ^ 9) (Terminal.loss_per_lot info entry_price sl_price)
     <= Data.risk_usd_per_leg cfg ->
     (v - 1 / 20000) * Terminal.loss_per_lot info entry_price sl_price
     <= Data.risk_usd_per_leg cfg).
Proof.
  intros H. apply TerminalFacts.calc_volume_for_risk_ok in H.
  destruct H as [info [w1 [Hi [Hne [Hs [Hv [Hst Hr]]]]]]].
  exists info, w1. split; [assumption |].
  intros Hstep Hmin Hpay.
  assert (Hloss : 0 <= Terminal.loss_per_lot info entry_price sl_price).
  { unfold Terminal.loss_per_lot.
    pose proof (Rabs_pos (entry_price - sl_price)) as Ha.
    apply Rmult_le_pos; [| lra].
    apply Rmult_le_pos; [assumption |].
    apply Rlt_le. now apply Rinv_0_lt_compat. }
  destruct (TerminalFacts.stepped_volume_budget cfg info entry_price sl_price
              Hstep Hmin Hloss Hpay) as [B1 B2].
  pose proof (TerminalFacts.round4_error
                (Terminal.stepped_volume cfg info entry_price sl_price)) as Hround.
  subst v. nra.
Qed.

Lemma X28_sized_volume_within_budget_witness :
  exists info w1,
    Terminal.symbol_info Samples.demo_terminal "BTCUSD" w1 = (Some info, tt) /\
    (0 < Terminal.volume_step info ->
     0 <= Terminal.volume_min info ->
     (Terminal.volume_min info + Terminal.volume_step info)
     * Rmax (1 / 10 ^ 9) (Terminal.loss_per_lot info 100 95)
     <= Data.risk_usd_per_leg Samples.risk_cfg ->
     (Terminal.round4
        (Terminal.stepped_volume Samples.risk_cfg Samples.demo_info 100 95)
      - 1 / 20000) * Terminal.loss_per_lot info 100 95
     <= Data.risk_usd_per_leg Samples.risk_cfg).
Proof.
  apply (X28_sized_volume_within_budget unit Samples.demo_terminal
           Samples.risk_cfg "BTCUSD" 100 95 tt tt).
  exact DemoFacts.demo_calc.
Defined.

(** X29.  A timeframe that the data feed does not know stops every
    iteration.  With the data feed of datafeed.py, when the configured
    timeframe is none of its six, the iteration of [step] for any pair
    ends in the exception handler before the terminal is asked
    anything: one request to the feed, one more consecutive error (the
    halt at eight), the positions untouched, the pause of 20 seconds. *)
Theorem X29_unknown_timeframe_fails_every_iteration
        (T : Type) (mt5 : Terminal.Mt5 T) (magic default_deviation : Z)
        (rcfg : Data.RiskConfig)
        (open_op : string -> string -> R -> T -> Res Data.OpenReply * T)
        (clock : T -> R * T) (pause : R -> T -> T)
        (cfg : Data.Config) (a b : string) (st : Data.State T) :
  ~ In (Data.timeframe cfg) ["1m"; "5m"; "15m"; "1h"; "4h"; "1d"]%string ->
  Bot.step_pair
    (Terminal.connector_world mt5 magic default_deviation rcfg open_op
                              clock pause) rcfg cfg (a, b) st
  = (Ok tt,
     Data.Build_State
       {| Data.positions := Data.positions (Data.bot st);
          Data.cooldown_until_ts := Data.cooldown_until_ts (Data.bot st);
          Data.halted := if (8 <=? Data.consecutive_errors (Data.bot st) + 1)%nat
                         then true else Data.halted (Data.bot st);
          Data.consecutive_errors := Data.consecutive_errors (Data.bot st) + 1 |}
       (Data.start_equity st) (pause 20 (Data.world st))
       (Data.trace st ++ [Data.EvFetchClose a; Data.EvSleep 20])).
Proof.
  intros Hno. apply ConnectorFacts.step_pair_unsupported.
  destruct (Terminal.timeframe_map mt5 (Data.timeframe cfg)) as [tf |] eqn:E;
    [| reflexivity].
  contradiction Hno.
  exact (TerminalFacts.timeframe_map_some mt5 _ _ E).
Qed.

Lemma X29_unknown_timeframe_fails_every_iteration_witness :
  Bot.step_pair Samples.demo_world Samples.risk_cfg
                Samples.odd_timeframe_config ("A"%string, "B"%string)
                Samples.open_state
  = (Ok tt,
     Data.Build_State
       {| Data.positions := [(("A"%string, "B"%string), Samples.sample_position)];
          Data.cooldown_until_ts := 0;
          Data.halted := false;
          Data.consecutive_errors := 1 |}
       (Some 1000) tt [Data.EvFetchClose "A"; Data.EvSleep 20]).
Proof.
  apply (X29_unknown_timeframe_fails_every_iteration unit
           Samples.demo_terminal 777001 20 Samples.risk_cfg
           Samples.demo_open Samples.demo_clock Samples.demo_pause
           Samples.odd_timeframe_config "A" "B" Samples.open_state).
  cbn. intros H.
  repeat (destruct H as [H | H]; [discriminate |]). exact H.
Defined.

(** X30.  A terminal without an account stops the cycle with an
    exception.  With the connector of mt5_bridge.py, when the terminal
    returns no account information at the start of a cycle of a
    controller that is not halted, [step] raises the RuntimeError of
    [account_info] out of the cycle: nothing else is asked of the
    terminal, and the controller is left as it was (not halted, no error
    counted). *)
Theorem X30_no_account_information_raises_out_of_step
        (T : Type) (mt5 : Terminal.Mt5 T) (magic default_deviation : Z)
        (rcfg : Data.RiskConfig)
        (open_op : string -> string -> R -> T -> Res Data.OpenReply * T)
        (clock : T -> R * T) (pause : R -> T -> T)
        (cfg : Data.Config) (pairs : list Data.Key) (st : Data.State T)
        (w1 : T) :
  Data.halted (Data.bot st) = false ->
  Terminal.account_info_equity mt5 (Data.world st) = (None, w1) ->
  Bot.step
    (Terminal.connector_world mt5 magic default_deviation rcfg open_op
                              clock pause) rcfg cfg pairs st
  = (Raise (RuntimeError "account_info failed"),
     Data.Build_State (Data.bot st) (Data.start_equity st) w1
                      (Data.trace st ++ [Data.EvAccountInfo])).
Proof.
  intros Hh H. now apply ConnectorFacts.step_no_account.
Qed.

Lemma X30_no_account_information_raises_out_of_step_witness :
  Bot.step
    (Terminal.connector_world Samples.silent_terminal 777001 20
       Samples.risk_cfg Samples.demo_open Samples.demo_clock Samples.demo_pause)
    Samples.risk_cfg Data.default_config [("A"%string, "B"%string)]
    Samples.open_state
  = (Raise (RuntimeError "account_info failed"),
     Data.Build_State (Data.bot Samples.open_state) (Some 1000) tt
                      [Data.EvAccountInfo]).
Proof.
  apply (X30_no_account_information_raises_out_of_step unit
           Samples.silent_terminal 777001 20 Samples.risk_cfg
           Samples.demo_open Samples.demo_clock Samples.demo_pause
           Data.default_config [("A"%string, "B"%string)] Samples.open_state tt);
    reflexivity.
Defined.
